(** * Geany document core (src/document.c): model and verified properties

    A shallow embedding of the document-management functions of
    [src/src/document.c]: the document registry, the load pipeline with its
    encoding detection, the save pipeline, the search and replace engine and
    the undo/redo ledger that sits on top of the editing widget.

    Conventions of the embedding.
    - [gint] and text positions are [Z], sums with a value from the command
      line wrapping as [gint_wrap]; C strings are [string]; raw file
      contents are [string] values that may contain NUL characters, read as a
      C string through [c_str].
    - A pointer that may be [NULL] is an [option].  A function that would
      dereference a [NULL] buffer handle returns [None].
    - The editing widget (Scintilla, reached through [sciwrappers.h]) is not
      part of the translated file; it is the interface [ScintillaOps], and the
      properties that the proofs need from it are the laws [ScintillaLaws].
      [TextSci] is an executable instance of both.
    - Calls that only change what is displayed (folding, scrolling, margins,
      tab labels, menus) are left out; user-visible notifications that the
      properties talk about are recorded in the [ui_log] of [Ui]. *)

From Stdlib Require Import ZArith List String Ascii Bool Lia.
From stdpp Require Import base option list strings.

Local Open Scope Z_scope.

(** ** C-level helpers *)

Definition gint := Z.

(** A sum of two [gint] that leaves the 32 bits wraps around. *)
Definition gint_wrap (z : Z) : Z := (z + 2 ^ 31) mod 2 ^ 32 - 2 ^ 31.

Definition NUL : ascii := "000"%char.
Definition TAB : ascii := "009"%char.
Definition LF : ascii := "010"%char.
Definition CR : ascii := "013"%char.
Definition SPACE : ascii := " "%char.

(** The bytes a reader of a NUL-terminated [gchar*] sees. *)
Fixpoint c_str (s : string) : string :=
  match s with
  | EmptyString => EmptyString
  | String c r => if Ascii.eqb c NUL then EmptyString else String c (c_str r)
  end.

Definition strlen (s : string) : Z := Z.of_nat (String.length (c_str s)).

(** [! *text] on a C string. *)
Definition str_is_empty (s : string) : bool :=
  match s with EmptyString => true | String _ _ => false end.

(** The macro [NZV(ptr)]: a non-NULL string with a first character. *)
Definition NZV (s : string) : bool := negb (str_is_empty s).

(** [utils_str_equal]: NULL-safe string equality. *)
Definition utils_str_equal (a b : option string) : bool :=
  match a, b with
  | None, None => true
  | Some x, Some y => String.eqb x y
  | _, _ => false
  end.

(** [filenamecmp(a,b) == 0] outside of WIN32: [strcmp]. *)
Definition filename_equal (a b : string) : bool := String.eqb a b.

(** Modelled from the spec: the search flag bit for regular expressions,
    declared in Scintilla.h, which is not among the translated sources. *)
Definition SCFIND_REGEXP : Z := 2097152.
Definition SCFIND_MATCHCASE : Z := 4.

Definition flag_set (flags bit : Z) : bool := negb (Z.land flags bit =? 0).

(** ** The editing widget interface *)

Record CharacterRange := { cpMin : Z; cpMax : Z }.

Record TextToFind := {
  chrg : CharacterRange;
  lpstrText : string;
  chrgText : CharacterRange
}.

(** The operations of sciwrappers.h (and the raw messages) that document.c
    uses, as functions on an abstract buffer state.  [sci_find_text] gives
    the start of the match, having filled in [chrgText], or -1. *)
Class ScintillaOps (Sci : Type) := {
  scintilla_new : Sci;
  sci_get_length : Sci -> Z;
  sci_get_text : Sci -> Z -> string;
  sci_set_text : Sci -> string -> Sci;
  sci_get_char_at : Sci -> Z -> ascii;
  sci_get_line_count : Sci -> Z;
  sci_get_position_from_line : Sci -> Z -> Z;
  sci_get_selection_start : Sci -> Z;
  sci_get_selection_end : Sci -> Z;
  sci_set_selection_start : Sci -> Z -> Sci;
  sci_set_selection_end : Sci -> Z -> Sci;
  sci_get_current_position : Sci -> Z;
  sci_set_current_position : Sci -> Z -> bool -> Sci;
  sci_goto_pos : Sci -> Z -> bool -> Sci;
  sci_goto_line : Sci -> Z -> bool -> Sci;
  sci_set_search_anchor : Sci -> Sci;
  sci_search_next : Sci -> Z -> string -> Sci * Z;
  sci_search_prev : Sci -> Z -> string -> Sci * Z;
  sci_find_text : Sci -> Z -> TextToFind -> Z * TextToFind;
  sci_target_start : Sci -> Z -> Sci;
  sci_target_end : Sci -> Z -> Sci;
  SCI_GETTARGETSTART : Sci -> Z;
  SCI_GETTARGETEND : Sci -> Z;
  sci_target_from_selection : Sci -> Sci;
  sci_target_replace : Sci -> string -> bool -> Sci * Z;
  SCI_POSITIONAFTER : Sci -> Z -> Z;
  sci_start_undo_action : Sci -> Sci;
  sci_end_undo_action : Sci -> Sci;
  sci_undo : Sci -> Sci;
  sci_redo : Sci -> Sci;
  sci_is_modified : Sci -> bool;
  sci_set_savepoint : Sci -> Sci;
  sci_set_undo_collection : Sci -> bool -> Sci;
  sci_empty_undo_buffer : Sci -> Sci;
  sci_set_readonly : Sci -> bool -> Sci;
  sci_set_eol_mode : Sci -> Z -> Sci
}.

(** The whole text of the buffer, as document_save_file reads it. *)
Definition sci_text {Sci} `{ScintillaOps Sci} (sci : Sci) : string :=
  sci_get_text sci (sci_get_length sci + 1).

(** ** Notifications and modal questions

    The status bar, message window, message boxes, the beep and the signals
    for plugins are recorded in order.  A modal question blocks until the user
    answers; the answers are an oracle indexed by the number of questions
    asked so far. *)

Inductive ui_message :=
| MsgNotFound (text : string)
| MsgWrapSearch (text : string)
| MsgNoMatches (find_text : string)
| MsgReplaced (count : Z) (find_text replace_text : string)
| MsgInvalidFilename
| MsgCouldNotOpen (utf8_filename : option string)
| MsgReadError (utf8_filename : string)
| MsgTruncated (utf8_filename : string)
| MsgNotValidEncoding (utf8_filename forced_enc : string)
| MsgNotTextFile (utf8_filename : string)
| MsgSettingIndentation (tabs : bool)
| MsgFileReloaded (utf8_filename : option string)
| MsgFileOpened (utf8_filename : string) (read_only : bool)
| MsgFileClosed (file_name : option string)
| MsgErrorSaving
| MsgErrorSavingErrno (err : Z)
| MsgConversionError (encoding : option string)
| MsgFileSaved (file_name : string)
| MsgReloadQuestion (file_name : option string)
| MsgResaveQuestion (file_name : option string)
| MsgUnsavedQuestion (file_name : option string)
| MsgStrangeTimestamps.

Inductive ui_event :=
| UiStatusbar (m : ui_message)
| UiMsgwin (m : ui_message)
| UiMsgbox (m : ui_message)
| UiQuestion (m : ui_message)
| UiBeep
| UiRecentFile (utf8_filename : option string)
| UiSignal (name : string) (doc_index : nat)
| UiSaveAsDialog.

Record Ui := {
  ui_log : list ui_event;
  ui_answers : nat -> bool;
  ui_asked : nat
}.

Definition ui_emit (e : ui_event) (u : Ui) : Ui :=
  {| ui_log := ui_log u ++ [e]; ui_answers := ui_answers u; ui_asked := ui_asked u |}.

Definition ui_set_statusbar (m : ui_message) : Ui -> Ui := ui_emit (UiStatusbar m).
Definition msgwin_status_add (m : ui_message) : Ui -> Ui := ui_emit (UiMsgwin m).
Definition dialogs_show_msgbox (m : ui_message) : Ui -> Ui := ui_emit (UiMsgbox m).
Definition utils_beep : Ui -> Ui := ui_emit UiBeep.
Definition ui_add_recent_file (f : option string) : Ui -> Ui := ui_emit (UiRecentFile f).
Definition g_signal_emit_by_name (name : string) (idx : nat) : Ui -> Ui :=
  ui_emit (UiSignal name idx).

Definition dialogs_show_question_full (m : ui_message) (u : Ui) : bool * Ui :=
  (ui_answers u (ui_asked u),
   {| ui_log := ui_log u ++ [UiQuestion m];
      ui_answers := ui_answers u;
      ui_asked := S (ui_asked u) |}).

(** ** Encodings known to the editor

    Modelled from the spec: [GeanyEncodingIndex] and the table [encodings]
    come from encodings.h; only the indexes that document.c names are
    distinguished. *)
Inductive GeanyEncodingIndex :=
| GEANY_ENCODING_NONE
| GEANY_ENCODING_UTF_8
| GEANY_ENCODING_UTF_7
| GEANY_ENCODING_OTHER (n : nat).

Definition encoding_index_eqb (a b : GeanyEncodingIndex) : bool :=
  match a, b with
  | GEANY_ENCODING_NONE, GEANY_ENCODING_NONE => true
  | GEANY_ENCODING_UTF_8, GEANY_ENCODING_UTF_8 => true
  | GEANY_ENCODING_UTF_7, GEANY_ENCODING_UTF_7 => true
  | GEANY_ENCODING_OTHER n, GEANY_ENCODING_OTHER m => Nat.eqb n m
  | _, _ => false
  end.

(** ** Preferences and process-wide flags *)

Inductive IndentMode := INDENT_NONE | INDENT_BASIC | INDENT_CURRENTCHARS | INDENT_MATCHBRACES.

Definition indent_mode_is_none (m : IndentMode) : bool :=
  match m with INDENT_NONE => true | _ => false end.

(** The fields of [GeanyEditorPrefs] (editor.h) that document.c reads. *)
Module GeanyEditorPrefs.
Record t := {
  line_wrapping : bool;
  use_tabs : bool;
  indent_mode : IndentMode;
  detect_tab_mode : bool
}.
End GeanyEditorPrefs.

(** Modelled from the spec: GeanyFilePrefs, GeanySearchPrefs, the main status
    flags and the command line options are declared in headers that are not
    among the translated sources; the fields are those document.c reads.  A
    negative [default_open_encoding] is [None]. *)
Module GeanyFilePrefs.
Record t := {
  default_new_encoding : GeanyEncodingIndex;
  default_open_encoding : option GeanyEncodingIndex;
  default_eol_character : Z;
  final_new_line : bool;
  strip_trailing_spaces : bool;
  replace_tabs : bool;
  disk_check_timeout : Z
}.
End GeanyFilePrefs.

Module GeanySearchPrefs.
Record t := { suppress_dialogs : bool }.
End GeanySearchPrefs.

Module GeanyStatus.
Record t := {
  quitting : bool;
  opening_session_files : bool;
  closing_all : bool;
  main_window_realized : bool
}.
End GeanyStatus.

Module CommandLineOptions.
Record t := { goto_line : Z; goto_column : Z }.
End CommandLineOptions.

(** ** Documents *)

(** Modelled from the spec: filetype identifiers come from filetypes.h; only
    the two that document.c names are distinguished. *)
Inductive filetype_id :=
| GEANY_FILETYPES_NONE
| GEANY_FILETYPES_MAKE
| GEANY_FILETYPES_OTHER (n : nat).

Record GeanyFiletype := { ft_id : filetype_id; ft_name : string; ft_lang : Z }.

(** The macro [FILETYPE_ID]. *)
Definition FILETYPE_ID (ft : option GeanyFiletype) : filetype_id :=
  match ft with Some f => ft_id f | None => GEANY_FILETYPES_NONE end.

Definition filetype_id_eqb (a b : filetype_id) : bool :=
  match a, b with
  | GEANY_FILETYPES_NONE, GEANY_FILETYPES_NONE => true
  | GEANY_FILETYPES_MAKE, GEANY_FILETYPES_MAKE => true
  | GEANY_FILETYPES_OTHER n, GEANY_FILETYPES_OTHER m => Nat.eqb n m
  | _, _ => false
  end.

(** An entry of the undo/redo ledger: the action type with its [data]. *)
Inductive undo_action :=
| UNDO_SCINTILLA
| UNDO_ENCODING (old_encoding : option string)
| UNDO_BOM (old_bom : bool)
| UNDO_ACTIONS_MAX.

Record FileEncoding := { fe_encoding : option string; fe_has_bom : bool }.

(** [GeanyDocument] together with the private part of [struct Document]
    ([saved_encoding] and the two ledger stacks, newest entry first). *)
Record GeanyDocument (Sci : Type) := {
  is_valid : bool;
  index : nat;
  has_tags : bool;
  file_name : option string;
  encoding : option string;
  has_bom : bool;
  file_type : option GeanyFiletype;
  sci : option Sci;
  readonly : bool;
  changed : bool;
  last_check : Z;
  mtime : Z;
  use_tabs : bool;
  line_wrapping : bool;
  auto_indent : bool;
  line_breaking : bool;
  scroll_percent : Z;
  real_path : option string;
  saved_encoding : FileEncoding;
  undo_actions : list undo_action;
  redo_actions : list undo_action
}.

Arguments is_valid {Sci} _.
Arguments index {Sci} _.
Arguments has_tags {Sci} _.
Arguments file_name {Sci} _.
Arguments encoding {Sci} _.
Arguments has_bom {Sci} _.
Arguments file_type {Sci} _.
Arguments sci {Sci} _.
Arguments readonly {Sci} _.
Arguments changed {Sci} _.
Arguments last_check {Sci} _.
Arguments mtime {Sci} _.
Arguments use_tabs {Sci} _.
Arguments line_wrapping {Sci} _.
Arguments auto_indent {Sci} _.
Arguments line_breaking {Sci} _.
Arguments scroll_percent {Sci} _.
Arguments real_path {Sci} _.
Arguments saved_encoding {Sci} _.
Arguments undo_actions {Sci} _.
Arguments redo_actions {Sci} _.

(** Assignment to one field of a document: [with_f v doc] is [doc] after
    [doc->f = v]. *)
Definition with_is_valid {Sci} (v : bool) (d : GeanyDocument Sci) : GeanyDocument Sci :=
  {| is_valid := v; index := index d; has_tags := has_tags d; file_name := file_name d;
     encoding := encoding d; has_bom := has_bom d; file_type := file_type d; sci := sci
     d; readonly := readonly d; changed := changed d; last_check := last_check d; mtime
     := mtime d; use_tabs := use_tabs d; line_wrapping := line_wrapping d; auto_indent
     := auto_indent d; line_breaking := line_breaking d; scroll_percent :=
     scroll_percent d; real_path := real_path d; saved_encoding := saved_encoding d;
     undo_actions := undo_actions d; redo_actions := redo_actions d |}.

Definition with_index {Sci} (v : nat) (d : GeanyDocument Sci) : GeanyDocument Sci :=
  {| is_valid := is_valid d; index := v; has_tags := has_tags d; file_name := file_name
     d; encoding := encoding d; has_bom := has_bom d; file_type := file_type d; sci :=
     sci d; readonly := readonly d; changed := changed d; last_check := last_check d;
     mtime := mtime d; use_tabs := use_tabs d; line_wrapping := line_wrapping d;
     auto_indent := auto_indent d; line_breaking := line_breaking d; scroll_percent :=
     scroll_percent d; real_path := real_path d; saved_encoding := saved_encoding d;
     undo_actions := undo_actions d; redo_actions := redo_actions d |}.

Definition with_has_tags {Sci} (v : bool) (d : GeanyDocument Sci) : GeanyDocument Sci :=
  {| is_valid := is_valid d; index := index d; has_tags := v; file_name := file_name d;
     encoding := encoding d; has_bom := has_bom d; file_type := file_type d; sci := sci
     d; readonly := readonly d; changed := changed d; last_check := last_check d; mtime
     := mtime d; use_tabs := use_tabs d; line_wrapping := line_wrapping d; auto_indent
     := auto_indent d; line_breaking := line_breaking d; scroll_percent :=
     scroll_percent d; real_path := real_path d; saved_encoding := saved_encoding d;
     undo_actions := undo_actions d; redo_actions := redo_actions d |}.

Definition with_file_name {Sci} (v : option string) (d : GeanyDocument Sci) : GeanyDocument Sci :=
  {| is_valid := is_valid d; index := index d; has_tags := has_tags d; file_name := v;
     encoding := encoding d; has_bom := has_bom d; file_type := file_type d; sci := sci
     d; readonly := readonly d; changed := changed d; last_check := last_check d; mtime
     := mtime d; use_tabs := use_tabs d; line_wrapping := line_wrapping d; auto_indent
     := auto_indent d; line_breaking := line_breaking d; scroll_percent :=
     scroll_percent d; real_path := real_path d; saved_encoding := saved_encoding d;
     undo_actions := undo_actions d; redo_actions := redo_actions d |}.

Definition with_encoding {Sci} (v : option string) (d : GeanyDocument Sci) : GeanyDocument Sci :=
  {| is_valid := is_valid d; index := index d; has_tags := has_tags d; file_name :=
     file_name d; encoding := v; has_bom := has_bom d; file_type := file_type d; sci :=
     sci d; readonly := readonly d; changed := changed d; last_check := last_check d;
     mtime := mtime d; use_tabs := use_tabs d; line_wrapping := line_wrapping d;
     auto_indent := auto_indent d; line_breaking := line_breaking d; scroll_percent :=
     scroll_percent d; real_path := real_path d; saved_encoding := saved_encoding d;
     undo_actions := undo_actions d; redo_actions := redo_actions d |}.

Definition with_has_bom {Sci} (v : bool) (d : GeanyDocument Sci) : GeanyDocument Sci :=
  {| is_valid := is_valid d; index := index d; has_tags := has_tags d; file_name :=
     file_name d; encoding := encoding d; has_bom := v; file_type := file_type d; sci :=
     sci d; readonly := readonly d; changed := changed d; last_check := last_check d;
     mtime := mtime d; use_tabs := use_tabs d; line_wrapping := line_wrapping d;
     auto_indent := auto_indent d; line_breaking := line_breaking d; scroll_percent :=
     scroll_percent d; real_path := real_path d; saved_encoding := saved_encoding d;
     undo_actions := undo_actions d; redo_actions := redo_actions d |}.

Definition with_file_type {Sci} (v : option GeanyFiletype) (d : GeanyDocument Sci) : GeanyDocument Sci :=
  {| is_valid := is_valid d; index := index d; has_tags := has_tags d; file_name :=
     file_name d; encoding := encoding d; has_bom := has_bom d; file_type := v; sci :=
     sci d; readonly := readonly d; changed := changed d; last_check := last_check d;
     mtime := mtime d; use_tabs := use_tabs d; line_wrapping := line_wrapping d;
     auto_indent := auto_indent d; line_breaking := line_breaking d; scroll_percent :=
     scroll_percent d; real_path := real_path d; saved_encoding := saved_encoding d;
     undo_actions := undo_actions d; redo_actions := redo_actions d |}.

Definition with_sci {Sci} (v : option Sci) (d : GeanyDocument Sci) : GeanyDocument Sci :=
  {| is_valid := is_valid d; index := index d; has_tags := has_tags d; file_name :=
     file_name d; encoding := encoding d; has_bom := has_bom d; file_type := file_type
     d; sci := v; readonly := readonly d; changed := changed d; last_check := last_check
     d; mtime := mtime d; use_tabs := use_tabs d; line_wrapping := line_wrapping d;
     auto_indent := auto_indent d; line_breaking := line_breaking d; scroll_percent :=
     scroll_percent d; real_path := real_path d; saved_encoding := saved_encoding d;
     undo_actions := undo_actions d; redo_actions := redo_actions d |}.

Definition with_readonly {Sci} (v : bool) (d : GeanyDocument Sci) : GeanyDocument Sci :=
  {| is_valid := is_valid d; index := index d; has_tags := has_tags d; file_name :=
     file_name d; encoding := encoding d; has_bom := has_bom d; file_type := file_type
     d; sci := sci d; readonly := v; changed := changed d; last_check := last_check d;
     mtime := mtime d; use_tabs := use_tabs d; line_wrapping := line_wrapping d;
     auto_indent := auto_indent d; line_breaking := line_breaking d; scroll_percent :=
     scroll_percent d; real_path := real_path d; saved_encoding := saved_encoding d;
     undo_actions := undo_actions d; redo_actions := redo_actions d |}.

Definition with_changed {Sci} (v : bool) (d : GeanyDocument Sci) : GeanyDocument Sci :=
  {| is_valid := is_valid d; index := index d; has_tags := has_tags d; file_name :=
     file_name d; encoding := encoding d; has_bom := has_bom d; file_type := file_type
     d; sci := sci d; readonly := readonly d; changed := v; last_check := last_check d;
     mtime := mtime d; use_tabs := use_tabs d; line_wrapping := line_wrapping d;
     auto_indent := auto_indent d; line_breaking := line_breaking d; scroll_percent :=
     scroll_percent d; real_path := real_path d; saved_encoding := saved_encoding d;
     undo_actions := undo_actions d; redo_actions := redo_actions d |}.

Definition with_last_check {Sci} (v : Z) (d : GeanyDocument Sci) : GeanyDocument Sci :=
  {| is_valid := is_valid d; index := index d; has_tags := has_tags d; file_name :=
     file_name d; encoding := encoding d; has_bom := has_bom d; file_type := file_type
     d; sci := sci d; readonly := readonly d; changed := changed d; last_check := v;
     mtime := mtime d; use_tabs := use_tabs d; line_wrapping := line_wrapping d;
     auto_indent := auto_indent d; line_breaking := line_breaking d; scroll_percent :=
     scroll_percent d; real_path := real_path d; saved_encoding := saved_encoding d;
     undo_actions := undo_actions d; redo_actions := redo_actions d |}.

Definition with_mtime {Sci} (v : Z) (d : GeanyDocument Sci) : GeanyDocument Sci :=
  {| is_valid := is_valid d; index := index d; has_tags := has_tags d; file_name :=
     file_name d; encoding := encoding d; has_bom := has_bom d; file_type := file_type
     d; sci := sci d; readonly := readonly d; changed := changed d; last_check :=
     last_check d; mtime := v; use_tabs := use_tabs d; line_wrapping := line_wrapping d;
     auto_indent := auto_indent d; line_breaking := line_breaking d; scroll_percent :=
     scroll_percent d; real_path := real_path d; saved_encoding := saved_encoding d;
     undo_actions := undo_actions d; redo_actions := redo_actions d |}.

Definition with_use_tabs {Sci} (v : bool) (d : GeanyDocument Sci) : GeanyDocument Sci :=
  {| is_valid := is_valid d; index := index d; has_tags := has_tags d; file_name :=
     file_name d; encoding := encoding d; has_bom := has_bom d; file_type := file_type
     d; sci := sci d; readonly := readonly d; changed := changed d; last_check :=
     last_check d; mtime := mtime d; use_tabs := v; line_wrapping := line_wrapping d;
     auto_indent := auto_indent d; line_breaking := line_breaking d; scroll_percent :=
     scroll_percent d; real_path := real_path d; saved_encoding := saved_encoding d;
     undo_actions := undo_actions d; redo_actions := redo_actions d |}.

Definition with_line_wrapping {Sci} (v : bool) (d : GeanyDocument Sci) : GeanyDocument Sci :=
  {| is_valid := is_valid d; index := index d; has_tags := has_tags d; file_name :=
     file_name d; encoding := encoding d; has_bom := has_bom d; file_type := file_type
     d; sci := sci d; readonly := readonly d; changed := changed d; last_check :=
     last_check d; mtime := mtime d; use_tabs := use_tabs d; line_wrapping := v;
     auto_indent := auto_indent d; line_breaking := line_breaking d; scroll_percent :=
     scroll_percent d; real_path := real_path d; saved_encoding := saved_encoding d;
     undo_actions := undo_actions d; redo_actions := redo_actions d |}.

Definition with_auto_indent {Sci} (v : bool) (d : GeanyDocument Sci) : GeanyDocument Sci :=
  {| is_valid := is_valid d; index := index d; has_tags := has_tags d; file_name :=
     file_name d; encoding := encoding d; has_bom := has_bom d; file_type := file_type
     d; sci := sci d; readonly := readonly d; changed := changed d; last_check :=
     last_check d; mtime := mtime d; use_tabs := use_tabs d; line_wrapping :=
     line_wrapping d; auto_indent := v; line_breaking := line_breaking d; scroll_percent
     := scroll_percent d; real_path := real_path d; saved_encoding := saved_encoding d;
     undo_actions := undo_actions d; redo_actions := redo_actions d |}.

Definition with_line_breaking {Sci} (v : bool) (d : GeanyDocument Sci) : GeanyDocument Sci :=
  {| is_valid := is_valid d; index := index d; has_tags := has_tags d; file_name :=
     file_name d; encoding := encoding d; has_bom := has_bom d; file_type := file_type
     d; sci := sci d; readonly := readonly d; changed := changed d; last_check :=
     last_check d; mtime := mtime d; use_tabs := use_tabs d; line_wrapping :=
     line_wrapping d; auto_indent := auto_indent d; line_breaking := v; scroll_percent
     := scroll_percent d; real_path := real_path d; saved_encoding := saved_encoding d;
     undo_actions := undo_actions d; redo_actions := redo_actions d |}.

Definition with_scroll_percent {Sci} (v : Z) (d : GeanyDocument Sci) : GeanyDocument Sci :=
  {| is_valid := is_valid d; index := index d; has_tags := has_tags d; file_name :=
     file_name d; encoding := encoding d; has_bom := has_bom d; file_type := file_type
     d; sci := sci d; readonly := readonly d; changed := changed d; last_check :=
     last_check d; mtime := mtime d; use_tabs := use_tabs d; line_wrapping :=
     line_wrapping d; auto_indent := auto_indent d; line_breaking := line_breaking d;
     scroll_percent := v; real_path := real_path d; saved_encoding := saved_encoding d;
     undo_actions := undo_actions d; redo_actions := redo_actions d |}.

Definition with_real_path {Sci} (v : option string) (d : GeanyDocument Sci) : GeanyDocument Sci :=
  {| is_valid := is_valid d; index := index d; has_tags := has_tags d; file_name :=
     file_name d; encoding := encoding d; has_bom := has_bom d; file_type := file_type
     d; sci := sci d; readonly := readonly d; changed := changed d; last_check :=
     last_check d; mtime := mtime d; use_tabs := use_tabs d; line_wrapping :=
     line_wrapping d; auto_indent := auto_indent d; line_breaking := line_breaking d;
     scroll_percent := scroll_percent d; real_path := v; saved_encoding :=
     saved_encoding d; undo_actions := undo_actions d; redo_actions := redo_actions d
     |}.

Definition with_saved_encoding {Sci} (v : FileEncoding) (d : GeanyDocument Sci) : GeanyDocument Sci :=
  {| is_valid := is_valid d; index := index d; has_tags := has_tags d; file_name :=
     file_name d; encoding := encoding d; has_bom := has_bom d; file_type := file_type
     d; sci := sci d; readonly := readonly d; changed := changed d; last_check :=
     last_check d; mtime := mtime d; use_tabs := use_tabs d; line_wrapping :=
     line_wrapping d; auto_indent := auto_indent d; line_breaking := line_breaking d;
     scroll_percent := scroll_percent d; real_path := real_path d; saved_encoding := v;
     undo_actions := undo_actions d; redo_actions := redo_actions d |}.

Definition with_undo_actions {Sci} (v : list undo_action) (d : GeanyDocument Sci) : GeanyDocument Sci :=
  {| is_valid := is_valid d; index := index d; has_tags := has_tags d; file_name :=
     file_name d; encoding := encoding d; has_bom := has_bom d; file_type := file_type
     d; sci := sci d; readonly := readonly d; changed := changed d; last_check :=
     last_check d; mtime := mtime d; use_tabs := use_tabs d; line_wrapping :=
     line_wrapping d; auto_indent := auto_indent d; line_breaking := line_breaking d;
     scroll_percent := scroll_percent d; real_path := real_path d; saved_encoding :=
     saved_encoding d; undo_actions := v; redo_actions := redo_actions d |}.

Definition with_redo_actions {Sci} (v : list undo_action) (d : GeanyDocument Sci) : GeanyDocument Sci :=
  {| is_valid := is_valid d; index := index d; has_tags := has_tags d; file_name :=
     file_name d; encoding := encoding d; has_bom := has_bom d; file_type := file_type
     d; sci := sci d; readonly := readonly d; changed := changed d; last_check :=
     last_check d; mtime := mtime d; use_tabs := use_tabs d; line_wrapping :=
     line_wrapping d; auto_indent := auto_indent d; line_breaking := line_breaking d;
     scroll_percent := scroll_percent d; real_path := real_path d; saved_encoding :=
     saved_encoding d; undo_actions := undo_actions d; redo_actions := v |}.

(** ** Collaborators outside document.c *)

Inductive g_convert_result :=
| ConvOk (data : string) (conv_len : Z)
| ConvError (illegal_sequence : bool) (bytes_read : Z).

(** encodings.c and the GLib conversion routines.  [encodings_scan_unicode_bom]
    returns the index found together with the length of the mark. *)
Class EncodingOps := {
  encodings_charset : GeanyEncodingIndex -> string;
  encodings_scan_unicode_bom : string -> Z -> GeanyEncodingIndex * Z;
  encodings_convert_to_utf8_from_charset : string -> Z -> string -> bool -> option string;
  encodings_convert_to_utf8 : string -> Z -> option (string * string);
  encodings_is_unicode_charset : option string -> bool;
  g_utf8_validate : string -> Z -> bool;
  g_convert : string -> Z -> string -> g_convert_result
}.

(** The operating system: file names, the file system and the clock.
    [g_stat] gives [st_mtime] and [st_size]; [host_write] is the
    fopen/fwrite/fclose sequence of write_data_to_disk and gives the
    resulting errno, 0 on success. *)
Class HostOps (Host : Type) := {
  utils_get_locale_from_utf8 : string -> string;
  utils_get_utf8_from_locale : string -> string;
  tm_get_real_path : Host -> string -> option string;
  g_stat : Host -> string -> option (Z * Z);
  g_file_get_contents : Host -> string -> option string;
  host_write : Host -> string -> string -> Z -> Host * Z;
  host_time : Host -> Z
}.

(** Modelled from the spec: the pre-save normalisations of editor.c are
    buffer mutations; [editor_set_use_tabs] records the mode in the document. *)
Class EditorOps (Sci : Type) := {
  editor_replace_tabs : Sci -> Sci;
  editor_strip_trailing_spaces : Sci -> Sci;
  editor_ensure_final_newline : Sci -> Sci;
  filetypes_detect_from_file : option string -> Sci -> option GeanyFiletype;
  utils_get_line_endings : string -> Z -> Z
}.

(** The tab widget.  A page shows the buffer of one document;
    [notebook_page_document] gives the registry index of the document whose
    buffer is on the page, which stands for the pointer comparison of
    document_find_by_sci. *)
Class NotebookOps (Nb : Type) := {
  gtk_notebook_get_n_pages : Nb -> Z;
  gtk_notebook_get_current_page : Nb -> Z;
  notebook_page_document : Nb -> Z -> option nat;
  gtk_notebook_show_document : Nb -> nat -> Nb;
  notebook_new_tab : Nb -> nat -> Nb;
  notebook_remove_page : Nb -> Z -> Nb
}.

(** ** The load pipeline *)

Module FileData.
Record t := {
  data : string;
  size : Z;
  len : Z;
  enc : option string;
  bom : bool;
  mtime : Z;
  readonly : bool
}.
Definition with_text (converted_text : string) (fd : t) : t :=
  {| data := converted_text; size := size fd; len := strlen converted_text;
     enc := enc fd; bom := bom fd; mtime := mtime fd; readonly := readonly fd |}.
Definition with_enc (e : option string) (b : bool) (fd : t) : t :=
  {| data := data fd; size := size fd; len := len fd;
     enc := e; bom := b; mtime := mtime fd; readonly := readonly fd |}.
Definition with_readonly (r : bool) (fd : t) : t :=
  {| data := data fd; size := size fd; len := len fd;
     enc := enc fd; bom := bom fd; mtime := mtime fd; readonly := r |}.
End FileData.

Definition UTF_8 : string := "UTF-8".

Section LoadPipeline.
Context `{EncodingOps}.

(** [handle_forced_encoding]: reload file with specified encoding. *)
Definition handle_forced_encoding (filedata : FileData.t) (forced_enc : string)
  : bool * FileData.t :=
  let converted :=
    if String.eqb forced_enc UTF_8 then
      if g_utf8_validate (FileData.data filedata) (FileData.len filedata)
      then Some filedata else None
    else
      match encodings_convert_to_utf8_from_charset
              (FileData.data filedata) (FileData.len filedata) forced_enc false with
      | None => None
      | Some converted_text => Some (FileData.with_text converted_text filedata)
      end in
  match converted with
  | None => (false, filedata)
  | Some fd =>
    let enc_idx := fst (encodings_scan_unicode_bom (FileData.data fd) (FileData.size fd)) in
    (true, FileData.with_enc (Some forced_enc)
             (encoding_index_eqb enc_idx GEANY_ENCODING_UTF_8) fd)
  end.

(** The BOM step of [handle_encoding]: a recognised mark sets the charset
    and the BOM flag; a failed conversion from that charset clears both. *)
Definition handle_encoding_bom (filedata : FileData.t) : FileData.t :=
  let enc_idx :=
    fst (encodings_scan_unicode_bom (FileData.data filedata) (FileData.size filedata)) in
  if encoding_index_eqb enc_idx GEANY_ENCODING_NONE then filedata
  else
    let fd := FileData.with_enc (Some (encodings_charset enc_idx)) true filedata in
    if encoding_index_eqb enc_idx GEANY_ENCODING_UTF_8 then fd
    else
      match encodings_convert_to_utf8_from_charset
              (FileData.data fd) (FileData.size fd) (encodings_charset enc_idx) false with
      | Some converted_text => FileData.with_text converted_text fd
      | None => FileData.with_enc None false fd
      end.

(** [handle_encoding]: detect encoding and convert to UTF-8 if necessary. *)
Definition handle_encoding (filedata : FileData.t) : bool * FileData.t :=
  match FileData.enc filedata with
  | Some _ => (false, filedata)
  | None =>
    if FileData.bom filedata then (false, filedata)
    else if FileData.size filedata =? 0 then
      (true, FileData.with_enc (Some UTF_8) (FileData.bom filedata) filedata)
    else
      let fd := handle_encoding_bom filedata in
      match FileData.enc fd with
      | Some _ => (true, fd)
      | None =>
        if g_utf8_validate (FileData.data fd) (FileData.len fd) then
          (true, FileData.with_enc (Some UTF_8) (FileData.bom fd) fd)
        else
          match encodings_convert_to_utf8 (FileData.data fd) (FileData.size fd) with
          | None => (false, fd)
          | Some (converted_text, detected) =>
            (true, FileData.with_text converted_text
                     (FileData.with_enc (Some detected) (FileData.bom fd) fd))
          end
      end
  end.

(** [handle_bom]: drop the mark from the converted text. *)
Definition handle_bom (filedata : FileData.t) : FileData.t :=
  let bom_len :=
    snd (encodings_scan_unicode_bom (FileData.data filedata) (FileData.size filedata)) in
  if bom_len =? 0 then filedata
  else
    let len := FileData.len filedata - bom_len in
    {| FileData.data :=
         String.substring (Z.to_nat bom_len) (Z.to_nat len) (FileData.data filedata);
       FileData.size := FileData.size filedata;
       FileData.len := len;
       FileData.enc := FileData.enc filedata;
       FileData.bom := FileData.bom filedata;
       FileData.mtime := FileData.mtime filedata;
       FileData.readonly := FileData.readonly filedata |}.

End LoadPipeline.

Section LoadTextFile.
Context `{EncodingOps} {Host : Type} `{HostOps Host}.

(** [load_text_file]: loads textfile data, verifies and converts to
    forced_enc or UTF-8.  Also handles BOM.  [None] is the return value
    FALSE. *)
Definition load_text_file (host : Host) (status : GeanyStatus.t) (u : Ui)
  (locale_filename utf8_filename : string) (forced_enc : option string)
  : option FileData.t * Ui :=
  match g_stat host locale_filename with
  | None => (None, ui_set_statusbar (MsgCouldNotOpen (Some utf8_filename)) u)
  | Some (st_mtime, st_size) =>
    match g_file_get_contents host locale_filename with
    | None => (None, ui_set_statusbar (MsgReadError utf8_filename) u)
    | Some contents =>
      let filedata :=
        {| FileData.data := contents; FileData.size := st_size;
           FileData.len := strlen contents; FileData.enc := None;
           FileData.bom := false; FileData.mtime := st_mtime;
           FileData.readonly := false |} in
      let tmp_enc_idx := fst (encodings_scan_unicode_bom contents st_size) in
      let truncated :=
        negb (FileData.len filedata =? FileData.size filedata)
        && negb (FileData.size filedata =? 0)
        && (encoding_index_eqb tmp_enc_idx GEANY_ENCODING_UTF_8
            || encoding_index_eqb tmp_enc_idx GEANY_ENCODING_UTF_7
            || encoding_index_eqb tmp_enc_idx GEANY_ENCODING_NONE) in
      let u1 :=
        if truncated then
          ui_set_statusbar (MsgTruncated utf8_filename)
            (if GeanyStatus.main_window_realized status
             then dialogs_show_msgbox (MsgTruncated utf8_filename) u else u)
        else u in
      let filedata := if truncated then FileData.with_readonly true filedata else filedata in
      let finish (fd : FileData.t) :=
        if FileData.bom fd then handle_bom fd else fd in
      match forced_enc with
      | Some forced =>
        if String.eqb forced (encodings_charset GEANY_ENCODING_NONE) then
          (Some (finish (FileData.with_enc (Some (encodings_charset GEANY_ENCODING_NONE))
                           false filedata)), u1)
        else
          match handle_forced_encoding filedata forced with
          | (false, _) =>
            (None, utils_beep (ui_set_statusbar (MsgNotValidEncoding utf8_filename forced) u1))
          | (true, fd) => (Some (finish fd), u1)
          end
      | None =>
        match handle_encoding filedata with
        | (false, _) =>
          (None, utils_beep (ui_set_statusbar (MsgNotTextFile utf8_filename) u1))
        | (true, fd) => (Some (finish fd), u1)
        end
      end
    end
  end.

End LoadTextFile.

(** ** Indentation detection *)

Section Indentation.
Context {Sci : Type} `{ScintillaOps Sci}.

(** [gsize] counters: unsigned, 64 bits wide; arithmetic on them wraps. *)
Definition gsize_wrap (n : Z) : Z := n mod 2 ^ 64.

(** The body of the loop of [detect_use_tabs] for one line. *)
Definition detect_use_tabs_line (sci : Sci) (line : Z) (counts : Z * Z) : Z * Z :=
  let '(tabs, spaces) := counts in
  let pos := sci_get_position_from_line sci line in
  let c := sci_get_char_at sci pos in
  if Ascii.eqb c TAB then (gsize_wrap (tabs + 1), spaces)
  else if Ascii.eqb c SPACE then
    if Ascii.eqb (sci_get_char_at sci (pos + 1)) SPACE
    then (tabs, gsize_wrap (spaces + 1))
    else (tabs, spaces)
  else (tabs, spaces).

(** [for (line = 0; line < sci_get_line_count(sci); line++)], with [n] the
    number of iterations still to run from [line]. *)
Fixpoint detect_use_tabs_loop (sci : Sci) (n : nat) (line : Z) (counts : Z * Z) : Z * Z :=
  match n with
  | O => counts
  | S n' => detect_use_tabs_loop sci n' (line + 1) (detect_use_tabs_line sci line counts)
  end.

Definition detect_use_tabs (prefs : GeanyEditorPrefs.t) (sci : Sci) : bool :=
  let '(tabs, spaces) :=
    detect_use_tabs_loop sci (Z.to_nat (sci_get_line_count sci)) 0 (0, 0) in
  if (spaces =? 0) && (tabs =? 0) then GeanyEditorPrefs.use_tabs prefs
  else if GeanyEditorPrefs.use_tabs prefs
       then negb (gsize_wrap (tabs * 2) <? spaces)
       else gsize_wrap (spaces * 2) <? tabs.

(** Modelled from the spec: [editor_set_use_tabs] of editor.c keeps the
    chosen mode in the document. *)
Definition editor_set_use_tabs (doc : GeanyDocument Sci) (b : bool) : GeanyDocument Sci :=
  with_use_tabs b doc.

(** [set_indentation]; [None] when the document has no buffer. *)
Definition set_indentation (prefs : GeanyEditorPrefs.t) (u : Ui) (doc : GeanyDocument Sci)
  : option (GeanyDocument Sci * Ui) :=
  if filetype_id_eqb (FILETYPE_ID (file_type doc)) GEANY_FILETYPES_MAKE then
    Some (editor_set_use_tabs doc true, u)
  else if negb (GeanyEditorPrefs.detect_tab_mode prefs) then
    Some (editor_set_use_tabs doc (GeanyEditorPrefs.use_tabs prefs), u)
  else
    s ← sci doc;
    let use_tabs := detect_use_tabs prefs s in
    let u1 :=
      if negb (Bool.eqb use_tabs (GeanyEditorPrefs.use_tabs prefs))
      then ui_set_statusbar (MsgSettingIndentation use_tabs) u else u in
    Some (editor_set_use_tabs doc use_tabs, u1).

End Indentation.

(** ** The application state *)

Record App (Sci Nb Host : Type) := {
  documents_array : list (GeanyDocument Sci);
  notebook : Nb;
  host : Host;
  ui : Ui;
  cl_options : CommandLineOptions.t;
  editor_prefs : GeanyEditorPrefs.t;
  file_prefs : GeanyFilePrefs.t;
  search_prefs : GeanySearchPrefs.t;
  main_status : GeanyStatus.t;
  geany_object : bool
}.

Arguments documents_array {Sci Nb Host} _.
Arguments notebook {Sci Nb Host} _.
Arguments host {Sci Nb Host} _.
Arguments ui {Sci Nb Host} _.
Arguments cl_options {Sci Nb Host} _.
Arguments editor_prefs {Sci Nb Host} _.
Arguments file_prefs {Sci Nb Host} _.
Arguments search_prefs {Sci Nb Host} _.
Arguments main_status {Sci Nb Host} _.
Arguments geany_object {Sci Nb Host} _.

Definition with_documents_array {Sci Nb Host} (v : list (GeanyDocument Sci))
  (a : App Sci Nb Host) : App Sci Nb Host :=
  {| documents_array := v; notebook := notebook a; host := host a; ui := ui a;
     cl_options := cl_options a; editor_prefs := editor_prefs a;
     file_prefs := file_prefs a; search_prefs := search_prefs a;
     main_status := main_status a; geany_object := geany_object a |}.

Definition with_notebook {Sci Nb Host} (v : Nb) (a : App Sci Nb Host) : App Sci Nb Host :=
  {| documents_array := documents_array a; notebook := v; host := host a; ui := ui a;
     cl_options := cl_options a; editor_prefs := editor_prefs a;
     file_prefs := file_prefs a; search_prefs := search_prefs a;
     main_status := main_status a; geany_object := geany_object a |}.

Definition with_host {Sci Nb Host} (v : Host) (a : App Sci Nb Host) : App Sci Nb Host :=
  {| documents_array := documents_array a; notebook := notebook a; host := v; ui := ui a;
     cl_options := cl_options a; editor_prefs := editor_prefs a;
     file_prefs := file_prefs a; search_prefs := search_prefs a;
     main_status := main_status a; geany_object := geany_object a |}.

Definition with_ui {Sci Nb Host} (v : Ui) (a : App Sci Nb Host) : App Sci Nb Host :=
  {| documents_array := documents_array a; notebook := notebook a; host := host a; ui := v;
     cl_options := cl_options a; editor_prefs := editor_prefs a;
     file_prefs := file_prefs a; search_prefs := search_prefs a;
     main_status := main_status a; geany_object := geany_object a |}.

Definition with_cl_options {Sci Nb Host} (v : CommandLineOptions.t)
  (a : App Sci Nb Host) : App Sci Nb Host :=
  {| documents_array := documents_array a; notebook := notebook a; host := host a;
     ui := ui a; cl_options := v; editor_prefs := editor_prefs a;
     file_prefs := file_prefs a; search_prefs := search_prefs a;
     main_status := main_status a; geany_object := geany_object a |}.

(** [documents[idx] = doc]. *)
Definition store_doc {Sci Nb Host} (idx : nat) (doc : GeanyDocument Sci)
  (a : App Sci Nb Host) : App Sci Nb Host :=
  with_documents_array (<[idx := doc]> (documents_array a)) a.

(** ** The document registry *)

Section Registry.
Context {Sci : Type} `{ScintillaOps Sci}.
Context {Nb : Type} `{NotebookOps Nb}.
Context {Host : Type} `{HostOps Host}.

(** The loop of [document_find_by_real_path], from slot [i] on. *)
Fixpoint find_by_real_path_from (i : nat) (docs : list (GeanyDocument Sci))
  (realname : string) : option nat :=
  match docs with
  | [] => None
  | doc :: rest =>
    match is_valid doc, real_path doc with
    | true, Some rp =>
      if filename_equal realname rp then Some i
      else find_by_real_path_from (S i) rest realname
    | _, _ => find_by_real_path_from (S i) rest realname
    end
  end.

Definition document_find_by_real_path (docs : list (GeanyDocument Sci))
  (realname : option string) : option nat :=
  match realname with
  | None => None
  | Some r => find_by_real_path_from 0 docs r
  end.

(** [get_real_path_from_utf8]: dereference symlinks, /../ junk in path. *)
Definition get_real_path_from_utf8 (h : Host) (utf8_filename : string) : option string :=
  tm_get_real_path h (utils_get_locale_from_utf8 utf8_filename).

(** The first loop of [document_find_by_filename], from slot [i] on. *)
Fixpoint find_by_file_name_from (i : nat) (docs : list (GeanyDocument Sci))
  (utf8_filename : string) : option nat :=
  match docs with
  | [] => None
  | doc :: rest =>
    match is_valid doc, file_name doc with
    | true, Some fn =>
      if filename_equal utf8_filename fn then Some i
      else find_by_file_name_from (S i) rest utf8_filename
    | _, _ => find_by_file_name_from (S i) rest utf8_filename
    end
  end.

Definition document_find_by_filename (docs : list (GeanyDocument Sci)) (h : Host)
  (utf8_filename : option string) : option nat :=
  match utf8_filename with
  | None => None
  | Some f =>
    match find_by_file_name_from 0 docs f with
    | Some i => Some i
    | None => document_find_by_real_path docs (get_real_path_from_utf8 h f)
    end
  end.

(** [document_get_from_page] and [document_get_current]: the page's buffer
    is looked up among the valid documents. *)
Definition document_find_by_page (docs : list (GeanyDocument Sci)) (nb : Nb) (page : Z)
  : option nat :=
  i ← notebook_page_document nb page;
  doc ← docs !! i;
  if is_valid doc then Some i else None.

Definition document_get_from_page (docs : list (GeanyDocument Sci)) (nb : Nb)
  (page_num : Z) : option nat :=
  if Z.of_nat (length docs) <=? page_num then None
  else document_find_by_page docs nb page_num.

Definition document_get_current (docs : list (GeanyDocument Sci)) (nb : Nb) : option nat :=
  let cur_page := gtk_notebook_get_current_page nb in
  if cur_page =? -1 then None else document_find_by_page docs nb cur_page.

(** [document_set_text_changed]. *)
Definition document_set_text_changed (doc : GeanyDocument Sci) (c : bool)
  : GeanyDocument Sci := with_changed c doc.

(** [init_doc_struct]: the structure is zeroed, then initialised. *)
Definition init_doc_struct (prefs : GeanyEditorPrefs.t) (now : Z) : GeanyDocument Sci :=
  {| is_valid := false; index := 0%nat; has_tags := false; file_name := None;
     encoding := None; has_bom := false; file_type := None; sci := None;
     readonly := false; changed := false; last_check := now; mtime := 0;
     use_tabs := false;
     line_wrapping := GeanyEditorPrefs.line_wrapping prefs;
     auto_indent := negb (indent_mode_is_none (GeanyEditorPrefs.indent_mode prefs));
     line_breaking := false; scroll_percent := -100; real_path := None;
     saved_encoding := {| fe_encoding := None; fe_has_bom := false |};
     undo_actions := []; redo_actions := [] |}.

(** [document_get_new_idx]: the next free place in the document list. *)
Fixpoint get_new_idx_from (i : nat) (docs : list (GeanyDocument Sci)) : option nat :=
  match docs with
  | [] => None
  | doc :: rest =>
    match sci doc with
    | None => Some i
    | Some _ => get_new_idx_from (S i) rest
    end
  end.

Definition document_get_new_idx (docs : list (GeanyDocument Sci)) : option nat :=
  get_new_idx_from 0 docs.

(** [store_saved_encoding]. *)
Definition store_saved_encoding (doc : GeanyDocument Sci) : GeanyDocument Sci :=
  with_saved_encoding {| fe_encoding := encoding doc; fe_has_bom := has_bom doc |} doc.

(** [document_undo_clear]. *)
Definition document_undo_clear (status : GeanyStatus.t) (doc : GeanyDocument Sci)
  : GeanyDocument Sci :=
  let d := with_redo_actions [] (with_undo_actions [] doc) in
  match sci d with
  | Some _ => if GeanyStatus.quitting status then d else document_set_text_changed d false
  | None => d
  end.

End Registry.

(** ** The document lifecycle: create, close, open, reload *)

Section Lifecycle.
Context {Sci : Type} `{ScintillaOps Sci} `{EditorOps Sci}.
Context {Nb : Type} `{NotebookOps Nb}.
Context {Host : Type} `{HostOps Host}.
Context `{EncodingOps}.

Local Abbreviation app_t := (App Sci Nb Host).

(** What [g_new0(Document, 1)] allocates. *)
Definition zero_document : GeanyDocument Sci :=
  {| is_valid := false; index := 0%nat; has_tags := false; file_name := None;
     encoding := None; has_bom := false; file_type := None; sci := None;
     readonly := false; changed := false; last_check := 0; mtime := 0;
     use_tabs := false; line_wrapping := false; auto_indent := false;
     line_breaking := false; scroll_percent := 0; real_path := None;
     saved_encoding := {| fe_encoding := None; fe_has_bom := false |};
     undo_actions := []; redo_actions := [] |}.

(** [document_remove_page].  The unsaved-file dialog is a question to the
    user. *)
Definition document_remove_page (app : app_t) (page_num : Z) : bool * app_t :=
  match document_get_from_page (documents_array app) (notebook app) page_num with
  | None => (false, app)
  | Some idx =>
    match documents_array app !! idx with
    | None => (false, app)
    | Some doc =>
      let '(proceed, u1) :=
        if changed doc
        then dialogs_show_question_full (MsgUnsavedQuestion (file_name doc)) (ui app)
        else (true, ui app) in
      if negb proceed then (false, with_ui u1 app)
      else
        let u2 :=
          match GeanyStatus.closing_all (main_status app), real_path doc with
          | false, Some _ => ui_add_recent_file (file_name doc) u1
          | _, _ => u1
          end in
        let nb := notebook_remove_page (notebook app) page_num in
        let u3 := msgwin_status_add (MsgFileClosed (file_name doc)) u2 in
        let d := with_is_valid false doc in
        let d := with_sci None d in
        let d := with_file_name None d in
        let d := with_real_path None d in
        let d := with_file_type None d in
        let d := with_encoding None d in
        let d := with_has_bom false d in
        let d := with_scroll_percent (-100) d in
        let d := document_undo_clear (main_status app) d in
        (true, store_doc idx d (with_notebook nb (with_ui u3 app)))
    end
  end.

(** [document_create]: creates a new document and editor, adding a tab in
    the notebook.  Gives the slot of the created document. *)
Definition document_create (app : app_t) (utf8_filename : option string) : nat * app_t :=
  let cur_pages := gtk_notebook_get_n_pages (notebook app) in
  let app1 :=
    if cur_pages =? 1 then
      match document_get_current (documents_array app) (notebook app) with
      | Some i =>
        match documents_array app !! i with
        | Some doc =>
          match file_name doc with
          | None => if changed doc then app else snd (document_remove_page app 0)
          | Some _ => app
          end
        | None => app
        end
      | None => app
      end
    else app in
  let '(new_idx, docs) :=
    match document_get_new_idx (documents_array app1) with
    | Some i => (i, documents_array app1)
    | None => (length (documents_array app1), documents_array app1 ++ [zero_document])
    end in
  let this := init_doc_struct (editor_prefs app1) (host_time (host app1)) in
  let this := with_index new_idx this in
  let this := with_file_name utf8_filename this in
  let this := with_sci (Some scintilla_new) this in
  let this :=
    with_auto_indent
      (negb (indent_mode_is_none (GeanyEditorPrefs.indent_mode (editor_prefs app1)))) this in
  let nb := notebook_new_tab (notebook app1) new_idx in
  let this := with_is_valid true this in
  (new_idx, with_documents_array (<[new_idx := this]> docs) (with_notebook nb app1)).

(** [set_cursor_position].  The column of the command line is any [gint], so
    the sum with the caret position is taken in 32 bits. *)
Definition set_cursor_position (doc : GeanyDocument Sci) (pos : Z)
  (cl : CommandLineOptions.t) : option (GeanyDocument Sci * CommandLineOptions.t) :=
  s ← sci doc;
  let '(s1, percent1, cl1) :=
    if 0 <=? CommandLineOptions.goto_line cl then
      (sci_goto_line s (CommandLineOptions.goto_line cl - 1) true, 50,
       {| CommandLineOptions.goto_line := -1;
          CommandLineOptions.goto_column := CommandLineOptions.goto_column cl |})
    else if 0 <? pos then (sci_set_current_position s pos false, 50, cl)
    else (s, scroll_percent doc, cl) in
  let '(s2, percent2, cl2) :=
    if 0 <=? CommandLineOptions.goto_column cl1 then
      let cur_pos := sci_get_current_position s1 in
      (sci_set_current_position s1
         (gint_wrap (cur_pos + CommandLineOptions.goto_column cl1)) false, 50,
       {| CommandLineOptions.goto_line := CommandLineOptions.goto_line cl1;
          CommandLineOptions.goto_column := -1 |})
    else (s1, percent1, cl1) in
  Some (with_scroll_percent percent2 (with_sci (Some s2) doc), cl2).

(** [document_set_filetype]: the part that changes the document. *)
Definition document_set_filetype (doc : GeanyDocument Sci) (type : option GeanyFiletype)
  : GeanyDocument Sci :=
  match type with
  | None => doc
  | Some _ => with_file_type type doc
  end.

(** The part of [document_open_file_full] from the choice of the forced
    encoding on, shared by opening ([reload = false]) and reloading.
    [names] is the pair of [locale_filename] and [utf8_filename], [None] when
    the document to reload has no name. *)
Definition document_open_file_load (app : app_t) (reload : bool) (doc : option nat)
  (names : option (string * string)) (pos : Z) (read_only : bool)
  (ft : option GeanyFiletype) (forced_enc : option string) : option (option nat * app_t) :=
  let forced_enc :=
    match GeanyFilePrefs.default_open_encoding (file_prefs app), forced_enc with
    | Some e, None => Some (encodings_charset e)
    | _, _ => forced_enc
    end in
  let '(loaded, u1) :=
    match names with
    | Some (locale_filename, utf8_filename) =>
      load_text_file (host app) (main_status app) (ui app)
        locale_filename utf8_filename forced_enc
    | None => (None, ui_set_statusbar (MsgCouldNotOpen None) (ui app))
    end in
  match loaded with
  | None => Some (None, with_ui u1 app)
  | Some filedata =>
    let utf8_filename := option_map snd names in
    let app1 := with_ui u1 app in
    '(idx, app2) ← (if reload then i ← doc; Some (i, app1)
                    else Some (document_create app1 utf8_filename));
    d ← documents_array app2 !! idx;
    s ← sci d;
    let s := sci_set_undo_collection s false in
    let s := sci_empty_undo_buffer s in
    let s := sci_set_readonly s false in
    let s := sci_set_text s (c_str (FileData.data filedata)) in
    let editor_mode :=
      utils_get_line_endings (FileData.data filedata) (FileData.len filedata) in
    let s := sci_set_eol_mode s editor_mode in
    let s := sci_set_undo_collection s true in
    let d := with_mtime (FileData.mtime filedata) d in
    let d := with_encoding (FileData.enc filedata) d in
    let d := with_has_bom (FileData.bom filedata) d in
    let d := store_saved_encoding d in
    let d := with_readonly (read_only || FileData.readonly filedata) d in
    let d := with_sci (Some (sci_set_readonly s (readonly d))) d in
    '(d, cl) ← set_cursor_position d pos (cl_options app2);
    s ← sci d;
    let '(d, use_ft) :=
      if reload then (with_file_type None (document_undo_clear (main_status app2) d), ft)
      else
        (with_real_path
           (match file_name d with
            | Some f => get_real_path_from_utf8 (host app2) f
            | None => None
            end) d,
         match ft with
         | Some _ => ft
         | None => filetypes_detect_from_file (file_name d) s
         end) in
    let d := document_set_filetype d use_ft in
    '(d, u2) ← (if reload then Some (editor_set_use_tabs d (use_tabs d), ui app2)
                else set_indentation (editor_prefs app2) (ui app2) d);
    let d := document_set_text_changed d false in
    let u3 :=
      if GeanyStatus.opening_session_files (main_status app2) then u2
      else ui_add_recent_file utf8_filename u2 in
    let u4 :=
      if negb reload && geany_object app2
      then g_signal_emit_by_name "document-open" idx u3 else u3 in
    let u5 :=
      if reload then ui_set_statusbar (MsgFileReloaded utf8_filename) u4
      else match utf8_filename with
           | Some f => msgwin_status_add (MsgFileOpened f read_only) u4
           | None => u4
           end in
    Some (Some idx, store_doc idx d (with_cl_options cl (with_ui u5 app2)))
  end.

(** [document_open_file_full] with a document given: the reload. *)
Definition document_open_file_reload (app : app_t) (idx : nat) (pos : Z)
  (read_only : bool) (ft : option GeanyFiletype) (forced_enc : option string)
  : option (option nat * app_t) :=
  d ← documents_array app !! idx;
  document_open_file_load app true (Some idx)
    (option_map (fun f => (utils_get_locale_from_utf8 f, f)) (file_name d))
    pos read_only ft forced_enc.

(** [document_reload_file]. *)
Definition document_reload_file (app : app_t) (idx : nat) (forced_enc : option string)
  : option (bool * app_t) :=
  d ← documents_array app !! idx;
  s ← sci d;
  let pos := sci_get_current_position s in
  '(new_doc, app1) ← document_open_file_reload app idx pos (readonly d) (file_type d)
                       forced_enc;
  Some (match new_doc with Some _ => true | None => false end, app1).

(** [check_reload]. *)
Definition check_reload (app : app_t) (idx : nat) : option (bool * app_t) :=
  d ← documents_array app !! idx;
  let '(want_reload, u1) :=
    dialogs_show_question_full (MsgReloadQuestion (file_name d)) (ui app) in
  if want_reload then
    '(_, app1) ← document_reload_file (with_ui u1 app) idx None;
    Some (true, app1)
  else Some (false, with_ui u1 app).

(** [document_check_disk_status].  Modelled from the spec:
    [dialogs_show_save_as] of dialogs.c prompts to save the file again; the
    prompt is recorded, and a save that the user runs from it is an
    operation of its own. *)
Definition document_check_disk_status (app : app_t) (idx : nat) (force : bool)
  : option (bool * app_t) :=
  doc ← documents_array app !! idx;
  let timeout := GeanyFilePrefs.disk_check_timeout (file_prefs app) in
  if timeout =? 0 then Some (false, app)
  else
    match real_path doc with
    | None => Some (false, app)
    | Some _ =>
      let t := host_time (host app) in
      if negb force && (t - timeout <? last_check doc) then Some (false, app)
      else
        let doc := with_last_check t doc in
        let st :=
          match file_name doc with
          | Some f => g_stat (host app) (utils_get_locale_from_utf8 f)
          | None => None
          end in
        match st with
        | None =>
          let doc := document_set_text_changed doc true in
          let '(resave, u1) :=
            dialogs_show_question_full (MsgResaveQuestion (file_name doc)) (ui app) in
          let u2 := if resave then ui_emit UiSaveAsDialog u1 else u1 in
          Some (false, store_doc idx doc (with_ui u2 app))
        | Some (st_mtime, _) =>
          if (t <? mtime doc) || (t <? st_mtime) then Some (false, store_doc idx doc app)
          else if mtime doc <? st_mtime then
            '(_, app1) ← check_reload (store_doc idx doc app) idx;
            doc1 ← documents_array app1 !! idx;
            Some (true, store_doc idx (with_mtime st_mtime doc1) app1)
          else Some (false, store_doc idx doc app)
        end
    end.

(** [document_open_file_full]: to open a new file, [doc] is [None] and
    [filename] is locale encoded; to reload, [doc] is the document.  The
    result is the document of the opened file, or [None] on error. *)
Definition document_open_file_full (app : app_t) (doc : option nat)
  (filename : option string) (pos : Z) (read_only : bool)
  (ft : option GeanyFiletype) (forced_enc : option string) : option (option nat * app_t) :=
  match doc with
  | Some idx => document_open_file_reload app idx pos read_only ft forced_enc
  | None =>
    match filename with
    | None => Some (None, with_ui (ui_set_statusbar MsgInvalidFilename (ui app)) app)
    | Some locale_filename =>
      let utf8_filename := utils_get_utf8_from_locale locale_filename in
      match document_find_by_filename (documents_array app) (host app) (Some utf8_filename) with
      | Some idx =>
        let u1 := ui_add_recent_file (Some utf8_filename) (ui app) in
        let nb := gtk_notebook_show_document (notebook app) idx in
        '(_, app1) ← document_check_disk_status (with_notebook nb (with_ui u1 app)) idx true;
        d ← documents_array app1 !! idx;
        '(d, cl) ← set_cursor_position d pos (cl_options app1);
        Some (Some idx, store_doc idx d (with_cl_options cl app1))
      | None =>
        document_open_file_load app false None (Some (locale_filename, utf8_filename))
          pos read_only ft forced_enc
      end
    end
  end.

(** [document_open_file]. *)
Definition document_open_file (app : app_t) (locale_filename : option string)
  (read_only : bool) (ft : option GeanyFiletype) (forced_enc : option string)
  : option (option nat * app_t) :=
  document_open_file_full app None locale_filename 0 read_only ft forced_enc.

End Lifecycle.

(** ** The save pipeline *)

Section Save.
Context {Sci : Type} `{ScintillaOps Sci} `{EditorOps Sci}.
Context {Host : Type} `{HostOps Host}.
Context `{EncodingOps}.

(** The three bytes EF BB BF. *)
Definition utf8_bom : string :=
  String (ascii_of_nat 239) (String (ascii_of_nat 187) (String (ascii_of_nat 191) EmptyString)).

(** [save_convert_to_encoding]: [None] is the return value FALSE, after the
    error dialog; otherwise the converted data and its length.  The caller
    has checked that the document has an encoding. *)
Definition save_convert_to_encoding (doc : GeanyDocument Sci) (u : Ui)
  (data : string) (len : Z) : option (string * Z) * Ui :=
  match encoding doc with
  | None => (None, u)
  | Some e =>
    match g_convert data (len - 1) e with
    | ConvError _ _ => (None, dialogs_show_msgbox (MsgConversionError (encoding doc)) u)
    | ConvOk conv_file_contents conv_len => (Some (conv_file_contents, conv_len), u)
    end
  end.

(** [write_data_to_disk]: the errno of the write, 0 on success. *)
Definition write_data_to_disk (h : Host) (file_name : string) (data : string) (len : Z)
  : Host * Z :=
  host_write h (utils_get_locale_from_utf8 file_name) data len.

(** [document_update_timestamp]. *)
Definition document_update_timestamp (h : Host) (u : Ui) (doc : GeanyDocument Sci)
  : bool * GeanyDocument Sci * Ui :=
  let st :=
    match file_name doc with
    | Some f => g_stat h (utils_get_locale_from_utf8 f)
    | None => None
    end in
  match st with
  | None => (false, doc, ui_set_statusbar (MsgCouldNotOpen (file_name doc)) u)
  | Some (st_mtime, _) => (true, with_mtime st_mtime doc, u)
  end.

(** The pre-save normalisations of [document_save_file], in order. *)
Definition pre_save_buffer (prefs : GeanyFilePrefs.t) (doc : GeanyDocument Sci) (s : Sci)
  : Sci :=
  let s :=
    if GeanyFilePrefs.replace_tabs prefs
       && negb (filetype_id_eqb (FILETYPE_ID (file_type doc)) GEANY_FILETYPES_MAKE)
    then editor_replace_tabs s else s in
  let s := if GeanyFilePrefs.strip_trailing_spaces prefs
           then editor_strip_trailing_spaces s else s in
  if GeanyFilePrefs.final_new_line prefs then editor_ensure_final_newline s else s.

(** The text taken from the buffer, with a UTF-8 BOM in front when the
    document has one and its charset is a Unicode one, and its length
    counting the terminator. *)
Definition save_buffer_data (doc : GeanyDocument Sci) (s : Sci) : string * Z :=
  let len := sci_get_length s + 1 in
  if has_bom doc && encodings_is_unicode_charset (encoding doc)
  then (String.append utf8_bom (sci_get_text s len), len + 3)
  else (sci_get_text s len, len).

(** Whether the text is converted on saving: skipped when the encoding is
    already UTF-8 or is the encoding "None". *)
Definition save_needs_conversion (doc : GeanyDocument Sci) : bool :=
  match encoding doc with
  | Some e =>
    negb (String.eqb e UTF_8) && negb (String.eqb e (encodings_charset GEANY_ENCODING_NONE))
  | None => false
  end.

(** [document_save_file]. *)
Definition document_save_file (prefs : GeanyFilePrefs.t) (status : GeanyStatus.t)
  (geany_obj : bool) (h : Host) (u : Ui) (doc : GeanyDocument Sci) (force : bool)
  : option (bool * GeanyDocument Sci * Host * Ui) :=
  if negb force && (negb (changed doc) || readonly doc) then Some (false, doc, h, u)
  else
    match file_name doc with
    | None => Some (false, doc, h, utils_beep (ui_set_statusbar MsgErrorSaving u))
    | Some fname =>
      s ← sci doc;
      let s := pre_save_buffer prefs doc s in
      let doc := with_sci (Some s) doc in
      let '(data, len) := save_buffer_data doc s in
      let '(converted, u1) :=
        if save_needs_conversion doc
        then save_convert_to_encoding doc u data len
        else (Some (data, strlen data), u) in
      match converted with
      | None => Some (false, doc, h, u1)
      | Some (data, len) =>
        let '(h1, err) := write_data_to_disk h fname data len in
        if negb (err =? 0) then
          Some (false, doc, h1,
                utils_beep (dialogs_show_msgbox (MsgErrorSavingErrno err)
                              (ui_set_statusbar (MsgErrorSavingErrno err) u1)))
        else
          let doc := with_real_path (get_real_path_from_utf8 h1 fname) doc in
          let doc := store_saved_encoding doc in
          let '(doc, u2) :=
            if GeanyStatus.quitting status then (doc, u1)
            else
              let doc := with_sci (Some (sci_set_savepoint s)) doc in
              let '(_, doc, u) := document_update_timestamp h1 u1 doc in
              let doc := document_set_filetype doc (file_type doc) in
              (doc, msgwin_status_add (MsgFileSaved fname) u) in
          let u3 := if geany_obj then g_signal_emit_by_name "document-save" (index doc) u2
                    else u2 in
          Some (true, doc, h1, u3)
      end
    end.

End Save.

(** ** Search and replace *)

Section Search.
Context {Sci : Type} `{ScintillaOps Sci}.

Definition no_range : CharacterRange := {| cpMin := 0; cpMax := 0 |}.

Definition ttf_set_range (lo hi : Z) (ttf : TextToFind) : TextToFind :=
  {| chrg := {| cpMin := lo; cpMax := hi |};
     lpstrText := lpstrText ttf; chrgText := chrgText ttf |}.

(** [document_search_bar_find]: special search function, used from the find
    entry in the toolbar. *)
Definition document_search_bar_find (u : Ui) (doc : GeanyDocument Sci) (text : string)
  (flags : Z) (inc : bool) : option (bool * GeanyDocument Sci * Ui) :=
  if str_is_empty text then Some (true, doc, u)
  else
    s ← sci doc;
    let start_pos :=
      if inc then sci_get_selection_start s else sci_get_selection_end s in
    let ttf :=
      {| chrg := {| cpMin := start_pos; cpMax := sci_get_length s |};
         lpstrText := text; chrgText := no_range |} in
    let '(search_pos, ttf) := sci_find_text s flags ttf in
    let '(search_pos, ttf) :=
      if search_pos =? -1
      then sci_find_text s flags (ttf_set_range 0 (start_pos + strlen text) ttf)
      else (search_pos, ttf) in
    if negb (search_pos =? -1) then
      let s := sci_set_selection_start s (cpMin (chrgText ttf)) in
      let s := sci_set_selection_end s (cpMax (chrgText ttf)) in
      Some (true, with_sci (Some s) doc, u)
    else
      let u := if inc then u else ui_set_statusbar (MsgNotFound text) u in
      let u := utils_beep u in
      Some (false, with_sci (Some (sci_goto_pos s start_pos false)) doc, u).

(** [document_find_text]: general search function, used from the find
    dialog.  Gives -1 on failure or the start position of the matching text.
    [fuel] bounds the depth of the recursive calls. *)
Fixpoint document_find_text (fuel : nat) (prefs : GeanySearchPrefs.t) (u : Ui)
  (doc : GeanyDocument Sci) (text : string) (flags : Z) (search_backwards scroll : bool)
  : option (Z * GeanyDocument Sci * Ui) :=
  match fuel with
  | O => None
  | S fuel' =>
    if str_is_empty text then Some (-1, doc, u)
    else
      let search_backwards :=
        if flag_set flags SCFIND_REGEXP then false else search_backwards in
      s ← sci doc;
      let selection_start := sci_get_selection_start s in
      let selection_end := sci_get_selection_end s in
      let s :=
        if 0 <? selection_end - selection_start then
          if search_backwards then sci_goto_pos s selection_start true
          else sci_goto_pos s selection_end true
        else s in
      let s := sci_set_search_anchor s in
      let '(s, search_pos) :=
        if search_backwards then sci_search_prev s flags text
        else sci_search_next s flags text in
      if negb (search_pos =? -1) then
        let doc := with_sci (Some s) doc in
        Some (search_pos, if scroll then with_scroll_percent 30 doc else doc, u)
      else
        let sci_len := sci_get_length s in
        if ((selection_end =? 0) && negb search_backwards)
           || ((selection_end =? sci_len) && search_backwards)
        then
          Some (-1, with_sci (Some s) doc,
                utils_beep (ui_set_statusbar (MsgNotFound text) u))
        else
          let '(wrap, u1) :=
            if GeanySearchPrefs.suppress_dialogs prefs then (true, u)
            else dialogs_show_question_full (MsgWrapSearch text) u in
          if wrap then
            let s :=
              sci_set_current_position s (if search_backwards then sci_len else 0) false in
            '(ret, doc1, u2) ← document_find_text fuel' prefs u1 (with_sci (Some s) doc)
                                 text flags search_backwards scroll;
            if ret =? -1 then
              s1 ← sci doc1;
              Some (ret,
                    with_sci (Some (sci_set_current_position s1 selection_start false)) doc1,
                    u2)
            else Some (ret, doc1, u2)
          else Some (search_pos, with_sci (Some s) doc, u1)
  end.

(** [document_replace_text]: replaces the selection if it matches, otherwise
    just finds the next match.  Gives the start of the replaced text, or -1
    if no replacement was made. *)
Definition document_replace_text (fuel : nat) (prefs : GeanySearchPrefs.t) (u : Ui)
  (doc : GeanyDocument Sci) (find_text replace_text : string) (flags : Z)
  (search_backwards : bool) : option (Z * GeanyDocument Sci * Ui) :=
  if str_is_empty find_text then Some (-1, doc, u)
  else
    let search_backwards :=
      if flag_set flags SCFIND_REGEXP then false else search_backwards in
    s ← sci doc;
    let selection_start := sci_get_selection_start s in
    let selection_end := sci_get_selection_end s in
    if selection_end =? selection_start then
      '(_, doc1, u1) ← document_find_text fuel prefs u doc find_text flags
                         search_backwards true;
      Some (-1, doc1, u1)
    else
      let s :=
        if search_backwards then sci_goto_pos s selection_end true
        else sci_goto_pos s selection_start true in
      '(search_pos, doc1, u1) ← document_find_text fuel prefs u (with_sci (Some s) doc)
                                  find_text flags search_backwards true;
      if negb (search_pos =? selection_start) then Some (-1, doc1, u1)
      else if negb (search_pos =? -1) then
        s1 ← sci doc1;
        let s1 := sci_target_from_selection s1 in
        let '(s1, replace_len) :=
          sci_target_replace s1 replace_text (flag_set flags SCFIND_REGEXP) in
        let s1 := sci_set_selection_start s1 search_pos in
        let s1 := sci_set_selection_end s1 (search_pos + replace_len) in
        Some (search_pos, with_sci (Some s1) doc1, u1)
      else Some (search_pos, doc1, utils_beep u1).

(** The state of the loop of [document_replace_range]. *)
Record replace_state := {
  rs_sci : Sci;
  rs_ttf : TextToFind;
  rs_end : Z;
  rs_count : Z
}.

(** The [while (TRUE)] loop of [document_replace_range]; [fuel] bounds the
    number of iterations. *)
Fixpoint replace_range_loop (fuel : nat) (flags : Z) (replace_text : string)
  (st : replace_state) : option replace_state :=
  match fuel with
  | O => None
  | S fuel' =>
    let '(search_pos, ttf) := sci_find_text (rs_sci st) flags (rs_ttf st) in
    let find_len := cpMax (chrgText ttf) - cpMin (chrgText ttf) in
    let stop (s : Sci) (count : Z) :=
      Some {| rs_sci := s; rs_ttf := ttf; rs_end := rs_end st; rs_count := count |} in
    if search_pos =? -1 then stop (rs_sci st) (rs_count st)
    else if (find_len =? 0) && negb (NZV replace_text) then stop (rs_sci st) (rs_count st)
    else if rs_end st <? search_pos + find_len then stop (rs_sci st) (rs_count st)
    else
      let s := sci_target_start (rs_sci st) search_pos in
      let s := sci_target_end s (search_pos + find_len) in
      let movepastEOL :=
        if find_len <=? 0 then
          let chNext := sci_get_char_at s (SCI_GETTARGETEND s) in
          if Ascii.eqb chNext CR || Ascii.eqb chNext LF then 1 else 0
        else 0 in
      let '(s, replace_len) :=
        sci_target_replace s replace_text (flag_set flags SCFIND_REGEXP) in
      let count := rs_count st + 1 in
      if search_pos =? rs_end st then stop s count
      else
        let start := search_pos + replace_len + movepastEOL in
        let start := if find_len =? 0 then SCI_POSITIONAFTER s start else start in
        let end_ := rs_end st + (replace_len - find_len) in
        replace_range_loop fuel' flags replace_text
          {| rs_sci := s; rs_ttf := ttf_set_range start end_ ttf;
             rs_end := end_; rs_count := count |}
  end.

(** [document_replace_range]: replace all text matches in a certain range
    within document.  Gives the number of replacements made and the value
    stored in [*new_range_end]: the new range endpoint after replacing, or -1
    if no text was found. *)
Definition document_replace_range (fuel : nat) (doc : GeanyDocument Sci)
  (find_text replace_text : string) (flags start end_ : Z) (scroll_to_match : bool)
  : option (Z * Z * GeanyDocument Sci) :=
  if str_is_empty find_text || readonly doc then Some (0, -1, doc)
  else
    s ← sci doc;
    let s := sci_start_undo_action s in
    let ttf :=
      {| chrg := {| cpMin := start; cpMax := end_ |};
         lpstrText := find_text; chrgText := no_range |} in
    st ← replace_range_loop fuel flags replace_text
           {| rs_sci := s; rs_ttf := ttf; rs_end := end_; rs_count := 0 |};
    let s := sci_end_undo_action (rs_sci st) in
    if 0 <? rs_count st then
      let s := if scroll_to_match then sci_goto_pos s (cpMin (chrg (rs_ttf st))) true else s in
      Some (rs_count st, rs_end st, with_sci (Some s) doc)
    else Some (rs_count st, -1, with_sci (Some s) doc).

(** [show_replace_summary]. *)
Definition show_replace_summary (u : Ui) (count : Z) (find_text replace_text : string) : Ui :=
  if count =? 0 then ui_set_statusbar (MsgNoMatches find_text) u
  else ui_set_statusbar (MsgReplaced count find_text replace_text) u.

(** [document_replace_all]: TRUE if at least one replacement was made. *)
Definition document_replace_all (fuel : nat) (u : Ui) (doc : GeanyDocument Sci)
  (find_text replace_text : string) (flags : Z) : option (bool * GeanyDocument Sci * Ui) :=
  if str_is_empty find_text then Some (false, doc, u)
  else
    s ← sci doc;
    let len := sci_get_length s in
    '(count, _, doc1) ← document_replace_range fuel doc find_text replace_text flags
                          0 len true;
    Some (0 <? count, doc1, show_replace_summary u count find_text replace_text).

End Search.

(** ** The undo/redo ledger *)

Section Ledger.
Context {Sci : Type} `{ScintillaOps Sci}.

(** [document_set_encoding]: no conversion is done. *)
Definition document_set_encoding (doc : GeanyDocument Sci) (new_encoding : option string)
  : GeanyDocument Sci :=
  match new_encoding with
  | None => doc
  | Some _ =>
    if utils_str_equal new_encoding (encoding doc) then doc
    else with_encoding new_encoding doc
  end.

(** [document_undo_add]. *)
Definition document_undo_add (doc : GeanyDocument Sci) (action : undo_action)
  : GeanyDocument Sci :=
  document_set_text_changed (with_undo_actions (action :: undo_actions doc) doc) true.

(** [document_redo_add]. *)
Definition document_redo_add (doc : GeanyDocument Sci) (action : undo_action)
  : GeanyDocument Sci :=
  document_set_text_changed (with_redo_actions (action :: redo_actions doc) doc) true.

(** [update_changed_state]. *)
Definition update_changed_state (doc : GeanyDocument Sci) : option (GeanyDocument Sci) :=
  s ← sci doc;
  let c :=
    sci_is_modified s
    || negb (Bool.eqb (has_bom doc) (fe_has_bom (saved_encoding doc)))
    || negb (utils_str_equal (encoding doc) (fe_encoding (saved_encoding doc))) in
  Some (document_set_text_changed (with_changed c doc) c).

(** [document_undo]. *)
Definition document_undo (doc : GeanyDocument Sci) : option (GeanyDocument Sci) :=
  s ← sci doc;
  let doc :=
    match undo_actions doc with
    | [] => with_sci (Some (sci_undo s)) doc
    | action :: rest =>
      let doc := with_undo_actions rest doc in
      match action with
      | UNDO_SCINTILLA =>
        with_sci (Some (sci_undo s)) (document_redo_add doc UNDO_SCINTILLA)
      | UNDO_BOM old_bom =>
        with_has_bom old_bom (document_redo_add doc (UNDO_BOM (has_bom doc)))
      | UNDO_ENCODING old_encoding =>
        document_set_encoding (document_redo_add doc (UNDO_ENCODING (encoding doc)))
          old_encoding
      | UNDO_ACTIONS_MAX => doc
      end
    end in
  update_changed_state doc.

(** [document_redo]. *)
Definition document_redo (doc : GeanyDocument Sci) : option (GeanyDocument Sci) :=
  s ← sci doc;
  let doc :=
    match redo_actions doc with
    | [] => with_sci (Some (sci_redo s)) doc
    | action :: rest =>
      let doc := with_redo_actions rest doc in
      match action with
      | UNDO_SCINTILLA =>
        with_sci (Some (sci_redo s)) (document_undo_add doc UNDO_SCINTILLA)
      | UNDO_BOM new_bom =>
        with_has_bom new_bom (document_undo_add doc (UNDO_BOM (has_bom doc)))
      | UNDO_ENCODING new_encoding =>
        document_set_encoding (document_undo_add doc (UNDO_ENCODING (encoding doc)))
          new_encoding
      | UNDO_ACTIONS_MAX => doc
      end
    end in
  update_changed_state doc.

End Ledger.

(** ** What the proofs assume of the editing widget *)

(** Two buffer states with the same text. *)
Definition same_text {Sci} `{ScintillaOps Sci} (s s' : Sci) : Prop :=
  sci_get_length s' = sci_get_length s /\ sci_text s' = sci_text s.

Class ScintillaLaws (Sci : Type) `{ScintillaOps Sci} : Prop := {
  sci_length_nonneg : forall s, 0 <= sci_get_length s;
  (** moving the caret, the search anchor or the target, searching and
      grouping undo steps leave the text alone *)
  sci_goto_pos_text : forall s p b, same_text s (sci_goto_pos s p b);
  sci_set_current_position_text : forall s p b, same_text s (sci_set_current_position s p b);
  sci_set_search_anchor_text : forall s, same_text s (sci_set_search_anchor s);
  sci_search_next_text : forall s f t, same_text s (fst (sci_search_next s f t));
  sci_search_prev_text : forall s f t, same_text s (fst (sci_search_prev s f t));
  sci_target_start_text : forall s p, same_text s (sci_target_start s p);
  sci_target_end_text : forall s p, same_text s (sci_target_end s p);
  sci_start_undo_action_text : forall s, same_text s (sci_start_undo_action s);
  sci_end_undo_action_text : forall s, same_text s (sci_end_undo_action s);
  (** a position inside the text becomes the empty selection there *)
  sci_set_current_position_selection : forall s p b,
    0 <= p <= sci_get_length s ->
    sci_get_selection_start (sci_set_current_position s p b) = p
    /\ sci_get_selection_end (sci_set_current_position s p b) = p;
  (** the target is what was last set *)
  sci_target_start_get : forall s p, SCI_GETTARGETSTART (sci_target_start s p) = p;
  sci_target_end_keeps_start : forall s p,
    SCI_GETTARGETSTART (sci_target_end s p) = SCI_GETTARGETSTART s;
  sci_target_end_get : forall s p, SCI_GETTARGETEND (sci_target_end s p) = p;
  (** a match lies between the two ends of the searched range *)
  sci_find_in_range : forall s flags ttf,
    fst (sci_find_text s flags ttf) <> -1 ->
    Z.min (cpMin (chrg ttf)) (cpMax (chrg ttf)) <= fst (sci_find_text s flags ttf)
    /\ cpMin (chrgText (snd (sci_find_text s flags ttf)))
       <= cpMax (chrgText (snd (sci_find_text s flags ttf)));
  (** replacing the target, when it lies in the text, changes the length by
      the difference of the two lengths *)
  sci_target_replace_length : forall s t re,
    0 <= SCI_GETTARGETSTART s <= SCI_GETTARGETEND s ->
    SCI_GETTARGETEND s <= sci_get_length s ->
    0 <= snd (sci_target_replace s t re)
    /\ sci_get_length (fst (sci_target_replace s t re))
       = sci_get_length s + snd (sci_target_replace s t re)
         - (SCI_GETTARGETEND s - SCI_GETTARGETSTART s);
  (** the position after [p], for [p] in the text, is not before [p], and is
      past it unless [p] is the end *)
  sci_position_after_ge : forall s p, p <= sci_get_length s -> p <= SCI_POSITIONAFTER s p;
  sci_position_after_gt : forall s p, p < sci_get_length s -> p < SCI_POSITIONAFTER s p
}.

(** ** An executable text buffer

    A buffer of single-byte characters with a caret, an anchor, a search
    anchor, a target and a linear undo history.  Searching is literal and
    case sensitive, whatever the flags; an empty pattern is never found.
    The read-only flag is kept but edits are not refused. *)

Module TextSci.

Record t := {
  text : string;
  anchor : Z;
  caret : Z;
  search_anchor : Z;
  target_start : Z;
  target_end : Z;
  undo_stack : list string;
  redo_stack : list string;
  savepoint : option nat;
  collect_undo : bool;
  read_only : bool;
  eol_mode : Z
}.

Definition empty : t :=
  {| text := EmptyString; anchor := 0; caret := 0; search_anchor := 0;
     target_start := 0; target_end := 0; undo_stack := []; redo_stack := [];
     savepoint := Some 0%nat; collect_undo := true; read_only := false; eol_mode := 0 |}.

Definition length (s : t) : Z := Z.of_nat (String.length (text s)).

(** [ClampPositionIntoDocument]. *)
Definition clamp (s : t) (p : Z) : Z := Z.max 0 (Z.min p (length s)).

Definition set_selection (c a : Z) (s : t) : t :=
  {| text := text s; anchor := clamp s a; caret := clamp s c;
     search_anchor := search_anchor s; target_start := target_start s;
     target_end := target_end s; undo_stack := undo_stack s; redo_stack := redo_stack s;
     savepoint := savepoint s; collect_undo := collect_undo s; read_only := read_only s;
     eol_mode := eol_mode s |}.

Definition set_search_anchor (p : Z) (s : t) : t :=
  {| text := text s; anchor := anchor s; caret := caret s;
     search_anchor := p; target_start := target_start s;
     target_end := target_end s; undo_stack := undo_stack s; redo_stack := redo_stack s;
     savepoint := savepoint s; collect_undo := collect_undo s; read_only := read_only s;
     eol_mode := eol_mode s |}.

Definition set_target (a b : Z) (s : t) : t :=
  {| text := text s; anchor := anchor s; caret := caret s;
     search_anchor := search_anchor s; target_start := a;
     target_end := b; undo_stack := undo_stack s; redo_stack := redo_stack s;
     savepoint := savepoint s; collect_undo := collect_undo s; read_only := read_only s;
     eol_mode := eol_mode s |}.

Definition set_modes (collect ro : bool) (eol : Z) (s : t) : t :=
  {| text := text s; anchor := anchor s; caret := caret s;
     search_anchor := search_anchor s; target_start := target_start s;
     target_end := target_end s; undo_stack := undo_stack s; redo_stack := redo_stack s;
     savepoint := savepoint s; collect_undo := collect; read_only := ro;
     eol_mode := eol |}.

Definition set_history (txt : string) (u r : list string) (sp : option nat) (s : t) : t :=
  {| text := txt; anchor := anchor s; caret := caret s;
     search_anchor := search_anchor s; target_start := target_start s;
     target_end := target_end s; undo_stack := u; redo_stack := r;
     savepoint := sp; collect_undo := collect_undo s; read_only := read_only s;
     eol_mode := eol_mode s |}.

Definition selection_start (s : t) : Z := Z.min (anchor s) (caret s).
Definition selection_end (s : t) : Z := Z.max (anchor s) (caret s).

Definition char_at (s : t) (p : Z) : ascii :=
  if (0 <=? p) && (p <? length s) then
    match String.get (Z.to_nat p) (text s) with Some c => c | None => NUL end
  else NUL.

(** The start positions of the lines after the one that holds [pos]. *)
Fixpoint line_starts_from (pos : Z) (s : string) : list Z :=
  match s with
  | EmptyString => []
  | String c r =>
    if Ascii.eqb c LF then (pos + 1) :: line_starts_from (pos + 1) r
    else if Ascii.eqb c CR then
      match r with
      | String c2 _ =>
        if Ascii.eqb c2 LF then line_starts_from (pos + 1) r
        else (pos + 1) :: line_starts_from (pos + 1) r
      | EmptyString => [pos + 1]
      end
    else line_starts_from (pos + 1) r
  end.

Definition line_starts (s : t) : list Z := 0 :: line_starts_from 0 (text s).

Definition line_count (s : t) : Z := Z.of_nat (List.length (line_starts s)).

Definition position_from_line (s : t) (line : Z) : Z :=
  if line <? 0 then
    List.last (List.filter (fun p => p <=? selection_start s) (line_starts s)) 0
  else if line =? line_count s then length s
  else List.nth (Z.to_nat line) (line_starts s) (-1).

(** An edit of the text: recorded in the history when undo is collected. *)
Definition edit (txt : string) (s : t) : t :=
  if collect_undo s then
    set_history txt (text s :: undo_stack s) []
      (match savepoint s with
       | Some d => if (d <=? List.length (undo_stack s))%nat then Some d else None
       | None => None
       end) s
  else set_history txt (undo_stack s) (redo_stack s) (savepoint s) s.

Definition set_text (s : t) (txt : string) : t :=
  set_target 0 0 (set_search_anchor 0 (set_selection 0 0 (edit txt s))).

Definition match_at (txt pat : string) (p : nat) : bool :=
  String.eqb (String.substring p (String.length pat) txt) pat.

(** Literal search between [lo] and [hi]: forwards when [lo <= hi],
    backwards otherwise; the match lies between the two. *)
Definition find (s : t) (lo hi : Z) (pat : string) : option CharacterRange :=
  let n := Z.of_nat (String.length pat) in
  let a := clamp s lo in
  let b := clamp s hi in
  let hit (p : option nat) :=
    match p with
    | Some p => Some {| cpMin := Z.of_nat p; cpMax := Z.of_nat p + n |}
    | None => None
    end in
  if n =? 0 then None
  else if a <=? b then
    hit (List.find (match_at (text s) pat) (List.seq (Z.to_nat a) (Z.to_nat (b - n + 1 - a))))
  else
    hit (List.find (match_at (text s) pat)
           (List.rev (List.seq (Z.to_nat b) (Z.to_nat (a - n + 1 - b))))).

Definition find_text (s : t) (ttf : TextToFind) : Z * TextToFind :=
  match find s (cpMin (chrg ttf)) (cpMax (chrg ttf)) (lpstrText ttf) with
  | Some m =>
    (cpMin m, {| chrg := chrg ttf; lpstrText := lpstrText ttf; chrgText := m |})
  | None => (-1, ttf)
  end.

Definition search (s : t) (hi : Z) (pat : string) : t * Z :=
  match find s (search_anchor s) hi pat with
  | Some m => (set_selection (cpMin m) (cpMax m) s, cpMin m)
  | None => (s, -1)
  end.

(** A position after the target [a, b) was replaced by [n] characters. *)
Definition moved (a b n q : Z) : Z :=
  let q1 := if q <=? a then q else if q <=? b then a else q - (b - a) in
  if a <? q1 then q1 + n else q1.

Definition target_replace (s : t) (repl : string) : t * Z :=
  let a := clamp s (target_start s) in
  let b := Z.max a (clamp s (target_end s)) in
  let n := Z.of_nat (String.length repl) in
  let txt :=
    String.append (String.substring 0 (Z.to_nat a) (text s))
      (String.append repl
         (String.substring (Z.to_nat b) (String.length (text s) - Z.to_nat b) (text s))) in
  let s1 := edit txt s in
  (set_target a (a + n)
     (set_selection (moved a b n (caret s)) (moved a b n (anchor s)) s1), n).

Definition undo (s : t) : t :=
  match undo_stack s with
  | [] => s
  | prev :: rest =>
    let s1 := set_history prev rest (text s :: redo_stack s) (savepoint s) s in
    set_selection (caret s) (anchor s) s1
  end.

Definition redo (s : t) : t :=
  match redo_stack s with
  | [] => s
  | next :: rest =>
    let s1 := set_history next (text s :: undo_stack s) rest (savepoint s) s in
    set_selection (caret s) (anchor s) s1
  end.

Definition is_modified (s : t) : bool :=
  match savepoint s with
  | Some d => negb (Nat.eqb d (List.length (undo_stack s)))
  | None => true
  end.

Definition of_text (txt : string) : t :=
  set_history txt [] [] (Some 0%nat) empty.

End TextSci.

#[export] Instance TextSci_ops : ScintillaOps TextSci.t := {
  scintilla_new := TextSci.empty;
  sci_get_length := TextSci.length;
  sci_get_text s len := String.substring 0 (Z.to_nat (len - 1)) (TextSci.text s);
  sci_set_text := TextSci.set_text;
  sci_get_char_at := TextSci.char_at;
  sci_get_line_count := TextSci.line_count;
  sci_get_position_from_line := TextSci.position_from_line;
  sci_get_selection_start := TextSci.selection_start;
  sci_get_selection_end := TextSci.selection_end;
  sci_set_selection_start s p :=
    TextSci.set_selection (Z.max (TextSci.caret s) p) p s;
  sci_set_selection_end s p :=
    TextSci.set_selection p (Z.min (TextSci.anchor s) p) s;
  sci_get_current_position := TextSci.caret;
  sci_set_current_position s p _ := TextSci.set_selection p p s;
  sci_goto_pos s p _ := TextSci.set_selection p p s;
  sci_goto_line s line _ :=
    TextSci.set_selection (TextSci.position_from_line s line)
      (TextSci.position_from_line s line) s;
  sci_set_search_anchor s := TextSci.set_search_anchor (TextSci.selection_start s) s;
  sci_search_next s _ t := TextSci.search s (TextSci.length s) t;
  sci_search_prev s _ t := TextSci.search s 0 t;
  sci_find_text s _ ttf := TextSci.find_text s ttf;
  sci_target_start s p := TextSci.set_target p (TextSci.target_end s) s;
  sci_target_end s p := TextSci.set_target (TextSci.target_start s) p s;
  SCI_GETTARGETSTART := TextSci.target_start;
  SCI_GETTARGETEND := TextSci.target_end;
  sci_target_from_selection s :=
    TextSci.set_target (TextSci.selection_start s) (TextSci.selection_end s) s;
  sci_target_replace s t _ := TextSci.target_replace s t;
  SCI_POSITIONAFTER s p := TextSci.clamp s (p + 1);
  sci_start_undo_action s := s;
  sci_end_undo_action s := s;
  sci_undo := TextSci.undo;
  sci_redo := TextSci.redo;
  sci_is_modified := TextSci.is_modified;
  sci_set_savepoint s :=
    TextSci.set_history (TextSci.text s) (TextSci.undo_stack s) (TextSci.redo_stack s)
      (Some (List.length (TextSci.undo_stack s))) s;
  sci_set_undo_collection s b :=
    TextSci.set_modes b (TextSci.read_only s) (TextSci.eol_mode s) s;
  sci_empty_undo_buffer s := TextSci.set_history (TextSci.text s) [] [] (Some 0%nat) s;
  sci_set_readonly s b :=
    TextSci.set_modes (TextSci.collect_undo s) b (TextSci.eol_mode s) s;
  sci_set_eol_mode s m :=
    TextSci.set_modes (TextSci.collect_undo s) (TextSci.read_only s) m s
}.

(** ** Executable collaborators

    Small instances of the other interfaces, on which the model runs. *)

(** A file system with links one level deep: the real path of a link is
    its target, an existing file is its own real path.  Files named in
    [locked] cannot be opened for writing (EACCES). *)
Module SimpleHost.

Record file := { path : string; mtime : Z; contents : string }.

Record t := {
  files : list file;
  links : list (string * string);
  locked : list string;
  clock : Z
}.

(** The target of the link [p], or [p] itself. *)
Definition resolve (h : t) (p : string) : string :=
  match List.find (fun l => String.eqb (fst l) p) (links h) with
  | Some l => snd l
  | None => p
  end.

Definition lookup (h : t) (p : string) : option file :=
  List.find (fun f => String.eqb (path f) (resolve h p)) (files h).

Definition real_path (h : t) (p : string) : option string :=
  match lookup h p with Some f => Some (path f) | None => None end.

Definition stat (h : t) (p : string) : option (Z * Z) :=
  match lookup h p with
  | Some f => Some (mtime f, Z.of_nat (String.length (contents f)))
  | None => None
  end.

Definition read (h : t) (p : string) : option string :=
  match lookup h p with Some f => Some (contents f) | None => None end.

Definition write (h : t) (p : string) (data : string) (len : Z) : t * Z :=
  let target := resolve h p in
  if List.existsb (String.eqb target) (locked h) then (h, 13)
  else
    ({| files :=
          {| path := target; mtime := clock h;
             contents := String.substring 0 (Z.to_nat len) data |}
          :: List.filter (fun f => negb (String.eqb (path f) target)) (files h);
        links := links h; locked := locked h; clock := clock h |}, 0).

End SimpleHost.

#[export] Instance SimpleHost_ops : HostOps SimpleHost.t := {
  utils_get_locale_from_utf8 f := f;
  utils_get_utf8_from_locale f := f;
  tm_get_real_path := SimpleHost.real_path;
  g_stat := SimpleHost.stat;
  g_file_get_contents := SimpleHost.read;
  host_write := SimpleHost.write;
  host_time := SimpleHost.clock
}.

(** Encodings for ASCII and Latin-1 text: UTF-8 validation accepts ASCII
    only, the detector reads the bytes as ISO-8859-1, and UTF-16LE is
    understood for characters below 128. *)
Module AsciiEncodings.

Definition is_ascii (c : ascii) : bool := (nat_of_ascii c <? 128)%nat.

Fixpoint all_ascii (s : string) : bool :=
  match s with
  | EmptyString => true
  | String c r => is_ascii c && all_ascii r
  end.

Fixpoint first_non_ascii (pos : Z) (s : string) : Z :=
  match s with
  | EmptyString => pos
  | String c r => if is_ascii c then first_non_ascii (pos + 1) r else pos
  end.

Fixpoint latin1_to_utf8 (s : string) : string :=
  match s with
  | EmptyString => EmptyString
  | String c r =>
    if is_ascii c then String c (latin1_to_utf8 r)
    else String (ascii_of_nat (192 + nat_of_ascii c / 64))
           (String (ascii_of_nat (128 + nat_of_ascii c mod 64)) (latin1_to_utf8 r))
  end.

Definition utf16le_bom : string :=
  String (ascii_of_nat 255) (String (ascii_of_nat 254) EmptyString).

(** Pairs of bytes, low byte first; the mark becomes the UTF-8 mark. *)
Fixpoint utf16le_to_utf8 (fuel : nat) (s : string) : option string :=
  match fuel, s with
  | _, EmptyString => Some EmptyString
  | S fuel', String lo (String hi r) =>
    if Ascii.eqb lo (ascii_of_nat 255) && Ascii.eqb hi (ascii_of_nat 254) then
      option_map (String.append utf8_bom) (utf16le_to_utf8 fuel' r)
    else if is_ascii lo && Ascii.eqb hi NUL then
      option_map (String lo) (utf16le_to_utf8 fuel' r)
    else None
  | _, _ => None
  end.

Fixpoint ascii_to_utf16le (s : string) : string :=
  match s with
  | EmptyString => EmptyString
  | String c r => String c (String NUL (ascii_to_utf16le r))
  end.

Definition charset (idx : GeanyEncodingIndex) : string :=
  match idx with
  | GEANY_ENCODING_NONE => "None"
  | GEANY_ENCODING_UTF_8 => "UTF-8"
  | GEANY_ENCODING_UTF_7 => "UTF-7"
  | GEANY_ENCODING_OTHER O => "UTF-16LE"
  | GEANY_ENCODING_OTHER (S _) => "ISO-8859-1"
  end.

Definition scan_unicode_bom (data : string) (size : Z) : GeanyEncodingIndex * Z :=
  if (3 <=? size) && String.prefix utf8_bom data then (GEANY_ENCODING_UTF_8, 3)
  else if (2 <=? size) && String.prefix utf16le_bom data then (GEANY_ENCODING_OTHER 0, 2)
  else (GEANY_ENCODING_NONE, 0).

Definition convert_to_utf8_from_charset (data : string) (size : Z) (cs : string)
  (fast : bool) : option string :=
  let bytes := String.substring 0 (Z.to_nat size) data in
  if String.eqb cs "UTF-16LE" then utf16le_to_utf8 (String.length bytes) bytes
  else if String.eqb cs "ISO-8859-1" then Some (latin1_to_utf8 bytes)
  else None.

Definition convert_to_utf8 (data : string) (size : Z) : option (string * string) :=
  Some (latin1_to_utf8 (String.substring 0 (Z.to_nat size) data), "ISO-8859-1"%string).

Definition is_unicode_charset (cs : option string) : bool :=
  match cs with
  | Some c => String.prefix "UTF" c || String.prefix "UCS" c
  | None => false
  end.

Definition utf8_validate (data : string) (len : Z) : bool :=
  all_ascii (String.substring 0 (Z.to_nat len) data).

Definition convert (data : string) (len : Z) (to_codeset : string) : g_convert_result :=
  let bytes := String.substring 0 (Z.to_nat len) data in
  if negb (all_ascii bytes) then ConvError true (first_non_ascii 0 bytes)
  else if String.eqb to_codeset "ISO-8859-1" then ConvOk bytes len
  else if String.eqb to_codeset "UTF-16LE" then ConvOk (ascii_to_utf16le bytes) (2 * len)
  else ConvError false 0.

End AsciiEncodings.

#[export] Instance AsciiEncodings_ops : EncodingOps := {
  encodings_charset := AsciiEncodings.charset;
  encodings_scan_unicode_bom := AsciiEncodings.scan_unicode_bom;
  encodings_convert_to_utf8_from_charset := AsciiEncodings.convert_to_utf8_from_charset;
  encodings_convert_to_utf8 := AsciiEncodings.convert_to_utf8;
  encodings_is_unicode_charset := AsciiEncodings.is_unicode_charset;
  g_utf8_validate := AsciiEncodings.utf8_validate;
  g_convert := AsciiEncodings.convert
}.

(** The editor helpers on [TextSci]: only the final newline is enforced;
    tabs and trailing spaces are left as they are. *)
Module PlainEditor.

Fixpoint ends_with_newline (s : string) : bool :=
  match s with
  | EmptyString => false
  | String c EmptyString => Ascii.eqb c LF
  | String _ r => ends_with_newline r
  end.

Definition ensure_final_newline (s : TextSci.t) : TextSci.t :=
  if str_is_empty (TextSci.text s) || ends_with_newline (TextSci.text s) then s
  else TextSci.edit (String.append (TextSci.text s) (String LF EmptyString)) s.

Fixpoint has_char (c : ascii) (s : string) : bool :=
  match s with
  | EmptyString => false
  | String d r => Ascii.eqb c d || has_char c r
  end.

(** SC_EOL_CRLF is 0, SC_EOL_CR is 1 and SC_EOL_LF is 2. *)
Definition line_endings (data : string) (len : Z) : Z :=
  let bytes := String.substring 0 (Z.to_nat len) data in
  if has_char CR bytes then (if has_char LF bytes then 0 else 1) else 2.

End PlainEditor.

#[export] Instance PlainEditor_ops : EditorOps TextSci.t := {
  editor_replace_tabs s := s;
  editor_strip_trailing_spaces s := s;
  editor_ensure_final_newline := PlainEditor.ensure_final_newline;
  filetypes_detect_from_file _ _ := None;
  utils_get_line_endings := PlainEditor.line_endings
}.

(** The tabs as the list of the documents they show. *)
Module ListNotebook.

Record t := { pages : list nat; current : Z }.

Fixpoint page_of (idx : nat) (pos : Z) (l : list nat) : Z :=
  match l with
  | [] => -1
  | i :: r => if Nat.eqb i idx then pos else page_of idx (pos + 1) r
  end.

Definition page_document (nb : t) (page : Z) : option nat :=
  if page <? 0 then None else List.nth_error (pages nb) (Z.to_nat page).

Definition show_document (nb : t) (idx : nat) : t :=
  let p := page_of idx 0 (pages nb) in
  if p <? 0 then nb else {| pages := pages nb; current := p |}.

Definition new_tab (nb : t) (idx : nat) : t :=
  {| pages := pages nb ++ [idx];
     current := if current nb <? 0 then 0 else current nb |}.

Definition remove_page (nb : t) (page : Z) : t :=
  if (page <? 0) || (Z.of_nat (List.length (pages nb)) <=? page) then nb
  else
    let rest := List.firstn (Z.to_nat page) (pages nb)
                ++ List.skipn (S (Z.to_nat page)) (pages nb) in
    {| pages := rest;
       current := Z.min (current nb) (Z.of_nat (List.length rest) - 1) |}.

End ListNotebook.

#[export] Instance ListNotebook_ops : NotebookOps ListNotebook.t := {
  gtk_notebook_get_n_pages nb := Z.of_nat (List.length (ListNotebook.pages nb));
  gtk_notebook_get_current_page := ListNotebook.current;
  notebook_page_document := ListNotebook.page_document;
  gtk_notebook_show_document := ListNotebook.show_document;
  notebook_new_tab := ListNotebook.new_tab;
  notebook_remove_page := ListNotebook.remove_page
}.

(** * New documents, copies, saving under a name, opening lists and closing
      everything *)

(** ** More of the editing widget and of utils.c *)

(** The operations of sciwrappers.h that the functions below use besides
    those above.  Modelled from the spec: [editor_get_eol_char_len] of
    editor.c is the length of a line end in the mode of the buffer, and
    [utils_replace_filename] of utils.c edits the buffer only, from the name
    and the file type of the document. *)
Class ScintillaEditOps (Sci : Type) := {
  sci_clear_all : Sci -> Sci;
  sci_convert_eols : Sci -> Z -> Sci;
  sci_set_lines_wrapped : Sci -> bool -> Sci;
  sci_get_line_from_position : Sci -> Z -> Z;
  sci_get_selection_mode : Sci -> Z;
  sci_set_selection_mode : Sci -> Z -> Sci;
  sci_get_lines_selected : Sci -> Z;
  sci_get_pos_at_line_sel_start : Sci -> Z -> Z;
  sci_get_pos_at_line_sel_end : Sci -> Z -> Z;
  sci_get_line_length : Sci -> Z -> Z;
  editor_get_eol_char_len : Sci -> Z;
  utils_replace_filename : option string -> option GeanyFiletype -> Sci -> Sci
}.

(** Modelled from the spec: two constants of Scintilla.h. *)
Definition SC_SEL_RECTANGLE : Z := 1.
Definition INVALID_POSITION : Z := -1.

(** GLib's conversion of a file URI to a file name. *)
Class UriOps := {
  g_filename_from_uri : string -> option string
}.

(** GLib's [g_strsplit] with no limit on the number of pieces: the pieces
    of [s] between the occurrences of [delimiter], none for the empty
    string.  [skip] counts the characters of a delimiter still to pass and
    [piece] is the piece read so far. *)
Fixpoint g_strsplit_from (delimiter : string) (s : string) (skip : nat) (piece : string)
  : list string :=
  match s with
  | EmptyString => [piece]
  | String c r =>
    match skip with
    | S k => g_strsplit_from delimiter r k piece
    | O =>
      if String.prefix delimiter s
      then piece :: g_strsplit_from delimiter r (String.length delimiter - 1) EmptyString
      else g_strsplit_from delimiter r 0 (String.append piece (String c EmptyString))
    end
  end.

Definition g_strsplit (s delimiter : string) : list string :=
  match c_str s with
  | EmptyString => []
  | s' => g_strsplit_from delimiter s' 0 EmptyString
  end.

Definition with_main_status {Sci Nb Host} (v : GeanyStatus.t) (a : App Sci Nb Host)
  : App Sci Nb Host :=
  {| documents_array := documents_array a; notebook := notebook a; host := host a;
     ui := ui a; cl_options := cl_options a; editor_prefs := editor_prefs a;
     file_prefs := file_prefs a; search_prefs := search_prefs a;
     main_status := v; geany_object := geany_object a |}.

(** [main_status.closing_all = b]. *)
Definition with_closing_all (b : bool) (st : GeanyStatus.t) : GeanyStatus.t :=
  {| GeanyStatus.quitting := GeanyStatus.quitting st;
     GeanyStatus.opening_session_files := GeanyStatus.opening_session_files st;
     GeanyStatus.closing_all := b;
     GeanyStatus.main_window_realized := GeanyStatus.main_window_realized st |}.

Section NewDocuments.
Context {Sci : Type} `{ScintillaOps Sci} `{EditorOps Sci} `{ScintillaEditOps Sci}.
Context {Nb : Type} `{NotebookOps Nb}.
Context {Host : Type} `{HostOps Host}.
Context `{EncodingOps} `{UriOps}.

Local Abbreviation app_t := (App Sci Nb Host).

(** [document_new_file]: creates a new document, untitled without
    [filename], with the initial content [text] if there is one.  Gives the
    slot of the new document; [None] stands for the failed assertion and
    for a document without buffer.  The line that it adds to the message
    window is not recorded. *)
Definition document_new_file (app : app_t) (filename : option string)
  (ft : option GeanyFiletype) (text : option string) : option (nat * app_t) :=
  let '(idx, app1) := document_create app filename in
  doc ← documents_array app1 !! idx;
  s ← sci doc;
  let s := sci_set_undo_collection s false in
  let s := match text with
           | Some t => sci_set_text s t
           | None => sci_clear_all s
           end in
  let eol := GeanyFilePrefs.default_eol_character (file_prefs app1) in
  let s := sci_set_eol_mode s eol in
  let s := match text with
           | Some _ => sci_convert_eols s eol
           | None => s
           end in
  let doc := editor_set_use_tabs doc (GeanyEditorPrefs.use_tabs (editor_prefs app1)) in
  let s := sci_set_undo_collection s true in
  let s := sci_empty_undo_buffer s in
  let doc := with_mtime (host_time (host app1)) doc in
  let doc :=
    with_encoding
      (Some (encodings_charset (GeanyFilePrefs.default_new_encoding (file_prefs app1))))
      doc in
  let doc := store_saved_encoding doc in
  let ft := match ft, filename with
            | None, Some _ => filetypes_detect_from_file (file_name doc) s
            | _, _ => ft
            end in
  let doc := document_set_filetype doc ft in
  let doc := document_set_text_changed doc false in
  let s := sci_goto_pos s 0 true in
  let doc := with_sci (Some s) doc in
  let u := if geany_object app1
           then g_signal_emit_by_name "document-new" idx (ui app1)
           else ui app1 in
  Some (idx, store_doc idx doc (with_ui u app1)).

(** [document_new_file_if_non_open]: opens a new empty document only if
    there are no other documents open. *)
Definition document_new_file_if_non_open (app : app_t) : option (option nat * app_t) :=
  if gtk_notebook_get_n_pages (notebook app) =? 0 then
    '(idx, app1) ← document_new_file app None None None;
    Some (Some idx, app1)
  else Some (None, app).

(** [document_clone]: creates a new file and copies the content and the
    properties of the document in the slot [old_doc].  The text and the file
    type are read before the new file is created, the other properties
    after it, from the same slot. *)
Definition document_clone (app : app_t) (old_doc : nat) (utf8_filename : option string)
  : option (nat * app_t) :=
  old ← documents_array app !! old_doc;
  old_sci ← sci old;
  let len := sci_get_length old_sci + 1 in
  let text := sci_get_text old_sci len in
  '(idx, app1) ← document_new_file app utf8_filename (file_type old) (Some text);
  old ← documents_array app1 !! old_doc;
  doc ← documents_array app1 !! idx;
  let doc := with_line_wrapping (line_wrapping old) doc in
  let doc := with_readonly (readonly old) doc in
  let doc := with_has_bom (has_bom old) doc in
  let doc := document_set_encoding doc (encoding old) in
  s ← sci doc;
  let s := sci_set_lines_wrapped s (line_wrapping doc) in
  let s := sci_set_readonly s (readonly doc) in
  Some (idx, store_doc idx (with_sci (Some s) doc) app1).

(** [document_save_file_as]: saves the document, detecting the file type.
    Without a document the result is FALSE; [None] stands for a document
    without buffer. *)
Definition document_save_file_as (prefs : GeanyFilePrefs.t) (status : GeanyStatus.t)
  (geany_obj : bool) (h : Host) (u : Ui) (doc : option (GeanyDocument Sci))
  (utf8_fname : option string) : option (bool * option (GeanyDocument Sci) * Host * Ui) :=
  match doc with
  | None => Some (false, None, h, u)
  | Some doc =>
    let doc := match utf8_fname with
               | Some _ => with_file_name utf8_fname doc
               | None => doc
               end in
    s ← sci doc;
    let doc :=
      if filetype_id_eqb (FILETYPE_ID (file_type doc)) GEANY_FILETYPES_NONE
      then document_set_filetype doc (filetypes_detect_from_file (file_name doc) s)
      else doc in
    let doc :=
      with_sci (Some (utils_replace_filename (file_name doc) (file_type doc) s)) doc in
    '(ret, doc, h, u) ← document_save_file prefs status geany_obj h u doc true;
    let u := if ret : bool then ui_add_recent_file (file_name doc) u else u in
    Some (ret, Some doc, h, u)
  end.

(** [document_open_files]: document_open_file is called for every list
    item. *)
Fixpoint document_open_files (app : app_t) (filenames : list string) (read_only : bool)
  (ft : option GeanyFiletype) (forced_enc : option string) : option app_t :=
  match filenames with
  | [] => Some app
  | item :: rest =>
    '(_, app1) ← document_open_file app (Some item) read_only ft forced_enc;
    document_open_files app1 rest read_only ft forced_enc
  end.

(** The loop of [document_open_file_list] over the pieces of the list. *)
Fixpoint open_file_list_from (app : app_t) (list : list string) : option app_t :=
  match list with
  | [] => Some app
  | uri :: rest =>
    match g_filename_from_uri uri with
    | None => open_file_list_from app rest
    | Some filename =>
      '(_, app1) ← document_open_file app (Some filename) false None None;
      open_file_list_from app1 rest
    end
  end.

(** [document_open_file_list]: takes a new line separated list of filename
    URIs and opens each file; a negative [length] stands for the length of
    the string. *)
Definition document_open_file_list (app : app_t) (data : option string) (length : Z)
  : option app_t :=
  match data with
  | None => Some app
  | Some data =>
    let length := if length <? 0 then strlen data else length in
    let mode := utils_get_line_endings data length in
    let list :=
      if mode =? 1 then g_strsplit data (String CR EmptyString)
      else if mode =? 0 then g_strsplit data (String CR (String LF EmptyString))
      else g_strsplit data (String LF EmptyString) in
    open_file_list_from app list
  end.

(** The first loop of [document_account_for_unsaved], from page [p] on with
    [n] pages to go.  Modelled from the spec: [dialogs_show_unsaved_file]
    of dialogs.c is the confirmation that the user gives or refuses; a save
    that the user runs from it is an operation of its own.  [None] stands
    for a page without document. *)
Fixpoint account_for_unsaved_pages (n : nat) (docs : list (GeanyDocument Sci)) (nb : Nb)
  (p : Z) (u : Ui) : option (bool * Ui) :=
  match n with
  | O => Some (true, u)
  | S n' =>
    idx ← document_get_from_page docs nb p;
    doc ← docs !! idx;
    if changed doc then
      let '(proceed, u1) :=
        dialogs_show_question_full (MsgUnsavedQuestion (file_name doc)) u in
      if proceed then account_for_unsaved_pages n' docs nb (p + 1) u1
      else Some (false, u1)
    else account_for_unsaved_pages n' docs nb (p + 1) u
  end.

(** The second loop of [document_account_for_unsaved] on one slot. *)
Definition ignore_changes (doc : GeanyDocument Sci) : GeanyDocument Sci :=
  if is_valid doc && changed doc then with_changed false doc else doc.

(** [document_account_for_unsaved]: TRUE if all files were saved or had
    their changes discarded. *)
Definition document_account_for_unsaved (app : app_t) : option (bool * app_t) :=
  '(ok, u1) ← account_for_unsaved_pages
                (Z.to_nat (gtk_notebook_get_n_pages (notebook app)))
                (documents_array app) (notebook app) 0 (ui app);
  if ok : bool then
    Some (true,
          with_documents_array (List.map ignore_changes (documents_array app))
            (with_ui u1 app))
  else Some (false, with_ui u1 app).

(** The [while] loop of [force_close_all]; [fuel] bounds the number of
    iterations. *)
Fixpoint force_close_all_loop (fuel : nat) (app : app_t) : option app_t :=
  match fuel with
  | O => None
  | S fuel' =>
    if 0 <? gtk_notebook_get_n_pages (notebook app)
    then force_close_all_loop fuel' (snd (document_remove_page app 0))
    else Some app
  end.

(** [force_close_all]. *)
Definition force_close_all (fuel : nat) (app : app_t) : option app_t :=
  if List.existsb (fun doc => is_valid doc && changed doc) (documents_array app)
  then Some app
  else
    let app := with_main_status (with_closing_all true (main_status app)) app in
    app ← force_close_all_loop fuel app;
    Some (with_main_status (with_closing_all false (main_status app)) app).

(** [document_close_all]. *)
Definition document_close_all (fuel : nat) (app : app_t) : option (bool * app_t) :=
  '(ok, app1) ← document_account_for_unsaved app;
  if negb ok then Some (false, app1)
  else
    app2 ← force_close_all fuel app1;
    Some (true, app2).

(** What the loop of [document_replace_sel] over the lines of a rectangular
    selection keeps: the count, whether something was replaced, and the
    greatest column within the selection after replacing. *)
Record replace_sel_state := {
  sel_count : Z;
  sel_replaced : bool;
  sel_max_column : Z
}.

(** The loop of [document_replace_sel] over [n] lines from [line] on. *)
Fixpoint replace_sel_lines (fuel : nat) (n : nat) (doc : GeanyDocument Sci)
  (find_text replace_text : string) (flags : Z) (line : Z) (st : replace_sel_state)
  : option (replace_sel_state * GeanyDocument Sci) :=
  match n with
  | O => Some (st, doc)
  | S n' =>
    s ← sci doc;
    let line_start := sci_get_pos_at_line_sel_start s line in
    let line_end := sci_get_pos_at_line_sel_end s line in
    if line_start =? INVALID_POSITION
    then replace_sel_lines fuel n' doc find_text replace_text flags (line + 1) st
    else
      '(count, new_sel_end, doc1) ← document_replace_range fuel doc find_text replace_text
                                      flags line_start line_end false;
      s1 ← sci doc1;
      let st1 :=
        if negb (new_sel_end =? -1) then
          {| sel_count := sel_count st + count; sel_replaced := true;
             sel_max_column :=
               Z.max (sel_max_column st)
                 (new_sel_end - sci_get_position_from_line s1 line) |}
        else
          {| sel_count := sel_count st + count; sel_replaced := sel_replaced st;
             sel_max_column := sel_max_column st |} in
      replace_sel_lines fuel n' doc1 find_text replace_text flags (line + 1) st1
  end.

(** [document_replace_sel]. *)
Definition document_replace_sel (fuel : nat) (u : Ui) (doc : GeanyDocument Sci)
  (find_text replace_text : string) (flags : Z) : option (GeanyDocument Sci * Ui) :=
  if str_is_empty find_text then Some (doc, u)
  else
    s ← sci doc;
    let selection_start := sci_get_selection_start s in
    let selection_end := sci_get_selection_end s in
    if selection_end - selection_start =? 0 then Some (doc, utils_beep u)
    else
      let selection_mode := sci_get_selection_mode s in
      let selected_lines := sci_get_lines_selected s in
      let rectangle := (selection_mode =? SC_SEL_RECTANGLE) && (1 <? selected_lines) in
      if rectangle then
        let s := sci_start_undo_action s in
        let first_line := sci_get_line_from_position s selection_start in
        let last_line :=
          sci_get_line_from_position s (selection_end - editor_get_eol_char_len s) in
        let last_line := Z.max first_line last_line in
        '(st, doc1) ← replace_sel_lines fuel (Z.to_nat selected_lines)
                        (with_sci (Some s) doc) find_text replace_text flags first_line
                        {| sel_count := 0; sel_replaced := false; sel_max_column := 0 |};
        s1 ← sci doc1;
        let s1 := sci_end_undo_action s1 in
        let '(s2, u1) :=
          if sel_replaced st then
            if sel_max_column st <=? sci_get_line_length s1 last_line - 1 then
              let s2 := sci_set_selection_start s1 selection_start in
              let s2 :=
                sci_set_selection_end s2
                  (sci_get_position_from_line s2 last_line + sel_max_column st) in
              (sci_set_selection_mode s2 selection_mode, u)
            else (s1, u)
          else (s1, utils_beep u) in
        Some (with_sci (Some s2) doc1,
              show_replace_summary u1 (sel_count st) find_text replace_text)
      else
        '(count, selection_end, doc1) ← document_replace_range fuel doc find_text
                                          replace_text flags selection_start
                                          selection_end true;
        s1 ← sci doc1;
        let '(s2, u1) :=
          if negb (selection_end =? -1) then
            (sci_set_selection_end (sci_set_selection_start s1 selection_start)
               selection_end, u)
          else (s1, utils_beep u) in
        Some (with_sci (Some s2) doc1,
              show_replace_summary u1 count find_text replace_text).

(** The loop of [get_line_column_from_pos] from the byte [i] on, with the
    column so far; [n] bounds the number of iterations.  A character of the
    buffer is negative, as a [gchar], when its code is 128 or more. *)
Fixpoint line_column_loop (sci : Sci) (n : nat) (i line_start column : Z) : Z :=
  match n with
  | O => column
  | S n' =>
    if i <? line_start + column then
      if (128 <=? nat_of_ascii (sci_get_char_at sci i))%nat
      then line_column_loop sci n' (i + 2) line_start (column - 1)
      else line_column_loop sci n' (i + 1) line_start column
    else column
  end.

(** [get_line_column_from_pos]: the line and the column of a byte
    position. *)
Definition get_line_column_from_pos (doc : GeanyDocument Sci) (byte_pos : Z)
  : option (Z * Z) :=
  s ← sci doc;
  let line := sci_get_line_from_position s byte_pos in
  let line_start := sci_get_position_from_line s line in
  let column := byte_pos - line_start in
  Some (line, line_column_loop s (Z.to_nat column) line_start line_start column).

End NewDocuments.

(** ** What the proofs assume of the tab widget *)

Class NotebookLaws (Nb : Type) `{NotebookOps Nb} : Prop := {
  notebook_n_pages_nonneg : forall nb, 0 <= gtk_notebook_get_n_pages nb;
  (** removing a page that exists leaves one page less, and the pages
      behind it move up *)
  notebook_remove_page_n_pages : forall nb p,
    0 <= p < gtk_notebook_get_n_pages nb ->
    gtk_notebook_get_n_pages (notebook_remove_page nb p) = gtk_notebook_get_n_pages nb - 1;
  notebook_remove_page_document : forall nb p q,
    0 <= p < gtk_notebook_get_n_pages nb -> 0 <= q ->
    notebook_page_document (notebook_remove_page nb p) q
    = notebook_page_document nb (if q <? p then q else q + 1)
}.

(** ** What the proofs assume of the text of the widget and of the disk *)

Class ScintillaTextLaws (Sci : Type) `{ScintillaOps Sci} : Prop := {
  (** a text without NUL bytes that is set is the text of the buffer *)
  sci_set_text_text : forall s t, c_str t = t ->
    sci_text (sci_set_text s t) = t /\ sci_get_length (sci_set_text s t) = strlen t;
  (** changing a mode, forgetting the history, setting the save point and
      going to a line leave the text alone *)
  sci_set_undo_collection_text : forall s b, same_text s (sci_set_undo_collection s b);
  sci_empty_undo_buffer_text : forall s, same_text s (sci_empty_undo_buffer s);
  sci_set_readonly_text : forall s b, same_text s (sci_set_readonly s b);
  sci_set_eol_mode_text : forall s m, same_text s (sci_set_eol_mode s m);
  sci_set_savepoint_text : forall s, same_text s (sci_set_savepoint s);
  sci_goto_line_text : forall s line b, same_text s (sci_goto_line s line b)
}.

Class HostLaws (Host : Type) `{HostOps Host} : Prop := {
  (** what was written without error is what is read back, and the size of
      the file is the number of bytes written *)
  host_write_read : forall h p data len,
    0 <= len <= Z.of_nat (String.length data) ->
    snd (host_write h p data len) = 0 ->
    g_file_get_contents (fst (host_write h p data len)) p
    = Some (String.substring 0 (Z.to_nat len) data)
    /\ exists st_mtime, g_stat (fst (host_write h p data len)) p = Some (st_mtime, len)
}.

(** The document in slot [i] is shown in a tab. *)
Definition shown_in_tab {Nb} `{NotebookOps Nb} (nb : Nb) (i : nat) : Prop :=
  exists p, 0 <= p < gtk_notebook_get_n_pages nb /\ notebook_page_document nb p = Some i.

(** The tabs and the registry fit: there are no more tabs than slots, every
    tab shows a valid document of the registry, and no two tabs show the
    same one. *)
Definition tabs_show_documents {Sci Nb} `{NotebookOps Nb}
  (docs : list (GeanyDocument Sci)) (nb : Nb) : Prop :=
  gtk_notebook_get_n_pages nb <= Z.of_nat (length docs)
  /\ (forall p, 0 <= p < gtk_notebook_get_n_pages nb ->
     exists i d, notebook_page_document nb p = Some i
       /\ docs !! i = Some d /\ is_valid d = true)
  /\ (forall p q i,
        0 <= p < gtk_notebook_get_n_pages nb -> 0 <= q < gtk_notebook_get_n_pages nb ->
        notebook_page_document nb p = Some i -> notebook_page_document nb q = Some i ->
        p = q).

(** The bytes of the buffer from [pos] up to [stop] are characters of one
    byte each, or of two where [chars] says so: the first byte of a
    character is negative, as a [gchar], exactly when the character has two
    bytes. *)
Fixpoint two_byte_text {Sci} `{ScintillaOps Sci} (s : Sci) (pos : Z) (chars : list bool)
  (stop : Z) : Prop :=
  match chars with
  | [] => pos = stop
  | wide :: rest =>
    (128 <=? nat_of_ascii (sci_get_char_at s pos))%nat = wide
    /\ two_byte_text s (pos + (if wide then 2 else 1)) rest stop
  end.

(** ** More of the executable buffer *)

Module TextEdit.

(** The text with every line end replaced by [eol]. *)
Fixpoint convert_eols (eol : string) (s : string) : string :=
  match s with
  | EmptyString => EmptyString
  | String c r =>
    if Ascii.eqb c CR then
      match r with
      | String c2 r2 =>
        if Ascii.eqb c2 LF then String.append eol (convert_eols eol r2)
        else String.append eol (convert_eols eol r)
      | EmptyString => eol
      end
    else if Ascii.eqb c LF then String.append eol (convert_eols eol r)
    else String c (convert_eols eol r)
  end.

(** The line end of the mode: SC_EOL_CRLF is 0, SC_EOL_CR is 1 and
    SC_EOL_LF is 2. *)
Definition eol_of (mode : Z) : string :=
  if mode =? 0 then String CR (String LF EmptyString)
  else if mode =? 1 then String CR EmptyString
  else String LF EmptyString.

Definition line_from_position (s : TextSci.t) (p : Z) : Z :=
  Z.of_nat (List.length (List.filter (fun q => q <=? p) (TextSci.line_starts s))) - 1.

Definition eol_char_len (s : TextSci.t) : Z :=
  if TextSci.eol_mode s =? 0 then 2 else 1.

Definition line_length (s : TextSci.t) (line : Z) : Z :=
  TextSci.position_from_line s (line + 1) - TextSci.position_from_line s line.

(** The selection is a stream: on a line that it touches it runs from the
    later of its start and the start of the line to the earlier of its end
    and the end of the line. *)
Definition pos_at_line_sel_start (s : TextSci.t) (line : Z) : Z :=
  let a := Z.max (TextSci.selection_start s) (TextSci.position_from_line s line) in
  let b := Z.min (TextSci.selection_end s) (TextSci.position_from_line s (line + 1)) in
  if a <=? b then a else INVALID_POSITION.

Definition pos_at_line_sel_end (s : TextSci.t) (line : Z) : Z :=
  let a := Z.max (TextSci.selection_start s) (TextSci.position_from_line s line) in
  let b := Z.min (TextSci.selection_end s) (TextSci.position_from_line s (line + 1)) in
  if a <=? b then b else INVALID_POSITION.

End TextEdit.

#[export] Instance TextSci_edit_ops : ScintillaEditOps TextSci.t := {
  sci_clear_all s := TextSci.set_selection 0 0 (TextSci.edit EmptyString s);
  sci_convert_eols s mode :=
    TextSci.edit (TextEdit.convert_eols (TextEdit.eol_of mode) (TextSci.text s)) s;
  sci_set_lines_wrapped s _ := s;
  sci_get_line_from_position := TextEdit.line_from_position;
  sci_get_selection_mode _ := 0;
  sci_set_selection_mode s _ := s;
  sci_get_lines_selected s :=
    TextEdit.line_from_position s (TextSci.selection_end s)
    - TextEdit.line_from_position s (TextSci.selection_start s) + 1;
  sci_get_pos_at_line_sel_start := TextEdit.pos_at_line_sel_start;
  sci_get_pos_at_line_sel_end := TextEdit.pos_at_line_sel_end;
  sci_get_line_length := TextEdit.line_length;
  editor_get_eol_char_len := TextEdit.eol_char_len;
  utils_replace_filename _ _ s := s
}.

(** File URIs without escapes: the name follows the scheme. *)
#[export] Instance PlainUris : UriOps := {
  g_filename_from_uri uri :=
    if String.prefix "file://" uri
    then Some (String.substring 7 (String.length uri - 7) uri)
    else None
}.

(** * Notions used by the statements *)

Section Notions.
Context {Sci : Type} `{ScintillaOps Sci}.

(** The composite changed flag of the data model: the buffer's own modified
    flag, or a BOM or charset that differs from the saved snapshot. *)
Definition composite_changed (doc : GeanyDocument Sci) : option bool :=
  s ← sci doc;
  Some (sci_is_modified s
        || negb (Bool.eqb (has_bom doc) (fe_has_bom (saved_encoding doc)))
        || negb (utils_str_equal (encoding doc) (fe_encoding (saved_encoding doc)))).

(** Lines of the buffer by their first characters. *)
Definition line_starts_with_tab (s : Sci) (line : Z) : bool :=
  Ascii.eqb (sci_get_char_at s (sci_get_position_from_line s line)) TAB.

Definition line_starts_with_two_spaces (s : Sci) (line : Z) : bool :=
  Ascii.eqb (sci_get_char_at s (sci_get_position_from_line s line)) SPACE
  && Ascii.eqb (sci_get_char_at s (sci_get_position_from_line s line + 1)) SPACE.

(** The number of lines among [first], ..., [first + n - 1] that satisfy [p]. *)
Fixpoint count_lines (p : Z -> bool) (first : Z) (n : nat) : Z :=
  match n with
  | O => 0
  | S n' => (if p first then 1 else 0) + count_lines p (first + 1) n'
  end.

(** The 2:1 rule: keep the default unless the other kind of line is more
    than twice as frequent. *)
Definition indentation_choice (default_tabs : bool) (tabs spaces : Z) : bool :=
  if (spaces =? 0) && (tabs =? 0) then default_tabs
  else if default_tabs then negb (2 * tabs <? spaces)
  else 2 * spaces <? tabs.

(** The anchor of the search bar find. *)
Definition search_bar_anchor (s : Sci) (inc : bool) : Z :=
  if inc then sci_get_selection_start s else sci_get_selection_end s.

(** The search bar find as the specification words it: forward from the
    anchor to the end of the buffer and, on a miss, from the start of the
    buffer up to the anchor. *)
Definition search_bar_find_to_anchor (s : Sci) (text : string) (flags : Z) (inc : bool)
  : Z * TextToFind :=
  let a := search_bar_anchor s inc in
  let first :=
    sci_find_text s flags
      {| chrg := {| cpMin := a; cpMax := sci_get_length s |};
         lpstrText := text; chrgText := no_range |} in
  if fst first =? -1 then sci_find_text s flags (ttf_set_range 0 a (snd first))
  else first.

(** The same with the second range ending one pattern length after the
    anchor. *)
Definition search_bar_find_past_anchor (s : Sci) (text : string) (flags : Z) (inc : bool)
  : Z * TextToFind :=
  let a := search_bar_anchor s inc in
  let first :=
    sci_find_text s flags
      {| chrg := {| cpMin := a; cpMax := sci_get_length s |};
         lpstrText := text; chrgText := no_range |} in
  if fst first =? -1
  then sci_find_text s flags (ttf_set_range 0 (a + strlen text) (snd first))
  else first.

(** The search bar find reports a match exactly when [locate] has one. *)
Definition search_bar_find_reports
  (locate : Sci -> string -> Z -> bool -> Z * TextToFind)
  (u : Ui) (doc : GeanyDocument Sci) (text : string) (flags : Z) (inc : bool) : Prop :=
  forall s, sci doc = Some s -> text <> EmptyString ->
    exists doc' u',
      document_search_bar_find u doc text flags inc
      = Some (negb (fst (locate s text flags inc) =? -1), doc', u').

(** The direction document_find_text really searches in: a regular
    expression is never searched backwards. *)
Definition find_direction (flags : Z) (search_backwards : bool) : bool :=
  if flag_set flags SCFIND_REGEXP then false else search_backwards.

(** One search of document_find_text in the direction [backwards]: the
    caret leaves a selection by its far edge, the search anchor is set and
    the widget searches from there.  Gives the buffer and the position. *)
Definition find_text_search (s : Sci) (text : string) (flags : Z) (backwards : bool)
  : Sci * Z :=
  let selection_start := sci_get_selection_start s in
  let selection_end := sci_get_selection_end s in
  let s :=
    if 0 <? selection_end - selection_start then
      if backwards then sci_goto_pos s selection_start true
      else sci_goto_pos s selection_end true
    else s in
  let s := sci_set_search_anchor s in
  if backwards then sci_search_prev s flags text else sci_search_next s flags text.

(** The test of document_find_text for having searched the whole text. *)
Definition searched_whole_text (s : Sci) (backwards : bool) : bool :=
  ((sci_get_selection_end s =? 0) && negb backwards)
  || ((sci_get_selection_end s =? sci_get_length s) && backwards).

(** The part of the text that one search of document_find_text covers: the
    caret leaves a selection by its far edge and the search runs from there
    to the end of the buffer, or down to its start when searching
    backwards. *)
Definition searched_sub_range (s : Sci) (backwards : bool) : Z * Z :=
  if backwards then (0, sci_get_selection_start s)
  else (sci_get_selection_end s, sci_get_length s).

(** The miss after which the specification gives up at once: the searched
    sub-range was the entire buffer. *)
Definition searched_entire_buffer (s : Sci) (backwards : bool) : bool :=
  (fst (searched_sub_range s backwards) =? 0)
  && (snd (searched_sub_range s backwards) =? sci_get_length s).

(** The buffer edge from which a wrapped search starts. *)
Definition wrap_edge (s : Sci) (backwards : bool) : Z :=
  if backwards then sci_get_length s else 0.

(** What document_find_text does after its search missed and the whole text
    had not been searched: the question, and the search from the edge. *)
Definition find_text_wrap (n : nat) (prefs : GeanySearchPrefs.t) (u : Ui)
  (doc : GeanyDocument Sci) (s s1 : Sci) (text : string) (flags : Z) (b scroll : bool)
  : option (Z * GeanyDocument Sci * Ui) :=
  let '(wrap, u1) :=
    if GeanySearchPrefs.suppress_dialogs prefs then (true, u)
    else dialogs_show_question_full (MsgWrapSearch text) u in
  if wrap then
    '(ret, doc1, u2) ← document_find_text n prefs u1
                         (with_sci (Some (sci_set_current_position s1 (wrap_edge s1 b) false))
                            doc) text flags b scroll;
    if ret =? -1 then
      s2 ← sci doc1;
      Some (ret,
            with_sci (Some (sci_set_current_position s2 (sci_get_selection_start s) false))
              doc1, u2)
    else Some (ret, doc1, u2)
  else Some (-1, with_sci (Some s1) doc, u1).

(** A miss of document_find_text as the specification words it: after a
    search of the entire buffer it gives up at once, without a question;
    after a search of a part of it the wrap is put to the user, unless the
    dialogs are suppressed, and decides whether the one search from the
    opposite edge gives the result. *)
Definition find_text_miss_as_specified (fuel : nat) (prefs : GeanySearchPrefs.t) (u : Ui)
  (doc : GeanyDocument Sci) (text : string) (flags : Z) (search_backwards scroll : bool)
  : Prop :=
  forall s r doc' u',
    sci doc = Some s ->
    let b := find_direction flags search_backwards in
    let first := find_text_search s text flags b in
    let edge := sci_set_current_position (fst first) (wrap_edge (fst first) b) false in
    snd first = -1 ->
    document_find_text fuel prefs u doc text flags search_backwards scroll
    = Some (r, doc', u') ->
    if searched_entire_buffer s b
    then r = -1 /\ ui_asked u' = ui_asked u
    else if GeanySearchPrefs.suppress_dialogs prefs
         then ui_asked u' = ui_asked u
              /\ r = snd (find_text_search edge text flags b)
         else ui_asked u' = S (ui_asked u)
              /\ r = (if ui_answers u (ui_asked u)
                      then snd (find_text_search edge text flags b) else -1).

(** The three reasons for which the loop of document_replace_range stops
    without replacing: no match, a match of length zero with an empty
    replacement, a match that extends past the end of the range. *)
Definition replace_stops (flags : Z) (replace_text : string) (st : replace_state) : Prop :=
  let found := sci_find_text (rs_sci st) flags (rs_ttf st) in
  let find_len := cpMax (chrgText (snd found)) - cpMin (chrgText (snd found)) in
  fst found = -1
  \/ (find_len = 0 /\ replace_text = EmptyString)
  \/ rs_end st < fst found + find_len.

(** The window of the loop lies in the text and ends at the range end. *)
Definition replace_window_ok (st : replace_state) : Prop :=
  0 <= cpMin (chrg (rs_ttf st))
  /\ rs_end st <= sci_get_length (rs_sci st)
  /\ cpMax (chrg (rs_ttf st)) = rs_end st.

(** The selection of the buffer of a document. *)
Definition doc_selection (doc : GeanyDocument Sci) : option (Z * Z) :=
  s ← sci doc;
  Some (sci_get_selection_start s, sci_get_selection_end s).

Definition doc_text (doc : GeanyDocument Sci) : option string :=
  s ← sci doc;
  Some (sci_text s).

(** The document handed to document_find_text by document_replace_text when
    there is a selection: the caret is moved to the near edge of it. *)
Definition replace_text_anchored (doc : GeanyDocument Sci) (s : Sci) (flags : Z)
  (search_backwards : bool) : GeanyDocument Sci :=
  let search_backwards :=
    if flag_set flags SCFIND_REGEXP then false else search_backwards in
  with_sci
    (Some (if search_backwards then sci_goto_pos s (sci_get_selection_end s) true
           else sci_goto_pos s (sci_get_selection_start s) true)) doc.

(** The interactive replace as the specification words it: with a
    selection, a replacement is made only when the match that the find
    selects is exactly the selection there was. *)
Definition replaces_only_exact_selection (fuel : nat) (prefs : GeanySearchPrefs.t)
  (u : Ui) (doc : GeanyDocument Sci) (find_text replace_text : string) (flags : Z)
  (search_backwards : bool) : Prop :=
  forall s r doc' u',
    sci doc = Some s ->
    sci_get_selection_start s <> sci_get_selection_end s ->
    document_replace_text fuel prefs u doc find_text replace_text flags search_backwards
    = Some (r, doc', u') ->
    r <> -1 ->
    exists pos doc1 u1,
      document_find_text fuel prefs u (replace_text_anchored doc s flags search_backwards)
        find_text flags (if flag_set flags SCFIND_REGEXP then false else search_backwards)
        true = Some (pos, doc1, u1)
      /\ doc_selection doc1
         = Some (sci_get_selection_start s, sci_get_selection_end s).

(** The registry invariant: at most one valid document per real path. *)
Definition unique_real_paths (docs : list (GeanyDocument Sci)) : Prop :=
  forall i j di dj rp,
    docs !! i = Some di -> docs !! j = Some dj ->
    is_valid di = true -> is_valid dj = true ->
    real_path di = Some rp -> real_path dj = Some rp -> i = j.

(** A valid document has a buffer. *)
Definition valid_have_buffers (docs : list (GeanyDocument Sci)) : Prop :=
  forall i d, docs !! i = Some d -> is_valid d = true -> is_Some (sci d).

(** The slots keep their validity, display path and real path, and a
    document that had a buffer still has one. *)
Definition same_slots (docs docs' : list (GeanyDocument Sci)) : Prop :=
  length docs' = length docs
  /\ forall i d, docs !! i = Some d ->
       exists d', docs' !! i = Some d'
         /\ is_valid d' = is_valid d
         /\ file_name d' = file_name d
         /\ real_path d' = real_path d
         /\ (is_Some (sci d) -> is_Some (sci d')).

(** Every valid document of [docs'] was valid in [docs], in the same slot
    and with the same display path and real path, and has a buffer if it had
    one. *)
Definition slots_from (docs docs' : list (GeanyDocument Sci)) : Prop :=
  forall i d', docs' !! i = Some d' -> is_valid d' = true ->
    exists d, docs !! i = Some d /\ is_valid d = true
      /\ file_name d' = file_name d /\ real_path d' = real_path d
      /\ (is_Some (sci d) -> is_Some (sci d')).

End Notions.

(** A file is already open when a valid document has its display path, or
    has the real path that the display path resolves to. *)
Definition already_open {Sci Host} `{HostOps Host} (docs : list (GeanyDocument Sci))
  (h : Host) (utf8_filename : string) (i : nat) : Prop :=
  exists d, docs !! i = Some d /\ is_valid d = true
    /\ (file_name d = Some utf8_filename
        \/ exists rp, real_path d = Some rp
             /\ get_real_path_from_utf8 h utf8_filename = Some rp).

(** Steps 3 and 4 of the encoding detection, for data on which no BOM is
    recorded: the bytes are validated as UTF-8 and otherwise handed to the
    charset detector.  [None] is the hard error. *)
Definition detect_without_bom `{EncodingOps} (fd : FileData.t) : option FileData.t :=
  if g_utf8_validate (FileData.data fd) (FileData.len fd)
  then Some (FileData.with_enc (Some UTF_8) false fd)
  else
    match encodings_convert_to_utf8 (FileData.data fd) (FileData.size fd) with
    | Some (converted_text, detected) =>
      Some (FileData.with_text converted_text (FileData.with_enc (Some detected) false fd))
    | None => None
    end.

(** The outcome of the encoding step of document_save_file on the data
    taken from the buffer: the bytes to write with their number, or [None]
    when the conversion to the charset of the document fails. *)
Definition save_encoded {Sci} `{EncodingOps} (doc : GeanyDocument Sci) (data : string * Z)
  : option (string * Z) :=
  if save_needs_conversion doc then
    match encoding doc with
    | Some e =>
      match g_convert (fst data) (snd data - 1) e with
      | ConvOk conv_file_contents conv_len => Some (conv_file_contents, conv_len)
      | ConvError _ _ => None
      end
    | None => None
    end
  else Some (fst data, strlen (fst data)).

(** * Sample inputs *)

Module Samples.

Definition quiet_ui : Ui :=
  {| ui_log := []; ui_answers := fun _ => true; ui_asked := 0 |}.

Definition ask_before_wrap : GeanySearchPrefs.t :=
  {| GeanySearchPrefs.suppress_dialogs := false |}.

Definition editor_defaults (tabs : bool) : GeanyEditorPrefs.t :=
  {| GeanyEditorPrefs.line_wrapping := false; GeanyEditorPrefs.use_tabs := tabs;
     GeanyEditorPrefs.indent_mode := INDENT_BASIC;
     GeanyEditorPrefs.detect_tab_mode := true |}.

Definition file_defaults : GeanyFilePrefs.t :=
  {| GeanyFilePrefs.default_new_encoding := GEANY_ENCODING_UTF_8;
     GeanyFilePrefs.default_open_encoding := None;
     GeanyFilePrefs.default_eol_character := 2;
     GeanyFilePrefs.final_new_line := true;
     GeanyFilePrefs.strip_trailing_spaces := false;
     GeanyFilePrefs.replace_tabs := false;
     GeanyFilePrefs.disk_check_timeout := 30 |}.

Definition running : GeanyStatus.t :=
  {| GeanyStatus.quitting := false; GeanyStatus.opening_session_files := false;
     GeanyStatus.closing_all := false; GeanyStatus.main_window_realized := true |}.

Definition no_goto : CommandLineOptions.t :=
  {| CommandLineOptions.goto_line := -1; CommandLineOptions.goto_column := -1 |}.

(** A valid, unchanged UTF-8 document on the buffer [s]. *)
Definition doc_on (s : TextSci.t) : GeanyDocument TextSci.t :=
  {| is_valid := true; index := 0%nat; has_tags := false; file_name := Some "/tmp/a.txt"%string;
     encoding := Some UTF_8; has_bom := false; file_type := None; sci := Some s;
     readonly := false; changed := false; last_check := 0; mtime := 0;
     use_tabs := false; line_wrapping := false; auto_indent := true;
     line_breaking := false; scroll_percent := -100; real_path := Some "/tmp/a.txt"%string;
     saved_encoding := {| fe_encoding := Some UTF_8; fe_has_bom := false |};
     undo_actions := []; redo_actions := [] |}.

(** The text [txt] with the selection from [a] to [b]. *)
Definition buffer (txt : string) (a b : Z) : TextSci.t :=
  TextSci.set_selection b a (TextSci.of_text txt).

Definition text_of (r : option (GeanyDocument TextSci.t)) : option string :=
  d ← r; s ← sci d; Some (TextSci.text s).

Definition join_lines (ls : list string) : string :=
  String.concat (String LF EmptyString) ls.

(** A buffer of [tabs] lines indented with a tab followed by [spaces] lines
    indented with two spaces. *)
Definition indented_buffer (tabs spaces : nat) : TextSci.t :=
  TextSci.of_text
    (join_lines (List.repeat (String TAB "x") tabs ++ List.repeat "  y"%string spaces)).

(** A disk that holds the file of [doc_on], which cannot be written when
    [locked], a second file, and a link to the first. *)
Definition disk (locked : bool) : SimpleHost.t :=
  {| SimpleHost.files :=
       [{| SimpleHost.path := "/tmp/a.txt"; SimpleHost.mtime := 0;
           SimpleHost.contents := "abc" |};
        {| SimpleHost.path := "/tmp/b.txt"; SimpleHost.mtime := 0;
           SimpleHost.contents := "xyz" |}];
     SimpleHost.links := [("/tmp/link.txt"%string, "/tmp/a.txt"%string)];
     SimpleHost.locked := if locked then ["/tmp/a.txt"%string] else [];
     SimpleHost.clock := 100 |}.

(** The editor with the file of [doc_on] open in its only tab. *)
Definition session : App TextSci.t ListNotebook.t SimpleHost.t :=
  {| documents_array := [doc_on (buffer "abc" 0 0)];
     notebook := {| ListNotebook.pages := [0%nat]; ListNotebook.current := 0 |};
     host := disk false;
     ui := quiet_ui;
     cl_options := no_goto;
     editor_prefs := editor_defaults false;
     file_prefs := file_defaults;
     search_prefs := ask_before_wrap;
     main_status := running;
     geany_object := true |}.

(** What a call of document_open_file leaves: the document returned and,
    slot by slot, whether the document is valid, its display path and its
    real path. *)
Definition opened (r : option (option nat * App TextSci.t ListNotebook.t SimpleHost.t))
  : option (option nat * list (bool * option string * option string)) :=
  '(k, app) ← r;
  Some (k, List.map (fun d => (is_valid d, file_name d, real_path d)) (documents_array app)).

(** File data as load_text_file hands it to the detection. *)
Definition raw_file (bytes : string) : FileData.t :=
  {| FileData.data := bytes; FileData.size := Z.of_nat (String.length bytes);
     FileData.len := strlen bytes; FileData.enc := None; FileData.bom := false;
     FileData.mtime := 0; FileData.readonly := false |}.

End Samples.

(** * Verified properties *)

(** Closed goals on sample inputs are settled by evaluation. *)
Ltac by_evaluation :=
  vm_compute; first [reflexivity | discriminate | intros Hcontra; discriminate Hcontra].

(** ** The replace engine refuses read-only documents and empty patterns *)

Section ReplaceRangeGuard.
Context {Sci : Type} `{ScintillaOps Sci}.

(** C10: for a document whose readonly flag is set, and for an empty find
    pattern, document_replace_range makes no replacement: the count is 0,
    the range end is reported as -1 and the document, with its buffer, is
    returned as it was, whatever the number of loop iterations allowed. *)
Theorem document_replace_range_guard :
  forall (fuel : nat) (doc : GeanyDocument Sci) (find_text replace_text : string)
         (flags start end_ : Z) (scroll_to_match : bool),
    readonly doc = true \/ find_text = EmptyString ->
    document_replace_range fuel doc find_text replace_text flags start end_ scroll_to_match
    = Some (0, -1, doc).
Proof.
  intros fuel doc find_text replace_text flags start end_ scroll [Hro | Hempty];
    unfold document_replace_range.
  - rewrite Hro, orb_true_r. reflexivity.
  - subst find_text. reflexivity.
Qed.

End ReplaceRangeGuard.

Lemma document_replace_range_guard_witness :
  readonly (with_readonly true (Samples.doc_on (Samples.buffer "aaa" 0 0))) = true
  /\ document_replace_range 0 (with_readonly true (Samples.doc_on (Samples.buffer "aaa" 0 0)))
       "a" "b" SCFIND_MATCHCASE 0 3 true
     = Some (0, -1, with_readonly true (Samples.doc_on (Samples.buffer "aaa" 0 0))).
Proof.
  split; [reflexivity |].
  apply (document_replace_range_guard 0
           (with_readonly true (Samples.doc_on (Samples.buffer "aaa" 0 0)))).
  left. reflexivity.
Defined.

(** ** The changed flag after undo and redo *)

Section LedgerProperties.
Context {Sci : Type} `{ScintillaOps Sci}.

Lemma update_changed_state_spec (doc : GeanyDocument Sci) (s : Sci) :
  sci doc = Some s ->
  exists doc', update_changed_state doc = Some doc'
    /\ composite_changed doc' = Some (changed doc')
    /\ sci doc' = sci doc /\ has_bom doc' = has_bom doc /\ encoding doc' = encoding doc
    /\ saved_encoding doc' = saved_encoding doc
    /\ undo_actions doc' = undo_actions doc /\ redo_actions doc' = redo_actions doc.
Proof.
  intros Hs. unfold update_changed_state, composite_changed. rewrite Hs. simpl.
  eexists. split; [reflexivity |]. simpl. rewrite Hs. simpl. repeat split.
Qed.

(** C8: after document_undo and after document_redo, whichever branch ran
    (empty ledger with the buffer's own undo, buffer edit, BOM toggle,
    encoding change, or an unknown action type), the changed flag of the
    resulting document equals: buffer modified, or BOM different from the
    saved BOM, or charset different from the saved charset, all taken on
    the resulting document. *)
Theorem document_undo_redo_changed_flag :
  forall (doc : GeanyDocument Sci) (s : Sci),
    sci doc = Some s ->
    (exists doc', document_undo doc = Some doc'
       /\ composite_changed doc' = Some (changed doc'))
    /\ (exists doc', document_redo doc = Some doc'
          /\ composite_changed doc' = Some (changed doc')).
Proof.
  intros doc s Hs. split.
  - unfold document_undo. rewrite Hs. simpl.
    match goal with |- exists d, update_changed_state ?x = _ /\ _ =>
      assert (Hx : exists s', sci x = Some s') end.
    { destruct (undo_actions doc) as [| [ | e | b | ] rest]; simpl; eauto.
      unfold document_set_encoding. destruct e; simpl; eauto.
      match goal with |- context [if ?c then _ else _] => destruct c end; simpl; eauto. }
    destruct Hx as [s' Hs'].
    destruct (update_changed_state_spec _ _ Hs') as (d' & Hd' & Hc & _).
    exists d'. split; assumption.
  - unfold document_redo. rewrite Hs. simpl.
    match goal with |- exists d, update_changed_state ?x = _ /\ _ =>
      assert (Hx : exists s', sci x = Some s') end.
    { destruct (redo_actions doc) as [| [ | e | b | ] rest]; simpl; eauto.
      unfold document_set_encoding. destruct e; simpl; eauto.
      match goal with |- context [if ?c then _ else _] => destruct c end; simpl; eauto. }
    destruct Hx as [s' Hs'].
    destruct (update_changed_state_spec _ _ Hs') as (d' & Hd' & Hc & _).
    exists d'. split; assumption.
Qed.

End LedgerProperties.

Lemma document_undo_redo_changed_flag_witness :
  let d := with_undo_actions [UNDO_BOM false]
             (with_has_bom true (with_changed true (Samples.doc_on (Samples.buffer "abc" 0 0)))) in
  sci d = Some (Samples.buffer "abc" 0 0)
  /\ ((exists doc', document_undo d = Some doc'
         /\ composite_changed doc' = Some (changed doc'))
      /\ (exists doc', document_redo d = Some doc'
            /\ composite_changed doc' = Some (changed doc'))).
Proof.
  simpl. split; [reflexivity |].
  apply (document_undo_redo_changed_flag _ (Samples.buffer "abc" 0 0)). reflexivity.
Defined.

(** Undoing a BOM toggle on an otherwise unmodified document clears the
    flag, and redoing it sets the flag again. *)
Example undo_bom_toggle_clears_changed :
  let d := with_undo_actions [UNDO_BOM false]
             (with_has_bom true (with_changed true (Samples.doc_on (Samples.buffer "abc" 0 0)))) in
  option_map (fun d' => (changed d', has_bom d', redo_actions d')) (document_undo d)
  = Some (false, false, [UNDO_BOM true])
  /\ option_map (fun d' => (changed d', has_bom d'))
       (d' ← document_undo d; document_redo d')
     = Some (true, true).
Proof. split; reflexivity. Qed.

(** ** Indentation detection *)

Section IndentationProperties.
Context {Sci : Type} `{ScintillaOps Sci}.

Lemma count_lines_bounds (p : Z -> bool) (n : nat) (first : Z) :
  0 <= count_lines p first n <= Z.of_nat n.
Proof.
  revert first. induction n as [| n IH]; intros first; simpl count_lines.
  - lia.
  - specialize (IH (first + 1)). destruct (p first); lia.
Qed.

Lemma gsize_wrap_small (n : Z) : 0 <= n < 2 ^ 64 -> gsize_wrap n = n.
Proof. intros Hn. unfold gsize_wrap. apply Z.mod_small. exact Hn. Qed.

Lemma tab_is_not_space (c : ascii) : Ascii.eqb c TAB = true -> Ascii.eqb c SPACE = false.
Proof.
  intros Ht. apply Ascii.eqb_eq in Ht. subst c. reflexivity.
Qed.

(** The loop counts the two kinds of lines, as long as the counters cannot
    wrap. *)
Lemma detect_use_tabs_loop_counts (s : Sci) (n : nat) :
  forall line tabs spaces,
    0 <= tabs -> 0 <= spaces ->
    tabs + Z.of_nat n < 2 ^ 64 -> spaces + Z.of_nat n < 2 ^ 64 ->
    detect_use_tabs_loop s n line (tabs, spaces)
    = (tabs + count_lines (line_starts_with_tab s) line n,
       spaces + count_lines (line_starts_with_two_spaces s) line n).
Proof.
  induction n as [| n IH]; intros line tabs spaces Ht Hs Htn Hsn.
  - simpl. f_equal; lia.
  - cbn [detect_use_tabs_loop count_lines].
    assert (Hline : detect_use_tabs_line s line (tabs, spaces)
                    = (if line_starts_with_tab s line then gsize_wrap (tabs + 1) else tabs,
                       if line_starts_with_two_spaces s line
                       then gsize_wrap (spaces + 1) else spaces)).
    { unfold detect_use_tabs_line, line_starts_with_tab, line_starts_with_two_spaces.
      destruct (Ascii.eqb (sci_get_char_at s (sci_get_position_from_line s line)) TAB)
        eqn:Etab.
      - rewrite (tab_is_not_space _ Etab). reflexivity.
      - destruct (Ascii.eqb (sci_get_char_at s (sci_get_position_from_line s line)) SPACE);
          [| reflexivity].
        destruct (Ascii.eqb (sci_get_char_at s (sci_get_position_from_line s line + 1))
                    SPACE); reflexivity. }
    rewrite Hline.
    destruct (line_starts_with_tab s line), (line_starts_with_two_spaces s line);
      rewrite ?gsize_wrap_small by lia; rewrite IH by lia; f_equal; lia.
Qed.

Lemma detect_use_tabs_choice (prefs : GeanyEditorPrefs.t) (s : Sci) :
  sci_get_line_count s < 2 ^ 31 ->
  detect_use_tabs prefs s
  = indentation_choice (GeanyEditorPrefs.use_tabs prefs)
      (count_lines (line_starts_with_tab s) 0 (Z.to_nat (sci_get_line_count s)))
      (count_lines (line_starts_with_two_spaces s) 0 (Z.to_nat (sci_get_line_count s))).
Proof.
  intros Hcount. unfold detect_use_tabs.
  set (n := Z.to_nat (sci_get_line_count s)).
  assert (Hn : Z.of_nat n < 2 ^ 31) by (unfold n; lia).
  rewrite detect_use_tabs_loop_counts by lia.
  pose proof (count_lines_bounds (line_starts_with_tab s) n 0) as Ht.
  pose proof (count_lines_bounds (line_starts_with_two_spaces s) n 0) as Hs.
  rewrite !Z.add_0_l. unfold indentation_choice.
  rewrite !gsize_wrap_small by lia.
  rewrite (Z.mul_comm _ 2), (Z.mul_comm _ 2). reflexivity.
Qed.

(** C7: detect_use_tabs counts, over every line of the buffer, the lines
    whose first character is a tab and the lines that start with two
    spaces.  If both counts are zero the configured default is returned.
    Otherwise, with default tabs the answer is spaces exactly when
    spaces > 2 * tabs, and with default spaces the answer is tabs exactly
    when tabs > 2 * spaces.  The line count is a gint. *)
Theorem detect_use_tabs_hysteresis :
  forall (prefs : GeanyEditorPrefs.t) (s : Sci),
    sci_get_line_count s < 2 ^ 31 ->
    let lines := Z.to_nat (sci_get_line_count s) in
    let tabs := count_lines (line_starts_with_tab s) 0 lines in
    let spaces := count_lines (line_starts_with_two_spaces s) 0 lines in
    (tabs = 0 /\ spaces = 0 ->
     detect_use_tabs prefs s = GeanyEditorPrefs.use_tabs prefs)
    /\ (~ (tabs = 0 /\ spaces = 0) ->
        GeanyEditorPrefs.use_tabs prefs = true ->
        (detect_use_tabs prefs s = false <-> spaces > 2 * tabs))
    /\ (~ (tabs = 0 /\ spaces = 0) ->
        GeanyEditorPrefs.use_tabs prefs = false ->
        (detect_use_tabs prefs s = true <-> tabs > 2 * spaces)).
Proof.
  intros prefs s Hcount lines tabs spaces.
  rewrite (detect_use_tabs_choice prefs s Hcount).
  fold lines. fold tabs. fold spaces. unfold indentation_choice.
  split; [| split].
  - intros [Ht Hs]. rewrite Ht, Hs. reflexivity.
  - intros Hnz Hdef. rewrite Hdef.
    destruct ((spaces =? 0) && (tabs =? 0)) eqn:Ezero.
    + apply andb_true_iff in Ezero. lia.
    + destruct (2 * tabs <? spaces) eqn:E; simpl; split; intros; try lia;
        try reflexivity; try discriminate.
  - intros Hnz Hdef. rewrite Hdef.
    destruct ((spaces =? 0) && (tabs =? 0)) eqn:Ezero.
    + apply andb_true_iff in Ezero. lia.
    + destruct (2 * spaces <? tabs) eqn:E; simpl; split; intros; try lia;
        try reflexivity; try discriminate.
Qed.

End IndentationProperties.

Lemma detect_use_tabs_hysteresis_witness :
  let s := Samples.indented_buffer 8 2 in
  sci_get_line_count s < 2 ^ 31
  /\ (let lines := Z.to_nat (sci_get_line_count s) in
      let tabs := count_lines (line_starts_with_tab s) 0 lines in
      let spaces := count_lines (line_starts_with_two_spaces s) 0 lines in
      (tabs = 0 /\ spaces = 0 ->
       detect_use_tabs (Samples.editor_defaults false) s
       = GeanyEditorPrefs.use_tabs (Samples.editor_defaults false))
      /\ (~ (tabs = 0 /\ spaces = 0) ->
          GeanyEditorPrefs.use_tabs (Samples.editor_defaults false) = true ->
          (detect_use_tabs (Samples.editor_defaults false) s = false <-> spaces > 2 * tabs))
      /\ (~ (tabs = 0 /\ spaces = 0) ->
          GeanyEditorPrefs.use_tabs (Samples.editor_defaults false) = false ->
          (detect_use_tabs (Samples.editor_defaults false) s = true <-> tabs > 2 * spaces))).
Proof.
  intros s. split; [vm_compute; reflexivity |].
  apply (detect_use_tabs_hysteresis (Samples.editor_defaults false) s).
  vm_compute; reflexivity.
Defined.

(** Eight tab lines and two space lines are tabs under either default; one
    tab line and three space lines are spaces even when tabs are the
    default; one tab line and two space lines keep the default. *)
Example detect_use_tabs_samples :
  detect_use_tabs (Samples.editor_defaults false) (Samples.indented_buffer 8 2) = true
  /\ detect_use_tabs (Samples.editor_defaults true) (Samples.indented_buffer 8 2) = true
  /\ detect_use_tabs (Samples.editor_defaults true) (Samples.indented_buffer 1 3) = false
  /\ detect_use_tabs (Samples.editor_defaults true) (Samples.indented_buffer 1 2) = true
  /\ detect_use_tabs (Samples.editor_defaults false) (Samples.indented_buffer 2 1) = false
  /\ detect_use_tabs (Samples.editor_defaults false) (Samples.indented_buffer 0 0) = false.
Proof. repeat split; vm_compute; reflexivity. Qed.

(** ** Encoding detection *)

Lemma encoding_index_eqb_eq (a b : GeanyEncodingIndex) :
  encoding_index_eqb a b = true <-> a = b.
Proof.
  destruct a, b; simpl; split; intros Heq; try reflexivity; try discriminate.
  - apply Nat.eqb_eq in Heq. subst. reflexivity.
  - inversion Heq; subst. apply Nat.eqb_refl.
Qed.

Lemma encoding_index_eqb_neq (a b : GeanyEncodingIndex) :
  encoding_index_eqb a b = false <-> a <> b.
Proof.
  pose proof (encoding_index_eqb_eq a b) as Heq.
  destruct (encoding_index_eqb a b); split; intros Hne; try reflexivity; try discriminate.
  - exfalso. apply Hne. apply Heq. reflexivity.
  - intros Hab. apply Heq in Hab. discriminate.
Qed.

Section EncodingProperties.
Context `{EncodingOps}.

Lemma with_enc_cleared (fd : FileData.t) (e : option string) (b : bool) :
  FileData.enc fd = None -> FileData.bom fd = false ->
  FileData.with_enc None false (FileData.with_enc e b fd) = fd.
Proof.
  intros He Hb. destruct fd as [d sz l en bo mt ro]. simpl in *. subst. reflexivity.
Qed.

(** Without a usable BOM, [handle_encoding] is steps 3 and 4. *)
Lemma handle_encoding_falls_through (fd : FileData.t) :
  FileData.enc fd = None -> FileData.bom fd = false -> FileData.size fd <> 0 ->
  handle_encoding_bom fd = fd ->
  match detect_without_bom fd with
  | Some fd' => handle_encoding fd = (true, fd')
  | None => fst (handle_encoding fd) = false
  end.
Proof.
  intros He Hb Hsize Hbom. unfold handle_encoding, detect_without_bom.
  rewrite He, Hb. destruct (Z.eqb_spec (FileData.size fd) 0) as [Hz | _]; [contradiction |].
  rewrite Hbom, He, Hb.
  destruct (g_utf8_validate (FileData.data fd) (FileData.len fd)); [reflexivity |].
  destruct (encodings_convert_to_utf8 (FileData.data fd) (FileData.size fd))
    as [[txt e] |]; reflexivity.
Qed.

(** C5: handle_encoding follows the order of the detection.  On file data
    with no charset and no BOM recorded yet: a size of 0 gives UTF-8 and no
    BOM.  Otherwise a recognised mark gives its charset and BOM = true, the
    data being converted when the charset is not UTF-8; when there is no
    mark, or when that conversion fails, the BOM finding is cleared and the
    result is that of UTF-8 validation followed by charset detection.  The
    function fails only when the size is not 0, no mark could be used and
    validation and detection both fail. *)
Theorem handle_encoding_order :
  forall fd : FileData.t,
    FileData.enc fd = None -> FileData.bom fd = false ->
    let idx := fst (encodings_scan_unicode_bom (FileData.data fd) (FileData.size fd)) in
    let from_bom :=
      encodings_convert_to_utf8_from_charset
        (FileData.data fd) (FileData.size fd) (encodings_charset idx) false in
    (FileData.size fd = 0 ->
     handle_encoding fd = (true, FileData.with_enc (Some UTF_8) false fd))
    /\ (FileData.size fd <> 0 -> idx = GEANY_ENCODING_UTF_8 ->
        handle_encoding fd
        = (true, FileData.with_enc (Some (encodings_charset idx)) true fd))
    /\ (FileData.size fd <> 0 -> idx <> GEANY_ENCODING_NONE -> idx <> GEANY_ENCODING_UTF_8 ->
        forall converted_text, from_bom = Some converted_text ->
        handle_encoding fd
        = (true, FileData.with_text converted_text
                   (FileData.with_enc (Some (encodings_charset idx)) true fd)))
    /\ (FileData.size fd <> 0 ->
        idx = GEANY_ENCODING_NONE \/ (idx <> GEANY_ENCODING_UTF_8 /\ from_bom = None) ->
        match detect_without_bom fd with
        | Some fd' => handle_encoding fd = (true, fd')
        | None => fst (handle_encoding fd) = false
        end)
    /\ (fst (handle_encoding fd) = false ->
        FileData.size fd <> 0
        /\ (idx = GEANY_ENCODING_NONE \/ (idx <> GEANY_ENCODING_UTF_8 /\ from_bom = None))
        /\ detect_without_bom fd = None).
Proof.
  intros fd He Hb idx from_bom.
  assert (Hsteps : FileData.size fd <> 0 ->
                   idx = GEANY_ENCODING_NONE
                   \/ (idx <> GEANY_ENCODING_UTF_8 /\ from_bom = None) ->
                   handle_encoding_bom fd = fd).
  { intros _ [Hnone | [Hnot8 Hfail]]; unfold handle_encoding_bom; fold idx.
    - rewrite Hnone. reflexivity.
    - destruct (encoding_index_eqb idx GEANY_ENCODING_NONE); [reflexivity |].
      apply encoding_index_eqb_neq in Hnot8. rewrite Hnot8.
      cbn [FileData.data FileData.size FileData.with_enc].
      fold from_bom. rewrite Hfail. apply with_enc_cleared; assumption. }
  assert (Hmark : FileData.size fd <> 0 -> idx <> GEANY_ENCODING_NONE ->
                  (idx = GEANY_ENCODING_UTF_8 ->
                   handle_encoding fd
                   = (true, FileData.with_enc (Some (encodings_charset idx)) true fd))
                  /\ (idx <> GEANY_ENCODING_UTF_8 ->
                      forall converted_text, from_bom = Some converted_text ->
                      handle_encoding fd
                      = (true, FileData.with_text converted_text
                                 (FileData.with_enc (Some (encodings_charset idx)) true fd)))).
  { intros Hsize Hnone. unfold handle_encoding. rewrite He, Hb.
    destruct (Z.eqb_spec (FileData.size fd) 0) as [Hz | _]; [contradiction |].
    unfold handle_encoding_bom. fold idx.
    apply encoding_index_eqb_neq in Hnone. rewrite Hnone. split.
    - intros H8. apply encoding_index_eqb_eq in H8. rewrite H8. reflexivity.
    - intros Hnot8 txt Htxt. apply encoding_index_eqb_neq in Hnot8. rewrite Hnot8.
      cbn [FileData.data FileData.size FileData.with_enc].
      fold from_bom. rewrite Htxt. reflexivity. }
  split; [| split; [| split; [| split]]].
  - intros Hz. unfold handle_encoding. rewrite He, Hb, Hz. simpl. reflexivity.
  - intros Hsize H8. apply Hmark; [assumption | | assumption].
    rewrite H8. discriminate.
  - intros Hsize Hnone Hnot8. apply Hmark; assumption.
  - intros Hsize Hcase. apply handle_encoding_falls_through; auto.
  - intros Hfail.
    destruct (Z.eq_dec (FileData.size fd) 0) as [Hz | Hsize].
    { unfold handle_encoding in Hfail. rewrite He, Hb, Hz in Hfail. discriminate. }
    split; [assumption |].
    destruct (encoding_index_eqb idx GEANY_ENCODING_NONE) eqn:Enone.
    { apply encoding_index_eqb_eq in Enone.
      pose proof (handle_encoding_falls_through fd He Hb Hsize
                    (Hsteps Hsize (or_introl Enone))) as Hft.
      split; [left; assumption |].
      destruct (detect_without_bom fd); [| reflexivity].
      rewrite Hft in Hfail. discriminate. }
    apply encoding_index_eqb_neq in Enone.
    destruct (encoding_index_eqb idx GEANY_ENCODING_UTF_8) eqn:E8.
    { apply encoding_index_eqb_eq in E8.
      destruct (Hmark Hsize Enone) as [H8 _]. rewrite (H8 E8) in Hfail. discriminate. }
    apply encoding_index_eqb_neq in E8.
    destruct from_bom as [txt |] eqn:Efrom.
    { destruct (Hmark Hsize Enone) as [_ Hconv].
      rewrite (Hconv E8 txt eq_refl) in Hfail. discriminate. }
    pose proof (handle_encoding_falls_through fd He Hb Hsize
                  (Hsteps Hsize (or_intror (conj E8 eq_refl)))) as Hft.
    split; [right; split; [assumption | reflexivity] |].
    destruct (detect_without_bom fd); [| reflexivity].
    rewrite Hft in Hfail. discriminate.
Qed.

End EncodingProperties.

Lemma handle_encoding_order_witness :
  let fd := Samples.raw_file EmptyString in
  FileData.enc fd = None /\ FileData.bom fd = false
  /\ handle_encoding fd = (true, FileData.with_enc (Some UTF_8) false fd).
Proof.
  intros fd. split; [reflexivity | split; [reflexivity |]].
  destruct (handle_encoding_order fd eq_refl eq_refl) as [Hempty _].
  apply Hempty. reflexivity.
Defined.

(** UTF-16LE text with its mark is converted and keeps the BOM finding; the
    same mark on data of odd length cannot be converted, so the finding is
    dropped and the detector decides; a UTF-8 mark needs no conversion. *)
Example handle_encoding_samples :
  let le := AsciiEncodings.utf16le_bom in
  let a16 := String "a" (String NUL EmptyString) in
  let result (bytes : string) :=
    let '(ok, fd) := handle_encoding (Samples.raw_file bytes) in
    (ok, FileData.enc fd, FileData.bom fd, FileData.data fd) in
  result (String.append le a16)
  = (true, Some "UTF-16LE"%string, true, String.append utf8_bom "a")
  /\ result (String.append le "a")
     = (true, Some "ISO-8859-1"%string, false,
        AsciiEncodings.latin1_to_utf8 (String.append le "a"))
  /\ result (String.append utf8_bom "a")
     = (true, Some "UTF-8"%string, true, String.append utf8_bom "a")
  /\ result "plain" = (true, Some "UTF-8"%string, false, "plain"%string).
Proof. repeat split; vm_compute; reflexivity. Qed.

(** ** Saving *)

Section SaveProperties.
Context {Sci : Type} `{ScintillaOps Sci} `{EditorOps Sci}.
Context {Host : Type} `{HostOps Host}.
Context `{EncodingOps}.

(** The encoding step of [document_save_file] is [save_encoded]. *)
Lemma save_encoding_step (doc : GeanyDocument Sci) (u : Ui) (data : string) (len : Z) :
  fst (if save_needs_conversion doc
       then save_convert_to_encoding doc u data len
       else (Some (data, strlen data), u))
  = save_encoded doc (data, len).
Proof.
  unfold save_encoded, save_convert_to_encoding. simpl fst. simpl snd.
  destruct (save_needs_conversion doc); [| reflexivity].
  destruct (encoding doc) as [e |]; [| reflexivity].
  destruct (g_convert data (len - 1) e); reflexivity.
Qed.

(** Whatever the reason, a save that returns FALSE leaves the naming, the
    encoding, the time stamp and the changed flag of the document alone. *)
Lemma document_save_file_false_keeps_state
  (prefs : GeanyFilePrefs.t) (status : GeanyStatus.t) (geany_obj : bool) (h : Host)
  (u : Ui) (doc : GeanyDocument Sci) (force : bool)
  (doc' : GeanyDocument Sci) (h' : Host) (u' : Ui) :
  document_save_file prefs status geany_obj h u doc force = Some (false, doc', h', u') ->
  real_path doc' = real_path doc /\ saved_encoding doc' = saved_encoding doc
  /\ mtime doc' = mtime doc /\ changed doc' = changed doc
  /\ encoding doc' = encoding doc /\ has_bom doc' = has_bom doc
  /\ file_name doc' = file_name doc.
Proof.
  unfold document_save_file.
  destruct (negb force && (negb (changed doc) || readonly doc)).
  { intros Heq. inversion Heq; subst. repeat split. }
  destruct (file_name doc) as [fname |] eqn:Ename.
  2:{ intros Heq. inversion Heq; subst. rewrite Ename. repeat split. }
  destruct (sci doc) as [s |]; [simpl | discriminate].
  destruct (save_buffer_data _ _) as [data len].
  destruct (if save_needs_conversion _ then _ else _) as [[[bytes n] |] u1].
  2:{ intros Heq. inversion Heq; subst. simpl. rewrite Ename. repeat split. }
  destruct (write_data_to_disk h fname bytes n) as [h1 err].
  destruct (negb (err =? 0)).
  { intros Heq. inversion Heq; subst. simpl. rewrite Ename. repeat split. }
  destruct (GeanyStatus.quitting status).
  - intros Heq. inversion Heq.
  - destruct (document_update_timestamp _ _ _) as [[ok d] u2].
    intros Heq. inversion Heq.
Qed.

(** C6: when document_save_file gets as far as the encoding step and the
    conversion to the charset of the document fails, or the write to disk
    reports an error, it returns FALSE and the real path, the saved-encoding
    snapshot, the modification time and the changed flag of the document are
    as before, so a dirty document stays dirty; on a conversion failure
    nothing was handed to the disk. *)
Theorem document_save_file_failure_keeps_state :
  forall (prefs : GeanyFilePrefs.t) (status : GeanyStatus.t) (geany_obj : bool)
         (h : Host) (u : Ui) (doc : GeanyDocument Sci) (force : bool)
         (s : Sci) (fname : string),
    sci doc = Some s -> file_name doc = Some fname ->
    force = true \/ (changed doc = true /\ readonly doc = false) ->
    let data := save_buffer_data doc (pre_save_buffer prefs doc s) in
    save_encoded doc data = None
    \/ (exists bytes len, save_encoded doc data = Some (bytes, len)
          /\ snd (write_data_to_disk h fname bytes len) <> 0) ->
    exists doc' h' u',
      document_save_file prefs status geany_obj h u doc force = Some (false, doc', h', u')
      /\ real_path doc' = real_path doc
      /\ saved_encoding doc' = saved_encoding doc
      /\ mtime doc' = mtime doc
      /\ changed doc' = changed doc
      /\ (save_encoded doc data = None -> h' = h).
Proof.
  intros prefs status geany_obj h u doc force s fname Hs Hname Hattempt data Hfail.
  assert (Hreturns : exists doc' h' u',
             document_save_file prefs status geany_obj h u doc force
             = Some (false, doc', h', u')
             /\ (save_encoded doc data = None -> h' = h)).
  { unfold document_save_file.
    assert (Hguard : negb force && (negb (changed doc) || readonly doc) = false).
    { destruct Hattempt as [Hf | [Hc Hr]].
      - rewrite Hf. reflexivity.
      - rewrite Hc, Hr. apply andb_false_r. }
    rewrite Hguard, Hname, Hs. simpl.
    change (save_buffer_data (with_sci (Some (pre_save_buffer prefs doc s)) doc)
              (pre_save_buffer prefs doc s)) with data.
    destruct data as [text len] eqn:Edata.
    change (save_needs_conversion (with_sci (Some (pre_save_buffer prefs doc s)) doc))
      with (save_needs_conversion doc).
    pose proof (save_encoding_step doc u text len) as Hstep.
    change (save_convert_to_encoding (with_sci (Some (pre_save_buffer prefs doc s)) doc))
      with (save_convert_to_encoding doc).
    destruct (if save_needs_conversion doc
              then save_convert_to_encoding doc u text len
              else (Some (text, strlen text), u)) as [converted u1].
    simpl in Hstep. rewrite <- Hstep in *.
    destruct converted as [[bytes n] |].
    - destruct Hfail as [Hnone | (bytes' & n' & Hsome & Herr)]; [discriminate |].
      inversion Hsome; subst bytes' n'.
      destruct (write_data_to_disk h fname bytes n) as [h1 err]. simpl in Herr.
      destruct (Z.eqb_spec err 0) as [Hz | _]; [contradiction |]. simpl.
      do 3 eexists. split; [reflexivity | intros; discriminate].
    - do 3 eexists. split; [reflexivity | reflexivity]. }
  destruct Hreturns as (doc' & h' & u' & Hret & Hdisk).
  destruct (document_save_file_false_keeps_state _ _ _ _ _ _ _ _ _ _ Hret)
    as (Hrp & Hse & Hmt & Hch & _).
  exists doc', h', u'. repeat split; assumption.
Qed.

End SaveProperties.

Lemma document_save_file_failure_keeps_state_witness :
  let doc := with_changed true (Samples.doc_on (Samples.buffer "abc" 3 3)) in
  let h := Samples.disk true in
  let data :=
    save_buffer_data doc (pre_save_buffer Samples.file_defaults doc (Samples.buffer "abc" 3 3)) in
  (sci doc = Some (Samples.buffer "abc" 3 3) /\ file_name doc = Some "/tmp/a.txt"%string)
  /\ (exists bytes len, save_encoded doc data = Some (bytes, len)
        /\ snd (write_data_to_disk h "/tmp/a.txt" bytes len) <> 0)
  /\ exists doc' h' u',
       document_save_file Samples.file_defaults Samples.running true h Samples.quiet_ui doc true
       = Some (false, doc', h', u')
       /\ real_path doc' = real_path doc
       /\ saved_encoding doc' = saved_encoding doc
       /\ mtime doc' = mtime doc
       /\ changed doc' = changed doc
       /\ (save_encoded doc data = None -> h' = h).
Proof.
  intros doc h data.
  assert (Hwrite : exists bytes len, save_encoded doc data = Some (bytes, len)
                     /\ snd (write_data_to_disk h "/tmp/a.txt" bytes len) <> 0).
  { exists (String.append "abc" (String LF EmptyString)), 4.
    split; [vm_compute; reflexivity | vm_compute; discriminate]. }
  split; [split; reflexivity | split; [exact Hwrite |]].
  apply (document_save_file_failure_keeps_state Samples.file_defaults Samples.running true
           h Samples.quiet_ui doc true (Samples.buffer "abc" 3 3) "/tmp/a.txt").
  - reflexivity.
  - reflexivity.
  - left. reflexivity.
  - right. exact Hwrite.
Defined.

(** A document in a charset that the converter does not know is not saved:
    the disk is as before and the document is still dirty; on a disk that
    accepts the write the same document in UTF-8 is saved and its time stamp
    is refreshed (the changed flag is cleared by the save-point notification
    of the widget, which is handled outside document.c). *)
Example document_save_file_samples :
  let dirty := with_changed true (Samples.doc_on (Samples.buffer "abc" 3 3)) in
  let save (doc : GeanyDocument TextSci.t) (h : SimpleHost.t) :=
    '(ok, d, h', _) ← document_save_file Samples.file_defaults Samples.running true h
                        Samples.quiet_ui doc false;
    Some (ok, changed d, mtime d, fe_encoding (saved_encoding d),
          SimpleHost.read h' "/tmp/a.txt") in
  save (with_encoding (Some "KOI8-R"%string) dirty) (Samples.disk false)
  = Some (false, true, 0, Some UTF_8, Some "abc"%string)
  /\ save dirty (Samples.disk true)
     = Some (false, true, 0, Some UTF_8, Some "abc"%string)
  /\ save dirty (Samples.disk false)
     = Some (true, true, 100, Some UTF_8, Some (String.append "abc" (String LF EmptyString))).
Proof. repeat split; vm_compute; reflexivity. Qed.

(** ** The search bar *)

Section SearchBarProperties.
Context {Sci : Type} `{ScintillaOps Sci}.

Lemma str_is_empty_false (text : string) : text <> EmptyString -> str_is_empty text = false.
Proof. destruct text; [contradiction | reflexivity]. Qed.

(** C9, as amended: document_search_bar_find reports an empty pattern as
    found and leaves the document alone.  For another pattern it anchors at
    the selection end (the selection start when incremental) and searches
    from the anchor to the end of the buffer; on a miss it searches again
    from the start of the buffer up to the anchor plus the length of the
    pattern.  A match of either search is selected and reported as found;
    otherwise the caret returns to the anchor and FALSE is reported. *)
Theorem document_search_bar_find_wraps_past_anchor :
  forall (u : Ui) (doc : GeanyDocument Sci) (s : Sci) (text : string) (flags : Z)
         (inc : bool),
    sci doc = Some s ->
    (text = EmptyString ->
     document_search_bar_find u doc text flags inc = Some (true, doc, u))
    /\ (text <> EmptyString ->
        let '(pos, ttf) := search_bar_find_past_anchor s text flags inc in
        if pos =? -1 then
          exists u',
            document_search_bar_find u doc text flags inc
            = Some (false,
                    with_sci (Some (sci_goto_pos s (search_bar_anchor s inc) false)) doc,
                    u')
        else
          document_search_bar_find u doc text flags inc
          = Some (true,
                  with_sci (Some (sci_set_selection_end
                                    (sci_set_selection_start s (cpMin (chrgText ttf)))
                                    (cpMax (chrgText ttf)))) doc,
                  u)).
Proof.
  intros u doc s text flags inc Hs. split.
  - intros Hempty. subst text. reflexivity.
  - intros Htext. unfold document_search_bar_find, search_bar_find_past_anchor.
    rewrite (str_is_empty_false text Htext), Hs. simpl.
    fold (search_bar_anchor s inc).
    destruct (sci_find_text s flags
                {| chrg := {| cpMin := search_bar_anchor s inc; cpMax := sci_get_length s |};
                   lpstrText := text; chrgText := no_range |}) as [pos ttf] eqn:Efirst.
    simpl fst. simpl snd.
    destruct (pos =? -1) eqn:Epos.
    + destruct (sci_find_text s flags
                  (ttf_set_range 0 (search_bar_anchor s inc + strlen text) ttf))
        as [pos2 ttf2] eqn:Esecond.
      destruct (pos2 =? -1) eqn:Epos2; simpl.
      * eexists. reflexivity.
      * reflexivity.
    + rewrite Epos. simpl. reflexivity.
Qed.

End SearchBarProperties.

(** C9, as the claim words it, fails: in the text xabcx with the caret
    between a and b, the pattern abc is not found between the caret and the
    end, and not between the start and the caret either, yet the function
    finds it, because its second search ends three characters past the
    caret. *)
Lemma search_bar_find_to_anchor_counterexample :
  ~ search_bar_find_reports search_bar_find_to_anchor Samples.quiet_ui
      (Samples.doc_on (Samples.buffer "xabcx" 2 2)) "abc" SCFIND_MATCHCASE false.
Proof.
  intros Hclaim.
  destruct (Hclaim (Samples.buffer "xabcx" 2 2) eq_refl ltac:(discriminate))
    as (doc' & u' & Hrun).
  vm_compute in Hrun. discriminate.
Qed.

Lemma document_search_bar_find_wraps_past_anchor_witness :
  let s := Samples.buffer "xabcx" 2 2 in
  sci (Samples.doc_on s) = Some s
  /\ exists doc',
       document_search_bar_find Samples.quiet_ui (Samples.doc_on s) "abc" SCFIND_MATCHCASE
         false = Some (true, doc', Samples.quiet_ui)
       /\ doc_selection doc' = Some (1, 4).
Proof.
  intros s. split; [reflexivity |].
  pose proof (proj2 (document_search_bar_find_wraps_past_anchor Samples.quiet_ui
                       (Samples.doc_on s) s "abc" SCFIND_MATCHCASE false eq_refl)) as Hfound.
  specialize (Hfound ltac:(discriminate)).
  assert (Ematch : search_bar_find_past_anchor s "abc" SCFIND_MATCHCASE false
                   = (1, {| chrg := {| cpMin := 0; cpMax := 5 |}; lpstrText := "abc";
                            chrgText := {| cpMin := 1; cpMax := 4 |} |}))
    by (vm_compute; reflexivity).
  rewrite Ematch in Hfound. simpl in Hfound.
  eexists. split; [exact Hfound | vm_compute; reflexivity].
Defined.

(** ** Find with wrap-around *)

Section FindProperties.
Context {Sci : Type} `{ScintillaOps Sci} `{!ScintillaLaws Sci}.

Lemma same_text_refl (s : Sci) : same_text s s.
Proof. split; reflexivity. Qed.

Lemma same_text_trans (s1 s2 s3 : Sci) :
  same_text s1 s2 -> same_text s2 s3 -> same_text s1 s3.
Proof.
  intros [Hl12 Ht12] [Hl23 Ht23]. split; congruence.
Qed.

Lemma find_text_search_same_text (s : Sci) (text : string) (flags : Z) (b : bool) :
  same_text s (fst (find_text_search s text flags b)).
Proof.
  unfold find_text_search.
  set (s0 := if 0 <? sci_get_selection_end s - sci_get_selection_start s
             then if b then sci_goto_pos s (sci_get_selection_start s) true
                  else sci_goto_pos s (sci_get_selection_end s) true
             else s).
  assert (H0 : same_text s s0).
  { unfold s0. destruct (0 <? _); [| apply same_text_refl].
    destruct b; apply sci_goto_pos_text. }
  apply (same_text_trans _ _ _ H0).
  apply (same_text_trans _ (sci_set_search_anchor s0)); [apply sci_set_search_anchor_text |].
  destruct b; [apply sci_search_prev_text | apply sci_search_next_text].
Qed.

Lemma find_direction_idem (flags : Z) (b : bool) :
  find_direction flags (find_direction flags b) = find_direction flags b.
Proof. unfold find_direction. destruct (flag_set flags SCFIND_REGEXP); reflexivity. Qed.

(** One activation of document_find_text. *)
Lemma document_find_text_step (n : nat) (prefs : GeanySearchPrefs.t) (u : Ui)
  (doc : GeanyDocument Sci) (s : Sci) (text : string) (flags : Z) (backwards scroll : bool) :
  sci doc = Some s -> text <> EmptyString ->
  document_find_text (S n) prefs u doc text flags backwards scroll
  = let b := find_direction flags backwards in
    let s1 := fst (find_text_search s text flags b) in
    let search_pos := snd (find_text_search s text flags b) in
    if negb (search_pos =? -1) then
      Some (search_pos,
            if scroll then with_scroll_percent 30 (with_sci (Some s1) doc)
            else with_sci (Some s1) doc, u)
    else if ((sci_get_selection_end s =? 0) && negb b)
            || ((sci_get_selection_end s =? sci_get_length s1) && b)
    then Some (-1, with_sci (Some s1) doc,
               utils_beep (ui_set_statusbar (MsgNotFound text) u))
    else find_text_wrap n prefs u doc s s1 text flags b scroll.
Proof.
  intros Hs Htext. cbn [document_find_text].
  rewrite (str_is_empty_false text Htext), Hs. simpl.
  unfold find_direction, find_text_search, find_text_wrap, wrap_edge.
  set (b := if flag_set flags SCFIND_REGEXP then false else backwards).
  destruct (if b then sci_search_prev _ flags text else sci_search_next _ flags text)
    as [s1 pos] eqn:Esearch.
  simpl fst. simpl snd.
  destruct (pos =? -1) eqn:Epos; simpl; [| reflexivity].
  destruct (_ || _); [reflexivity |].
  destruct (if GeanySearchPrefs.suppress_dialogs prefs then _ else _) as [wrap u1].
  destruct wrap; [| apply Z.eqb_eq in Epos; subst pos; reflexivity].
  reflexivity.
Qed.

(** A search that starts with the caret at the edge of the buffer does not
    wrap: it either finds or gives up. *)
Lemma document_find_text_at_edge (n : nat) (prefs : GeanySearchPrefs.t) (u : Ui)
  (doc : GeanyDocument Sci) (s : Sci) (text : string) (flags : Z) (b scroll : bool) :
  sci doc = Some s -> text <> EmptyString ->
  find_direction flags b = b ->
  sci_get_selection_end s = wrap_edge s b ->
  document_find_text (S n) prefs u doc text flags b scroll
  = let s1 := fst (find_text_search s text flags b) in
    let search_pos := snd (find_text_search s text flags b) in
    if negb (search_pos =? -1) then
      Some (search_pos,
            if scroll then with_scroll_percent 30 (with_sci (Some s1) doc)
            else with_sci (Some s1) doc, u)
    else Some (-1, with_sci (Some s1) doc,
               utils_beep (ui_set_statusbar (MsgNotFound text) u)).
Proof.
  intros Hs Htext Hdir Hend.
  rewrite (document_find_text_step n prefs u doc s text flags b scroll Hs Htext).
  rewrite Hdir. cbv zeta.
  destruct (negb (snd (find_text_search s text flags b) =? -1)); [reflexivity |].
  destruct (find_text_search_same_text s text flags b) as [Hlen _].
  rewrite Hlen, Hend. unfold wrap_edge.
  destruct b; cbn [negb]; rewrite Z.eqb_refl; [rewrite andb_false_r |]; reflexivity.
Qed.

(** The wrapped search, whatever the fuel left for it. *)
Lemma find_text_wrap_result (n : nat) (prefs : GeanySearchPrefs.t) (u : Ui)
  (doc : GeanyDocument Sci) (s s1 : Sci) (text : string) (flags : Z) (b scroll : bool) :
  text <> EmptyString -> find_direction flags b = b ->
  exists r doc' u',
    find_text_wrap (S n) prefs u doc s s1 text flags b scroll = Some (r, doc', u')
    /\ find_text_wrap 1 prefs u doc s s1 text flags b scroll = Some (r, doc', u')
    /\ (ui_asked u' <= S (ui_asked u))%nat
    /\ (r = -1
        \/ r = snd (find_text_search
                      (sci_set_current_position s1 (wrap_edge s1 b) false) text flags b)).
Proof.
  intros Htext Hdir. unfold find_text_wrap.
  set (s2 := sci_set_current_position s1 (wrap_edge s1 b) false).
  assert (Hedge : sci_get_selection_end s2 = wrap_edge s2 b).
  { destruct (sci_set_current_position_text s1 (wrap_edge s1 b) false) as [Hlen _].
    fold s2 in Hlen.
    pose proof (sci_length_nonneg s1) as Hnn.
    assert (Hrange : 0 <= wrap_edge s1 b <= sci_get_length s1)
      by (unfold wrap_edge; destruct b; lia).
    destruct (sci_set_current_position_selection s1 (wrap_edge s1 b) false Hrange)
      as [_ Hsel].
    fold s2 in Hsel. rewrite Hsel. unfold wrap_edge. rewrite Hlen. reflexivity. }
  assert (Hinner : forall m u1,
             document_find_text (S m) prefs u1 (with_sci (Some s2) doc) text flags b scroll
             = document_find_text 1 prefs u1 (with_sci (Some s2) doc) text flags b scroll).
  { intros m u1.
    rewrite (document_find_text_at_edge m prefs u1 (with_sci (Some s2) doc) s2 text flags b
               scroll eq_refl Htext Hdir Hedge).
    rewrite (document_find_text_at_edge 0 prefs u1 (with_sci (Some s2) doc) s2 text flags b
               scroll eq_refl Htext Hdir Hedge).
    reflexivity. }
  assert (Hone : forall u1,
             exists r doc1 s3,
               document_find_text 1 prefs u1 (with_sci (Some s2) doc) text flags b scroll
               = Some (r, doc1, if r =? -1
                                then utils_beep (ui_set_statusbar (MsgNotFound text) u1)
                                else u1)
               /\ sci doc1 = Some s3
               /\ r = snd (find_text_search s2 text flags b)).
  { intros u1.
    rewrite (document_find_text_at_edge 0 prefs u1 (with_sci (Some s2) doc) s2 text flags b
               scroll eq_refl Htext Hdir Hedge).
    cbv zeta. destruct (snd (find_text_search s2 text flags b) =? -1) eqn:Epos; simpl.
    - apply Z.eqb_eq in Epos. rewrite Epos.
      exists (-1), (with_sci (Some (fst (find_text_search s2 text flags b)))
                     (with_sci (Some s2) doc)), (fst (find_text_search s2 text flags b)).
      split; [reflexivity | split; reflexivity].
    - exists (snd (find_text_search s2 text flags b)),
             (if scroll
              then with_scroll_percent 30
                     (with_sci (Some (fst (find_text_search s2 text flags b)))
                        (with_sci (Some s2) doc))
              else with_sci (Some (fst (find_text_search s2 text flags b)))
                     (with_sci (Some s2) doc)),
             (fst (find_text_search s2 text flags b)).
      rewrite Epos. split; [reflexivity | split; [destruct scroll |]; reflexivity]. }
  destruct (GeanySearchPrefs.suppress_dialogs prefs).
  - rewrite Hinner. destruct (Hone u) as (r & doc1 & s3 & Hrun & Hs3 & Hr).
    rewrite Hrun. simpl. rewrite Hs3.
    destruct (r =? -1) eqn:Er; simpl;
      do 3 eexists; (split; [reflexivity | split; [reflexivity | split; [simpl; lia |]]]);
      right; exact Hr.
  - unfold dialogs_show_question_full.
    destruct (ui_answers u (ui_asked u)).
    + rewrite Hinner.
      match goal with |- context [document_find_text 1 prefs ?u1 _ _ _ _ _] =>
        destruct (Hone u1) as (r & doc1 & s3 & Hrun & Hs3 & Hr) end.
      rewrite Hrun. simpl. rewrite Hs3.
      destruct (r =? -1) eqn:Er; simpl;
        do 3 eexists; (split; [reflexivity | split; [reflexivity | split; [simpl; lia |]]]);
        right; exact Hr.
    + do 3 eexists. split; [reflexivity | split; [reflexivity | split; [simpl; lia |]]].
      left. reflexivity.
Qed.

(** The outcome of document_find_text on a document with a buffer: with
    fuel for one recursive call it returns, the text is as before, at most
    one question was asked, and the result is that of the first search or,
    after a wrap, that of the search from the edge. *)
Lemma document_find_text_outcome (prefs : GeanySearchPrefs.t) (u : Ui)
  (doc : GeanyDocument Sci) (s : Sci) (text : string) (flags : Z) (backwards scroll : bool) :
  sci doc = Some s -> text <> EmptyString ->
  let b := find_direction flags backwards in
  let first := find_text_search s text flags b in
  exists r doc' u',
    (forall fuel, (2 <= fuel)%nat ->
       document_find_text fuel prefs u doc text flags backwards scroll = Some (r, doc', u'))
    /\ (ui_asked u' <= S (ui_asked u))%nat
    /\ (exists s', sci doc' = Some s' /\ same_text s s')
    /\ (snd first = -1 -> searched_whole_text s b = true ->
        r = -1 /\ ui_asked u' = ui_asked u /\ doc' = with_sci (Some (fst first)) doc
        /\ document_find_text 1 prefs u doc text flags backwards scroll = Some (r, doc', u'))
    /\ (snd first = -1 -> searched_whole_text s b = false ->
        r = -1
        \/ r = snd (find_text_search
                      (sci_set_current_position (fst first) (wrap_edge (fst first) b) false)
                      text flags b))
    /\ (snd first <> -1 -> r = snd first /\ u' = u).
Proof.
  intros Hs Htext b first.
  pose proof (find_text_search_same_text s text flags b) as Hsame. fold first in Hsame.
  assert (Hstep := fun n => document_find_text_step n prefs u doc s text flags backwards
                              scroll Hs Htext).
  cbv zeta in Hstep. fold b in Hstep. fold first in Hstep.
  assert (Hwhole : ((sci_get_selection_end s =? 0) && negb b)
                   || ((sci_get_selection_end s =? sci_get_length (fst first)) && b)
                   = searched_whole_text s b).
  { unfold searched_whole_text. destruct Hsame as [Hlen _]. rewrite Hlen. reflexivity. }
  rewrite Hwhole in Hstep.
  destruct (Z.eqb_spec (snd first) (-1)) as [Hmiss | Hhit].
  - destruct (searched_whole_text s b) eqn:Ewhole.
    + exists (-1), (with_sci (Some (fst first)) doc),
             (utils_beep (ui_set_statusbar (MsgNotFound text) u)).
      assert (Hall : forall n, document_find_text (S n) prefs u doc text flags backwards scroll
                               = Some (-1, with_sci (Some (fst first)) doc,
                                       utils_beep (ui_set_statusbar (MsgNotFound text) u))).
      { intros n. rewrite Hstep, Hmiss. reflexivity. }
      split; [| split; [| split; [| split; [| split]]]].
      * intros fuel Hfuel. destruct fuel as [| n]; [lia | apply Hall].
      * simpl. lia.
      * exists (fst first). split; [reflexivity | exact Hsame].
      * intros _ _. repeat split. apply Hall.
      * intros _ Hno. discriminate.
      * intros Hne. contradiction.
    + destruct (find_text_wrap_result 0 prefs u doc s (fst first) text flags b scroll Htext
                  (find_direction_idem flags backwards))
        as (r & doc' & u' & Hone & _ & Hasked & Hres).
      assert (Hall : forall n, document_find_text (S (S n)) prefs u doc text flags backwards
                                 scroll = Some (r, doc', u')).
      { intros n. rewrite Hstep, Hmiss. simpl.
        destruct (find_text_wrap_result n prefs u doc s (fst first) text flags b scroll Htext
                    (find_direction_idem flags backwards))
          as (r2 & doc2 & u2 & Hn & Hone2 & _).
        rewrite Hn. rewrite Hone in Hone2. symmetry. exact Hone2. }
      exists r, doc', u'.
      split; [| split; [| split; [| split; [| split]]]].
      * intros fuel Hfuel. destruct fuel as [| [| n]]; [lia | lia | apply Hall].
      * exact Hasked.
      * (* the text is as before *)
        revert Hone. unfold find_text_wrap.
        set (s2 := sci_set_current_position (fst first) (wrap_edge (fst first) b) false).
        assert (Hs2 : same_text s s2).
        { apply (same_text_trans _ _ _ Hsame). apply sci_set_current_position_text. }
        assert (Hedge : sci_get_selection_end s2 = wrap_edge s2 b).
        { destruct (sci_set_current_position_text (fst first) (wrap_edge (fst first) b) false)
            as [Hlen _]. fold s2 in Hlen.
          pose proof (sci_length_nonneg (fst first)) as Hnn.
          assert (Hrange : 0 <= wrap_edge (fst first) b <= sci_get_length (fst first))
            by (unfold wrap_edge; destruct b; lia).
          destruct (sci_set_current_position_selection (fst first) (wrap_edge (fst first) b)
                      false Hrange) as [_ Hsel].
          fold s2 in Hsel. rewrite Hsel. unfold wrap_edge. rewrite Hlen. reflexivity. }
        assert (Hin : forall u1, exists r1 s3,
                   document_find_text 1 prefs u1 (with_sci (Some s2) doc) text flags b scroll
                   = Some (r1, (if negb (r1 =? -1) && scroll
                                then with_scroll_percent 30 (with_sci (Some s3) doc)
                                else with_sci (Some s3) doc),
                           if r1 =? -1
                           then utils_beep (ui_set_statusbar (MsgNotFound text) u1) else u1)
                   /\ same_text s s3).
        { intros u1.
          rewrite (document_find_text_at_edge 0 prefs u1 (with_sci (Some s2) doc) s2 text
                     flags b scroll eq_refl Htext (find_direction_idem flags backwards) Hedge).
          cbv zeta.
          exists (snd (find_text_search s2 text flags b)), (fst (find_text_search s2 text flags b)).
          split.
          - destruct (snd (find_text_search s2 text flags b) =? -1) eqn:Epos; simpl.
            + apply Z.eqb_eq in Epos. rewrite Epos. reflexivity.
            + destruct scroll; reflexivity.
          - apply (same_text_trans _ _ _ Hs2). apply find_text_search_same_text. }
        destruct (if GeanySearchPrefs.suppress_dialogs prefs then (true, u)
                  else dialogs_show_question_full (MsgWrapSearch text) u) as [wrap u1].
        destruct wrap.
        -- destruct (Hin u1) as (r1 & s3 & Hrun & Hs3). rewrite Hrun. simpl.
           destruct (r1 =? -1) eqn:Er1; simpl.
           ++ intros Heq. inversion Heq; subst. eexists. split; [reflexivity |].
              apply (same_text_trans _ _ _ Hs3). apply sci_set_current_position_text.
           ++ intros Heq. inversion Heq; subst.
              exists s3. split; [destruct scroll; reflexivity | exact Hs3].
        -- intros Heq. inversion Heq; subst. exists (fst first).
           split; [reflexivity | exact Hsame].
      * intros _ Hyes. discriminate.
      * intros _ _. exact Hres.
      * intros Hne. contradiction.
  - assert (Epos : (snd first =? -1) = false) by (apply Z.eqb_neq; exact Hhit).
    assert (Hall : forall n, document_find_text (S n) prefs u doc text flags backwards scroll
                             = Some (snd first,
                                     (if scroll
                                      then with_scroll_percent 30 (with_sci (Some (fst first)) doc)
                                      else with_sci (Some (fst first)) doc), u)).
    { intros n. rewrite Hstep. reflexivity. }
    do 3 eexists.
    split; [| split; [| split; [| split; [| split]]]].
    + intros fuel Hfuel. destruct fuel as [| n]; [lia | apply Hall].
    + lia.
    + exists (fst first). split; [destruct scroll; reflexivity | exact Hsame].
    + intros Hm. contradiction.
    + intros Hm. contradiction.
    + intros _. split; reflexivity.
Qed.



End FindProperties.

(** ** The executable buffer satisfies the laws *)

Lemma string_length_append (a b : string) :
  String.length (String.append a b) = (String.length a + String.length b)%nat.
Proof. induction a as [| c a IH]; simpl; [reflexivity | rewrite IH; reflexivity]. Qed.

Lemma string_length_substring (s : string) :
  forall n m, (n + m <= String.length s)%nat -> String.length (String.substring n m s) = m.
Proof.
  induction s as [| c s IH]; intros n m Hnm; simpl in Hnm.
  - assert (n = 0%nat /\ m = 0%nat) as [-> ->] by lia. reflexivity.
  - destruct n as [| n]; simpl.
    + destruct m as [| m]; simpl; [reflexivity |].
      rewrite IH by lia. reflexivity.
    + apply IH. lia.
Qed.

Lemma TextSci_find_in_range (s : TextSci.t) (lo hi : Z) (pat : string) (m : CharacterRange) :
  TextSci.find s lo hi pat = Some m ->
  Z.min lo hi <= cpMin m /\ cpMin m <= cpMax m /\ cpMax m <= Z.max lo hi.
Proof.
  unfold TextSci.find.
  set (n := Z.of_nat (String.length pat)).
  set (a := TextSci.clamp s lo). set (b := TextSci.clamp s hi).
  assert (Hn : 0 <= n) by (unfold n; lia).
  assert (Hlen : 0 <= TextSci.length s) by (unfold TextSci.length; lia).
  assert (Ha : 0 <= a <= TextSci.length s /\ (lo <= TextSci.length s -> lo <= a)
               /\ (0 <= lo -> a <= lo))
    by (unfold a, TextSci.clamp; lia).
  assert (Hb : 0 <= b <= TextSci.length s /\ (hi <= TextSci.length s -> hi <= b)
               /\ (0 <= hi -> b <= hi))
    by (unfold b, TextSci.clamp; lia).
  destruct (Z.eqb_spec n 0) as [| Hn0]; [discriminate |].
  destruct (Z.leb_spec a b) as [Hab | Hab].
  - destruct (List.find _ _) as [p |] eqn:Efind; [| discriminate].
    intros Heq. inversion Heq; subst m. simpl.
    apply List.find_some in Efind. destruct Efind as [Hin _].
    apply List.in_seq in Hin.
    assert (Hle : lo <= TextSci.length s \/ TextSci.length s < lo) by lia.
    unfold a, b, TextSci.clamp in *. lia.
  - destruct (List.find _ _) as [p |] eqn:Efind; [| discriminate].
    intros Heq. inversion Heq; subst m. simpl.
    apply List.find_some in Efind. destruct Efind as [Hin _].
    apply List.in_rev in Hin. apply List.in_seq in Hin.
    unfold a, b, TextSci.clamp in *. lia.
Qed.

Lemma TextSci_edit_text (txt : string) (s : TextSci.t) :
  TextSci.text (TextSci.edit txt s) = txt.
Proof. unfold TextSci.edit. destruct (TextSci.collect_undo s); reflexivity. Qed.

#[export] Instance TextSci_laws : ScintillaLaws TextSci.t.
Proof.
  constructor.
  - intros s. simpl. unfold TextSci.length. lia.
  - intros s p b. split; reflexivity.
  - intros s p b. split; reflexivity.
  - intros s. split; reflexivity.
  - intros s f t. simpl. unfold TextSci.search.
    destruct (TextSci.find _ _ _ _); split; reflexivity.
  - intros s f t. simpl. unfold TextSci.search.
    destruct (TextSci.find _ _ _ _); split; reflexivity.
  - intros s p. split; reflexivity.
  - intros s p. split; reflexivity.
  - intros s. split; reflexivity.
  - intros s. split; reflexivity.
  - intros s p b Hp. simpl in *.
    unfold TextSci.selection_start, TextSci.selection_end, TextSci.set_selection,
      TextSci.clamp. simpl.
    change (Z.of_nat (String.length (TextSci.text s))) with (TextSci.length s).
    lia.
  - intros s p. reflexivity.
  - intros s p. reflexivity.
  - intros s p. reflexivity.
  - intros s flags ttf. simpl. unfold TextSci.find_text.
    destruct (TextSci.find s _ _ _) as [m |] eqn:Efind; simpl; [| congruence].
    intros _. apply TextSci_find_in_range in Efind. lia.
  - intros s t re Hst Hte. simpl in *. unfold TextSci.target_replace. simpl.
    split; [lia |].
    unfold TextSci.length. simpl. rewrite TextSci_edit_text.
    unfold TextSci.length in Hte.
    assert (Ha : TextSci.clamp s (TextSci.target_start s) = TextSci.target_start s)
      by (unfold TextSci.clamp, TextSci.length; lia).
    assert (Hb : Z.max (TextSci.target_start s)
                   (TextSci.clamp s (TextSci.target_end s)) = TextSci.target_end s)
      by (unfold TextSci.clamp, TextSci.length; lia).
    rewrite Ha, Hb.
    rewrite !string_length_append.
    rewrite !string_length_substring by lia.
    lia.
  - intros s p Hp. simpl in *. unfold TextSci.clamp. lia.
  - intros s p Hp. simpl in *. unfold TextSci.clamp. lia.
Qed.


(** C3, where the code fails it: in the text hello with all of it selected,
    a backwards search for ell leaves the selection by its start, searches
    the range from 0 to 0 only and misses, and then gives up at once,
    without a question and without restarting from the end of the buffer,
    where the search finds ell at 1: the test of the code for having
    searched the whole text looks at the end of the selection, which is the
    end of the buffer.  So the miss is not handled as the specification
    words it.  With the caret at 0 and nothing selected the same range is
    searched and the wrap is asked for and finds ell, as it is in the
    forward search from the selection. *)
Theorem document_find_text_gives_up_before_whole_text :
  let s := Samples.buffer "hello" 0 5 in
  let run (fuel : nat) (s : TextSci.t) (backwards : bool) :=
    '(r, d, u) ← document_find_text fuel Samples.ask_before_wrap Samples.quiet_ui
                   (Samples.doc_on s) "ell" SCFIND_MATCHCASE backwards false;
    Some (r, doc_selection d, ui_log u, ui_asked u) in
  searched_sub_range s true = (0, 0)
  /\ searched_entire_buffer s true = false
  /\ searched_whole_text s true = true
  /\ snd (find_text_search s "ell" SCFIND_MATCHCASE true) = -1
  /\ run 1%nat s true
     = Some (-1, Some (0, 0), [UiStatusbar (MsgNotFound "ell"); UiBeep], 0%nat)
  /\ run 2%nat s true = run 1%nat s true
  /\ snd (find_text_search (sci_set_current_position s 5 false) "ell" SCFIND_MATCHCASE true)
     = 1
  /\ ~ find_text_miss_as_specified 2 Samples.ask_before_wrap Samples.quiet_ui
        (Samples.doc_on s) "ell" SCFIND_MATCHCASE true false
  /\ run 2%nat (Samples.buffer "hello" 0 0) true
     = Some (1, Some (1, 4), [UiQuestion (MsgWrapSearch "ell")], 1%nat)
  /\ run 2%nat s false
     = Some (1, Some (1, 4), [UiQuestion (MsgWrapSearch "ell")], 1%nat).
Proof.
  intros s run.
  split; [reflexivity |]. split; [reflexivity |]. split; [reflexivity |].
  split; [vm_compute; reflexivity |].
  split; [vm_compute; reflexivity |].
  split; [vm_compute; reflexivity |].
  split; [vm_compute; reflexivity |].
  split.
  { intros Hspec.
    destruct (document_find_text 2 Samples.ask_before_wrap Samples.quiet_ui (Samples.doc_on s)
                "ell" SCFIND_MATCHCASE true false) as [[[r doc'] u'] |] eqn:Eres.
    - assert (Hasked : ui_asked u' = 0%nat)
        by (vm_compute in Eres; inversion Eres; reflexivity).
      pose proof (Hspec s r doc' u' eq_refl) as Hclaim. cbv zeta in Hclaim.
      specialize (Hclaim ltac:(vm_compute; reflexivity) Eres).
      change (searched_entire_buffer s (find_direction SCFIND_MATCHCASE true)) with false
        in Hclaim.
      change (GeanySearchPrefs.suppress_dialogs Samples.ask_before_wrap) with false in Hclaim.
      cbv iota in Hclaim. destruct Hclaim as [Hq _].
      rewrite Hasked in Hq. discriminate.
    - vm_compute in Eres. discriminate. }
  split; vm_compute; reflexivity.
Qed.

(** In the text xyz with the caret after y, a forward search for x misses,
    asks once, wraps and finds x at 0; a search for q asks once, wraps, misses
    again and gives -1 with the caret back where it was; from the start of
    the buffer the search for q gives up without a question and without a
    recursive call. *)
Example document_find_text_samples :
  let run (fuel : nat) (caret : Z) (text : string) :=
    '(r, d, u) ← document_find_text fuel Samples.ask_before_wrap Samples.quiet_ui
                   (Samples.doc_on (Samples.buffer "xyz" caret caret)) text
                   SCFIND_MATCHCASE false false;
    Some (r, doc_selection d, ui_asked u) in
  run 2%nat 2 "x" = Some (0, Some (0, 1), 1%nat)
  /\ run 2%nat 2 "q" = Some (-1, Some (2, 2), 1%nat)
  /\ run 1%nat 0 "q" = Some (-1, Some (0, 0), 0%nat)
  /\ run 1%nat 2 "q" = None.
Proof. repeat split; vm_compute; reflexivity. Qed.

(** ** Interactive replace *)

Section ReplaceTextProperties.
Context {Sci : Type} `{ScintillaOps Sci} `{!ScintillaLaws Sci}.

(** What document_replace_text does, which is less than its comments say:
    on a document with a buffer and a non-empty find text it returns.  With
    no selection it only runs the find and gives -1.  With a selection it
    moves the caret to the near edge of the selection, runs the find, and
    compares the start of the match with the start of the selection, never
    the two ends; what is replaced is the match the find selected.
    Whenever the result is -1 the text of the buffer is as before. *)
Lemma document_replace_text_compares_starts :
  forall (prefs : GeanySearchPrefs.t) (u : Ui) (doc : GeanyDocument Sci) (s : Sci)
         (find_text replace_text : string) (flags : Z) (backwards : bool),
    sci doc = Some s -> find_text <> EmptyString ->
    let b := find_direction flags backwards in
    exists r doc' u',
      (forall fuel, (2 <= fuel)%nat ->
         document_replace_text fuel prefs u doc find_text replace_text flags backwards
         = Some (r, doc', u'))
      /\ (sci_get_selection_end s = sci_get_selection_start s ->
          r = -1
          /\ exists pos, forall fuel, (2 <= fuel)%nat ->
               document_find_text fuel prefs u doc find_text flags b true
               = Some (pos, doc', u'))
      /\ (r = -1 -> exists s', sci doc' = Some s' /\ sci_text s' = sci_text s)
      /\ (r <> -1 ->
          sci_get_selection_end s <> sci_get_selection_start s
          /\ r = sci_get_selection_start s
          /\ exists doc1 s1,
               (forall fuel, (2 <= fuel)%nat ->
                  document_find_text fuel prefs u (replace_text_anchored doc s flags backwards)
                    find_text flags b true = Some (r, doc1, u'))
               /\ sci doc1 = Some s1
               /\ let replaced :=
                    sci_target_replace (sci_target_from_selection s1) replace_text
                      (flag_set flags SCFIND_REGEXP) in
                  sci doc'
                  = Some (sci_set_selection_end (sci_set_selection_start (fst replaced) r)
                            (r + snd replaced))).
Proof.
  intros prefs u doc s find_text replace_text flags backwards Hs Htext b.
  assert (Hunfold : forall fuel,
             document_replace_text fuel prefs u doc find_text replace_text flags backwards
             = if sci_get_selection_end s =? sci_get_selection_start s then
                 '(_, doc1, u1) ← document_find_text fuel prefs u doc find_text flags b true;
                 Some (-1, doc1, u1)
               else
                 '(search_pos, doc1, u1) ←
                   document_find_text fuel prefs u
                     (replace_text_anchored doc s flags backwards) find_text flags b true;
                 if negb (search_pos =? sci_get_selection_start s) then Some (-1, doc1, u1)
                 else if negb (search_pos =? -1) then
                   s1 ← sci doc1;
                   let replaced :=
                     sci_target_replace (sci_target_from_selection s1) replace_text
                       (flag_set flags SCFIND_REGEXP) in
                   Some (search_pos,
                         with_sci
                           (Some (sci_set_selection_end
                                    (sci_set_selection_start (fst replaced) search_pos)
                                    (search_pos + snd replaced))) doc1, u1)
                 else Some (search_pos, doc1, utils_beep u1)).
  { intros fuel. unfold document_replace_text.
    rewrite (str_is_empty_false find_text Htext), Hs. simpl.
    destruct (sci_get_selection_end s =? sci_get_selection_start s); [reflexivity |].
    unfold replace_text_anchored. fold (find_direction flags backwards). fold b.
    destruct (document_find_text fuel prefs u _ find_text flags b true)
      as [[[pos doc1] u1] |]; [simpl | reflexivity].
    destruct (negb (pos =? sci_get_selection_start s)); [reflexivity |].
    destruct (negb (pos =? -1)); [| reflexivity].
    destruct (sci doc1) as [s1 |]; [simpl | reflexivity].
    destruct (sci_target_replace _ _ _). reflexivity. }
  assert (Hb : find_direction flags b = find_direction flags backwards)
    by apply find_direction_idem.
  destruct (Z.eqb_spec (sci_get_selection_end s) (sci_get_selection_start s)) as [Hnosel | Hsel].
  - destruct (document_find_text_outcome prefs u doc s find_text flags b true Hs Htext)
      as (pos & doc1 & u1 & Hfuel & _ & (s' & Hs' & _ & Htxt) & _).
    exists (-1), doc1, u1. split; [| split; [| split]].
    + intros fuel Hf. rewrite Hunfold, (Hfuel fuel Hf). reflexivity.
    + intros _. split; [reflexivity |]. exists pos. exact Hfuel.
    + intros _. exists s'. split; assumption.
    + intros Hne. contradiction.
  - set (doc0 := replace_text_anchored doc s flags backwards) in *.
    assert (Hs0 : exists s0, sci doc0 = Some s0 /\ same_text s s0).
    { unfold doc0, replace_text_anchored. simpl.
      destruct (if flag_set flags SCFIND_REGEXP then false else backwards);
        eexists; (split; [reflexivity | apply sci_goto_pos_text]). }
    destruct Hs0 as (s0 & Hs0 & Hsame0).
    destruct (document_find_text_outcome prefs u doc0 s0 find_text flags b true Hs0 Htext)
      as (pos & doc1 & u1 & Hfuel & _ & (s1 & Hs1 & Hsame1) & _).
    assert (Hkeep : sci_text s1 = sci_text s).
    { destruct (same_text_trans _ _ _ Hsame0 Hsame1) as [_ Ht]. exact Ht. }
    destruct (Z.eqb_spec pos (sci_get_selection_start s)) as [Hstart | Hother].
    + destruct (Z.eqb_spec pos (-1)) as [Hminus | Hfound].
      * exists pos, doc1, (utils_beep u1). split; [| split; [| split]].
        -- intros fuel Hf. rewrite Hunfold, (Hfuel fuel Hf). simpl.
           destruct (Z.eqb_spec pos (sci_get_selection_start s)); [| contradiction].
           destruct (Z.eqb_spec pos (-1)); [reflexivity | contradiction].
        -- intros Hno. contradiction.
        -- intros _. exists s1. split; assumption.
        -- intros Hne. contradiction.
      * eexists pos, _, u1. split; [| split; [| split]].
        -- intros fuel Hf. rewrite Hunfold, (Hfuel fuel Hf). simpl.
           destruct (Z.eqb_spec pos (sci_get_selection_start s)); [| contradiction].
           destruct (Z.eqb_spec pos (-1)); [contradiction |]. simpl.
           rewrite Hs1. simpl. reflexivity.
        -- intros Hno. contradiction.
        -- intros Hminus. contradiction.
        -- intros _. split; [exact Hsel | split; [exact Hstart |]].
           exists doc1, s1. split; [exact Hfuel | split; [exact Hs1 | reflexivity]].
    + exists (-1), doc1, u1. split; [| split; [| split]].
      * intros fuel Hf. rewrite Hunfold, (Hfuel fuel Hf). simpl.
        destruct (Z.eqb_spec pos (sci_get_selection_start s)); [contradiction |].
        reflexivity.
      * intros Hno. contradiction.
      * intros _. exists s1. split; assumption.
      * intros Hne. contradiction.
Qed.

End ReplaceTextProperties.

(** C4, where the code fails it: in the text abcd with ab selected,
    replacing abc by X finds abc at the start of the selection and replaces
    it, giving Xd, although the match is one character longer than the
    selection: a replacement is made where the match is not the selection.
    The comments of the function say that it replaces the selection if it
    matches and returns if the selected text did not match.  The two
    directions disagree on it: with all of abab selected, replacing ab
    forwards replaces the first ab, which is half of the selection, and
    backwards finds the second ab, replaces nothing and gives -1. *)
Theorem document_replace_text_replaces_inexact_match :
  let run (txt : string) (a b : Z) (find_text : string) (backwards : bool) :=
    '(r, d, _) ← document_replace_text 2 Samples.ask_before_wrap Samples.quiet_ui
                   (Samples.doc_on (Samples.buffer txt a b)) find_text "X"
                   SCFIND_MATCHCASE backwards;
    Some (r, doc_text d, doc_selection d) in
  let found :=
    '(pos, d, _) ← document_find_text 2 Samples.ask_before_wrap Samples.quiet_ui
                     (replace_text_anchored (Samples.doc_on (Samples.buffer "abcd" 0 2))
                        (Samples.buffer "abcd" 0 2) SCFIND_MATCHCASE false)
                     "abc" SCFIND_MATCHCASE false true;
    Some (pos, doc_selection d) in
  found = Some (0, Some (0, 3))
  /\ run "abcd"%string 0 2 "abc"%string false = Some (0, Some "Xd"%string, Some (0, 1))
  /\ ~ replaces_only_exact_selection 2 Samples.ask_before_wrap Samples.quiet_ui
        (Samples.doc_on (Samples.buffer "abcd" 0 2)) "abc" "X" SCFIND_MATCHCASE false
  /\ run "abab"%string 0 4 "ab"%string false = Some (0, Some "Xab"%string, Some (0, 1))
  /\ run "abab"%string 0 4 "ab"%string true = Some (-1, Some "abab"%string, Some (2, 4)).
Proof.
  intros run found.
  split; [vm_compute; reflexivity |]. split; [vm_compute; reflexivity |].
  split; [| split; vm_compute; reflexivity].
  intros Hclaim.
  destruct (document_replace_text 2 Samples.ask_before_wrap Samples.quiet_ui
              (Samples.doc_on (Samples.buffer "abcd" 0 2)) "abc" "X" SCFIND_MATCHCASE false)
    as [[[r doc'] u'] |] eqn:Erun; [| vm_compute in Erun; discriminate].
  assert (Hr : r = 0) by (vm_compute in Erun; inversion Erun; reflexivity).
  destruct (Hclaim (Samples.buffer "abcd" 0 2) r doc' u' eq_refl ltac:(vm_compute; discriminate)
              Erun ltac:(rewrite Hr; discriminate)) as (pos & doc1 & u1 & Hfind & Hsel).
  vm_compute in Hfind. inversion Hfind; subst pos doc1 u1.
  vm_compute in Hsel. discriminate.
Qed.

(** With ab selected in abcd: replacing abc gives Xd with X selected;
    replacing cd, which is found after the selection, replaces nothing and
    leaves cd selected for the next call; with no selection the first abc is
    only selected. *)
Example document_replace_text_samples :
  let run (a b : Z) (find_text : string) :=
    '(r, d, _) ← document_replace_text 2 Samples.ask_before_wrap Samples.quiet_ui
                   (Samples.doc_on (Samples.buffer "abcd" a b)) find_text "X"
                   SCFIND_MATCHCASE false;
    Some (r, doc_text d, doc_selection d) in
  run 0 2 "abc" = Some (0, Some "Xd"%string, Some (0, 1))
  /\ run 0 2 "cd" = Some (-1, Some "abcd"%string, Some (2, 4))
  /\ run 0 0 "abc" = Some (-1, Some "abcd"%string, Some (0, 3)).
Proof. repeat split; vm_compute; reflexivity. Qed.

(** ** Replace in a range *)

Section ReplaceRangeProperties.
Context {Sci : Type} `{ScintillaOps Sci} `{!ScintillaLaws Sci}.

Lemma NZV_false (t : string) : NZV t = false <-> t = EmptyString.
Proof. destruct t; simpl; split; intros Ht; try reflexivity; discriminate. Qed.

(** The loop stops at once, leaving buffer, range end and count alone, for
    each of the three reasons. *)
Lemma replace_range_loop_stops (n : nat) (flags : Z) (replace_text : string)
  (st : replace_state) :
  replace_stops flags replace_text st ->
  replace_range_loop (S n) flags replace_text st
  = Some {| rs_sci := rs_sci st; rs_ttf := snd (sci_find_text (rs_sci st) flags (rs_ttf st));
            rs_end := rs_end st; rs_count := rs_count st |}.
Proof.
  unfold replace_stops. cbn [replace_range_loop].
  destruct (sci_find_text (rs_sci st) flags (rs_ttf st)) as [pos ttf]. simpl fst. simpl snd.
  intros Hstop.
  destruct (Z.eqb_spec pos (-1)) as [| Hpos]; [reflexivity |].
  destruct (Z.eqb_spec (cpMax (chrgText ttf) - cpMin (chrgText ttf)) 0) as [Hz | Hnz].
  - destruct (NZV replace_text) eqn:Enzv; simpl.
    + destruct (Z.ltb_spec (rs_end st) (pos + (cpMax (chrgText ttf) - cpMin (chrgText ttf))))
        as [| Hin]; [reflexivity |].
      destruct Hstop as [Hm | [[_ He] | Hpast]]; [contradiction | | lia].
      apply NZV_false in He. congruence.
    + reflexivity.
  - simpl.
    destruct (Z.ltb_spec (rs_end st) (pos + (cpMax (chrgText ttf) - cpMin (chrgText ttf))))
      as [| Hin]; [reflexivity |].
    destruct Hstop as [Hm | [[Hz _] | Hpast]]; [contradiction | contradiction | lia].
Qed.

(** More fuel does not change a result. *)
Lemma replace_range_loop_more_fuel (n : nat) (flags : Z) (replace_text : string) :
  forall (st st' : replace_state),
    replace_range_loop n flags replace_text st = Some st' ->
    forall m, (n <= m)%nat -> replace_range_loop m flags replace_text st = Some st'.
Proof.
  induction n as [| n IH]; intros st st' Hrun m Hm; [discriminate |].
  destruct m as [| m]; [lia |].
  cbn [replace_range_loop] in *.
  destruct (sci_find_text (rs_sci st) flags (rs_ttf st)) as [pos ttf].
  destruct (pos =? -1); [exact Hrun |].
  destruct ((_ =? 0) && negb (NZV replace_text)); [exact Hrun |].
  destruct (rs_end st <? _); [exact Hrun |].
  destruct (sci_target_replace _ _ _) as [s2 rl].
  destruct (pos =? rs_end st); [exact Hrun |].
  apply (IH _ _ Hrun). lia.
Qed.

Lemma replace_stops_or_not (flags : Z) (replace_text : string) (st : replace_state) :
  replace_stops flags replace_text st \/ ~ replace_stops flags replace_text st.
Proof.
  unfold replace_stops. cbv zeta.
  destruct (Z.eq_dec (fst (sci_find_text (rs_sci st) flags (rs_ttf st))) (-1)); [tauto |].
  destruct (Z.lt_ge_cases (rs_end st)
              (fst (sci_find_text (rs_sci st) flags (rs_ttf st))
               + (cpMax (chrgText (snd (sci_find_text (rs_sci st) flags (rs_ttf st))))
                  - cpMin (chrgText (snd (sci_find_text (rs_sci st) flags (rs_ttf st)))))));
    [tauto |].
  destruct (Z.eq_dec (cpMax (chrgText (snd (sci_find_text (rs_sci st) flags (rs_ttf st))))
                      - cpMin (chrgText (snd (sci_find_text (rs_sci st) flags (rs_ttf st)))))
              0); [| right; intros [? | [[? ?] | ?]]; lia].
  destruct replace_text; [tauto |].
  right. intros [? | [[? ?] | ?]]; [lia | discriminate | lia].
Qed.

(** When the loop does not stop, it replaces the match that was found and
    counts it.  If the match began at the range end the loop ends there;
    otherwise it goes on with a window that lies in the text again, starts
    at or after the end of the replacement, and is shorter than it was. *)
Lemma replace_range_loop_replaces (n : nat) (flags : Z) (replace_text : string)
  (st : replace_state) :
  replace_window_ok st -> ~ replace_stops flags replace_text st ->
  let found := sci_find_text (rs_sci st) flags (rs_ttf st) in
  let pos := fst found in
  let find_len := cpMax (chrgText (snd found)) - cpMin (chrgText (snd found)) in
  let replaced :=
    sci_target_replace (sci_target_end (sci_target_start (rs_sci st) pos) (pos + find_len))
      replace_text (flag_set flags SCFIND_REGEXP) in
  exists st1,
    rs_sci st1 = fst replaced
    /\ rs_count st1 = rs_count st + 1
    /\ rs_end st1 = rs_end st + (snd replaced - find_len)
    /\ (pos <> rs_end st ->
        cpMin (chrg (rs_ttf st)) <= pos < rs_end st
        /\ replace_window_ok st1
        /\ pos + snd replaced <= cpMin (chrg (rs_ttf st1))
        /\ rs_end st1 - cpMin (chrg (rs_ttf st1))
           < rs_end st - cpMin (chrg (rs_ttf st)))
    /\ replace_range_loop (S n) flags replace_text st
       = if pos =? rs_end st
         then Some {| rs_sci := fst replaced; rs_ttf := snd found;
                      rs_end := rs_end st; rs_count := rs_count st + 1 |}
         else replace_range_loop n flags replace_text st1.
Proof.
  intros (Hstart & Hend & Hmax) Hgo. unfold replace_stops in Hgo. cbv zeta in Hgo.
  cbn [replace_range_loop].
  pose proof (sci_find_in_range (rs_sci st) flags (rs_ttf st)) as Hfind.
  destruct (sci_find_text (rs_sci st) flags (rs_ttf st)) as [pos ttf].
  simpl fst in *. simpl snd in *. cbv zeta.
  set (find_len := cpMax (chrgText ttf) - cpMin (chrgText ttf)) in *.
  destruct (Z.eqb_spec pos (-1)) as [| Hpos]; [tauto |].
  destruct (Hfind Hpos) as [Hlow Hlen].
  assert (Hflnn : 0 <= find_len) by (unfold find_len; lia).
  assert (Hguard : (find_len =? 0) && negb (NZV replace_text) = false).
  { destruct (Z.eqb_spec find_len 0) as [Hz |]; [| reflexivity].
    destruct (NZV replace_text) eqn:Enzv; [reflexivity |].
    apply NZV_false in Enzv. tauto. }
  rewrite Hguard.
  destruct (Z.ltb_spec (rs_end st) (pos + find_len)) as [| Hin]; [tauto |].
  set (s1 := sci_target_end (sci_target_start (rs_sci st) pos) (pos + find_len)).
  assert (Hs1 : sci_get_length s1 = sci_get_length (rs_sci st)).
  { unfold s1.
    destruct (sci_target_end_text (sci_target_start (rs_sci st) pos) (pos + find_len))
      as [Hl1 _]. destruct (sci_target_start_text (rs_sci st) pos) as [Hl2 _]. congruence. }
  assert (Hts : SCI_GETTARGETSTART s1 = pos).
  { unfold s1. rewrite sci_target_end_keeps_start. apply sci_target_start_get. }
  assert (Hte : SCI_GETTARGETEND s1 = pos + find_len)
    by (unfold s1; apply sci_target_end_get).
  set (movepastEOL :=
         if find_len <=? 0
         then if Ascii.eqb (sci_get_char_at s1 (SCI_GETTARGETEND s1)) CR
                 || Ascii.eqb (sci_get_char_at s1 (SCI_GETTARGETEND s1)) LF
              then 1 else 0
         else 0).
  assert (Hm : 0 <= movepastEOL <= 1 /\ (0 < find_len -> movepastEOL = 0)).
  { unfold movepastEOL. destruct (Z.leb_spec find_len 0).
    - destruct (_ || _); lia.
    - lia. }
  pose proof (sci_target_replace_length s1 replace_text (flag_set flags SCFIND_REGEXP))
    as Hrepl.
  rewrite Hts, Hte, Hs1 in Hrepl.
  destruct (sci_target_replace s1 replace_text (flag_set flags SCFIND_REGEXP)) as [s2 rl].
  simpl fst in *. simpl snd in *.
  set (start := pos + rl + movepastEOL).
  set (start' := if find_len =? 0 then SCI_POSITIONAFTER s2 start else start).
  exists {| rs_sci := s2;
            rs_ttf := ttf_set_range start' (rs_end st + (rl - find_len)) ttf;
            rs_end := rs_end st + (rl - find_len); rs_count := rs_count st + 1 |}.
  simpl. split; [reflexivity | split; [reflexivity | split; [reflexivity | split]]].
  - intros Hnot.
    assert (Hpos_in : cpMin (chrg (rs_ttf st)) <= pos < rs_end st) by lia.
    destruct Hrepl as [Hrl Hlen2]; [lia | lia |].
    assert (Hstart_in : start <= sci_get_length s2
                        /\ (find_len = 0 -> movepastEOL = 0 -> start < sci_get_length s2))
      by (unfold start; lia).
    assert (Hadv : start <= start' /\ (find_len = 0 -> movepastEOL = 0 -> start < start')).
    { unfold start'. destruct (Z.eqb_spec find_len 0) as [Hz | Hnz].
      - split.
        + apply sci_position_after_ge. lia.
        + intros _ Hm0. apply sci_position_after_gt. apply Hstart_in; assumption.
      - split; [lia | intros; contradiction]. }
    split; [exact Hpos_in |].
    unfold replace_window_ok. simpl. unfold start in *.
    destruct (Z.eq_dec find_len 0) as [Hz | Hnz].
    + destruct (Z.eq_dec movepastEOL 0) as [Hm0 | Hm1].
      * destruct Hadv as [Hge Hgt]. specialize (Hgt Hz Hm0). lia.
      * lia.
    + destruct Hm as [_ Hm0]. rewrite Hm0 in * by lia. lia.
  - destruct (pos =? rs_end st); reflexivity.
Qed.

(** With a window in the text, the loop returns within as many iterations
    as the window is long, plus one. *)
Lemma replace_range_loop_terminates (flags : Z) (replace_text : string) (n : nat) :
  forall st : replace_state,
    replace_window_ok st ->
    Z.max 0 (rs_end st - cpMin (chrg (rs_ttf st))) < Z.of_nat n ->
    exists st', replace_range_loop n flags replace_text st = Some st'.
Proof.
  induction n as [| n IH]; intros st Hok Hfuel; [lia |].
  destruct (replace_stops_or_not flags replace_text st) as [Hstop | Hgo].
  - rewrite (replace_range_loop_stops n flags replace_text st Hstop). eexists; reflexivity.
  - destruct (replace_range_loop_replaces n flags replace_text st Hok Hgo)
      as (st1 & _ & _ & _ & Hnext & Hrun).
    rewrite Hrun.
    destruct (Z.eqb_spec (fst (sci_find_text (rs_sci st) flags (rs_ttf st))) (rs_end st))
      as [| Hnot]; [eexists; reflexivity |].
    destruct (Hnext Hnot) as (Hin & Hok1 & _ & Hless).
    apply IH; [exact Hok1 | lia].
Qed.

(** document_replace_range returns, with the same result for any fuel from
    the length of the range on, on a range that lies in the text. *)
Lemma document_replace_range_returns (doc : GeanyDocument Sci) (s : Sci)
  (find_text replace_text : string) (flags start end_ : Z) (scroll_to_match : bool) :
  sci doc = Some s -> 0 <= start <= end_ -> end_ <= sci_get_length s ->
  exists result,
    forall fuel, (Z.to_nat (end_ - start) + 1 <= fuel)%nat ->
      document_replace_range fuel doc find_text replace_text flags start end_ scroll_to_match
      = Some result.
Proof.
  intros Hs Hrange Hend. unfold document_replace_range.
  destruct (str_is_empty find_text || readonly doc); [eexists; intros; reflexivity |].
  rewrite Hs. simpl.
  set (st0 := {| rs_sci := sci_start_undo_action s;
                 rs_ttf := {| chrg := {| cpMin := start; cpMax := end_ |};
                              lpstrText := find_text; chrgText := no_range |};
                 rs_end := end_; rs_count := 0 |}).
  assert (Hok : replace_window_ok st0).
  { unfold replace_window_ok, st0. simpl.
    destruct (sci_start_undo_action_text s) as [Hlen _]. lia. }
  destruct (replace_range_loop_terminates flags replace_text (Z.to_nat (end_ - start) + 1)
              st0 Hok) as [st' Hrun].
  { unfold st0. simpl. lia. }
  destruct (0 <? rs_count st') eqn:Ecount; eexists; intros fuel Hfuel;
    rewrite (replace_range_loop_more_fuel _ _ _ _ _ Hrun fuel Hfuel); simpl;
    rewrite Ecount; reflexivity.
Qed.


End ReplaceRangeProperties.



(** Both foo of foo bar foo become baz; in aXbXc, replacing X by YY over the
    range that ends after the second X gives the new end of the range; a
    match that crosses the end of the range is left alone. *)
Example document_replace_range_samples :
  let run (txt find_text replace_text : string) (a b : Z) :=
    '(count, new_end, d) ← document_replace_range 12 (Samples.doc_on (Samples.buffer txt 0 0))
                             find_text replace_text SCFIND_MATCHCASE a b false;
    Some (count, new_end, doc_text d) in
  run "foo bar foo" "foo" "baz" 0 11 = Some (2, 11, Some "baz bar baz"%string)
  /\ run "aXbXc" "X" "YY" 0 4 = Some (2, 6, Some "aYYbYYc"%string)
  /\ run "abcabc" "abc" "x" 0 5 = Some (1, 3, Some "xabc"%string)
  /\ run "aaa" "a" "aa" 0 3 = Some (3, 6, Some "aaaaaa"%string).
Proof. repeat split; vm_compute; reflexivity. Qed.

(** ** The registry: no two documents for one file *)

Section RegistryProperties.
Context {Sci : Type} `{ScintillaOps Sci} `{EditorOps Sci}.
Context {Nb : Type} `{NotebookOps Nb}.
Context {Host : Type} `{HostOps Host}.
Context `{EncodingOps}.

Lemma filename_equal_eq (a b : string) : filename_equal a b = true <-> a = b.
Proof. apply String.eqb_eq. Qed.

Lemma find_by_real_path_from_some (docs : list (GeanyDocument Sci)) (realname : string) :
  forall k i,
    find_by_real_path_from k docs realname = Some i ->
    (k <= i)%nat
    /\ exists d, docs !! (i - k)%nat = Some d /\ is_valid d = true
                 /\ real_path d = Some realname.
Proof.
  induction docs as [| doc rest IH]; intros k i Hfind; simpl in Hfind; [discriminate |].
  assert (Hrest : find_by_real_path_from (S k) rest realname = Some i ->
                  (k <= i)%nat
                  /\ exists d, (doc :: rest) !! (i - k)%nat = Some d /\ is_valid d = true
                               /\ real_path d = Some realname).
  { intros Hr. destruct (IH _ _ Hr) as (Hle & d & Hd & Hv & Hrp).
    split; [lia |]. exists d. replace (i - k)%nat with (S (i - S k)) by lia.
    simpl. auto. }
  destruct (is_valid doc) eqn:Ev; [| auto].
  destruct (real_path doc) as [rp |] eqn:Erp; [| auto].
  destruct (filename_equal realname rp) eqn:Eeq; [| auto].
  inversion Hfind; subst i. apply filename_equal_eq in Eeq. subst rp.
  split; [lia |]. exists doc. rewrite Nat.sub_diag. auto.
Qed.

Lemma find_by_real_path_from_none (docs : list (GeanyDocument Sci)) (realname : string) :
  forall k,
    find_by_real_path_from k docs realname = None ->
    forall j d, docs !! j = Some d -> is_valid d = true -> real_path d <> Some realname.
Proof.
  induction docs as [| doc rest IH]; intros k Hfind j d Hd Hv Hrp; [discriminate |].
  simpl in Hfind.
  destruct j as [| j]; simpl in Hd.
  - inversion Hd; subst doc. rewrite Hv, Hrp in Hfind.
    rewrite (proj2 (filename_equal_eq realname realname) eq_refl) in Hfind. discriminate.
  - assert (Hr : find_by_real_path_from (S k) rest realname = None).
    { destruct (is_valid doc); [| exact Hfind].
      destruct (real_path doc); [| exact Hfind].
      destruct (filename_equal realname s); [discriminate | exact Hfind]. }
    exact (IH _ Hr j d Hd Hv Hrp).
Qed.

Lemma find_by_file_name_from_some (docs : list (GeanyDocument Sci)) (name : string) :
  forall k i,
    find_by_file_name_from k docs name = Some i ->
    (k <= i)%nat
    /\ exists d, docs !! (i - k)%nat = Some d /\ is_valid d = true
                 /\ file_name d = Some name.
Proof.
  induction docs as [| doc rest IH]; intros k i Hfind; simpl in Hfind; [discriminate |].
  assert (Hrest : find_by_file_name_from (S k) rest name = Some i ->
                  (k <= i)%nat
                  /\ exists d, (doc :: rest) !! (i - k)%nat = Some d /\ is_valid d = true
                               /\ file_name d = Some name).
  { intros Hr. destruct (IH _ _ Hr) as (Hle & d & Hd & Hv & Hfn).
    split; [lia |]. exists d. replace (i - k)%nat with (S (i - S k)) by lia.
    simpl. auto. }
  destruct (is_valid doc) eqn:Ev; [| auto].
  destruct (file_name doc) as [fn |] eqn:Efn; [| auto].
  destruct (filename_equal name fn) eqn:Eeq; [| auto].
  inversion Hfind; subst i. apply filename_equal_eq in Eeq. subst fn.
  split; [lia |]. exists doc. rewrite Nat.sub_diag. auto.
Qed.

Lemma find_by_file_name_from_none (docs : list (GeanyDocument Sci)) (name : string) :
  forall k,
    find_by_file_name_from k docs name = None ->
    forall j d, docs !! j = Some d -> is_valid d = true -> file_name d <> Some name.
Proof.
  induction docs as [| doc rest IH]; intros k Hfind j d Hd Hv Hfn; [discriminate |].
  simpl in Hfind.
  destruct j as [| j]; simpl in Hd.
  - inversion Hd; subst doc. rewrite Hv, Hfn in Hfind.
    rewrite (proj2 (filename_equal_eq name name) eq_refl) in Hfind. discriminate.
  - assert (Hr : find_by_file_name_from (S k) rest name = None).
    { destruct (is_valid doc); [| exact Hfind].
      destruct (file_name doc); [| exact Hfind].
      destruct (filename_equal name s); [discriminate | exact Hfind]. }
    exact (IH _ Hr j d Hd Hv Hfn).
Qed.

(** document_find_by_filename finds a document exactly when the file is
    already open, and the document it gives is one that has the file. *)
Lemma document_find_by_filename_some (docs : list (GeanyDocument Sci)) (h : Host)
  (f : string) (i : nat) :
  document_find_by_filename docs h (Some f) = Some i -> already_open docs h f i.
Proof.
  unfold document_find_by_filename, already_open.
  destruct (find_by_file_name_from 0 docs f) as [k |] eqn:Ename.
  - intros Heq. inversion Heq; subst k.
    destruct (find_by_file_name_from_some _ _ _ _ Ename) as (_ & d & Hd & Hv & Hfn).
    rewrite Nat.sub_0_r in Hd. exists d. auto.
  - unfold document_find_by_real_path.
    destruct (get_real_path_from_utf8 h f) as [rp |] eqn:Erp; [| discriminate].
    intros Hfind.
    destruct (find_by_real_path_from_some _ _ _ _ Hfind) as (_ & d & Hd & Hv & Hrp).
    rewrite Nat.sub_0_r in Hd. exists d. split; [exact Hd | split; [exact Hv |]].
    right. exists rp. auto.
Qed.

Lemma document_find_by_filename_none (docs : list (GeanyDocument Sci)) (h : Host)
  (f : string) :
  document_find_by_filename docs h (Some f) = None ->
  forall i, ~ already_open docs h f i.
Proof.
  unfold document_find_by_filename, already_open.
  destruct (find_by_file_name_from 0 docs f) as [k |] eqn:Ename; [discriminate |].
  intros Hreal i (d & Hd & Hv & [Hfn | (rp & Hrp & Hres)]).
  - exact (find_by_file_name_from_none _ _ _ Ename i d Hd Hv Hfn).
  - rewrite Hres in Hreal. simpl in Hreal.
    exact (find_by_real_path_from_none _ _ _ Hreal i d Hd Hv Hrp).
Qed.

Lemma same_slots_refl (docs : list (GeanyDocument Sci)) : same_slots docs docs.
Proof. split; [reflexivity |]. intros i d Hd. exists d. auto. Qed.

Lemma same_slots_trans (a b c : list (GeanyDocument Sci)) :
  same_slots a b -> same_slots b c -> same_slots a c.
Proof.
  intros [Hlab Hab] [Hlbc Hbc]. split; [congruence |].
  intros i d Hd. destruct (Hab i d Hd) as (d1 & Hd1 & Hv1 & Hf1 & Hr1 & Hs1).
  destruct (Hbc i d1 Hd1) as (d2 & Hd2 & Hv2 & Hf2 & Hr2 & Hs2).
  exists d2. split; [exact Hd2 |]. repeat (split; [congruence |]). auto.
Qed.

Lemma same_slots_insert (docs : list (GeanyDocument Sci)) (idx : nat)
  (d d' : GeanyDocument Sci) :
  docs !! idx = Some d ->
  is_valid d' = is_valid d -> file_name d' = file_name d -> real_path d' = real_path d ->
  is_Some (sci d') ->
  same_slots docs (<[idx := d']> docs).
Proof.
  intros Hd Hv Hf Hr Hs. split; [apply length_insert |].
  intros i di Hdi. destruct (Nat.eq_dec idx i) as [-> | Hne].
  - exists d'. rewrite list_lookup_insert_eq by (eapply lookup_lt_Some; eauto).
    rewrite Hd in Hdi. inversion Hdi; subst di. auto.
  - exists di. rewrite list_lookup_insert_ne by exact Hne. auto.
Qed.

Lemma same_slots_from (docs docs' : list (GeanyDocument Sci)) :
  same_slots docs docs' -> slots_from docs docs'.
Proof.
  intros [Hlen Hsame] i d' Hd' Hv.
  assert (Hlt : (i < length docs)%nat).
  { rewrite <- Hlen. eapply lookup_lt_Some; eauto. }
  destruct (lookup_lt_is_Some_2 docs i Hlt) as [d Hd].
  destruct (Hsame i d Hd) as (d2 & Hd2 & Hv2 & Hf2 & Hr2 & Hs2).
  rewrite Hd' in Hd2. inversion Hd2; subst d2.
  exists d. split; [exact Hd |]. repeat (split; [congruence |]). exact Hs2.
Qed.

Lemma slots_from_trans (a b c : list (GeanyDocument Sci)) :
  slots_from a b -> slots_from b c -> slots_from a c.
Proof.
  intros Hab Hbc i d2 Hd2 Hv2.
  destruct (Hbc i d2 Hd2 Hv2) as (d1 & Hd1 & Hv1 & Hf1 & Hr1 & Hs1).
  destruct (Hab i d1 Hd1 Hv1) as (d & Hd & Hv & Hf & Hr & Hs).
  exists d. split; [exact Hd |]. repeat (split; [congruence |]). auto.
Qed.

(** The invariant survives any change that adds no valid document and
    renames none. *)
Lemma unique_real_paths_from (docs docs' : list (GeanyDocument Sci)) :
  slots_from docs docs' -> unique_real_paths docs -> unique_real_paths docs'.
Proof.
  intros Hfrom Huniq i j di dj rp Hi Hj Hvi Hvj Hri Hrj.
  destruct (Hfrom i di Hi Hvi) as (ei & Hei & Hevi & _ & Heri & _).
  destruct (Hfrom j dj Hj Hvj) as (ej & Hej & Hevj & _ & Herj & _).
  apply (Huniq i j ei ej rp); congruence.
Qed.

(** So does the buffer of every valid document. *)
Lemma valid_have_buffers_from (docs docs' : list (GeanyDocument Sci)) :
  slots_from docs docs' -> valid_have_buffers docs -> valid_have_buffers docs'.
Proof.
  intros Hfrom Hbuf i d' Hd' Hv.
  destruct (Hfrom i d' Hd' Hv) as (d & Hd & Hvd & _ & _ & Hs).
  exact (Hs (Hbuf i d Hd Hvd)).
Qed.

Lemma set_cursor_position_some (d : GeanyDocument Sci) (pos : Z)
  (cl : CommandLineOptions.t) (s : Sci) :
  sci d = Some s ->
  exists s' percent cl',
    set_cursor_position d pos cl
    = Some (with_scroll_percent percent (with_sci (Some s') d), cl').
Proof.
  intros Hs. unfold set_cursor_position. rewrite Hs. simpl.
  destruct (0 <=? CommandLineOptions.goto_line cl); simpl.
  - destruct (0 <=? CommandLineOptions.goto_column cl); do 3 eexists; reflexivity.
  - destruct (0 <? pos); simpl;
      destruct (0 <=? CommandLineOptions.goto_column cl); do 3 eexists; reflexivity.
Qed.

Lemma set_indentation_some (prefs : GeanyEditorPrefs.t) (u : Ui) (d : GeanyDocument Sci)
  (s : Sci) :
  sci d = Some s ->
  exists b u', set_indentation prefs u d = Some (editor_set_use_tabs d b, u').
Proof.
  intros Hs. unfold set_indentation.
  destruct (filetype_id_eqb _ _); [do 2 eexists; reflexivity |].
  destruct (negb _); [do 2 eexists; reflexivity |].
  rewrite Hs. simpl. do 2 eexists; reflexivity.
Qed.

Lemma slots_from_refl (docs : list (GeanyDocument Sci)) : slots_from docs docs.
Proof. apply same_slots_from, same_slots_refl. Qed.

Lemma slots_from_insert_invalid (docs : list (GeanyDocument Sci)) (idx : nat)
  (d' : GeanyDocument Sci) :
  is_valid d' = false -> slots_from docs (<[idx := d']> docs).
Proof.
  intros Hinv i di Hdi Hv. destruct (Nat.eq_dec idx i) as [-> | Hne].
  - destruct (decide (i < length docs)%nat) as [Hlt | Hge].
    + rewrite list_lookup_insert_eq in Hdi by exact Hlt. inversion Hdi; subst di. congruence.
    + rewrite list_insert_ge in Hdi by lia. exists di. auto.
  - rewrite list_lookup_insert_ne in Hdi by exact Hne. exists di. auto.
Qed.

Lemma get_new_idx_from_bounds (docs : list (GeanyDocument Sci)) :
  forall k i, get_new_idx_from k docs = Some i -> (k <= i < k + length docs)%nat.
Proof.
  induction docs as [| doc rest IH]; intros k i Hget; simpl in *; [discriminate |].
  destruct (sci doc).
  - apply IH in Hget. lia.
  - inversion Hget. lia.
Qed.

(** Closing a page adds no valid document and leaves the disk alone. *)
Lemma document_remove_page_slots (app : App Sci Nb Host) (page_num : Z) :
  host (snd (document_remove_page app page_num)) = host app
  /\ slots_from (documents_array app)
       (documents_array (snd (document_remove_page app page_num))).
Proof.
  unfold document_remove_page.
  destruct (document_get_from_page _ _ _) as [idx |];
    [| split; [reflexivity | apply slots_from_refl]].
  destruct (documents_array app !! idx) as [doc |];
    [| split; [reflexivity | apply slots_from_refl]].
  destruct (if changed doc then _ else _) as [proceed u1].
  destruct proceed; simpl; [| split; [reflexivity | apply slots_from_refl]].
  split; [reflexivity |].
  apply slots_from_insert_invalid. unfold document_undo_clear. reflexivity.
Qed.

(** Creating a document fills one slot with a valid document that has the
    given display path, no real path yet and a new buffer; the valid
    documents of the other slots were there before. *)
Lemma document_create_slots (app : App Sci Nb Host) (utf8_filename : option string) :
  let idx := fst (document_create app utf8_filename) in
  let app' := snd (document_create app utf8_filename) in
  host app' = host app
  /\ cl_options app' = cl_options app
  /\ (exists this, documents_array app' !! idx = Some this
        /\ is_valid this = true /\ file_name this = utf8_filename
        /\ real_path this = None /\ sci this = Some scintilla_new)
  /\ (forall j d', j <> idx -> documents_array app' !! j = Some d' -> is_valid d' = true ->
      exists d, documents_array app !! j = Some d /\ is_valid d = true
        /\ file_name d' = file_name d /\ real_path d' = real_path d
        /\ (is_Some (sci d) -> is_Some (sci d'))).
Proof.
  unfold document_create.
  set (app1 := if gtk_notebook_get_n_pages (notebook app) =? 1 then _ else app).
  assert (Happ1 : host app1 = host app /\ cl_options app1 = cl_options app
                  /\ slots_from (documents_array app) (documents_array app1)).
  { unfold app1. destruct (_ =? 1); [| split; [| split]; try reflexivity; apply slots_from_refl].
    destruct (document_get_current _ _) as [i |];
      [| split; [| split]; try reflexivity; apply slots_from_refl].
    destruct (documents_array app !! i) as [doc |];
      [| split; [| split]; try reflexivity; apply slots_from_refl].
    destruct (file_name doc); [split; [| split]; try reflexivity; apply slots_from_refl |].
    destruct (changed doc); [split; [| split]; try reflexivity; apply slots_from_refl |].
    destruct (document_remove_page_slots app 0) as [Hh Hs]. split; [exact Hh | split; [| exact Hs]].
    unfold document_remove_page.
    destruct (document_get_from_page _ _ _); [| reflexivity].
    destruct (documents_array app !! n); [| reflexivity].
    destruct (if changed g then _ else _) as [proceed u1]. destruct proceed; reflexivity. }
  destruct Happ1 as (Hhost & Hcl & Hfrom).
  destruct (document_get_new_idx (documents_array app1)) as [i |] eqn:Enew; simpl.
  - apply get_new_idx_from_bounds in Enew.
    split; [exact Hhost | split; [exact Hcl | split]].
    + eexists. rewrite list_lookup_insert_eq by lia. repeat split; reflexivity.
    + intros j d' Hne Hd' Hv. rewrite list_lookup_insert_ne in Hd' by congruence.
      exact (Hfrom j d' Hd' Hv).
  - split; [exact Hhost | split; [exact Hcl | split]].
    + eexists. rewrite list_lookup_insert_eq by (rewrite length_app; simpl; lia).
      repeat split; reflexivity.
    + intros j d' Hne Hd' Hv. rewrite list_lookup_insert_ne in Hd' by congruence.
      destruct (decide (j < length (documents_array app1))%nat) as [Hlt | Hge].
      * rewrite lookup_app_l in Hd' by exact Hlt. exact (Hfrom j d' Hd' Hv).
      * rewrite lookup_app_r in Hd' by lia.
        destruct (j - length (documents_array app1))%nat eqn:Ej; [lia |].
        simpl in Hd'. destruct n; discriminate.
Qed.

Lemma document_set_filetype_fields (d : GeanyDocument Sci) (type : option GeanyFiletype) :
  sci (document_set_filetype d type) = sci d
  /\ is_valid (document_set_filetype d type) = is_valid d
  /\ file_name (document_set_filetype d type) = file_name d
  /\ real_path (document_set_filetype d type) = real_path d.
Proof. destruct type; repeat split. Qed.

(** Reloading returns.  It either fails and leaves the registry alone, or
    updates the slot of the document, which keeps its validity, its paths and
    a buffer. *)
Lemma document_open_file_load_reload (app : App Sci Nb Host)
  (idx : nat) (names : option (string * string)) (pos : Z) (read_only : bool)
  (ft : option GeanyFiletype) (forced_enc : option string)
  (d : GeanyDocument Sci) (s : Sci) :
  documents_array app !! idx = Some d -> sci d = Some s ->
  exists r app',
    document_open_file_load app true (Some idx) names pos read_only ft forced_enc
    = Some (r, app')
    /\ host app' = host app
    /\ ((r = None /\ documents_array app' = documents_array app)
        \/ exists d',
             r = Some idx
             /\ documents_array app' = <[idx := d']> (documents_array app)
             /\ is_valid d' = is_valid d /\ file_name d' = file_name d
             /\ is_Some (sci d')
             /\ real_path d' = real_path d).
Proof.
  intros Hd Hs. unfold document_open_file_load.
  destruct (match names with
            | Some (locale_filename, utf8_filename) => _
            | None => _
            end) as [loaded u1].
  destruct loaded as [filedata |];
    [| do 2 eexists; split; [reflexivity | split; [reflexivity | left; split; reflexivity]]].
  simpl. rewrite Hd. simpl. rewrite Hs. simpl.
  match goal with |- context [set_cursor_position ?D ?P ?C] =>
    destruct (set_cursor_position_some D P C _ eq_refl) as (s' & percent & cl' & Hcur)
  end.
  rewrite Hcur. simpl.
  do 2 eexists. split; [reflexivity | split; [reflexivity |]].
  right. eexists.
  split; [reflexivity | split; [reflexivity |]].
  simpl. unfold document_undo_clear. simpl.
  destruct (GeanyStatus.quitting (main_status app)); simpl;
    (destruct ft; simpl;
     (split; [reflexivity | split; [reflexivity | split; [eexists; reflexivity |]]];
      reflexivity)).
Qed.

(** Opening a file that is not open returns.  It either fails and leaves the
    registry alone, or fills the slot that document_create chose with a valid
    document whose real path is what its display path resolves to. *)
Lemma document_open_file_load_fresh (app : App Sci Nb Host) (doc : option nat)
  (names : option (string * string)) (pos : Z) (read_only : bool)
  (ft : option GeanyFiletype) (forced_enc : option string) :
  exists r app',
    document_open_file_load app false doc names pos read_only ft forced_enc = Some (r, app')
    /\ host app' = host app
    /\ ((r = None /\ documents_array app' = documents_array app)
        \/ exists idx d',
             r = Some idx
             /\ documents_array app' !! idx = Some d'
             /\ is_valid d' = true
             /\ file_name d' = option_map snd names
             /\ real_path d'
                = match option_map snd names with
                  | Some f => get_real_path_from_utf8 (host app) f
                  | None => None
                  end
             /\ is_Some (sci d')
             /\ (forall j e', j <> idx -> documents_array app' !! j = Some e' ->
                 is_valid e' = true ->
                 exists e, documents_array app !! j = Some e /\ is_valid e = true
                   /\ file_name e' = file_name e /\ real_path e' = real_path e
                   /\ (is_Some (sci e) -> is_Some (sci e')))).
Proof.
  unfold document_open_file_load.
  destruct (match names with
            | Some (locale_filename, utf8_filename) => _
            | None => _
            end) as [loaded u1].
  destruct loaded as [filedata |];
    [| do 2 eexists; split; [reflexivity | split; [reflexivity | left; split; reflexivity]]].
  pose proof (document_create_slots (with_ui u1 app) (option_map snd names)) as Hcreate.
  cbv zeta in Hcreate.
  destruct (document_create (with_ui u1 app) (option_map snd names)) as [idx app2] eqn:Ecreate.
  simpl fst in Hcreate. simpl snd in Hcreate.
  destruct Hcreate as (Hhost & Hcl & (this & Hthis & Hv & Hfn & Hrp & Hsci) & Hothers).
  simpl. rewrite Hthis. simpl. rewrite Hsci. simpl.
  match goal with |- context [set_cursor_position ?D ?P ?C] =>
    assert (HBv : is_valid D = is_valid this) by reflexivity;
    assert (HBn : file_name D = file_name this) by reflexivity;
    destruct (set_cursor_position_some D P C _ eq_refl) as (s' & percent & cl' & Hcur);
    set (B := D) in *; clearbody B
  end.
  rewrite Hcur. simpl.
  match goal with |- context [set_indentation ?E ?U (document_set_filetype ?D0 ?T)] =>
    destruct (document_set_filetype_fields D0 T) as (Fsci & Fvalid & Fname & Freal);
    destruct (set_indentation_some E U (document_set_filetype D0 T) s' Fsci)
      as (b & u2 & Hind)
  end.
  rewrite Hind. simpl.
  do 2 eexists. split; [reflexivity | split; [exact Hhost |]].
  right. exists idx. eexists.
  split; [reflexivity |]. simpl.
  split; [apply list_lookup_insert_eq; eapply lookup_lt_Some; exact Hthis |].
  unfold document_set_text_changed, editor_set_use_tabs. simpl.
  clear Hcur Hind.
  rewrite Fvalid, Fname, Freal, Fsci. simpl. rewrite HBn, Hfn, Hhost.
  split; [congruence | split; [reflexivity | split; [reflexivity |]]].
  split; [eexists; reflexivity |].
  intros j e' Hne He' Hve.
  rewrite list_lookup_insert_ne in He' by congruence.
  exact (Hothers j e' Hne He' Hve).
Qed.

(** A reload of a document that has a buffer returns and keeps the slots. *)
Lemma document_open_file_reload_slots (app : App Sci Nb Host) (idx : nat) (pos : Z)
  (read_only : bool) (ft : option GeanyFiletype) (forced_enc : option string)
  (d : GeanyDocument Sci) (s : Sci) :
  documents_array app !! idx = Some d -> sci d = Some s ->
  exists r app',
    document_open_file_reload app idx pos read_only ft forced_enc = Some (r, app')
    /\ host app' = host app
    /\ same_slots (documents_array app) (documents_array app').
Proof.
  intros Hd Hs. unfold document_open_file_reload. rewrite Hd. simpl.
  destruct (document_open_file_load_reload app idx
              (option_map (fun f => (utils_get_locale_from_utf8 f, f)) (file_name d))
              pos read_only ft forced_enc d s Hd Hs)
    as (r & app' & Hload & Hhost & Hres).
  exists r, app'. split; [exact Hload | split; [exact Hhost |]].
  destruct Hres as [[_ Hdocs] | (d' & _ & Hdocs & Hv & Hf & Hb & Hr)]; rewrite Hdocs.
  - apply same_slots_refl.
  - apply (same_slots_insert _ idx d d' Hd Hv Hf Hr Hb).
Qed.

Lemma document_reload_file_slots (app : App Sci Nb Host) (idx : nat)
  (forced_enc : option string) (d : GeanyDocument Sci) (s : Sci) :
  documents_array app !! idx = Some d -> sci d = Some s ->
  exists r app',
    document_reload_file app idx forced_enc = Some (r, app')
    /\ host app' = host app
    /\ same_slots (documents_array app) (documents_array app').
Proof.
  intros Hd Hs. unfold document_reload_file. rewrite Hd. simpl. rewrite Hs. simpl.
  destruct (document_open_file_reload_slots app idx (sci_get_current_position s)
              (readonly d) (file_type d) forced_enc d s Hd Hs)
    as (r & app' & Hopen & Hhost & Hsame).
  rewrite Hopen. simpl. do 2 eexists. split; [reflexivity | split; assumption].
Qed.

Lemma check_reload_slots (app : App Sci Nb Host) (idx : nat)
  (d : GeanyDocument Sci) (s : Sci) :
  documents_array app !! idx = Some d -> sci d = Some s ->
  exists r app',
    check_reload app idx = Some (r, app')
    /\ host app' = host app
    /\ same_slots (documents_array app) (documents_array app').
Proof.
  intros Hd Hs. unfold check_reload. rewrite Hd. simpl.
  destruct (ui_answers (ui app) (ui_asked (ui app))).
  - match goal with |- context [document_reload_file ?A idx None] =>
      destruct (document_reload_file_slots A idx None d s Hd Hs)
        as (r & app' & Hreload & Hhost & Hsame)
    end.
    rewrite Hreload. simpl. do 2 eexists. split; [reflexivity | split; assumption].
  - do 2 eexists. split; [reflexivity | split; [reflexivity | apply same_slots_refl]].
Qed.

(** The disk check of a document that has a buffer returns, keeps the slots
    and leaves the disk alone. *)
Lemma document_check_disk_status_slots (app : App Sci Nb Host) (idx : nat) (force : bool)
  (d : GeanyDocument Sci) (s : Sci) :
  documents_array app !! idx = Some d -> sci d = Some s ->
  exists r app',
    document_check_disk_status app idx force = Some (r, app')
    /\ host app' = host app
    /\ same_slots (documents_array app) (documents_array app').
Proof.
  intros Hd Hs. unfold document_check_disk_status. rewrite Hd. simpl.
  assert (Hkeep : forall d', is_valid d' = is_valid d -> file_name d' = file_name d ->
                    real_path d' = real_path d -> sci d' = sci d ->
                    same_slots (documents_array app) (documents_array (store_doc idx d' app))).
  { intros d' Hv Hf Hr Hb. apply (same_slots_insert _ idx d d' Hd Hv Hf Hr).
    rewrite Hb, Hs. eexists; reflexivity. }
  destruct (_ =? 0);
    [do 2 eexists; split; [reflexivity | split; [reflexivity | apply same_slots_refl]] |].
  destruct (real_path d) as [rp |] eqn:Erp;
    [| do 2 eexists; split; [reflexivity | split; [reflexivity | apply same_slots_refl]]].
  destruct (negb force && _);
    [do 2 eexists; split; [reflexivity | split; [reflexivity | apply same_slots_refl]] |].
  destruct (match file_name d with Some f => _ | None => None end) as [[st_mtime st_rest] |].
  - destruct (_ || _).
    { do 2 eexists. split; [reflexivity | split; [reflexivity |]].
      apply Hkeep; try reflexivity. exact Erp. }
    destruct (mtime d <? st_mtime).
    + set (app0 := store_doc idx (with_last_check (host_time (host app)) d) app).
      assert (Hsame0 : same_slots (documents_array app) (documents_array app0))
        by (apply Hkeep; try reflexivity; exact Erp).
      assert (Hd0 : documents_array app0 !! idx
                    = Some (with_last_check (host_time (host app)) d)).
      { unfold app0. simpl. apply list_lookup_insert_eq. eapply lookup_lt_Some; exact Hd. }
      destruct (check_reload_slots app0 idx _ s Hd0 Hs)
        as (r & app1 & Hcheck & Hhost1 & Hsame1).
      rewrite Hcheck. simpl.
      destruct (proj2 Hsame1 idx _ Hd0) as (d1 & Hd1 & Hv1 & Hf1 & Hr1 & Hb1).
      rewrite Hd1. simpl.
      do 2 eexists. split; [reflexivity | split; [exact Hhost1 |]].
      apply (same_slots_trans _ _ _ Hsame0).
      apply (same_slots_trans _ _ _ Hsame1).
      apply (same_slots_insert _ idx d1 _ Hd1); try reflexivity.
      apply Hb1. exists s. exact Hs.
    + do 2 eexists. split; [reflexivity | split; [reflexivity |]].
      apply Hkeep; try reflexivity. exact Erp.
  - do 2 eexists. split; [reflexivity | split; [reflexivity |]].
    apply Hkeep; try reflexivity. exact Erp.
Qed.

(** C2: opening a file that is already open, found by its display path or,
    after canonicalisation, by its real path, returns an existing document
    that has the file and creates none: every slot keeps its validity and its
    paths.  Whatever the call does, it returns when every valid document has
    a buffer, it leaves the disk alone, and no two valid documents share a
    real path afterwards if none did before; every valid document still has
    a buffer, so the same holds for the next call. *)
Theorem document_open_file_no_duplicates (app : App Sci Nb Host)
  (locale_filename : string) (pos : Z) (read_only : bool)
  (ft : option GeanyFiletype) (forced_enc : option string) :
  valid_have_buffers (documents_array app) ->
  unique_real_paths (documents_array app) ->
  exists r app',
    document_open_file_full app None (Some locale_filename) pos read_only ft forced_enc
    = Some (r, app')
    /\ host app' = host app
    /\ unique_real_paths (documents_array app')
    /\ valid_have_buffers (documents_array app')
    /\ (forall i,
          already_open (documents_array app) (host app)
            (utils_get_utf8_from_locale locale_filename) i ->
          exists k, r = Some k
            /\ already_open (documents_array app) (host app)
                 (utils_get_utf8_from_locale locale_filename) k
            /\ same_slots (documents_array app) (documents_array app')).
Proof.
  intros Hbuf Huniq. unfold document_open_file_full.
  set (utf8 := utils_get_utf8_from_locale locale_filename).
  destruct (document_find_by_filename (documents_array app) (host app) (Some utf8))
    as [idx |] eqn:Efind.
  - pose proof (document_find_by_filename_some _ _ _ _ Efind) as Hopen.
    destruct Hopen as (d & Hd & Hv & Hpath).
    destruct (Hbuf idx d Hd Hv) as [s Hs].
    match goal with |- context [document_check_disk_status ?A idx true] =>
      destruct (document_check_disk_status_slots A idx true d s Hd Hs)
        as (r & app1 & Hcheck & Hhost1 & Hsame1)
    end.
    rewrite Hcheck. simpl in Hsame1, Hhost1 |- *.
    destruct (proj2 Hsame1 idx d Hd) as (d1 & Hd1 & Hv1 & Hf1 & Hr1 & Hb1).
    destruct (Hb1 (ex_intro _ s Hs)) as [s1 Hs1].
    rewrite Hd1. simpl.
    destruct (set_cursor_position_some d1 pos (cl_options app1) s1 Hs1)
      as (s' & percent & cl' & Hcur).
    rewrite Hcur. simpl.
    assert (Hsame : same_slots (documents_array app)
                      (<[idx := with_scroll_percent percent (with_sci (Some s') d1)]>
                         (documents_array app1))).
    { apply (same_slots_trans _ _ _ Hsame1).
      apply (same_slots_insert _ idx d1 _ Hd1); try reflexivity.
      eexists; reflexivity. }
    do 2 eexists. split; [reflexivity |]. simpl.
    split; [exact Hhost1 |].
    split; [exact (unique_real_paths_from _ _ (same_slots_from _ _ Hsame) Huniq) |].
    split; [exact (valid_have_buffers_from _ _ (same_slots_from _ _ Hsame) Hbuf) |].
    intros i _. exists idx. split; [reflexivity |].
    split; [exists d; auto | exact Hsame].
  - pose proof (document_find_by_filename_none _ _ _ Efind) as Hnone.
    destruct (document_open_file_load_fresh app None (Some (locale_filename, utf8))
                pos read_only ft forced_enc)
      as (r & app' & Hload & Hhost & Hres).
    exists r, app'. split; [exact Hload | split; [exact Hhost |]].
    destruct Hres as [[_ Hdocs] | (idx & d' & _ & Hd' & Hv' & Hf' & Hr' & Hb' & Hothers)].
    + rewrite Hdocs. split; [exact Huniq | split; [exact Hbuf |]].
      intros i Hi. destruct (Hnone i Hi).
    + simpl in Hf', Hr'.
      assert (Hfresh : forall j e rp, j <> idx -> documents_array app' !! j = Some e ->
                         is_valid e = true -> real_path e = Some rp ->
                         real_path d' <> Some rp).
      { intros j e rp Hne He Hve Hre Hrd.
        destruct (Hothers j e Hne He Hve) as (e0 & He0 & Hve0 & _ & Hre0 & _).
        apply (Hnone j). exists e0. split; [exact He0 | split; [exact Hve0 |]].
        right. exists rp. split; congruence. }
      split; [| split].
      * intros i j di dj rp Hi Hj Hvi Hvj Hri Hrj.
        destruct (Nat.eq_dec i idx) as [-> | Hni];
          destruct (Nat.eq_dec j idx) as [-> | Hnj]; [reflexivity | | |].
        -- rewrite Hd' in Hi. inversion Hi; subst di.
           destruct (Hfresh j dj rp Hnj Hj Hvj Hrj Hri).
        -- rewrite Hd' in Hj. inversion Hj; subst dj.
           destruct (Hfresh i di rp Hni Hi Hvi Hri Hrj).
        -- destruct (Hothers i di Hni Hi Hvi) as (ei & Hei & Hvei & _ & Hrei & _).
           destruct (Hothers j dj Hnj Hj Hvj) as (ej & Hej & Hvej & _ & Hrej & _).
           apply (Huniq i j ei ej rp); congruence.
      * intros i di Hi Hvi. destruct (Nat.eq_dec i idx) as [-> | Hni].
        -- rewrite Hd' in Hi. inversion Hi; subst di. exact Hb'.
        -- destruct (Hothers i di Hni Hi Hvi) as (ei & Hei & Hvei & _ & _ & Hbi).
           exact (Hbi (Hbuf i ei Hei Hvei)).
      * intros i Hi. destruct (Hnone i Hi).
Qed.

End RegistryProperties.

Lemma document_open_file_no_duplicates_witness :
  let app := Samples.session in
  let name := "/tmp/link.txt"%string in
  (valid_have_buffers (documents_array app) /\ unique_real_paths (documents_array app))
  /\ already_open (documents_array app) (host app) name 0
  /\ exists r app',
       document_open_file_full app None (Some name) 0 false None None = Some (r, app')
       /\ host app' = host app
       /\ unique_real_paths (documents_array app')
       /\ valid_have_buffers (documents_array app')
       /\ (forall i,
             already_open (documents_array app) (host app)
               (utils_get_utf8_from_locale name) i ->
             exists k, r = Some k
               /\ already_open (documents_array app) (host app)
                    (utils_get_utf8_from_locale name) k
               /\ same_slots (documents_array app) (documents_array app')).
Proof.
  intros app name.
  assert (Hbuf : valid_have_buffers (documents_array app)).
  { intros i d Hd Hv. destruct i as [| i]; simpl in Hd; [| discriminate].
    inversion Hd; subst d. eexists; reflexivity. }
  assert (Huniq : unique_real_paths (documents_array app)).
  { intros i j di dj rp Hi Hj _ _ _ _.
    destruct i as [| i]; simpl in Hi; [| discriminate].
    destruct j as [| j]; simpl in Hj; [reflexivity | discriminate]. }
  split; [split; [exact Hbuf | exact Huniq] |].
  split.
  - eexists. split; [reflexivity | split; [reflexivity |]].
    right. exists "/tmp/a.txt"%string. split; reflexivity.
  - exact (document_open_file_no_duplicates app name 0 false None None Hbuf Huniq).
Defined.

(** On a disk where /tmp/link.txt is a link to /tmp/a.txt: opening the open
    file by its name or through the link gives the document that has it;
    another file gets the next slot, and opening it again, or the first file
    through the link, adds nothing; a file that is not on the disk gives no
    document. *)
Example document_open_file_samples :
  let open (app : App TextSci.t ListNotebook.t SimpleHost.t) (f : string) :=
    document_open_file app (Some f) false None None in
  let a := (true, Some "/tmp/a.txt"%string, Some "/tmp/a.txt"%string) in
  let b := (true, Some "/tmp/b.txt"%string, Some "/tmp/b.txt"%string) in
  Samples.opened (open Samples.session "/tmp/a.txt") = Some (Some 0%nat, [a])
  /\ Samples.opened (open Samples.session "/tmp/link.txt") = Some (Some 0%nat, [a])
  /\ Samples.opened (open Samples.session "/tmp/b.txt") = Some (Some 1%nat, [a; b])
  /\ Samples.opened (open Samples.session "/tmp/none.txt") = Some (None, [a])
  /\ Samples.opened ('(_, app) ← open Samples.session "/tmp/b.txt"; open app "/tmp/b.txt")
     = Some (Some 1%nat, [a; b])
  /\ Samples.opened ('(_, app) ← open Samples.session "/tmp/b.txt"; open app "/tmp/link.txt")
     = Some (Some 0%nat, [a; b]).
Proof. repeat split; vm_compute; reflexivity. Qed.

(** * Further properties of the code *)

(** ** Looking documents up *)

Section RegistryLookup.
Context {Sci : Type} `{ScintillaOps Sci}.
Context {Host : Type} `{HostOps Host}.

Lemma find_by_real_path_from_first (docs : list (GeanyDocument Sci)) (realname : string) :
  forall k i,
    find_by_real_path_from k docs realname = Some i <->
    (k <= i)%nat
    /\ (exists d, docs !! (i - k)%nat = Some d /\ is_valid d = true
                  /\ real_path d = Some realname)
    /\ (forall j d, (j < i - k)%nat -> docs !! j = Some d -> is_valid d = true ->
        real_path d <> Some realname).
Proof.
  induction docs as [| doc rest IH]; intros k i.
  - simpl. split; [discriminate |]. intros (_ & (d & Hd & _) & _). discriminate.
  - assert (Hcases :
      (is_valid doc = true /\ real_path doc = Some realname
       /\ find_by_real_path_from k (doc :: rest) realname = Some k)
      \/ (~ (is_valid doc = true /\ real_path doc = Some realname)
          /\ find_by_real_path_from k (doc :: rest) realname
             = find_by_real_path_from (S k) rest realname)).
    { simpl. destruct (is_valid doc); [| right; split; [intros [? _]; discriminate | reflexivity]].
      destruct (real_path doc) as [rp |];
        [| right; split; [intros [_ ?]; discriminate | reflexivity]].
      destruct (String.eqb_spec realname rp) as [-> | Hne].
      - left. unfold filename_equal. rewrite String.eqb_refl. auto.
      - right. unfold filename_equal.
        rewrite (proj2 (String.eqb_neq realname rp) Hne).
        split; [intros [_ Heq]; congruence | reflexivity]. }
    destruct Hcases as [(Hv & Hr & Hfind) | (Hnot & Hfind)]; rewrite Hfind.
    + split.
      * intros Heq. inversion Heq; subst i. split; [lia |]. rewrite Nat.sub_diag. split.
        -- exists doc. auto.
        -- intros j d Hj. lia.
      * intros (Hle & _ & Hmin). f_equal.
        destruct (decide (i = k)) as [-> | Hne]; [reflexivity |].
        destruct (Hmin 0%nat doc ltac:(lia) eq_refl Hv Hr).
    + rewrite IH. split.
      * intros (Hle & (d & Hd & Hv & Hr) & Hmin). split; [lia |]. split.
        -- exists d. replace (i - k)%nat with (S (i - S k)) by lia. auto.
        -- intros j d' Hj Hd' Hv' Hr'. destruct j as [| j].
           ++ simpl in Hd'. inversion Hd'; subst d'. apply Hnot. auto.
           ++ simpl in Hd'. apply (Hmin j d' ltac:(lia) Hd' Hv' Hr').
      * intros (Hle & (d & Hd & Hv & Hr) & Hmin).
        destruct (decide (i = k)) as [-> | Hne].
        { rewrite Nat.sub_diag in Hd. simpl in Hd. inversion Hd; subst d.
          destruct Hnot. auto. }
        split; [lia |]. split.
        -- exists d. replace (i - k)%nat with (S (i - S k)) in Hd by lia. auto.
        -- intros j d' Hj Hd'. apply (Hmin (S j) d' ltac:(lia)). exact Hd'.
Qed.

Lemma find_by_file_name_from_first (docs : list (GeanyDocument Sci)) (name : string) :
  forall k i,
    find_by_file_name_from k docs name = Some i <->
    (k <= i)%nat
    /\ (exists d, docs !! (i - k)%nat = Some d /\ is_valid d = true
                  /\ file_name d = Some name)
    /\ (forall j d, (j < i - k)%nat -> docs !! j = Some d -> is_valid d = true ->
        file_name d <> Some name).
Proof.
  induction docs as [| doc rest IH]; intros k i.
  - simpl. split; [discriminate |]. intros (_ & (d & Hd & _) & _). discriminate.
  - assert (Hcases :
      (is_valid doc = true /\ file_name doc = Some name
       /\ find_by_file_name_from k (doc :: rest) name = Some k)
      \/ (~ (is_valid doc = true /\ file_name doc = Some name)
          /\ find_by_file_name_from k (doc :: rest) name
             = find_by_file_name_from (S k) rest name)).
    { simpl. destruct (is_valid doc); [| right; split; [intros [? _]; discriminate | reflexivity]].
      destruct (file_name doc) as [fn |];
        [| right; split; [intros [_ ?]; discriminate | reflexivity]].
      destruct (String.eqb_spec name fn) as [-> | Hne].
      - left. unfold filename_equal. rewrite String.eqb_refl. auto.
      - right. unfold filename_equal.
        rewrite (proj2 (String.eqb_neq name fn) Hne).
        split; [intros [_ Heq]; congruence | reflexivity]. }
    destruct Hcases as [(Hv & Hr & Hfind) | (Hnot & Hfind)]; rewrite Hfind.
    + split.
      * intros Heq. inversion Heq; subst i. split; [lia |]. rewrite Nat.sub_diag. split.
        -- exists doc. auto.
        -- intros j d Hj. lia.
      * intros (Hle & _ & Hmin). f_equal.
        destruct (decide (i = k)) as [-> | Hne]; [reflexivity |].
        destruct (Hmin 0%nat doc ltac:(lia) eq_refl Hv Hr).
    + rewrite IH. split.
      * intros (Hle & (d & Hd & Hv & Hr) & Hmin). split; [lia |]. split.
        -- exists d. replace (i - k)%nat with (S (i - S k)) by lia. auto.
        -- intros j d' Hj Hd' Hv' Hr'. destruct j as [| j].
           ++ simpl in Hd'. inversion Hd'; subst d'. apply Hnot. auto.
           ++ simpl in Hd'. apply (Hmin j d' ltac:(lia) Hd' Hv' Hr').
      * intros (Hle & (d & Hd & Hv & Hr) & Hmin).
        destruct (decide (i = k)) as [-> | Hne].
        { rewrite Nat.sub_diag in Hd. simpl in Hd. inversion Hd; subst d.
          destruct Hnot. auto. }
        split; [lia |]. split.
        -- exists d. replace (i - k)%nat with (S (i - S k)) in Hd by lia. auto.
        -- intros j d' Hj Hd'. apply (Hmin (S j) d' ltac:(lia)). exact Hd'.
Qed.

(** X1: document_find_by_real_path gives the first valid document that has
    the real path: a slot is its result exactly when the document there is
    valid and has the path and no valid document of a lower slot has it.
    Without a real path (the file is not on the disk) it finds nothing. *)
Theorem document_find_by_real_path_first (docs : list (GeanyDocument Sci))
  (realname : string) (i : nat) :
  (document_find_by_real_path docs (Some realname) = Some i <->
   (exists d, docs !! i = Some d /\ is_valid d = true /\ real_path d = Some realname)
   /\ (forall j d, (j < i)%nat -> docs !! j = Some d -> is_valid d = true ->
       real_path d <> Some realname))
  /\ document_find_by_real_path docs None = None.
Proof.
  split; [| reflexivity].
  unfold document_find_by_real_path. rewrite find_by_real_path_from_first.
  rewrite Nat.sub_0_r. split.
  - intros (_ & Hd & Hmin). auto.
  - intros (Hd & Hmin). split; [lia | auto].
Qed.

(** X2: in document_find_by_filename the display path wins over the real
    path.  When a valid document has the name as its display path the result
    is the first such document, whatever the disk says; only when no valid
    document has it does the real path of the name decide.  Without a name
    nothing is found. *)
Theorem document_find_by_filename_precedence (docs : list (GeanyDocument Sci)) (h : Host)
  (utf8_filename : string) :
  (forall i,
     (exists d, docs !! i = Some d /\ is_valid d = true
                /\ file_name d = Some utf8_filename)
     /\ (forall j d, (j < i)%nat -> docs !! j = Some d -> is_valid d = true ->
         file_name d <> Some utf8_filename) ->
     document_find_by_filename docs h (Some utf8_filename) = Some i)
  /\ ((forall j d, docs !! j = Some d -> is_valid d = true ->
       file_name d <> Some utf8_filename) ->
      document_find_by_filename docs h (Some utf8_filename)
      = document_find_by_real_path docs (get_real_path_from_utf8 h utf8_filename))
  /\ document_find_by_filename docs h None = None.
Proof.
  split; [| split; [| reflexivity]].
  - intros i (Hd & Hmin). unfold document_find_by_filename.
    assert (Hfind : find_by_file_name_from 0 docs utf8_filename = Some i).
    { apply find_by_file_name_from_first. rewrite Nat.sub_0_r. split; [lia | auto]. }
    rewrite Hfind. reflexivity.
  - intros Hnone. unfold document_find_by_filename.
    destruct (find_by_file_name_from 0 docs utf8_filename) as [k |] eqn:Efind; [| reflexivity].
    apply find_by_file_name_from_first in Efind.
    destruct Efind as (_ & (d & Hd & Hv & Hf) & _).
    destruct (Hnone _ d Hd Hv Hf).
Qed.

End RegistryLookup.

(** ** Closing and creating documents *)

Section SlotProperties.
Context {Sci : Type} `{ScintillaOps Sci} `{EditorOps Sci}.
Context {Nb : Type} `{NotebookOps Nb}.
Context {Host : Type} `{HostOps Host}.
Context `{EncodingOps}.

Lemma get_new_idx_from_first (docs : list (GeanyDocument Sci)) :
  forall k,
    match get_new_idx_from k docs with
    | Some i =>
      (k <= i)%nat
      /\ (exists d, docs !! (i - k)%nat = Some d /\ sci d = None)
      /\ (forall j d, (j < i - k)%nat -> docs !! j = Some d -> is_Some (sci d))
    | None => forall j d, docs !! j = Some d -> is_Some (sci d)
    end.
Proof.
  induction docs as [| doc rest IH]; intros k; simpl.
  - intros j d Hd. discriminate.
  - destruct (sci doc) as [s |] eqn:Es.
    + specialize (IH (S k)). destruct (get_new_idx_from (S k) rest) as [i |].
      * destruct IH as (Hle & (d & Hd & Hs) & Hmin). split; [lia |]. split.
        -- exists d. replace (i - k)%nat with (S (i - S k)) by lia. auto.
        -- intros j d' Hj Hd'. destruct j as [| j]; simpl in Hd'.
           ++ inversion Hd'; subst d'. rewrite Es. eexists; reflexivity.
           ++ apply (Hmin j d'); [lia | exact Hd'].
      * intros j d Hd. destruct j as [| j]; simpl in Hd.
        -- inversion Hd; subst d. rewrite Es. eexists; reflexivity.
        -- exact (IH j d Hd).
    + split; [lia |]. rewrite Nat.sub_diag. split.
      * exists doc. auto.
      * intros j d Hj. lia.
Qed.

(** What document_remove_page leaves: nothing but the questions asked when it
    gives FALSE, and otherwise the cleared slot of the document of the page. *)
Lemma document_remove_page_result (app : App Sci Nb Host) (page_num : Z) :
  let r := fst (document_remove_page app page_num) in
  let app' := snd (document_remove_page app page_num) in
  (host app' = host app /\ main_status app' = main_status app
   /\ editor_prefs app' = editor_prefs app /\ file_prefs app' = file_prefs app
   /\ cl_options app' = cl_options app /\ geany_object app' = geany_object app)
  /\ (r = false ->
      documents_array app' = documents_array app /\ notebook app' = notebook app)
  /\ (r = true ->
      exists idx doc d0,
        document_get_from_page (documents_array app) (notebook app) page_num = Some idx
        /\ documents_array app !! idx = Some doc
        /\ (changed doc = true -> ui_answers (ui app) (ui_asked (ui app)) = true)
        /\ documents_array app' = <[idx := d0]> (documents_array app)
        /\ notebook app' = notebook_remove_page (notebook app) page_num
        /\ is_valid d0 = false /\ sci d0 = None /\ file_name d0 = None
        /\ real_path d0 = None /\ encoding d0 = None /\ has_bom d0 = false
        /\ undo_actions d0 = [] /\ redo_actions d0 = []).
Proof.
  unfold document_remove_page.
  destruct (document_get_from_page _ _ _) as [idx |] eqn:Epage;
    [| simpl; repeat split; auto; discriminate].
  destruct (documents_array app !! idx) as [doc |] eqn:Edoc;
    [| simpl; repeat split; auto; discriminate].
  destruct (changed doc) eqn:Echanged.
  - unfold dialogs_show_question_full.
    destruct (ui_answers (ui app) (ui_asked (ui app))) eqn:Eanswer; simpl.
    + split; [repeat split | split; [discriminate |]].
      intros _. exists idx, doc. eexists.
      split; [reflexivity | split; [exact Edoc | split; [auto |]]].
      split; [reflexivity |]. repeat split.
    + split; [repeat split | split; [auto | discriminate]].
  - simpl. split; [repeat split | split; [discriminate |]].
    intros _. exists idx, doc. eexists.
    split; [reflexivity | split; [exact Edoc | split; [intros Hc; congruence |]]].
    split; [reflexivity |]. repeat split.
Qed.

(** X3: document_remove_page gives FALSE and leaves the registry and the
    tabs as they were when the page shows no document or when the user,
    asked about an unsaved document, declines.  When it gives TRUE the slot
    of the document is cleared (not valid, no buffer, no names, no encoding,
    empty ledgers), the other slots and the length of the list are as
    before, and document_get_new_idx then offers that slot or a lower one. *)
Theorem document_remove_page_frees_slot (app : App Sci Nb Host) (page_num : Z) :
  let r := fst (document_remove_page app page_num) in
  let app' := snd (document_remove_page app page_num) in
  host app' = host app
  /\ (r = false ->
      documents_array app' = documents_array app /\ notebook app' = notebook app)
  /\ (r = true ->
      exists idx doc d0,
        document_get_from_page (documents_array app) (notebook app) page_num = Some idx
        /\ documents_array app !! idx = Some doc
        /\ (changed doc = true -> ui_answers (ui app) (ui_asked (ui app)) = true)
        /\ documents_array app' = <[idx := d0]> (documents_array app)
        /\ notebook app' = notebook_remove_page (notebook app) page_num
        /\ is_valid d0 = false /\ sci d0 = None /\ file_name d0 = None
        /\ real_path d0 = None /\ encoding d0 = None
        /\ undo_actions d0 = [] /\ redo_actions d0 = []
        /\ exists j, document_get_new_idx (documents_array app') = Some j
                     /\ (j <= idx)%nat).
Proof.
  intros r app'. subst r app'.
  destruct (document_remove_page_result app page_num)
    as ((Hhost & _) & Hfalse & Htrue).
  split; [exact Hhost | split; [exact Hfalse |]].
  intros Hr. destruct (Htrue Hr)
    as (idx & doc & d0 & Hpage & Hdoc & Hasked & Hdocs & Hnb & Hv & Hs & Hf & Hrp & He
        & _ & Hu & Hre).
  exists idx, doc, d0. repeat (split; [assumption |]).
  rewrite Hdocs. unfold document_get_new_idx.
  pose proof (get_new_idx_from_first (<[idx := d0]> (documents_array app)) 0) as Hfirst.
  assert (Hat : <[idx := d0]> (documents_array app) !! idx = Some d0).
  { apply list_lookup_insert_eq. eapply lookup_lt_Some; exact Hdoc. }
  destruct (get_new_idx_from 0 (<[idx := d0]> (documents_array app))) as [j |].
  - exists j. split; [reflexivity |].
    destruct Hfirst as (_ & _ & Hmin).
    destruct (decide (j <= idx)%nat) as [Hle | Hgt]; [exact Hle |].
    destruct (Hmin idx d0 ltac:(lia) Hat) as [s Hsome]. congruence.
  - destruct (Hfirst idx d0 Hat) as [s Hsome]. congruence.
Qed.

End SlotProperties.

Section CreateProperties.
Context {Sci : Type} `{ScintillaOps Sci} `{EditorOps Sci}.
Context {Nb : Type} `{NotebookOps Nb}.
Context {Host : Type} `{HostOps Host}.
Context `{EncodingOps}.

(** The registry that document_create fills is the one it was given, or that
    one with the document of the first tab closed. *)
Lemma document_create_closes_at_most_one (app : App Sci Nb Host) :
  let app1 :=
    if gtk_notebook_get_n_pages (notebook app) =? 1 then
      match document_get_current (documents_array app) (notebook app) with
      | Some i =>
        match documents_array app !! i with
        | Some doc =>
          match file_name doc with
          | None => if changed doc then app else snd (document_remove_page app 0)
          | Some _ => app
          end
        | None => app
        end
      | None => app
      end
    else app in
  (host app1 = host app /\ editor_prefs app1 = editor_prefs app
   /\ file_prefs app1 = file_prefs app /\ geany_object app1 = geany_object app
   /\ main_status app1 = main_status app /\ cl_options app1 = cl_options app)
  /\ (documents_array app1 = documents_array app
      \/ exists idx doc d0,
           documents_array app !! idx = Some doc
           /\ documents_array app1 = <[idx := d0]> (documents_array app)
           /\ is_valid d0 = false /\ sci d0 = None).
Proof.
  intros app1.
  assert (Hcases : app1 = app \/ app1 = snd (document_remove_page app 0)).
  { subst app1.
    destruct (gtk_notebook_get_n_pages (notebook app) =? 1); [| auto].
    destruct (document_get_current _ _) as [i |]; [| auto].
    destruct (documents_array app !! i) as [doc |]; [| auto].
    destruct (file_name doc); [auto |].
    destruct (changed doc); auto. }
  clearbody app1. destruct Hcases as [-> | ->]; [split; [repeat split | auto] |].
  destruct (document_remove_page_result app 0)
    as ((Hhost & Hstatus & Hprefs & Hfprefs & Hcl & Hobj) & Hfalse & Htrue).
  split; [repeat split; assumption |].
  destruct (fst (document_remove_page app 0)) eqn:Er.
  - destruct (Htrue eq_refl) as (idx & doc & d0 & _ & Hdoc & _ & Hdocs & _ & Hv & Hs & _).
    right. exists idx, doc, d0. auto.
  - left. exact (proj1 (Hfalse eq_refl)).
Qed.

(** What document_create leaves: the settings, the disk and the flags as
    they were, the new document in its slot, and the other slots. *)
Lemma document_create_result (app : App Sci Nb Host) (utf8_filename : option string) :
  let idx := fst (document_create app utf8_filename) in
  let app' := snd (document_create app utf8_filename) in
  let docs := documents_array app in
  let docs' := documents_array app' in
  (host app' = host app /\ editor_prefs app' = editor_prefs app
   /\ file_prefs app' = file_prefs app /\ geany_object app' = geany_object app
   /\ main_status app' = main_status app /\ cl_options app' = cl_options app)
  /\ (length docs <= length docs' <= S (length docs))%nat
  /\ (exists this,
        docs' !! idx = Some this
        /\ is_valid this = true /\ index this = idx
        /\ file_name this = utf8_filename /\ sci this = Some scintilla_new
        /\ real_path this = None /\ encoding this = None
        /\ changed this = false /\ readonly this = false
        /\ undo_actions this = [] /\ redo_actions this = []
        /\ has_bom this = false /\ file_type this = None
        /\ line_wrapping this = GeanyEditorPrefs.line_wrapping (editor_prefs app))
  /\ (forall j d, (j < idx)%nat -> docs' !! j = Some d -> is_Some (sci d))
  /\ (length docs' = S (length docs) -> idx = length docs)
  /\ (forall j d', j <> idx -> docs' !! j = Some d' ->
      exists d, docs !! j = Some d
                /\ (d' = d \/ (is_valid d' = false /\ sci d' = None))).
Proof.
  intros idx app' docs docs'. subst idx app' docs docs'. unfold document_create.
  pose proof (document_create_closes_at_most_one app) as Hclosed.
  cbv zeta in Hclosed.
  set (app1 := if gtk_notebook_get_n_pages (notebook app) =? 1 then _ else app) in *.
  clearbody app1.
  destruct Hclosed as ((Hhost & Hprefs & Hfprefs & Hobj & Hstatus & Hcl) & Hdocs1).
  assert (Hlen : length (documents_array app1) = length (documents_array app)).
  { destruct Hdocs1 as [-> | (i & doc & d0 & _ & -> & _)];
      [reflexivity | apply length_insert]. }
  assert (Hold : forall j d1, documents_array app1 !! j = Some d1 ->
            exists d, documents_array app !! j = Some d
                      /\ (d1 = d \/ (is_valid d1 = false /\ sci d1 = None))).
  { intros j d1 Hd1. destruct Hdocs1 as [Heq | (i & doc & d0 & Hdoc & Heq & Hv & Hs)];
      rewrite Heq in Hd1.
    - exists d1. auto.
    - destruct (decide (i = j)) as [-> | Hne].
      + rewrite list_lookup_insert_eq in Hd1 by (eapply lookup_lt_Some; exact Hdoc).
        inversion Hd1; subst d1. exists doc. auto.
      + rewrite list_lookup_insert_ne in Hd1 by exact Hne. exists d1. auto. }
  pose proof (get_new_idx_from_first (documents_array app1) 0) as Hfirst.
  unfold document_get_new_idx.
  destruct (get_new_idx_from 0 (documents_array app1)) as [i |]; simpl.
  - destruct Hfirst as (_ & (d & Hd & Hs) & Hmin). rewrite Nat.sub_0_r in Hd, Hmin.
    assert (Hlt : (i < length (documents_array app1))%nat)
      by (eapply lookup_lt_Some; exact Hd).
    rewrite length_insert, Hlen.
    split; [repeat split; assumption |].
    split; [lia |]. split.
    { eexists. split; [apply list_lookup_insert_eq; exact Hlt |].
      repeat split. simpl. rewrite Hprefs. reflexivity. }
    split.
    { intros j dj Hj Hdj. rewrite list_lookup_insert_ne in Hdj by lia.
      exact (Hmin j dj Hj Hdj). }
    split; [lia |].
    intros j d' Hne Hd'. rewrite list_lookup_insert_ne in Hd' by congruence.
    exact (Hold j d' Hd').
  - rewrite length_insert, length_app, Hlen. simpl.
    split; [repeat split; assumption |].
    split; [lia |]. split.
    { eexists. split.
      - apply list_lookup_insert_eq. rewrite length_app. simpl. lia.
      - repeat split. simpl. rewrite Hprefs. reflexivity. }
    split.
    { intros j dj Hj Hdj. rewrite list_lookup_insert_ne in Hdj by lia.
      rewrite lookup_app_l in Hdj by lia. exact (Hfirst j dj Hdj). }
    split; [intros _; reflexivity |].
    intros j d' Hne Hd'. rewrite list_lookup_insert_ne in Hd' by congruence.
    destruct (decide (j < length (documents_array app1))%nat) as [Hlt | Hge].
    + rewrite lookup_app_l in Hd' by exact Hlt. exact (Hold j d' Hd').
    + rewrite lookup_app_r in Hd' by lia.
      destruct (j - length (documents_array app1))%nat as [| m] eqn:Ej; [lia |].
      simpl in Hd'. discriminate.
Qed.


(** Besides the slot that it fills, document_create changes one slot at
    most, and none unless there is exactly one tab. *)
Lemma document_create_other_slots (app : App Sci Nb Host) (utf8_filename : option string) :
  let idx := fst (document_create app utf8_filename) in
  let docs := documents_array app in
  let docs' := documents_array (snd (document_create app utf8_filename)) in
  (exists closed, forall j, j <> idx -> j <> closed -> docs' !! j = docs !! j)
  /\ (gtk_notebook_get_n_pages (notebook app) <> 1 ->
      forall j, j <> idx -> docs' !! j = docs !! j).
Proof.
  intros idx docs docs'. subst idx docs docs'. unfold document_create.
  pose proof (document_create_closes_at_most_one app) as Hclosed.
  cbv zeta in Hclosed.
  set (app1 := if gtk_notebook_get_n_pages (notebook app) =? 1 then _ else app) in *.
  assert (Hno : gtk_notebook_get_n_pages (notebook app) <> 1 -> app1 = app).
  { intros Hn. subst app1.
    destruct (Z.eqb_spec (gtk_notebook_get_n_pages (notebook app)) 1);
      [contradiction | reflexivity]. }
  clearbody app1.
  destruct Hclosed as (_ & Hdocs1).
  set (filled := match document_get_new_idx (documents_array app1) with
                 | Some i => (i, documents_array app1)
                 | None => (length (documents_array app1),
                            documents_array app1 ++ [zero_document])
                 end).
  assert (Hfill : forall j, j <> fst filled -> snd filled !! j = documents_array app1 !! j).
  { intros j Hj. subst filled.
    destruct (document_get_new_idx (documents_array app1)); simpl in *; [reflexivity |].
    destruct (decide (j < length (documents_array app1))%nat) as [Hlt | Hge].
    - apply lookup_app_l. exact Hlt.
    - rewrite lookup_app_r by lia.
      destruct (j - length (documents_array app1))%nat as [| m] eqn:Ej; [lia |].
      simpl. symmetry. apply lookup_ge_None. lia. }
  destruct filled as [new_idx filled_docs] eqn:Efilled. simpl in *.
  assert (Hnew : forall j, j <> new_idx ->
            <[new_idx := with_is_valid true
                 (with_auto_indent
                    (negb (indent_mode_is_none
                             (GeanyEditorPrefs.indent_mode (editor_prefs app1))))
                    (with_sci (Some scintilla_new)
                       (with_file_name utf8_filename
                          (with_index new_idx
                             (init_doc_struct (editor_prefs app1)
                                (host_time (host app1)))))))]> filled_docs !! j
            = documents_array app1 !! j).
  { intros j Hj. rewrite list_lookup_insert_ne by congruence. apply Hfill. exact Hj. }
  split.
  - destruct Hdocs1 as [Heq | (i & doc & d0 & _ & Heq & _)].
    + exists new_idx. intros j Hj _. rewrite (Hnew j Hj), Heq. reflexivity.
    + exists i. intros j Hj Hi. rewrite (Hnew j Hj), Heq.
      apply list_lookup_insert_ne. congruence.
  - intros Hn j Hj. rewrite (Hnew j Hj), (Hno Hn). reflexivity.
Qed.

(** X4: document_create fills the lowest slot that has no buffer and
    appends a slot only when every slot has one, so the list never shrinks
    and grows by at most one.  The document it gives is valid, knows its
    slot, has the given name and a new buffer, and is otherwise blank: no
    real path, no encoding yet, no BOM, no file type, not changed, not
    read-only, empty ledgers.  Besides the slot that is filled at most one
    slot changes, and none unless there is exactly one tab; a slot that
    changes holds the cleared slot of the document that was closed on the
    way. *)
Theorem document_create_reuses_slots (app : App Sci Nb Host)
  (utf8_filename : option string) :
  let idx := fst (document_create app utf8_filename) in
  let docs := documents_array app in
  let docs' := documents_array (snd (document_create app utf8_filename)) in
  (length docs <= length docs' <= S (length docs))%nat
  /\ (exists this,
        docs' !! idx = Some this
        /\ is_valid this = true /\ index this = idx
        /\ file_name this = utf8_filename /\ sci this = Some scintilla_new
        /\ real_path this = None /\ encoding this = None
        /\ changed this = false /\ readonly this = false
        /\ undo_actions this = [] /\ redo_actions this = []
        /\ has_bom this = false /\ file_type this = None)
  /\ (forall j d, (j < idx)%nat -> docs' !! j = Some d -> is_Some (sci d))
  /\ (length docs' = S (length docs) -> idx = length docs)
  /\ (forall j d', j <> idx -> docs' !! j = Some d' ->
      exists d, docs !! j = Some d
                /\ (d' = d \/ (is_valid d' = false /\ sci d' = None)))
  /\ (exists closed, forall j, j <> idx -> j <> closed -> docs' !! j = docs !! j)
  /\ (gtk_notebook_get_n_pages (notebook app) <> 1 ->
      forall j, j <> idx -> docs' !! j = docs !! j).
Proof.
  intros idx docs docs'. subst idx docs docs'.
  destruct (document_create_result app utf8_filename)
    as (_ & Hlen & (this & Hthis & Hv & Hi & Hf & Hs & Hrp & He & Hc & Hro & Hu & Hr & Hb
                    & Hft & _)
        & Hlow & Hgrow & Hothers).
  destruct (document_create_other_slots app utf8_filename) as [Hone Hnone].
  split; [exact Hlen |]. split; [| auto].
  exists this. repeat (split; [assumption |]). exact Hft.
Qed.

End CreateProperties.

(** ** The caret after opening *)

Section CursorProperties.
Context {Sci : Type} `{ScintillaOps Sci}.

Lemma document_buffer_and_scroll_eta (d : GeanyDocument Sci) (s : Sci) :
  sci d = Some s -> with_scroll_percent (scroll_percent d) (with_sci (Some s) d) = d.
Proof. destruct d; simpl. intros ->. reflexivity. Qed.

Lemma set_cursor_position_no_options (d : GeanyDocument Sci) (pos : Z)
  (cl : CommandLineOptions.t) (s : Sci) :
  sci d = Some s ->
  CommandLineOptions.goto_line cl < 0 -> CommandLineOptions.goto_column cl < 0 ->
  set_cursor_position d pos cl
  = Some (if 0 <? pos
          then with_scroll_percent 50 (with_sci (Some (sci_set_current_position s pos false)) d)
          else d, cl).
Proof.
  intros Hs Hline Hcol. unfold set_cursor_position. rewrite Hs. simpl.
  rewrite (proj2 (Z.leb_gt 0 _) Hline).
  destruct (0 <? pos); rewrite (proj2 (Z.leb_gt 0 _) Hcol).
  - reflexivity.
  - rewrite (document_buffer_and_scroll_eta d s Hs). reflexivity.
Qed.

(** X5: the line and column of the command line are used once.  On a
    document with a buffer set_cursor_position returns and leaves both
    unset; a line of the command line wins over the position hint; and a
    second call on the result moves the caret by its position hint alone,
    leaving the document as it is when there is none. *)
Theorem set_cursor_position_uses_options_once (d : GeanyDocument Sci) (pos : Z)
  (cl : CommandLineOptions.t) (s : Sci) :
  sci d = Some s ->
  exists d' cl' s',
    set_cursor_position d pos cl = Some (d', cl')
    /\ sci d' = Some s'
    /\ CommandLineOptions.goto_line cl' < 0
    /\ CommandLineOptions.goto_column cl' < 0
    /\ (0 <= CommandLineOptions.goto_line cl ->
        forall pos', set_cursor_position d pos' cl = Some (d', cl'))
    /\ (forall pos',
          set_cursor_position d' pos' cl'
          = Some (if 0 <? pos'
                  then with_scroll_percent 50
                         (with_sci (Some (sci_set_current_position s' pos' false)) d')
                  else d', cl')).
Proof.
  intros Hs.
  assert (Hfirst : exists d' cl' s',
            set_cursor_position d pos cl = Some (d', cl')
            /\ sci d' = Some s'
            /\ CommandLineOptions.goto_line cl' < 0
            /\ CommandLineOptions.goto_column cl' < 0
            /\ (0 <= CommandLineOptions.goto_line cl ->
                forall pos', set_cursor_position d pos' cl = Some (d', cl'))).
  { unfold set_cursor_position. rewrite Hs. simpl.
    destruct (Z.leb_spec 0 (CommandLineOptions.goto_line cl)) as [Hline | Hline]; simpl.
    - destruct (Z.leb_spec 0 (CommandLineOptions.goto_column cl)) as [Hcol | Hcol]; simpl;
        do 3 eexists; (split; [reflexivity |]); (split; [reflexivity |]);
        simpl; (split; [lia |]); (split; [lia |]); intros _ pos'; reflexivity.
    - destruct (0 <? pos); simpl;
        destruct (Z.leb_spec 0 (CommandLineOptions.goto_column cl)) as [Hcol | Hcol]; simpl;
        do 3 eexists; (split; [reflexivity |]); (split; [reflexivity |]);
        simpl; (split; [lia |]); (split; [lia |]); intros Hcontra; lia. }
  destruct Hfirst as (d' & cl' & s' & Hrun & Hs' & Hline & Hcol & Hwins).
  exists d', cl', s'. repeat (split; [assumption |]).
  intros pos'. exact (set_cursor_position_no_options d' pos' cl' s' Hs' Hline Hcol).
Qed.

End CursorProperties.

Lemma set_cursor_position_uses_options_once_witness :
  let s := Samples.buffer "abc" 0 0 in
  let d := Samples.doc_on s in
  let cl := {| CommandLineOptions.goto_line := 1; CommandLineOptions.goto_column := 2 |} in
  sci d = Some s
  /\ exists d' cl' s',
       set_cursor_position d 3 cl = Some (d', cl')
       /\ sci d' = Some s'
       /\ CommandLineOptions.goto_line cl' < 0
       /\ CommandLineOptions.goto_column cl' < 0
       /\ (0 <= CommandLineOptions.goto_line cl ->
           forall pos', set_cursor_position d pos' cl = Some (d', cl'))
       /\ (forall pos',
             set_cursor_position d' pos' cl'
             = Some (if 0 <? pos'
                     then with_scroll_percent 50
                            (with_sci (Some (sci_set_current_position s' pos' false)) d')
                     else d', cl')).
Proof.
  intros s d cl. split; [reflexivity |].
  apply (set_cursor_position_uses_options_once d 3 cl s). reflexivity.
Defined.


(** ** Loading a file *)

Section LoadProperties.
Context `{EncodingOps} {Host : Type} `{HostOps Host}.

Lemma handle_bom_fields (fd : FileData.t) :
  FileData.enc (handle_bom fd) = FileData.enc fd
  /\ FileData.bom (handle_bom fd) = FileData.bom fd
  /\ FileData.mtime (handle_bom fd) = FileData.mtime fd
  /\ FileData.readonly (handle_bom fd) = FileData.readonly fd.
Proof. unfold handle_bom. destruct (_ =? 0); repeat split. Qed.

Lemma handle_encoding_bom_fields (fd : FileData.t) :
  FileData.mtime (handle_encoding_bom fd) = FileData.mtime fd
  /\ FileData.readonly (handle_encoding_bom fd) = FileData.readonly fd.
Proof.
  unfold handle_encoding_bom.
  destruct (encoding_index_eqb _ GEANY_ENCODING_NONE); [split; reflexivity |].
  destruct (encoding_index_eqb _ GEANY_ENCODING_UTF_8); [split; reflexivity |].
  destruct (encodings_convert_to_utf8_from_charset _ _ _ _); split; reflexivity.
Qed.

Lemma handle_encoding_fields (fd fd' : FileData.t) :
  handle_encoding fd = (true, fd') ->
  is_Some (FileData.enc fd')
  /\ FileData.mtime fd' = FileData.mtime fd
  /\ FileData.readonly fd' = FileData.readonly fd.
Proof.
  unfold handle_encoding.
  destruct (FileData.enc fd); [discriminate |].
  destruct (FileData.bom fd); [discriminate |].
  destruct (FileData.size fd =? 0).
  { intros Heq. inversion Heq; subst fd'. simpl. repeat split. eexists; reflexivity. }
  destruct (handle_encoding_bom_fields fd) as [Hm Hr].
  destruct (FileData.enc (handle_encoding_bom fd)) as [e |] eqn:Ee.
  { intros Heq. inversion Heq; subst fd'. rewrite Ee. repeat split; [eexists; reflexivity | |];
      assumption. }
  destruct (g_utf8_validate _ _).
  { intros Heq. inversion Heq; subst fd'. simpl. repeat split; [eexists; reflexivity | |];
      assumption. }
  destruct (encodings_convert_to_utf8 _ _) as [[converted detected] |]; [| discriminate].
  intros Heq. inversion Heq; subst fd'. simpl. repeat split; [eexists; reflexivity | |];
    assumption.
Qed.

Lemma handle_forced_encoding_fields (fd fd' : FileData.t) (forced_enc : string) :
  handle_forced_encoding fd forced_enc = (true, fd') ->
  FileData.enc fd' = Some forced_enc
  /\ FileData.mtime fd' = FileData.mtime fd
  /\ FileData.readonly fd' = FileData.readonly fd.
Proof.
  unfold handle_forced_encoding.
  destruct (String.eqb forced_enc UTF_8).
  - destruct (g_utf8_validate _ _); [| discriminate].
    intros Heq. inversion Heq; subst fd'. repeat split.
  - destruct (encodings_convert_to_utf8_from_charset _ _ _ _); [| discriminate].
    intros Heq. inversion Heq; subst fd'. repeat split.
Qed.

(** The two ways out of load_text_file, with what each one leaves. *)
Lemma load_text_file_cases (host : Host) (status : GeanyStatus.t) (u : Ui)
  (locale_filename utf8_filename : string) (forced_enc : option string) :
  let r := load_text_file host status u locale_filename utf8_filename forced_enc in
  ui_asked (snd r) = ui_asked u
  /\ (forall fd, fst r = Some fd ->
      is_Some (FileData.enc fd)
      /\ (forall f, forced_enc = Some f -> FileData.enc fd = Some f)
      /\ exists st_size contents,
           g_stat host locale_filename = Some (FileData.mtime fd, st_size)
           /\ g_file_get_contents host locale_filename = Some contents
           /\ (strlen contents <> st_size -> st_size <> 0 ->
               (let idx := fst (encodings_scan_unicode_bom contents st_size) in
                idx = GEANY_ENCODING_UTF_8 \/ idx = GEANY_ENCODING_UTF_7
                \/ idx = GEANY_ENCODING_NONE) ->
               FileData.readonly fd = true))
  /\ (fst r = None ->
      exists before m after,
        ui_log (snd r) = ui_log u ++ before ++ UiStatusbar m :: after
        /\ ((m = MsgCouldNotOpen (Some utf8_filename) /\ after = []
             /\ g_stat host locale_filename = None)
            \/ (m = MsgReadError utf8_filename /\ after = []
                /\ g_file_get_contents host locale_filename = None)
            \/ (exists f, forced_enc = Some f
                  /\ m = MsgNotValidEncoding utf8_filename f /\ after = [UiBeep])
            \/ (forced_enc = None /\ m = MsgNotTextFile utf8_filename
                /\ after = [UiBeep]))).
Proof.
  intros r. subst r. unfold load_text_file.
  destruct (g_stat host locale_filename) as [[st_mtime st_size] |] eqn:Estat.
  2:{ simpl. split; [reflexivity | split; [discriminate |]]. intros _.
      exists [], (MsgCouldNotOpen (Some utf8_filename)), []. split; [reflexivity | auto]. }
  destruct (g_file_get_contents host locale_filename) as [contents |] eqn:Eread.
  2:{ simpl. split; [reflexivity | split; [discriminate |]]. intros _.
      exists [], (MsgReadError utf8_filename), []. split; [reflexivity | auto]. }
  cbv zeta.
  set (truncated := negb (_ =? _) && negb (_ =? 0) && _).
  set (fd0 := if truncated then FileData.with_readonly true _ else _).
  set (u1 := if truncated then _ else u).
  assert (Hu1 : ui_asked u1 = ui_asked u
                /\ exists before, ui_log u1 = ui_log u ++ before).
  { unfold u1. destruct truncated.
    - destruct (GeanyStatus.main_window_realized status); simpl.
      + split; [reflexivity |]. rewrite <- app_assoc. eexists; reflexivity.
      + split; [reflexivity |]. eexists; reflexivity.
    - split; [reflexivity |]. exists []. rewrite app_nil_r. reflexivity. }
  destruct Hu1 as [Hasked (before & Hlog)].
  assert (Hfd0 : FileData.mtime fd0 = st_mtime
                 /\ (strlen contents <> st_size -> st_size <> 0 ->
                     (let idx := fst (encodings_scan_unicode_bom contents st_size) in
                      idx = GEANY_ENCODING_UTF_8 \/ idx = GEANY_ENCODING_UTF_7
                      \/ idx = GEANY_ENCODING_NONE) ->
                     FileData.readonly fd0 = true)).
  { unfold fd0. split; [destruct truncated; reflexivity |].
    intros Hlen Hsize Hidx. cbv zeta in Hidx.
    assert (Htrunc : truncated = true).
    { unfold truncated. simpl FileData.len. simpl FileData.size.
      rewrite (proj2 (Z.eqb_neq _ _) Hlen), (proj2 (Z.eqb_neq _ _) Hsize). simpl.
      destruct Hidx as [-> | [-> | ->]]; reflexivity. }
    rewrite Htrunc. reflexivity. }
  destruct Hfd0 as [Hmtime Hreadonly].
  clearbody fd0 u1. clear truncated.
  assert (Hfinish : forall fd,
            FileData.enc (if FileData.bom fd then handle_bom fd else fd) = FileData.enc fd
            /\ FileData.mtime (if FileData.bom fd then handle_bom fd else fd)
               = FileData.mtime fd
            /\ FileData.readonly (if FileData.bom fd then handle_bom fd else fd)
               = FileData.readonly fd).
  { intros fd. destruct (FileData.bom fd); [| repeat split].
    destruct (handle_bom_fields fd) as (He & _ & Hm & Hr). auto. }
  destruct forced_enc as [forced |].
  - destruct (String.eqb_spec forced (encodings_charset GEANY_ENCODING_NONE)) as [-> | Hne].
    + simpl. split; [exact Hasked |]. split; [| discriminate].
      intros fd Heq. inversion Heq; subst fd. clear Heq. simpl.
      split; [eexists; reflexivity |]. split.
      * intros f Hf. inversion Hf; subst f. reflexivity.
      * exists st_size, contents. rewrite Hmtime. auto.
    + destruct (handle_forced_encoding fd0 forced) as [[|] fd1] eqn:Eforced; simpl.
      * destruct (handle_forced_encoding_fields _ _ _ Eforced) as (He & Hm & Hr).
        destruct (Hfinish fd1) as (He' & Hm' & Hr').
        split; [exact Hasked |]. split; [| discriminate].
        intros fd Heq. inversion Heq; subst fd. clear Heq.
        rewrite He', Hm', Hr', He, Hm, Hr, Hmtime.
        split; [eexists; reflexivity |]. split.
        -- intros f Hf. inversion Hf; subst f. reflexivity.
        -- exists st_size, contents. auto.
      * split; [exact Hasked |]. split; [discriminate |]. intros _.
        exists before, (MsgNotValidEncoding utf8_filename forced), [UiBeep].
        rewrite Hlog, <- !app_assoc. split; [reflexivity |].
        right. right. left. exists forced. auto.
  - destruct (handle_encoding fd0) as [[|] fd1] eqn:Edetect; simpl.
    + destruct (handle_encoding_fields _ _ Edetect) as (He & Hm & Hr).
      destruct (Hfinish fd1) as (He' & Hm' & Hr').
      split; [exact Hasked |]. split; [| discriminate].
      intros fd Heq. inversion Heq; subst fd. clear Heq.
      rewrite He', Hm', Hr', Hm, Hr, Hmtime.
      split; [exact He |]. split; [intros f Hf; discriminate |].
      exists st_size, contents. auto.
    + split; [exact Hasked |]. split; [discriminate |]. intros _.
      exists before, (MsgNotTextFile utf8_filename), [UiBeep].
      rewrite Hlog, <- !app_assoc. split; [reflexivity |].
      right. right. right. auto.
Qed.

(** X6: a file that load_text_file loads always has an encoding, which is
    the forced one when one was given, carries the modification time that
    the disk reports, and is read-only when its data ends at a NUL byte
    before the size of the file although no mark of a wide Unicode encoding
    was found.  A load that fails never fails silently: the log ends with a
    message on the status bar that names the reason, followed by a beep
    when the reason is the encoding; and no load asks a question. *)
Theorem load_text_file_outcome (host : Host) (status : GeanyStatus.t) (u : Ui)
  (locale_filename utf8_filename : string) (forced_enc : option string) :
  let r := load_text_file host status u locale_filename utf8_filename forced_enc in
  ui_asked (snd r) = ui_asked u
  /\ (forall fd, fst r = Some fd ->
      is_Some (FileData.enc fd)
      /\ (forall f, forced_enc = Some f -> FileData.enc fd = Some f)
      /\ exists st_size contents,
           g_stat host locale_filename = Some (FileData.mtime fd, st_size)
           /\ g_file_get_contents host locale_filename = Some contents
           /\ (strlen contents <> st_size -> st_size <> 0 ->
               (let idx := fst (encodings_scan_unicode_bom contents st_size) in
                idx = GEANY_ENCODING_UTF_8 \/ idx = GEANY_ENCODING_UTF_7
                \/ idx = GEANY_ENCODING_NONE) ->
               FileData.readonly fd = true))
  /\ (fst r = None ->
      exists before m after,
        ui_log (snd r) = ui_log u ++ before ++ UiStatusbar m :: after
        /\ ((m = MsgCouldNotOpen (Some utf8_filename) /\ after = []
             /\ g_stat host locale_filename = None)
            \/ (m = MsgReadError utf8_filename /\ after = []
                /\ g_file_get_contents host locale_filename = None)
            \/ (exists f, forced_enc = Some f
                  /\ m = MsgNotValidEncoding utf8_filename f /\ after = [UiBeep])
            \/ (forced_enc = None /\ m = MsgNotTextFile utf8_filename
                /\ after = [UiBeep]))).
Proof.
  exact (load_text_file_cases host status u locale_filename utf8_filename forced_enc).
Qed.


End LoadProperties.

(** ** Saving *)

Section SaveOutcome.
Context {Sci : Type} `{ScintillaOps Sci} `{EditorOps Sci}.
Context {Host : Type} `{HostOps Host}.
Context `{EncodingOps}.

(** What a call of document_save_file that returns has done. *)
Lemma document_save_file_cases
  (prefs : GeanyFilePrefs.t) (status : GeanyStatus.t) (geany_obj : bool) (h : Host)
  (u : Ui) (doc : GeanyDocument Sci) (force : bool)
  (r : bool) (doc' : GeanyDocument Sci) (h' : Host) (u' : Ui) :
  document_save_file prefs status geany_obj h u doc force = Some (r, doc', h', u') ->
  (r = false /\ doc' = doc /\ h' = h
   /\ ((force = false /\ (changed doc = false \/ readonly doc = true) /\ u' = u)
       \/ file_name doc = None))
  \/ (exists fname s,
        (force = true \/ (changed doc = true /\ readonly doc = false))
        /\ file_name doc = Some fname /\ sci doc = Some s
        /\ let s1 := pre_save_buffer prefs doc s in
           (r = false /\ h' = h /\ doc' = with_sci (Some s1) doc
            /\ save_encoded doc (save_buffer_data doc s1) = None)
           \/ (exists bytes len,
                 save_encoded doc (save_buffer_data doc s1) = Some (bytes, len)
                 /\ h' = fst (write_data_to_disk h fname bytes len)
                 /\ ((r = false /\ snd (write_data_to_disk h fname bytes len) <> 0
                      /\ doc' = with_sci (Some s1) doc)
                     \/ (r = true /\ snd (write_data_to_disk h fname bytes len) = 0
                         /\ real_path doc' = get_real_path_from_utf8 h' fname
                         /\ saved_encoding doc'
                            = {| fe_encoding := encoding doc; fe_has_bom := has_bom doc |}
                         /\ encoding doc' = encoding doc /\ has_bom doc' = has_bom doc
                         /\ file_name doc' = file_name doc
                         /\ changed doc' = changed doc /\ readonly doc' = readonly doc
                         /\ undo_actions doc' = undo_actions doc
                         /\ redo_actions doc' = redo_actions doc
                         /\ sci doc'
                            = Some (if GeanyStatus.quitting status then s1
                                    else sci_set_savepoint s1))))).
Proof.
  unfold document_save_file.
  destruct (negb force && (negb (changed doc) || readonly doc)) eqn:Eguard.
  { intros Heq. inversion Heq; subst. left. repeat split. left.
    apply andb_true_iff in Eguard. destruct Eguard as [Hf Hc].
    apply negb_true_iff in Hf. apply orb_true_iff in Hc.
    split; [exact Hf |]. split; [| reflexivity].
    destruct Hc as [Hc | Hc]; [left; apply negb_true_iff in Hc; exact Hc | right; exact Hc]. }
  assert (Hdue : force = true \/ (changed doc = true /\ readonly doc = false)).
  { destruct force; [left; reflexivity | right]. simpl in Eguard.
    apply orb_false_iff in Eguard. destruct Eguard as [Hc Hr].
    apply negb_false_iff in Hc. auto. }
  destruct (file_name doc) as [fname |] eqn:Ename.
  2:{ intros Heq. inversion Heq; subst. left. repeat split. right. reflexivity. }
  destruct (sci doc) as [s |] eqn:Es; [simpl | discriminate].
  intros Hrun. right. exists fname, s.
  split; [exact Hdue | split; [reflexivity | split; [reflexivity |]]]. cbv zeta.
  set (s1 := pre_save_buffer prefs doc s) in *.
  change (save_buffer_data (with_sci (Some s1) doc) s1)
    with (save_buffer_data doc s1) in Hrun.
  destruct (save_buffer_data doc s1) as [text len] eqn:Edata.
  change (save_needs_conversion (with_sci (Some s1) doc))
    with (save_needs_conversion doc) in Hrun.
  change (save_convert_to_encoding (with_sci (Some s1) doc))
    with (save_convert_to_encoding doc) in Hrun.
  pose proof (save_encoding_step doc u text len) as Hstep.
  destruct (if save_needs_conversion doc
            then save_convert_to_encoding doc u text len
            else (Some (text, strlen text), u)) as [converted u1].
  simpl in Hstep. rewrite <- Hstep.
  destruct converted as [[bytes n] |].
  2:{ inversion Hrun; subst. left. repeat split. }
  right. exists bytes, n. split; [reflexivity |].
  destruct (write_data_to_disk h fname bytes n) as [h1 err]. simpl fst. simpl snd.
  destruct (Z.eqb_spec err 0) as [Hz | Hnz]; simpl in Hrun.
  - destruct (GeanyStatus.quitting status).
    + inversion Hrun; subst. split; [reflexivity |]. right. simpl. try rewrite Ename.
      repeat split.
    + destruct (document_update_timestamp h1 u1 _) as [[ok d] u2] eqn:Estamp.
      unfold document_update_timestamp in Estamp. simpl in Estamp. rewrite Ename in Estamp.
      inversion Hrun; subst. split; [reflexivity |]. right.
      destruct (g_stat h' (utils_get_locale_from_utf8 fname)) as [[st_mtime st_size] |];
        inversion Estamp; subst; simpl; try rewrite Ename;
        destruct (file_type doc); simpl; repeat split; exact Ename.
  - inversion Hrun; subst. split; [reflexivity |]. left. repeat split. exact Hnz.
Qed.

(** document_save_file returns on a document with a buffer. *)
Lemma document_save_file_returns
  (prefs : GeanyFilePrefs.t) (status : GeanyStatus.t) (geany_obj : bool) (h : Host)
  (u : Ui) (doc : GeanyDocument Sci) (force : bool) (s : Sci) :
  sci doc = Some s ->
  exists r doc' h' u',
    document_save_file prefs status geany_obj h u doc force = Some (r, doc', h', u').
Proof.
  intros Hs. unfold document_save_file.
  destruct (negb force && _); [do 4 eexists; reflexivity |].
  destruct (file_name doc) as [fname |]; [| do 4 eexists; reflexivity].
  rewrite Hs. simpl.
  destruct (save_buffer_data _ _) as [data len].
  destruct (if save_needs_conversion _ then _ else _) as [[[data' len'] |] u1];
    [| do 4 eexists; reflexivity].
  destruct (write_data_to_disk h fname data' len') as [h1 err].
  destruct (negb (err =? 0)); [do 4 eexists; reflexivity |].
  destruct (GeanyStatus.quitting status).
  - do 4 eexists; reflexivity.
  - destruct (document_update_timestamp _ _ _) as [[ok d] u2].
    do 4 eexists; reflexivity.
Qed.

(** X7: document_save_file writes only when it is due and only the file of
    the document.  On a document with a buffer it returns.  Unless forced
    it does nothing at all to a document that is unchanged or read-only,
    and without a file name it only reports the error.  Either the result
    is FALSE and the disk is as it was, or the disk was touched by one
    write of the encoded buffer to the file name of the document, and then
    TRUE is returned exactly for a write without error.  After TRUE the
    real path is the one the name resolves to on the written disk and the
    saved snapshot is the encoding and BOM of the document, both of which,
    like the name, the read-only flag and the ledgers, are as before. *)
Theorem document_save_file_writes_when_due
  (prefs : GeanyFilePrefs.t) (status : GeanyStatus.t) (geany_obj : bool) (h : Host)
  (u : Ui) (doc : GeanyDocument Sci) (force : bool) :
  (forall s, sci doc = Some s ->
     exists r doc' h' u',
       document_save_file prefs status geany_obj h u doc force = Some (r, doc', h', u'))
  /\ forall (r : bool) (doc' : GeanyDocument Sci) (h' : Host) (u' : Ui),
       document_save_file prefs status geany_obj h u doc force = Some (r, doc', h', u') ->
       (force = false -> changed doc = false \/ readonly doc = true ->
        r = false /\ doc' = doc /\ h' = h /\ u' = u)
       /\ (file_name doc = None -> r = false /\ doc' = doc /\ h' = h)
       /\ ((r = false /\ h' = h)
           \/ exists fname s bytes len,
                file_name doc = Some fname /\ sci doc = Some s
                /\ save_encoded doc (save_buffer_data doc (pre_save_buffer prefs doc s))
                   = Some (bytes, len)
                /\ h' = fst (write_data_to_disk h fname bytes len)
                /\ (r = true <-> snd (write_data_to_disk h fname bytes len) = 0))
       /\ (r = true ->
           exists fname,
             file_name doc = Some fname
             /\ real_path doc' = get_real_path_from_utf8 h' fname
             /\ saved_encoding doc'
                = {| fe_encoding := encoding doc; fe_has_bom := has_bom doc |}
             /\ encoding doc' = encoding doc /\ has_bom doc' = has_bom doc
             /\ file_name doc' = file_name doc /\ readonly doc' = readonly doc
             /\ undo_actions doc' = undo_actions doc
             /\ redo_actions doc' = redo_actions doc).
Proof.
  split; [intros s Hs; exact (document_save_file_returns prefs status geany_obj h u doc force
                                s Hs) |].
  intros r doc' h' u' Hrun.
  destruct (document_save_file_cases _ _ _ _ _ _ _ _ _ _ _ Hrun)
    as [(Hr & Hdoc & Hh & Hwhy)
       | (fname & s & Hdue & Hname & Hs & [(Hr & Hh & Hdoc & Henc) | Hwrite])].
  - subst r doc' h'. split; [| split; [auto | split; [left; auto | discriminate]]].
    intros Hforce Hclean. destruct Hwhy as [(_ & _ & Hu) | Hnone]; [auto |].
    unfold document_save_file in Hrun. rewrite Hforce in Hrun. simpl in Hrun.
    destruct Hclean as [Hc | Hro]; [rewrite Hc in Hrun | rewrite Hro, orb_true_r in Hrun];
      simpl in Hrun; inversion Hrun; auto.
  - subst r h'. split; [| split; [| split; [left; auto | discriminate]]].
    + intros Hforce Hclean. destruct Hdue as [Hf | [Hc Hro]]; [congruence |].
      destruct Hclean; congruence.
    + intros Hnone. congruence.
  - destruct Hwrite as (bytes & len & Henc & Hh & Hres).
    split; [| split; [| split]].
    + intros Hforce Hclean. destruct Hdue as [Hf | [Hc Hro]]; [congruence |].
      destruct Hclean; congruence.
    + intros Hnone. congruence.
    + right. exists fname, s, bytes, len. repeat (split; [assumption |]).
      destruct Hres as [(Hr & Herr & _) | (Hr & Herr & _)]; subst r.
      * split; [discriminate | intros Hz; contradiction].
      * split; auto.
    + intros Hr. destruct Hres as [(Hr' & _) | (_ & _ & Hfacts)]; [congruence |].
      exists fname. split; [exact Hname |].
      destruct Hfacts as (Hrp & Hse & He & Hb & Hf & _ & Hro & Hu & Hre & _).
      repeat split; assumption.
Qed.

End SaveOutcome.

Lemma document_save_file_writes_when_due_witness :
  let doc := with_changed true (Samples.doc_on (Samples.buffer "abc" 3 3)) in
  let h := Samples.disk false in
  exists doc' h' u',
    document_save_file Samples.file_defaults Samples.running true h Samples.quiet_ui doc false
    = Some (true, doc', h', u')
    /\ real_path doc' = get_real_path_from_utf8 h' "/tmp/a.txt"
    /\ saved_encoding doc' = {| fe_encoding := encoding doc; fe_has_bom := has_bom doc |}
    /\ exists s bytes len,
         sci doc = Some s
         /\ save_encoded doc (save_buffer_data doc (pre_save_buffer Samples.file_defaults doc s))
            = Some (bytes, len)
         /\ h' = fst (write_data_to_disk h "/tmp/a.txt" bytes len)
         /\ snd (write_data_to_disk h "/tmp/a.txt" bytes len) = 0.
Proof.
  intros doc h.
  destruct (document_save_file_writes_when_due Samples.file_defaults Samples.running true h
              Samples.quiet_ui doc false) as [Hreturns Hfacts].
  destruct (Hreturns _ eq_refl) as (r & doc' & h' & u' & Hrun).
  assert (Hr : r = true) by (vm_compute in Hrun; inversion Hrun; reflexivity).
  subst r.
  exists doc', h', u'. split; [exact Hrun |].
  destruct (Hfacts _ _ _ _ Hrun) as (_ & _ & Hdisk & Hsaved).
  destruct (Hsaved eq_refl) as (fname & Hname & Hpath & Hsnap & _).
  assert (Hf : fname = "/tmp/a.txt"%string) by (simpl in Hname; congruence).
  subst fname.
  split; [exact Hpath |]. split; [exact Hsnap |].
  destruct Hdisk as [[Hfalse _] | (fname & s & bytes & len & Hname' & Hs & Henc & Hh & Hok)];
    [discriminate |].
  assert (Hf : fname = "/tmp/a.txt"%string) by (simpl in Hname'; congruence).
  subst fname.
  exists s, bytes, len. repeat (split; [assumption |]). apply Hok. reflexivity.
Defined.


Section SaveClean.
Context {Sci : Type} `{ScintillaOps Sci} `{EditorOps Sci}.
Context {Host : Type} `{HostOps Host}.
Context `{EncodingOps}.

Lemma utils_str_equal_refl (a : option string) : utils_str_equal a a = true.
Proof. destruct a; simpl; [apply String.eqb_refl | reflexivity]. Qed.

(** X8: a successful save leaves the document clean.  For a widget whose
    save point clears its modified flag, after document_save_file has
    returned TRUE (the program not being on its way out) the composite
    changed flag of the document is off, and update_changed_state, which
    undo and redo end with, then clears the changed flag. *)
Theorem document_save_file_leaves_clean
  (prefs : GeanyFilePrefs.t) (status : GeanyStatus.t) (geany_obj : bool) (h : Host)
  (u : Ui) (doc : GeanyDocument Sci) (force : bool)
  (doc' : GeanyDocument Sci) (h' : Host) (u' : Ui) :
  (forall s, sci_is_modified (sci_set_savepoint s) = false) ->
  GeanyStatus.quitting status = false ->
  document_save_file prefs status geany_obj h u doc force = Some (true, doc', h', u') ->
  composite_changed doc' = Some false
  /\ exists doc2, update_changed_state doc' = Some doc2
                  /\ changed doc2 = false
                  /\ with_changed (changed doc') doc2 = doc'.
Proof.
  intros Hsavepoint Hrunning Hrun.
  destruct (document_save_file_cases _ _ _ _ _ _ _ _ _ _ _ Hrun)
    as [(Hr & _) | (fname & s & _ & _ & _ & [(Hr & _) | Hwrite])]; try discriminate.
  destruct Hwrite as (bytes & len & _ & _ & [(Hr & _) | (_ & _ & Hfacts)]);
    [discriminate |].
  destruct Hfacts as (_ & Hse & He & Hb & _ & _ & _ & _ & _ & Hs).
  rewrite Hrunning in Hs.
  assert (Hflag : sci_is_modified (sci_set_savepoint (pre_save_buffer prefs doc s))
                  || negb (Bool.eqb (has_bom doc') (fe_has_bom (saved_encoding doc')))
                  || negb (utils_str_equal (encoding doc') (fe_encoding (saved_encoding doc')))
                  = false).
  { rewrite Hsavepoint, Hse, He, Hb. simpl.
    rewrite Bool.eqb_reflx, utils_str_equal_refl. reflexivity. }
  unfold composite_changed, update_changed_state. rewrite Hs. simpl. rewrite Hflag.
  split; [reflexivity |]. eexists. split; [reflexivity |]. split; [reflexivity |].
  destruct doc'; reflexivity.
Qed.

End SaveClean.

Lemma document_save_file_leaves_clean_witness :
  let doc := with_changed true (Samples.doc_on (Samples.buffer "abc" 3 3)) in
  (forall s : TextSci.t, sci_is_modified (sci_set_savepoint s) = false)
  /\ GeanyStatus.quitting Samples.running = false
  /\ exists doc' h' u',
       document_save_file Samples.file_defaults Samples.running true (Samples.disk false)
         Samples.quiet_ui doc false = Some (true, doc', h', u')
       /\ composite_changed doc' = Some false
       /\ exists doc2, update_changed_state doc' = Some doc2
                       /\ changed doc2 = false
                       /\ with_changed (changed doc') doc2 = doc'.
Proof.
  intros doc.
  assert (Hsavepoint : forall s : TextSci.t, sci_is_modified (sci_set_savepoint s) = false).
  { intros s. simpl. unfold TextSci.is_modified. simpl.
    rewrite Nat.eqb_refl. reflexivity. }
  split; [exact Hsavepoint |]. split; [reflexivity |].
  assert (Hrun : exists doc' h' u',
            document_save_file Samples.file_defaults Samples.running true (Samples.disk false)
              Samples.quiet_ui doc false = Some (true, doc', h', u')).
  { do 3 eexists. vm_compute. reflexivity. }
  destruct Hrun as (doc' & h' & u' & Hrun).
  exists doc', h', u'. split; [exact Hrun |].
  exact (document_save_file_leaves_clean Samples.file_defaults Samples.running true
           (Samples.disk false) Samples.quiet_ui doc false doc' h' u' Hsavepoint eq_refl
           Hrun).
Defined.


(** ** The ledger of encoding and BOM changes *)

Section LedgerRoundTrip.
Context {Sci : Type} `{ScintillaOps Sci}.

Lemma document_set_encoding_fields (d : GeanyDocument Sci) (e : string) :
  sci (document_set_encoding d (Some e)) = sci d
  /\ encoding (document_set_encoding d (Some e)) = Some e
  /\ has_bom (document_set_encoding d (Some e)) = has_bom d
  /\ undo_actions (document_set_encoding d (Some e)) = undo_actions d
  /\ redo_actions (document_set_encoding d (Some e)) = redo_actions d
  /\ saved_encoding (document_set_encoding d (Some e)) = saved_encoding d.
Proof.
  unfold document_set_encoding.
  destruct (utils_str_equal (Some e) (encoding d)) eqn:Eeq; [| repeat split].
  repeat split. destruct (encoding d) as [e' |]; [| discriminate].
  simpl in Eeq. apply String.eqb_eq in Eeq. congruence.
Qed.

Lemma update_changed_state_fields (d : GeanyDocument Sci) (s : Sci) :
  sci d = Some s ->
  exists d', update_changed_state d = Some d'
    /\ sci d' = Some s /\ encoding d' = encoding d /\ has_bom d' = has_bom d
    /\ undo_actions d' = undo_actions d /\ redo_actions d' = redo_actions d.
Proof.
  intros Hs. unfold update_changed_state. rewrite Hs. simpl.
  eexists. split; [reflexivity |]. simpl. auto.
Qed.

Lemma document_undo_encoding (doc : GeanyDocument Sci) (s : Sci) (old : string)
  (rest : list undo_action) :
  sci doc = Some s -> undo_actions doc = UNDO_ENCODING (Some old) :: rest ->
  exists d1,
    document_undo doc = Some d1
    /\ sci d1 = Some s /\ encoding d1 = Some old /\ has_bom d1 = has_bom doc
    /\ undo_actions d1 = rest
    /\ redo_actions d1 = UNDO_ENCODING (encoding doc) :: redo_actions doc.
Proof.
  intros Hs Hundo. unfold document_undo. rewrite Hs, Hundo.
  cbn -[document_set_encoding update_changed_state].
  match goal with |- context [update_changed_state ?D] => set (d0 := D) end.
  assert (Hd0 : sci d0 = Some s /\ encoding d0 = Some old /\ has_bom d0 = has_bom doc
                /\ undo_actions d0 = rest
                /\ redo_actions d0 = UNDO_ENCODING (encoding doc) :: redo_actions doc).
  { unfold d0.
    match goal with |- context [document_set_encoding ?D (Some old)] =>
      destruct (document_set_encoding_fields D old) as (H1 & H2 & H3 & H4 & H5 & _)
    end.
    rewrite H1, H2, H3, H4, H5. simpl. auto. }
  clearbody d0. destruct Hd0 as (Hs0 & He0 & Hb0 & Hu0 & Hr0).
  destruct (update_changed_state_fields d0 s Hs0) as (d1 & Hrun & F1 & F2 & F3 & F4 & F5).
  exists d1. split; [exact Hrun |]. repeat split; congruence.
Qed.

Lemma document_redo_encoding (doc : GeanyDocument Sci) (s : Sci) (new : string)
  (rest : list undo_action) :
  sci doc = Some s -> redo_actions doc = UNDO_ENCODING (Some new) :: rest ->
  exists d1,
    document_redo doc = Some d1
    /\ sci d1 = Some s /\ encoding d1 = Some new /\ has_bom d1 = has_bom doc
    /\ redo_actions d1 = rest
    /\ undo_actions d1 = UNDO_ENCODING (encoding doc) :: undo_actions doc.
Proof.
  intros Hs Hredo. unfold document_redo. rewrite Hs, Hredo.
  cbn -[document_set_encoding update_changed_state].
  match goal with |- context [update_changed_state ?D] => set (d0 := D) end.
  assert (Hd0 : sci d0 = Some s /\ encoding d0 = Some new /\ has_bom d0 = has_bom doc
                /\ redo_actions d0 = rest
                /\ undo_actions d0 = UNDO_ENCODING (encoding doc) :: undo_actions doc).
  { unfold d0.
    match goal with |- context [document_set_encoding ?D (Some new)] =>
      destruct (document_set_encoding_fields D new) as (H1 & H2 & H3 & H4 & H5 & _)
    end.
    rewrite H1, H2, H3, H4, H5. simpl. auto. }
  clearbody d0. destruct Hd0 as (Hs0 & He0 & Hb0 & Hu0 & Hr0).
  destruct (update_changed_state_fields d0 s Hs0) as (d1 & Hrun & F1 & F2 & F3 & F4 & F5).
  exists d1. split; [exact Hrun |]. repeat split; congruence.
Qed.

(** X9: document_redo takes back what document_undo did for an entry of the
    ledger that records a BOM or an encoding.  With such an entry on top of
    the undo ledger (and, for an encoding, a document that has one), undo
    followed by redo gives back the BOM flag, the encoding, both ledgers and
    the buffer.  An entry that records the absence of an encoding is not
    undone: undo moves it to the redo ledger and leaves the encoding of the
    document as it is. *)
Theorem document_undo_redo_round_trip (doc : GeanyDocument Sci) (s : Sci)
  (action : undo_action) (rest : list undo_action) :
  sci doc = Some s -> undo_actions doc = action :: rest ->
  (forall old_bom, action = UNDO_BOM old_bom ->
   exists d1 d2,
     document_undo doc = Some d1 /\ document_redo d1 = Some d2
     /\ has_bom d1 = old_bom /\ encoding d1 = encoding doc
     /\ has_bom d2 = has_bom doc /\ encoding d2 = encoding doc
     /\ undo_actions d2 = undo_actions doc /\ redo_actions d2 = redo_actions doc
     /\ sci d2 = sci doc)
  /\ (forall old new, action = UNDO_ENCODING (Some old) -> encoding doc = Some new ->
      exists d1 d2,
        document_undo doc = Some d1 /\ document_redo d1 = Some d2
        /\ encoding d1 = Some old /\ has_bom d1 = has_bom doc
        /\ encoding d2 = Some new /\ has_bom d2 = has_bom doc
        /\ undo_actions d2 = undo_actions doc /\ redo_actions d2 = redo_actions doc
        /\ sci d2 = sci doc)
  /\ (action = UNDO_ENCODING None ->
      exists d1,
        document_undo doc = Some d1
        /\ encoding d1 = encoding doc
        /\ undo_actions d1 = rest
        /\ redo_actions d1 = UNDO_ENCODING (encoding doc) :: redo_actions doc).
Proof.
  intros Hs Hundo. split; [| split].
  - intros old_bom ->. unfold document_undo. rewrite Hs, Hundo. simpl.
    unfold update_changed_state. simpl. rewrite Hs. simpl.
    eexists. eexists. split; [reflexivity |].
    unfold document_redo. simpl. rewrite Hs. simpl.
    unfold update_changed_state. simpl. rewrite Hs. simpl.
    split; [reflexivity |]. simpl.
    repeat split; try reflexivity; exact Hs.
  - intros old new -> Henc.
    destruct (document_undo_encoding doc s old rest Hs Hundo)
      as (d1 & Hrun1 & Hs1 & He1 & Hb1 & Hu1 & Hr1).
    rewrite Henc in Hr1.
    destruct (document_redo_encoding d1 s new (redo_actions doc) Hs1 Hr1)
      as (d2 & Hrun2 & Hs2 & He2 & Hb2 & Hr2 & Hu2).
    exists d1, d2. repeat split; congruence.
  - intros ->. unfold document_undo. rewrite Hs, Hundo. simpl.
    unfold update_changed_state. simpl. rewrite Hs. simpl.
    eexists. split; [reflexivity |]. repeat split.
Qed.

End LedgerRoundTrip.

Lemma document_undo_redo_round_trip_witness :
  let s := Samples.buffer "abc" 0 0 in
  let doc := with_undo_actions [UNDO_BOM false] (with_has_bom true (Samples.doc_on s)) in
  (sci doc = Some s /\ undo_actions doc = [UNDO_BOM false])
  /\ exists d1 d2,
       document_undo doc = Some d1 /\ document_redo d1 = Some d2
       /\ has_bom d1 = false /\ encoding d1 = encoding doc
       /\ has_bom d2 = has_bom doc /\ encoding d2 = encoding doc
       /\ undo_actions d2 = undo_actions doc /\ redo_actions d2 = redo_actions doc
       /\ sci d2 = sci doc.
Proof.
  intros s doc. split; [split; reflexivity |].
  destruct (document_undo_redo_round_trip doc s (UNDO_BOM false) [] eq_refl eq_refl)
    as (Hbom & _).
  exact (Hbom false eq_refl).
Defined.


(** ** What a bulk replacement reports *)

Section ReplaceRangeResult.
Context {Sci : Type} `{ScintillaOps Sci} `{!ScintillaLaws Sci}.

(** The replacement made by one iteration that does not stop lies in the
    text, and changes the length of the text by the difference between the
    length of the replacement and the length of the match. *)
Lemma replace_step_length (flags : Z) (replace_text : string) (st : replace_state) :
  replace_window_ok st -> 0 <= rs_end st -> ~ replace_stops flags replace_text st ->
  let found := sci_find_text (rs_sci st) flags (rs_ttf st) in
  let pos := fst found in
  let find_len := cpMax (chrgText (snd found)) - cpMin (chrgText (snd found)) in
  let replaced :=
    sci_target_replace (sci_target_end (sci_target_start (rs_sci st) pos) (pos + find_len))
      replace_text (flag_set flags SCFIND_REGEXP) in
  0 <= pos /\ 0 <= find_len /\ pos + find_len <= rs_end st
  /\ 0 <= snd replaced
  /\ sci_get_length (fst replaced)
     = sci_get_length (rs_sci st) + snd replaced - find_len.
Proof.
  intros (Hstart & Hend & Hmax) Hnn Hgo. unfold replace_stops in Hgo. cbv zeta in Hgo.
  pose proof (sci_find_in_range (rs_sci st) flags (rs_ttf st)) as Hfind.
  destruct (sci_find_text (rs_sci st) flags (rs_ttf st)) as [pos ttf].
  simpl fst in *. simpl snd in *. cbv zeta.
  set (find_len := cpMax (chrgText ttf) - cpMin (chrgText ttf)) in *.
  assert (Hpos : pos <> -1) by tauto.
  destruct (Hfind Hpos) as [Hlow Hlen].
  assert (Hflnn : 0 <= find_len) by (unfold find_len; lia).
  assert (Hin : pos + find_len <= rs_end st) by lia.
  set (s1 := sci_target_end (sci_target_start (rs_sci st) pos) (pos + find_len)).
  assert (Hs1 : sci_get_length s1 = sci_get_length (rs_sci st)).
  { unfold s1.
    destruct (sci_target_end_text (sci_target_start (rs_sci st) pos) (pos + find_len))
      as [Hl1 _]. destruct (sci_target_start_text (rs_sci st) pos) as [Hl2 _]. congruence. }
  assert (Hts : SCI_GETTARGETSTART s1 = pos).
  { unfold s1. rewrite sci_target_end_keeps_start. apply sci_target_start_get. }
  assert (Hte : SCI_GETTARGETEND s1 = pos + find_len)
    by (unfold s1; apply sci_target_end_get).
  pose proof (sci_target_replace_length s1 replace_text (flag_set flags SCFIND_REGEXP))
    as Hrepl.
  rewrite Hts, Hte, Hs1 in Hrepl.
  destruct Hrepl as [Hrl Hlen2]; [lia | lia |].
  repeat split; lia.
Qed.

(** The loop never lowers the count, keeps the end of the range in the
    text and at least as far from the end of the text as it was, and leaves
    the buffer alone when it counts nothing. *)
Lemma replace_range_loop_counts (flags : Z) (replace_text : string) :
  forall (n : nat) (st st' : replace_state),
    replace_window_ok st -> 0 <= rs_end st ->
    replace_range_loop n flags replace_text st = Some st' ->
    rs_count st <= rs_count st'
    /\ 0 <= rs_end st' <= sci_get_length (rs_sci st')
    /\ sci_get_length (rs_sci st) - rs_end st
       <= sci_get_length (rs_sci st') - rs_end st'
    /\ (rs_count st' = rs_count st -> rs_sci st' = rs_sci st).
Proof.
  induction n as [| n IH]; intros st st' Hok Hnn Hrun; [discriminate |].
  destruct (replace_stops_or_not flags replace_text st) as [Hstop | Hgo].
  - rewrite (replace_range_loop_stops n flags replace_text st Hstop) in Hrun.
    inversion Hrun; subst st'. simpl. destruct Hok as (_ & Hend & _).
    repeat split; try lia.
  - destruct (replace_step_length flags replace_text st Hok Hnn Hgo)
      as (Hpos & Hfl & Hin & Hrl & Hlen).
    destruct (replace_range_loop_replaces n flags replace_text st Hok Hgo)
      as (st1 & Hsci1 & Hcount1 & Hend1 & Hnext & Hstep).
    cbv zeta in Hpos, Hfl, Hin, Hrl, Hlen, Hsci1, Hend1, Hnext, Hstep.
    rewrite Hstep in Hrun.
    destruct (Z.eqb_spec (fst (sci_find_text (rs_sci st) flags (rs_ttf st))) (rs_end st))
      as [Hat | Hnot].
    + inversion Hrun; subst st'. simpl. destruct Hok as (_ & Hend & _).
      repeat split; try lia.
    + destruct (Hnext Hnot) as (_ & Hok1 & _).
      assert (Hnn1 : 0 <= rs_end st1) by lia.
      destruct (IH st1 st' Hok1 Hnn1 Hrun) as (Hc & Hr & Hd & _).
      rewrite Hsci1, Hlen, Hend1 in Hd.
      repeat split; try lia.
Qed.

(** The result of document_replace_range on a range that lies in the text. *)
Lemma document_replace_range_outcome (doc : GeanyDocument Sci) (s : Sci)
  (find_text replace_text : string) (flags start end_ : Z) (scroll_to_match : bool) :
  sci doc = Some s -> 0 <= start <= end_ -> end_ <= sci_get_length s ->
  exists count new_end doc' s',
    (forall fuel, (Z.to_nat (end_ - start) + 1 <= fuel)%nat ->
       document_replace_range fuel doc find_text replace_text flags start end_
         scroll_to_match = Some (count, new_end, doc'))
    /\ sci doc' = Some s'
    /\ 0 <= count
    /\ (count = 0 <-> new_end = -1)
    /\ (count = 0 -> same_text s s')
    /\ (0 < count ->
        0 <= new_end <= sci_get_length s'
        /\ sci_get_length s - end_ <= sci_get_length s' - new_end).
Proof.
  intros Hs Hrange Hend.
  destruct (document_replace_range_returns doc s find_text replace_text flags start end_
              scroll_to_match Hs Hrange Hend) as [[[count new_end] doc'] Hall].
  pose proof (Hall _ (Nat.le_refl _)) as Hrun.
  unfold document_replace_range in Hrun.
  destruct (str_is_empty find_text || readonly doc).
  { inversion Hrun; subst. exists 0, (-1), doc', s.
    split; [exact Hall |]. split; [exact Hs |]. split; [lia |].
    split; [tauto |]. split; [intros _; apply same_text_refl | lia]. }
  rewrite Hs in Hrun. simpl in Hrun.
  set (st0 := {| rs_sci := sci_start_undo_action s;
                 rs_ttf := {| chrg := {| cpMin := start; cpMax := end_ |};
                              lpstrText := find_text; chrgText := no_range |};
                 rs_end := end_; rs_count := 0 |}) in Hrun.
  destruct (sci_start_undo_action_text s) as [Hlen0 Htext0].
  assert (Hok : replace_window_ok st0).
  { unfold replace_window_ok, st0. simpl. lia. }
  destruct (replace_range_loop (Z.to_nat (end_ - start) + 1) flags replace_text st0)
    as [st' |] eqn:Eloop; [| discriminate].
  destruct (replace_range_loop_counts flags replace_text _ st0 st' Hok ltac:(simpl; lia)
              Eloop) as (Hcount & Hin & Hbehind & Hsame).
  simpl in Hrun, Hcount, Hbehind, Hsame.
  destruct (sci_end_undo_action_text (rs_sci st')) as [Hlen1 Htext1].
  destruct (Z.ltb_spec 0 (rs_count st')) as [Hpos | Hzero]; inversion Hrun; subst.
  - eexists _, _, _, _. split; [exact Hall |]. split; [reflexivity |].
    assert (Hlen2 : sci_get_length
                      (if scroll_to_match
                       then sci_goto_pos (sci_end_undo_action (rs_sci st'))
                              (cpMin (chrg (rs_ttf st'))) true
                       else sci_end_undo_action (rs_sci st'))
                    = sci_get_length (rs_sci st')).
    { destruct scroll_to_match; [| exact Hlen1].
      destruct (sci_goto_pos_text (sci_end_undo_action (rs_sci st'))
                  (cpMin (chrg (rs_ttf st'))) true) as [Hl _]. congruence. }
    rewrite Hlen2.
    split; [lia |]. split; [split; intros; lia |]. split; [intros; lia |].
    intros _. split; [lia |]. lia.
  - eexists _, _, _, _. split; [exact Hall |]. split; [reflexivity |].
    assert (Hnone : rs_count st' = 0) by lia.
    split; [lia |]. split; [tauto |]. split; [| intros; lia].
    intros _. rewrite (Hsame Hnone).
    apply (same_text_trans _ (sci_start_undo_action s));
      [apply sci_start_undo_action_text | apply sci_end_undo_action_text].
Qed.


(** X10: what document_replace_range reports.  On a buffer that satisfies
    the laws of the widget and a range that lies in the text it returns a
    count that is not negative, and the new end of the range is -1 exactly
    when the count is 0, in which case the text is as it was.  When
    something was replaced the new end of the range lies in the new text,
    and the text behind it is at least as long as the text behind the old
    end was. *)
Theorem document_replace_range_result (doc : GeanyDocument Sci) (s : Sci)
  (find_text replace_text : string) (flags start end_ : Z) (scroll_to_match : bool) :
  sci doc = Some s -> 0 <= start <= end_ -> end_ <= sci_get_length s ->
  exists count new_end doc' s',
    (forall fuel, (Z.to_nat (end_ - start) + 1 <= fuel)%nat ->
       document_replace_range fuel doc find_text replace_text flags start end_
         scroll_to_match = Some (count, new_end, doc'))
    /\ sci doc' = Some s'
    /\ 0 <= count
    /\ (count = 0 <-> new_end = -1)
    /\ (count = 0 -> same_text s s')
    /\ (0 < count ->
        0 <= new_end <= sci_get_length s'
        /\ sci_get_length s - end_ <= sci_get_length s' - new_end).
Proof.
  exact (document_replace_range_outcome doc s find_text replace_text flags start end_
           scroll_to_match).
Qed.

(** X11: document_replace_all replaces over the whole text and says what it
    did.  On a buffer that satisfies the laws of the widget, with a find
    text that is not empty, it returns.  It gives FALSE exactly when nothing
    was replaced: then the text is as it was and the status bar says that
    there are no matches, which is also what a read-only document gets,
    whatever it contains.  It gives TRUE with the number of replacements,
    at least one, on the status bar. *)
Theorem document_replace_all_reports (u : Ui) (doc : GeanyDocument Sci) (s : Sci)
  (find_text replace_text : string) (flags : Z) :
  sci doc = Some s -> find_text <> EmptyString ->
  exists b doc' u' s',
    (forall fuel, (Z.to_nat (sci_get_length s) + 1 <= fuel)%nat ->
       document_replace_all fuel u doc find_text replace_text flags = Some (b, doc', u'))
    /\ sci doc' = Some s'
    /\ (b = false ->
        same_text s s' /\ u' = ui_set_statusbar (MsgNoMatches find_text) u)
    /\ (b = true ->
        readonly doc = false
        /\ exists count, 0 < count
             /\ u' = ui_set_statusbar (MsgReplaced count find_text replace_text) u)
    /\ (readonly doc = true -> b = false).
Proof.
  intros Hs Hfind.
  pose proof (sci_length_nonneg s) as Hnn.
  assert (Hrange : 0 <= 0 <= sci_get_length s) by lia.
  destruct (document_replace_range_outcome doc s find_text replace_text flags 0
              (sci_get_length s) true Hs Hrange (Z.le_refl _))
    as (count & new_end & doc' & s' & Hall & Hs' & Hcount & Hnone & Hsame & _).
  exists (0 <? count), doc', (show_replace_summary u count find_text replace_text), s'.
  split.
  { intros fuel Hfuel. unfold document_replace_all.
    destruct find_text; [contradiction |]. simpl str_is_empty. cbv iota.
    rewrite Hs. simpl. rewrite Hall by (rewrite Z.sub_0_r; exact Hfuel). reflexivity. }
  split; [exact Hs' |].
  assert (Hro : readonly doc = true -> count = 0).
  { intros Hreadonly. specialize (Hall _ (Nat.le_refl _)).
    unfold document_replace_range in Hall. rewrite Hreadonly, orb_true_r in Hall.
    inversion Hall. reflexivity. }
  unfold show_replace_summary.
  destruct (Z.ltb_spec 0 count) as [Hpos | Hzero].
  - split; [discriminate |]. split.
    + intros _. split.
      * destruct (readonly doc) eqn:Ero; [| reflexivity].
        pose proof (Hro eq_refl) as Hz. exfalso. lia.
      * exists count. split; [exact Hpos |].
        destruct (Z.eqb_spec count 0); [lia | reflexivity].
    + intros Hreadonly. specialize (Hro Hreadonly). lia.
  - assert (Hz : count = 0) by lia. subst count.
    split; [| split; [discriminate | reflexivity]].
    intros _. split; [apply Hsame; reflexivity | reflexivity].
Qed.

End ReplaceRangeResult.

Lemma document_replace_range_result_witness :
  let s := Samples.buffer "aXbXc" 0 0 in
  let doc := Samples.doc_on s in
  (sci doc = Some s /\ 0 <= 0 <= 4 /\ 4 <= sci_get_length s)
  /\ exists count new_end doc' s',
       (forall fuel, (Z.to_nat (4 - 0) + 1 <= fuel)%nat ->
          document_replace_range fuel doc "X" "YY" SCFIND_MATCHCASE 0 4 false
          = Some (count, new_end, doc'))
       /\ sci doc' = Some s'
       /\ 0 <= count
       /\ (count = 0 <-> new_end = -1)
       /\ (count = 0 -> same_text s s')
       /\ (0 < count ->
           0 <= new_end <= sci_get_length s'
           /\ sci_get_length s - 4 <= sci_get_length s' - new_end).
Proof.
  intros s doc.
  assert (Hin : sci doc = Some s /\ 0 <= 0 <= 4 /\ 4 <= sci_get_length s)
    by (split; [reflexivity | split; [lia | by_evaluation]]).
  split; [exact Hin |].
  destruct Hin as (Hs & Hrange & Hend).
  exact (document_replace_range_result doc s "X" "YY" SCFIND_MATCHCASE 0 4 false
           Hs Hrange Hend).
Defined.

Lemma document_replace_all_reports_witness :
  let s := Samples.buffer "foo bar foo" 0 0 in
  let doc := Samples.doc_on s in
  (sci doc = Some s /\ "foo"%string <> EmptyString)
  /\ exists b doc' u' s',
       (forall fuel, (Z.to_nat (sci_get_length s) + 1 <= fuel)%nat ->
          document_replace_all fuel Samples.quiet_ui doc "foo" "baz" SCFIND_MATCHCASE
          = Some (b, doc', u'))
       /\ sci doc' = Some s'
       /\ (b = false ->
           same_text s s' /\ u' = ui_set_statusbar (MsgNoMatches "foo") Samples.quiet_ui)
       /\ (b = true ->
           readonly doc = false
           /\ exists count, 0 < count
                /\ u' = ui_set_statusbar (MsgReplaced count "foo" "baz") Samples.quiet_ui)
       /\ (readonly doc = true -> b = false).
Proof.
  intros s doc.
  assert (Hin : sci doc = Some s /\ "foo"%string <> EmptyString)
    by (split; [reflexivity | discriminate]).
  split; [exact Hin |].
  destruct Hin as (Hs & Hfind).
  exact (document_replace_all_reports Samples.quiet_ui doc s "foo" "baz" SCFIND_MATCHCASE
           Hs Hfind).
Defined.


(** ** What a search leaves alone *)

Section FindFrame.
Context {Sci : Type} `{ScintillaOps Sci} `{!ScintillaLaws Sci}.

Lemma with_sci_frame (d : GeanyDocument Sci) (x : option Sci) :
  with_scroll_percent 0 (with_sci None (with_sci x d))
  = with_scroll_percent 0 (with_sci None d).
Proof. reflexivity. Qed.

Lemma with_scroll_percent_frame (d : GeanyDocument Sci) (p : Z) :
  with_scroll_percent 0 (with_sci None (with_scroll_percent p d))
  = with_scroll_percent 0 (with_sci None d).
Proof. reflexivity. Qed.

(** Whatever document_find_text returns, the document differs from the one
    it was given in its buffer and scroll position at most, and the user was
    asked at most more questions. *)
Lemma document_find_text_frame (prefs : GeanySearchPrefs.t) (text : string) (flags : Z)
  (scroll : bool) :
  forall (fuel : nat) (u : Ui) (doc : GeanyDocument Sci) (backwards : bool)
         (r : Z) (doc' : GeanyDocument Sci) (u' : Ui),
    document_find_text fuel prefs u doc text flags backwards scroll = Some (r, doc', u') ->
    with_scroll_percent 0 (with_sci None doc') = with_scroll_percent 0 (with_sci None doc).
Proof.
  induction fuel as [| n IH]; intros u doc backwards r doc' u' Hrun; [discriminate |].
  destruct text as [| c rest] eqn:Etext.
  { cbn in Hrun. inversion Hrun; subst. reflexivity. }
  rewrite <- Etext in *.
  assert (Htext : text <> EmptyString) by (rewrite Etext; discriminate).
  destruct (sci doc) as [s |] eqn:Es.
  2:{ cbn [document_find_text] in Hrun. rewrite (str_is_empty_false text Htext), Es in Hrun.
      discriminate. }
  rewrite (document_find_text_step n prefs u doc s text flags backwards scroll Es Htext)
    in Hrun.
  cbv zeta in Hrun.
  destruct (negb (_ =? -1)).
  { inversion Hrun; subst. destruct scroll; reflexivity. }
  destruct (_ || _).
  { inversion Hrun; subst. reflexivity. }
  unfold find_text_wrap in Hrun.
  destruct (if GeanySearchPrefs.suppress_dialogs prefs then _ else _) as [wrap u1].
  destruct wrap; [| inversion Hrun; subst; reflexivity].
  destruct (document_find_text n prefs u1 _ text flags _ scroll)
    as [[[ret doc1] u2] |] eqn:Einner; [| discriminate].
  apply IH in Einner. rewrite with_sci_frame in Einner.
  simpl in Hrun. destruct (ret =? -1).
  - destruct (sci doc1); [| discriminate]. simpl in Hrun.
    inversion Hrun; subst. rewrite with_sci_frame. exact Einner.
  - inversion Hrun; subst. exact Einner.
Qed.

(** X12: document_find_text only searches.  On a document with a buffer
    that satisfies the laws of the widget, with a text that is not empty, it
    returns; the text of the buffer is as it was; the document differs from
    the one it was given in its buffer state and scroll position at most;
    and when the first search finds the text its position is the result,
    and nothing is shown, asked or sounded. *)
Theorem document_find_text_only_searches (prefs : GeanySearchPrefs.t) (u : Ui)
  (doc : GeanyDocument Sci) (s : Sci) (text : string) (flags : Z)
  (backwards scroll : bool) :
  sci doc = Some s -> text <> EmptyString ->
  exists r doc' u' s',
    (forall fuel, (2 <= fuel)%nat ->
       document_find_text fuel prefs u doc text flags backwards scroll
       = Some (r, doc', u'))
    /\ sci doc' = Some s' /\ same_text s s'
    /\ with_scroll_percent 0 (with_sci None doc')
       = with_scroll_percent 0 (with_sci None doc)
    /\ (let first := find_text_search s text flags (find_direction flags backwards) in
        snd first <> -1 -> r = snd first /\ u' = u).
Proof.
  intros Hs Htext.
  destruct (document_find_text_outcome prefs u doc s text flags backwards scroll Hs Htext)
    as (r & doc' & u' & Hall & _ & (s' & Hs' & Hsame) & _ & _ & Hhit).
  exists r, doc', u', s'. split; [exact Hall |]. split; [exact Hs' |].
  split; [exact Hsame |]. split; [| exact Hhit].
  exact (document_find_text_frame prefs text flags scroll 2 u doc backwards r doc' u'
           (Hall 2%nat (Nat.le_refl 2))).
Qed.

End FindFrame.

Lemma document_find_text_only_searches_witness :
  let s := Samples.buffer "foo bar foo" 0 0 in
  let doc := Samples.doc_on s in
  (sci doc = Some s /\ "bar"%string <> EmptyString)
  /\ exists r doc' u' s',
       (forall fuel, (2 <= fuel)%nat ->
          document_find_text fuel Samples.ask_before_wrap Samples.quiet_ui doc "bar"
            SCFIND_MATCHCASE false true = Some (r, doc', u'))
       /\ sci doc' = Some s' /\ same_text s s'
       /\ with_scroll_percent 0 (with_sci None doc')
          = with_scroll_percent 0 (with_sci None doc)
       /\ (let first := find_text_search s "bar" SCFIND_MATCHCASE
                          (find_direction SCFIND_MATCHCASE false) in
           snd first <> -1 -> r = snd first /\ u' = Samples.quiet_ui).
Proof.
  intros s doc.
  assert (Hin : sci doc = Some s /\ "bar"%string <> EmptyString)
    by (split; [reflexivity | discriminate]).
  split; [exact Hin |].
  destruct Hin as (Hs & Htext).
  exact (document_find_text_only_searches Samples.ask_before_wrap Samples.quiet_ui doc s
           "bar" SCFIND_MATCHCASE false true Hs Htext).
Defined.


(** ** Changes on the disk *)

Section DiskStatus.
Context {Sci : Type} `{ScintillaOps Sci} `{EditorOps Sci}.
Context {Nb : Type} `{NotebookOps Nb}.
Context {Host : Type} `{HostOps Host}.
Context `{EncodingOps}.

(** X13: a change on the disk is reported once.  When
    document_check_disk_status has found the file of a document newer than
    the document and returned TRUE, the document has taken the time of the
    file, whatever the user answered and whether or not the reload worked:
    a second check, forced or not, returns FALSE, asks and shows nothing,
    and leaves the disk and the slots of the registry as they are. *)
Theorem document_check_disk_status_reports_once (app : App Sci Nb Host) (idx : nat)
  (force : bool) (d : GeanyDocument Sci) (s : Sci) (app1 : App Sci Nb Host) :
  documents_array app !! idx = Some d -> sci d = Some s ->
  document_check_disk_status app idx force = Some (true, app1) ->
  forall force',
    exists app2,
      document_check_disk_status app1 idx force' = Some (false, app2)
      /\ ui app2 = ui app1 /\ host app2 = host app1
      /\ same_slots (documents_array app1) (documents_array app2).
Proof.
  intros Hd Hs Hrun force'.
  unfold document_check_disk_status in Hrun. rewrite Hd in Hrun. simpl in Hrun.
  destruct (_ =? 0); [discriminate |].
  destruct (real_path d) as [rp |] eqn:Erp; [| discriminate].
  destruct (negb force && _); [discriminate |].
  destruct (match file_name d with Some f => _ | None => None end)
    as [[st_mtime st_size] |] eqn:Estat; [| discriminate].
  destruct ((host_time (host app) <? mtime d) || (host_time (host app) <? st_mtime))
    eqn:Eskew; [discriminate |].
  destruct (mtime d <? st_mtime); [| discriminate].
  set (d0 := with_last_check (host_time (host app)) d) in *.
  assert (Hd0 : documents_array (store_doc idx d0 app) !! idx = Some d0).
  { simpl. apply list_lookup_insert_eq. eapply lookup_lt_Some; exact Hd. }
  destruct (check_reload_slots (store_doc idx d0 app) idx d0 s Hd0 Hs)
    as (r & appR & Hcheck & HhostR & HsameR).
  rewrite Hcheck in Hrun. simpl in Hrun.
  destruct (proj2 HsameR idx d0 Hd0) as (docR & HdocR & _ & HnameR & HpathR & HbufR).
  assert (HsR : is_Some (sci docR)) by (apply HbufR; exists s; exact Hs).
  rewrite HdocR in Hrun. simpl in Hrun. inversion Hrun; subst app1. clear Hrun.
  simpl in HhostR, HnameR, HpathR.
  set (d1 := with_mtime st_mtime docR).
  assert (Hd1 : documents_array (store_doc idx d1 appR) !! idx = Some d1).
  { simpl. apply list_lookup_insert_eq. eapply lookup_lt_Some; exact HdocR. }
  assert (Hkeep : forall d', is_valid d' = is_valid d1 -> file_name d' = file_name d1 ->
                    real_path d' = real_path d1 -> sci d' = sci d1 ->
                    same_slots (documents_array (store_doc idx d1 appR))
                      (documents_array (store_doc idx d' (store_doc idx d1 appR)))).
  { intros d' Hv Hf Hr Hb. apply (same_slots_insert _ idx d1 d' Hd1 Hv Hf Hr).
    rewrite Hb. exact HsR. }
  unfold document_check_disk_status. rewrite Hd1. simpl.
  destruct (_ =? 0);
    [eexists; split; [reflexivity | split; [reflexivity | split;
       [reflexivity | apply same_slots_refl]]] |].
  rewrite HpathR, Erp.
  destruct (negb force' && _);
    [eexists; split; [reflexivity | split; [reflexivity | split;
       [reflexivity | apply same_slots_refl]]] |].
  rewrite HnameR, HhostR. simpl. rewrite Estat.
  apply orb_false_iff in Eskew. destruct Eskew as [_ Eskew].
  rewrite Eskew. simpl. rewrite Z.ltb_irrefl.
  eexists. split; [reflexivity | split; [reflexivity | split]].
  - simpl. exact HhostR.
  - apply Hkeep; reflexivity.
Qed.

End DiskStatus.

Lemma document_check_disk_status_reports_once_witness :
  let app := with_host (fst (write_data_to_disk (Samples.disk false) "/tmp/a.txt" "new" 3))
               Samples.session in
  let d := Samples.doc_on (Samples.buffer "abc" 0 0) in
  (documents_array app !! 0%nat = Some d /\ sci d = Some (Samples.buffer "abc" 0 0))
  /\ exists app1,
       document_check_disk_status app 0 false = Some (true, app1)
       /\ forall force',
            exists app2,
              document_check_disk_status app1 0 force' = Some (false, app2)
              /\ ui app2 = ui app1 /\ host app2 = host app1
              /\ same_slots (documents_array app1) (documents_array app2).
Proof.
  intros app d. split; [split; reflexivity |].
  assert (Hrun : exists app1, document_check_disk_status app 0 false = Some (true, app1)).
  { eexists. vm_compute. reflexivity. }
  destruct Hrun as (app1 & Hrun).
  exists app1. split; [exact Hrun |].
  exact (document_check_disk_status_reports_once app 0 false d (Samples.buffer "abc" 0 0)
           app1 eq_refl eq_refl Hrun).
Defined.


(** ** Reloading *)

Section ReloadProperties.
Context {Sci : Type} `{ScintillaOps Sci} `{EditorOps Sci}.
Context {Nb : Type} `{NotebookOps Nb}.
Context {Host : Type} `{HostOps Host}.
Context `{EncodingOps}.

(** The document that the loading part of document_open_file_full leaves
    when it reloads. *)
Lemma document_open_file_load_reloaded (app : App Sci Nb Host)
  (idx : nat) (names : option (string * string)) (pos : Z) (read_only : bool)
  (ft : option GeanyFiletype) (forced_enc : option string)
  (d : GeanyDocument Sci) (s : Sci) :
  documents_array app !! idx = Some d -> sci d = Some s ->
  exists r app',
    document_open_file_load app true (Some idx) names pos read_only ft forced_enc
    = Some (r, app')
    /\ host app' = host app
    /\ ui_asked (ui app') = ui_asked (ui app)
    /\ ((r = None /\ documents_array app' = documents_array app
         /\ notebook app' = notebook app /\ cl_options app' = cl_options app)
        \/ exists d',
             r = Some idx
             /\ documents_array app' = <[idx := d']> (documents_array app)
             /\ is_valid d' = is_valid d /\ index d' = index d
             /\ file_name d' = file_name d /\ real_path d' = real_path d
             /\ is_Some (sci d')
             /\ use_tabs d' = use_tabs d
             /\ line_wrapping d' = line_wrapping d /\ auto_indent d' = auto_indent d
             /\ undo_actions d' = [] /\ redo_actions d' = []
             /\ changed d' = false
             /\ saved_encoding d'
                = {| fe_encoding := encoding d'; fe_has_bom := has_bom d' |}
             /\ is_Some (encoding d')
             /\ file_type d' = ft).
Proof.
  intros Hd Hs. unfold document_open_file_load.
  pose proof (load_text_file_cases (host app) (main_status app) (ui app)) as Hload.
  destruct names as [[locale_filename utf8_filename] |].
  2:{ do 2 eexists. split; [reflexivity | split; [reflexivity | split; [reflexivity |]]].
      left. repeat split. }
  specialize (Hload locale_filename utf8_filename
                (match GeanyFilePrefs.default_open_encoding (file_prefs app), forced_enc with
                 | Some e, None => Some (encodings_charset e)
                 | _, _ => forced_enc
                 end)).
  cbv zeta in Hload. destruct Hload as (Hasked & Hloaded & _).
  destruct (load_text_file _ _ _ locale_filename utf8_filename _) as [loaded u1].
  simpl in Hasked.
  destruct loaded as [filedata |];
    [| do 2 eexists; split; [reflexivity | split; [reflexivity | split; [exact Hasked |]]];
       left; repeat split].
  destruct (Hloaded filedata eq_refl) as (Henc & _).
  simpl. rewrite Hd. simpl. rewrite Hs. simpl.
  match goal with |- context [set_cursor_position ?D ?P ?C] =>
    destruct (set_cursor_position_some D P C _ eq_refl) as (s' & percent & cl' & Hcur)
  end.
  rewrite Hcur. simpl.
  do 2 eexists. split; [reflexivity | split; [reflexivity |]].
  split; [simpl; destruct (GeanyStatus.opening_session_files (main_status app));
          exact Hasked |].
  right. eexists.
  split; [reflexivity | split; [reflexivity |]].
  simpl. unfold document_undo_clear. simpl.
  destruct (GeanyStatus.quitting (main_status app)); simpl;
    (destruct ft; simpl; repeat split; try (eexists; reflexivity); exact Henc).
Qed.

(** X14: what document_reload_file does to a document with a buffer.  It
    returns and leaves the disk alone.  When it gives FALSE (the file could
    not be loaded) the registry, the tabs and the command line options are
    as they were.  When it gives TRUE only the slot of the document has
    changed, and the document in it has kept its validity, its slot number,
    its names, its file type and its tab and wrapping settings, while both
    ledgers are empty, the changed flag is off, it has an encoding, and the
    saved snapshot is its encoding and BOM. *)
Theorem document_reload_file_outcome (app : App Sci Nb Host) (idx : nat)
  (forced_enc : option string) (d : GeanyDocument Sci) (s : Sci) :
  documents_array app !! idx = Some d -> sci d = Some s ->
  exists r app',
    document_reload_file app idx forced_enc = Some (r, app')
    /\ host app' = host app
    /\ (r = false ->
        documents_array app' = documents_array app
        /\ notebook app' = notebook app /\ cl_options app' = cl_options app)
    /\ (r = true ->
        exists d',
          documents_array app' = <[idx := d']> (documents_array app)
          /\ is_valid d' = is_valid d /\ index d' = index d
          /\ file_name d' = file_name d /\ real_path d' = real_path d
          /\ file_type d' = file_type d
          /\ use_tabs d' = use_tabs d
          /\ line_wrapping d' = line_wrapping d /\ auto_indent d' = auto_indent d
          /\ is_Some (sci d') /\ is_Some (encoding d')
          /\ undo_actions d' = [] /\ redo_actions d' = []
          /\ changed d' = false
          /\ saved_encoding d'
             = {| fe_encoding := encoding d'; fe_has_bom := has_bom d' |}).
Proof.
  intros Hd Hs. unfold document_reload_file, document_open_file_reload.
  rewrite Hd. simpl. rewrite Hs. simpl.
  destruct (document_open_file_load_reloaded app idx
              (option_map (fun f => (utils_get_locale_from_utf8 f, f)) (file_name d))
              (sci_get_current_position s) (readonly d) (file_type d) forced_enc d s Hd Hs)
    as (r & app' & Hload & Hhost & _ & Hres).
  rewrite Hload. simpl.
  do 2 eexists. split; [reflexivity | split; [exact Hhost |]].
  destruct Hres as [(-> & Hdocs & Hnb & Hcl) | (d' & -> & Hdocs & Hfacts)].
  - split; [auto | discriminate].
  - split; [discriminate |]. intros _. exists d'.
    destruct Hfacts as (F1 & F2 & F3 & F4 & F5 & F6 & F7 & F8 & F9 & F10 & F11 & F12
                        & F13 & F14).
    repeat split; assumption.
Qed.

End ReloadProperties.

Lemma document_reload_file_outcome_witness :
  let s := Samples.buffer "abc" 0 0 in
  let d := Samples.doc_on s in
  (documents_array Samples.session !! 0%nat = Some d /\ sci d = Some s)
  /\ exists r app',
       document_reload_file Samples.session 0 None = Some (r, app')
       /\ host app' = host Samples.session
       /\ (r = false ->
           documents_array app' = documents_array Samples.session
           /\ notebook app' = notebook Samples.session
           /\ cl_options app' = cl_options Samples.session)
       /\ (r = true ->
           exists d',
             documents_array app' = <[0%nat := d']> (documents_array Samples.session)
             /\ is_valid d' = is_valid d /\ index d' = index d
             /\ file_name d' = file_name d /\ real_path d' = real_path d
             /\ file_type d' = file_type d
             /\ use_tabs d' = use_tabs d
             /\ line_wrapping d' = line_wrapping d /\ auto_indent d' = auto_indent d
             /\ is_Some (sci d') /\ is_Some (encoding d')
             /\ undo_actions d' = [] /\ redo_actions d' = []
             /\ changed d' = false
             /\ saved_encoding d'
                = {| fe_encoding := encoding d'; fe_has_bom := has_bom d' |}).
Proof.
  intros s d. split; [split; reflexivity |].
  exact (document_reload_file_outcome Samples.session 0 None d s eq_refl eq_refl).
Defined.


(** * More of the code: new documents, lists of files, closing *)

(** ** New documents *)

Section NewFileProperties.
Context {Sci : Type} `{ScintillaOps Sci} `{EditorOps Sci} `{ScintillaEditOps Sci}.
Context {Nb : Type} `{NotebookOps Nb}.
Context {Host : Type} `{HostOps Host}.
Context `{EncodingOps} `{UriOps}.

(** document_create closes nothing unless the only tab shows an unchanged
    untitled document: the slot it fills had no buffer and the other slots
    are as they were. *)
Lemma document_create_no_close (app : App Sci Nb Host) (utf8_filename : option string) :
  gtk_notebook_get_n_pages (notebook app) <> 1
  \/ (exists i d, document_get_current (documents_array app) (notebook app) = Some i
        /\ documents_array app !! i = Some d
        /\ (is_Some (file_name d) \/ changed d = true)) ->
  let idx := fst (document_create app utf8_filename) in
  let docs' := documents_array (snd (document_create app utf8_filename)) in
  (forall j, j <> idx -> docs' !! j = documents_array app !! j)
  /\ (forall d, documents_array app !! idx = Some d -> sci d = None).
Proof.
  intros Hkeep idx docs'. subst idx docs'. unfold document_create.
  set (app1 := if gtk_notebook_get_n_pages (notebook app) =? 1 then _ else app).
  assert (Happ1 : app1 = app).
  { subst app1. destruct Hkeep as [Hpages | (i & d & Hcur & Hd & Hnamed)].
    - rewrite (proj2 (Z.eqb_neq _ _) Hpages). reflexivity.
    - destruct (_ =? 1); [| reflexivity]. rewrite Hcur, Hd.
      destruct Hnamed as [[f Hf] | Hc]; [rewrite Hf; reflexivity |].
      rewrite Hc. destruct (file_name d); reflexivity. }
  clearbody app1. subst app1.
  pose proof (get_new_idx_from_first (documents_array app) 0) as Hfirst.
  unfold document_get_new_idx.
  destruct (get_new_idx_from 0 (documents_array app)) as [i |]; simpl.
  - destruct Hfirst as (_ & (d & Hd & Hs) & _). rewrite Nat.sub_0_r in Hd. split.
    + intros j Hne. apply list_lookup_insert_ne. congruence.
    + intros d' Hd'. congruence.
  - split.
    + intros j Hne. rewrite list_lookup_insert_ne by congruence.
      destruct (decide (j < length (documents_array app))%nat) as [Hlt | Hge].
      * apply lookup_app_l. exact Hlt.
      * rewrite lookup_app_r by lia.
        destruct (j - length (documents_array app))%nat as [| m] eqn:Ej; [lia |].
        simpl. symmetry. apply lookup_ge_None. lia.
    + intros d Hd. apply lookup_lt_Some in Hd. lia.
Qed.

(** What document_new_file leaves. *)
Lemma document_new_file_result (app : App Sci Nb Host) (filename : option string)
  (ft : option GeanyFiletype) (text : option string) :
  exists (idx : nat) (app' : App Sci Nb Host) (doc this : GeanyDocument Sci),
    document_new_file app filename ft text = Some (idx, app')
    /\ idx = fst (document_create app filename)
    /\ documents_array (snd (document_create app filename)) !! idx = Some this
    /\ documents_array app' = <[idx := doc]> (documents_array (snd (document_create app filename)))
    /\ documents_array app' !! idx = Some doc
    /\ (host app' = host app /\ editor_prefs app' = editor_prefs app
        /\ file_prefs app' = file_prefs app /\ geany_object app' = geany_object app
        /\ main_status app' = main_status app /\ cl_options app' = cl_options app)
    /\ is_valid doc = true /\ index doc = idx /\ file_name doc = filename
    /\ is_Some (sci doc)
    /\ real_path doc = None
    /\ changed doc = false /\ readonly doc = false
    /\ undo_actions doc = [] /\ redo_actions doc = []
    /\ encoding doc
       = Some (encodings_charset (GeanyFilePrefs.default_new_encoding (file_prefs app)))
    /\ has_bom doc = false
    /\ saved_encoding doc = {| fe_encoding := encoding doc; fe_has_bom := false |}
    /\ mtime doc = host_time (host app)
    /\ use_tabs doc = GeanyEditorPrefs.use_tabs (editor_prefs app)
    /\ line_wrapping doc = GeanyEditorPrefs.line_wrapping (editor_prefs app)
    /\ (forall t, ft = Some t -> file_type doc = Some t)
    /\ (ft = None -> filename = None -> file_type doc = None)
    /\ ui app'
       = (if geany_object app
          then g_signal_emit_by_name "document-new" idx
                 (ui (snd (document_create app filename)))
          else ui (snd (document_create app filename))).
Proof.
  unfold document_new_file.
  pose proof (document_create_result app filename) as Hres. cbv zeta in Hres.
  destruct (document_create app filename) as [idx app1]. simpl in Hres. simpl fst. simpl snd.
  destruct Hres as ((Hhost & Hprefs & Hfprefs & Hobj & Hstatus & Hcl) & _
                    & (this & Hthis & Hv & Hi & Hf & Hs & Hrp & He & Hc & Hro & Hu & Hr
                       & Hb & Hft & Hw) & _).
  rewrite Hthis. simpl. rewrite Hs. simpl.
  do 4 eexists. split; [reflexivity |]. split; [reflexivity |].
  split; [exact Hthis |]. split; [reflexivity |].
  split; [simpl; apply list_lookup_insert_eq; eapply lookup_lt_Some; exact Hthis |].
  split; [simpl; repeat split; assumption |].
  rewrite Hfprefs, Hprefs, Hhost, Hobj.
  assert (Hfields : forall (t : option GeanyFiletype) (d : GeanyDocument Sci),
            is_valid (document_set_filetype d t) = is_valid d
            /\ index (document_set_filetype d t) = index d
            /\ file_name (document_set_filetype d t) = file_name d
            /\ real_path (document_set_filetype d t) = real_path d
            /\ readonly (document_set_filetype d t) = readonly d
            /\ undo_actions (document_set_filetype d t) = undo_actions d
            /\ redo_actions (document_set_filetype d t) = redo_actions d
            /\ encoding (document_set_filetype d t) = encoding d
            /\ has_bom (document_set_filetype d t) = has_bom d
            /\ saved_encoding (document_set_filetype d t) = saved_encoding d
            /\ mtime (document_set_filetype d t) = mtime d
            /\ use_tabs (document_set_filetype d t) = use_tabs d
            /\ line_wrapping (document_set_filetype d t) = line_wrapping d
            /\ (forall x, t = Some x -> file_type (document_set_filetype d t) = Some x)
            /\ (t = None -> file_type (document_set_filetype d t) = file_type d)).
  { intros t d. destruct t; simpl; repeat split; try congruence. }
  match goal with |- context [document_set_filetype ?D ?T] =>
    destruct (Hfields T D) as (F1 & F2 & F3 & F4 & F5 & F6 & F7 & F8 & F9 & F10 & F11 & F12
                               & F13 & F14 & F15);
    set (B := document_set_filetype D T) in *; clearbody B
  end.
  simpl in *.
  repeat (split; [congruence || (eexists; reflexivity) |]).
  split.
  { intros t ->. destruct filename; apply F14; reflexivity. }
  split; [| reflexivity].
  intros -> ->. rewrite F15; [exact Hft | reflexivity].
Qed.

(** X15: document_new_file always returns, with a blank document in the
    slot that document_create filled: valid, with the given name, a buffer,
    no real path, not changed, not read-only, with empty ledgers, the
    default encoding for new files without BOM as its encoding and as its
    saved snapshot, the current time as its time stamp, and the file type
    that was given (none for an untitled document without one).  Plugins
    are told once the document is set up: their signal is the last entry of
    the log (the line for the message window that follows it in the code is
    not recorded).  The disk is left alone and every other slot holds what
    it held or the cleared slot of a document that was closed on the way,
    which cannot happen unless there is exactly one tab.
    document_new_file_if_non_open does nothing when there is a tab and
    otherwise creates such an untitled document. *)
Theorem document_new_file_blank (app : App Sci Nb Host) (filename : option string)
  (ft : option GeanyFiletype) (text : option string) :
  (exists (idx : nat) (app' : App Sci Nb Host) (doc : GeanyDocument Sci),
     document_new_file app filename ft text = Some (idx, app')
     /\ host app' = host app
     /\ documents_array app' !! idx = Some doc
     /\ is_valid doc = true /\ index doc = idx /\ file_name doc = filename
     /\ is_Some (sci doc) /\ real_path doc = None
     /\ changed doc = false /\ readonly doc = false
     /\ undo_actions doc = [] /\ redo_actions doc = []
     /\ encoding doc
        = Some (encodings_charset (GeanyFilePrefs.default_new_encoding (file_prefs app)))
     /\ has_bom doc = false
     /\ saved_encoding doc = {| fe_encoding := encoding doc; fe_has_bom := false |}
     /\ mtime doc = host_time (host app)
     /\ (forall t, ft = Some t -> file_type doc = Some t)
     /\ (ft = None -> filename = None -> file_type doc = None)
     /\ (geany_object app = true ->
         exists before, ui_log (ui app') = before ++ [UiSignal "document-new" idx])
     /\ (length (documents_array app) <= length (documents_array app')
         <= S (length (documents_array app)))%nat
     /\ (forall j d', j <> idx -> documents_array app' !! j = Some d' ->
         exists d, documents_array app !! j = Some d
                   /\ (d' = d \/ (is_valid d' = false /\ sci d' = None)))
     /\ (gtk_notebook_get_n_pages (notebook app) <> 1 ->
         forall j, j <> idx -> documents_array app' !! j = documents_array app !! j))
  /\ (gtk_notebook_get_n_pages (notebook app) <> 0 ->
      document_new_file_if_non_open app = Some (None, app))
  /\ (gtk_notebook_get_n_pages (notebook app) = 0 ->
      exists (idx : nat) (app' : App Sci Nb Host) (doc : GeanyDocument Sci),
        document_new_file_if_non_open app = Some (Some idx, app')
        /\ documents_array app' !! idx = Some doc
        /\ is_valid doc = true /\ file_name doc = None /\ changed doc = false
        /\ forall j, j <> idx -> documents_array app' !! j = documents_array app !! j).
Proof.
  assert (Hothers : forall f t x (idx : nat) (app' : App Sci Nb Host)
                      (doc : GeanyDocument Sci),
            document_new_file app f t x = Some (idx, app') ->
            idx = fst (document_create app f) ->
            documents_array app'
            = <[idx := doc]> (documents_array (snd (document_create app f))) ->
            gtk_notebook_get_n_pages (notebook app) <> 1 ->
            forall j, j <> idx -> documents_array app' !! j = documents_array app !! j).
  { intros f t x idx app' doc _ Hidx Hdocs Hpages j Hne.
    rewrite Hdocs, list_lookup_insert_ne by congruence.
    destruct (document_create_no_close app f (or_introl Hpages)) as [Hsame _].
    apply Hsame. congruence. }
  split; [| split].
  - destruct (document_new_file_result app filename ft text)
      as (idx & app' & doc & this & Hrun & Hidx & Hthis & Hdocs & Hdoc
          & (Hhost & _) & Hv & Hi & Hf & Hs & Hrp & Hc & Hro & Hu & Hr & He & Hb & Hse
          & Hm & _ & _ & Hft & Hnone & Hui).
    exists idx, app', doc.
    repeat (split; [assumption |]).
    pose proof (document_create_result app filename) as Hres. cbv zeta in Hres.
    rewrite <- Hidx in Hres.
    destruct Hres as (_ & Hlen & _ & _ & _ & Hold).
    split; [| split; [| split]].
    + intros Hobj. rewrite Hui, Hobj. eexists. reflexivity.
    + rewrite Hdocs, length_insert. exact Hlen.
    + intros j d' Hne Hd'. rewrite Hdocs, list_lookup_insert_ne in Hd' by congruence.
      exact (Hold j d' Hne Hd').
    + exact (Hothers filename ft text idx app' doc Hrun Hidx Hdocs).
  - intros Hpages. unfold document_new_file_if_non_open.
    rewrite (proj2 (Z.eqb_neq _ _) Hpages). reflexivity.
  - intros Hpages. unfold document_new_file_if_non_open. rewrite Hpages. simpl.
    destruct (document_new_file_result app None None None)
      as (idx & app' & doc & this & Hrun & Hidx & Hthis & Hdocs & Hdoc
          & _ & Hv & _ & Hf & _ & _ & Hc & _).
    rewrite Hrun. simpl. exists idx, app', doc.
    split; [reflexivity |]. repeat (split; [assumption |]).
    apply (Hothers None None None idx app' doc Hrun Hidx Hdocs). lia.
Qed.

(** Assigning an encoding leaves the other fields alone. *)
Lemma document_set_encoding_frame (d : GeanyDocument Sci) (e : option string) :
  is_valid (document_set_encoding d e) = is_valid d
  /\ file_name (document_set_encoding d e) = file_name d
  /\ real_path (document_set_encoding d e) = real_path d
  /\ sci (document_set_encoding d e) = sci d
  /\ readonly (document_set_encoding d e) = readonly d
  /\ line_wrapping (document_set_encoding d e) = line_wrapping d
  /\ has_bom (document_set_encoding d e) = has_bom d
  /\ file_type (document_set_encoding d e) = file_type d
  /\ changed (document_set_encoding d e) = changed d
  /\ undo_actions (document_set_encoding d e) = undo_actions d
  /\ redo_actions (document_set_encoding d e) = redo_actions d
  /\ saved_encoding (document_set_encoding d e) = saved_encoding d
  /\ (forall x, e = Some x -> encoding (document_set_encoding d e) = Some x)
  /\ (e = None -> encoding (document_set_encoding d e) = encoding d).
Proof.
  unfold document_set_encoding.
  destruct e as [x |]; [| repeat split; intros; congruence].
  destruct (utils_str_equal (Some x) (encoding d)) eqn:Eeq.
  - repeat split; try (intros; congruence). intros y Hy. inversion Hy; subst y.
    destruct (encoding d) as [e' |]; [| discriminate].
    simpl in Eeq. apply String.eqb_eq in Eeq. congruence.
  - repeat split; intros; simpl; congruence.
Qed.

(** X16: document_clone copies the properties of a document into a new
    one.  For a document with a buffer that document_create does not close
    (there is not exactly one tab, or the current document is named or
    changed) it returns a new document in another slot and leaves the
    original as it is; the copy has the given name, the file type of the
    original when it has one, and its line wrapping, read-only flag, BOM
    flag and encoding (the default encoding for new files when the original
    has none), while its saved snapshot is the default encoding without BOM:
    the copy is not marked as changed and has no real path. *)
Theorem document_clone_copies (app : App Sci Nb Host) (old_doc : nat)
  (utf8_filename : option string) (old : GeanyDocument Sci) (s : Sci) :
  documents_array app !! old_doc = Some old -> sci old = Some s ->
  gtk_notebook_get_n_pages (notebook app) <> 1
  \/ (exists i d, document_get_current (documents_array app) (notebook app) = Some i
        /\ documents_array app !! i = Some d
        /\ (is_Some (file_name d) \/ changed d = true)) ->
  exists (idx : nat) (app' : App Sci Nb Host) (doc : GeanyDocument Sci),
    document_clone app old_doc utf8_filename = Some (idx, app')
    /\ host app' = host app
    /\ idx <> old_doc
    /\ documents_array app' !! old_doc = Some old
    /\ documents_array app' !! idx = Some doc
    /\ (forall j, j <> idx -> documents_array app' !! j = documents_array app !! j)
    /\ is_valid doc = true /\ file_name doc = utf8_filename
    /\ is_Some (sci doc) /\ real_path doc = None
    /\ line_wrapping doc = line_wrapping old
    /\ readonly doc = readonly old
    /\ has_bom doc = has_bom old
    /\ (forall e, encoding old = Some e -> encoding doc = Some e)
    /\ (encoding old = None ->
        encoding doc
        = Some (encodings_charset (GeanyFilePrefs.default_new_encoding (file_prefs app))))
    /\ (forall t, file_type old = Some t -> file_type doc = Some t)
    /\ changed doc = false
    /\ undo_actions doc = [] /\ redo_actions doc = []
    /\ saved_encoding doc
       = {| fe_encoding :=
              Some (encodings_charset
                      (GeanyFilePrefs.default_new_encoding (file_prefs app)));
            fe_has_bom := false |}.
Proof.
  intros Hold Hs Hkeep. unfold document_clone. rewrite Hold. simpl. rewrite Hs. simpl.
  destruct (document_new_file_result app utf8_filename (file_type old)
              (Some (sci_get_text s (sci_get_length s + 1))))
    as (idx & app1 & doc & this & Hrun & Hidx & Hthis & Hdocs & Hdoc
        & (Hhost & _) & Hv & Hi & Hf & (s1 & Hs1) & Hrp & Hc & Hro & Hu & Hr & He & Hb
        & Hse & Hm & _ & _ & Hft & _).
  destruct (document_create_no_close app utf8_filename Hkeep) as [Hsame Hfree].
  rewrite <- Hidx in Hsame, Hfree.
  assert (Hne : idx <> old_doc).
  { intros ->. rewrite (Hfree old Hold) in Hs. discriminate. }
  assert (Hold1 : documents_array app1 !! old_doc = Some old).
  { rewrite Hdocs, list_lookup_insert_ne by exact Hne.
    rewrite Hsame by congruence. exact Hold. }
  rewrite Hrun. simpl. rewrite Hold1. simpl. rewrite Hdoc. simpl.
  match goal with |- context [document_set_encoding ?D ?E] =>
    destruct (document_set_encoding_frame D E)
      as (G1 & G2 & G3 & G4 & G5 & G6 & G7 & G8 & G9 & G10 & G11 & G12 & G13 & G14);
    set (B := document_set_encoding D E) in *; clearbody B
  end.
  simpl in *. rewrite G4, Hs1. simpl.
  assert (Hlt : (idx < length (documents_array app1))%nat)
    by (eapply lookup_lt_Some; exact Hdoc).
  do 3 eexists. split; [reflexivity |]. simpl.
  split; [exact Hhost |]. split; [exact Hne |].
  split; [rewrite list_lookup_insert_ne by exact Hne; exact Hold1 |].
  split; [apply list_lookup_insert_eq; exact Hlt |].
  split.
  { intros j Hj. rewrite list_lookup_insert_ne by congruence.
    rewrite Hdocs, list_lookup_insert_ne by congruence. apply Hsame. congruence. }
  simpl.
  repeat (split; [congruence || (eexists; reflexivity) |]).
  split; [exact G13 |]. split; [intros Hnone; rewrite (G14 Hnone); exact He |].
  split; [intros t Ht; rewrite G8; exact (Hft t Ht) |].
  repeat (split; [congruence |]). rewrite G12, Hse, He. reflexivity.
Qed.

End NewFileProperties.

Lemma document_clone_copies_witness :
  let s := Samples.buffer "abc" 0 0 in
  let old := Samples.doc_on s in
  let app := Samples.session in
  (documents_array app !! 0%nat = Some old /\ sci old = Some s
   /\ exists i d, document_get_current (documents_array app) (notebook app) = Some i
        /\ documents_array app !! i = Some d
        /\ (is_Some (file_name d) \/ changed d = true))
  /\ exists (idx : nat) (app' : App TextSci.t ListNotebook.t SimpleHost.t)
       (doc : GeanyDocument TextSci.t),
       document_clone app 0 (Some "/tmp/c.txt"%string) = Some (idx, app')
       /\ idx <> 0%nat
       /\ documents_array app' !! 0%nat = Some old
       /\ documents_array app' !! idx = Some doc
       /\ file_name doc = Some "/tmp/c.txt"%string /\ real_path doc = None
       /\ readonly doc = readonly old /\ has_bom doc = has_bom old
       /\ encoding doc = encoding old /\ changed doc = false.
Proof.
  intros s old app.
  assert (Hkeep : exists i d,
            document_get_current (documents_array app) (notebook app) = Some i
            /\ documents_array app !! i = Some d
            /\ (is_Some (file_name d) \/ changed d = true)).
  { exists 0%nat, old. split; [reflexivity | split; [reflexivity |]].
    left. eexists. reflexivity. }
  split; [split; [reflexivity | split; [reflexivity | exact Hkeep]] |].
  destruct (document_clone_copies app 0 (Some "/tmp/c.txt"%string) old s eq_refl eq_refl
              (or_intror Hkeep))
    as (idx & app' & doc & Hrun & _ & Hne & Hold & Hdoc & _ & _ & Hf & _ & Hrp & _ & Hro
        & Hb & He & _ & _ & Hc & _).
  exists idx, app', doc. repeat (split; [assumption |]).
  split; [exact (He _ eq_refl) | exact Hc].
Defined.

(** ** Saving under a name *)

Section SaveAsProperties.
Context {Sci : Type} `{ScintillaOps Sci} `{EditorOps Sci} `{ScintillaEditOps Sci}.
Context {Host : Type} `{HostOps Host}.
Context `{EncodingOps}.

(** What the encoding step of document_save_file shows: nothing when the
    text is converted, and at most the error box otherwise. *)
Lemma save_encoding_step_log (doc : GeanyDocument Sci) (u : Ui) (data : string) (len : Z) :
  let r := if save_needs_conversion doc
           then save_convert_to_encoding doc u data len
           else (Some (data, strlen data), u) in
  (forall x, fst r = Some x -> snd r = u)
  /\ exists shown, ui_log (snd r) = ui_log u ++ shown
                   /\ forall f, ~ In (UiRecentFile f) shown.
Proof.
  intros r. subst r. unfold save_convert_to_encoding.
  assert (Hnone : exists shown, ui_log u = ui_log u ++ shown
                                /\ forall f, ~ In (UiRecentFile f) shown).
  { exists []. rewrite app_nil_r. split; [reflexivity | intros f []]. }
  destruct (save_needs_conversion doc); [| split; [reflexivity | exact Hnone]].
  destruct (encoding doc) as [e |]; [| split; [reflexivity | exact Hnone]].
  destruct (g_convert data (len - 1) e); simpl; [split; [reflexivity | exact Hnone] |].
  split; [discriminate |]. eexists. split; [reflexivity |].
  intros f [Hin | []]. discriminate.
Qed.

(** X17: document_save_file_as renames first and saves whatever the state
    of the document.  Without a document it gives FALSE.  For a document
    with a buffer and a new name it returns; the document has the new name
    afterwards whether or not the save worked, keeps its file type unless
    it had none, and keeps its encoding, BOM and read-only flag.
    The disk is changed by one write to the new name at most.  TRUE is
    given exactly for a write without error: then the real path is the one
    the new name resolves to, the saved snapshot is the encoding and BOM of
    the document, and the new name is the last entry added to the recent
    files.  On FALSE the real path and the saved snapshot are as they were
    and nothing is added to the recent files. *)
Theorem document_save_file_as_renames
  (prefs : GeanyFilePrefs.t) (status : GeanyStatus.t) (geany_obj : bool) (h : Host)
  (u : Ui) (doc : GeanyDocument Sci) (s : Sci) (fname : string) :
  sci doc = Some s ->
  (forall name, document_save_file_as prefs status geany_obj h u None name
                = Some (false, None, h, u))
  /\ exists r doc' h' u',
       document_save_file_as prefs status geany_obj h u (Some doc) (Some fname)
       = Some (r, Some doc', h', u')
       /\ file_name doc' = Some fname
       /\ (FILETYPE_ID (file_type doc) <> GEANY_FILETYPES_NONE ->
           file_type doc' = file_type doc)
       /\ encoding doc' = encoding doc /\ has_bom doc' = has_bom doc
       /\ readonly doc' = readonly doc
       /\ ((r = false /\ h' = h)
           \/ exists bytes len,
                h' = fst (write_data_to_disk h fname bytes len)
                /\ (r = true <-> snd (write_data_to_disk h fname bytes len) = 0))
       /\ (r = true ->
           real_path doc' = get_real_path_from_utf8 h' fname
           /\ saved_encoding doc'
              = {| fe_encoding := encoding doc; fe_has_bom := has_bom doc |}
           /\ exists before, ui_log u' = before ++ [UiRecentFile (Some fname)])
       /\ (r = false ->
           real_path doc' = real_path doc /\ saved_encoding doc' = saved_encoding doc
           /\ exists shown, ui_log u' = ui_log u ++ shown
                            /\ forall f, ~ In (UiRecentFile f) shown).
Proof.
  intros Hs. split; [reflexivity |].
  unfold document_save_file_as. simpl. rewrite Hs. simpl.
  set (doc1 := with_sci _ _).
  assert (Hdoc1 : file_name doc1 = Some fname
                  /\ (exists s1, sci doc1 = Some s1)
                  /\ (FILETYPE_ID (file_type doc) <> GEANY_FILETYPES_NONE ->
                      file_type doc1 = file_type doc)
                  /\ encoding doc1 = encoding doc /\ has_bom doc1 = has_bom doc
                  /\ readonly doc1 = readonly doc /\ changed doc1 = changed doc
                  /\ real_path doc1 = real_path doc
                  /\ saved_encoding doc1 = saved_encoding doc).
  { subst doc1. simpl.
    destruct (filetype_id_eqb (FILETYPE_ID (file_type doc)) GEANY_FILETYPES_NONE) eqn:Eft.
    - destruct (filetypes_detect_from_file (Some fname) s); simpl;
        (split; [reflexivity |]); (split; [eexists; reflexivity |]);
        (split; [| repeat split]); intros Hft; exfalso; apply Hft;
        destruct (file_type doc) as [t |]; [| reflexivity | | reflexivity];
        simpl in *; destruct (ft_id t); try discriminate; reflexivity.
    - simpl. split; [reflexivity |]. split; [eexists; reflexivity |]. repeat split. }
  clearbody doc1.
  destruct Hdoc1 as (Hname & (s1 & Hs1) & Hft & He & Hb & Hro & Hc & Hrp & Hse).
  unfold document_save_file. simpl. rewrite Hname, Hs1. simpl.
  destruct (save_buffer_data _ _) as [data len] eqn:Edata.
  match goal with |- context [if save_needs_conversion ?D then _ else _] =>
    pose proof (save_encoding_step_log D u data len) as Hlog
  end.
  cbv zeta in Hlog.
  destruct (if save_needs_conversion _ then _ else _) as [[[data' len'] |] u1].
  2:{ destruct Hlog as (_ & Hshown). simpl in Hshown.
      do 4 eexists. split; [reflexivity |]. simpl.
      repeat (split; [assumption |]).
      split; [left; auto |]. split; [discriminate |]. intros _. auto. }
  destruct Hlog as (Hsame & _). simpl in Hsame. rewrite (Hsame _ eq_refl).
  destruct (write_data_to_disk h fname data' len') as [h1 err] eqn:Ewrite.
  assert (Hh1 : h1 = fst (write_data_to_disk h fname data' len')) by (rewrite Ewrite; reflexivity).
  assert (Herr : err = snd (write_data_to_disk h fname data' len')) by (rewrite Ewrite; reflexivity).
  destruct (Z.eqb_spec err 0) as [Hz | Hnz]; simpl.
  - assert (Hdisk : (true = false /\ h1 = h)
                    \/ exists bytes len0,
                         h1 = fst (write_data_to_disk h fname bytes len0)
                         /\ (true = true <-> snd (write_data_to_disk h fname bytes len0) = 0)).
    { right. exists data', len'. split; [exact Hh1 |]. split; [congruence | reflexivity]. }
    destruct (GeanyStatus.quitting status).
    + do 4 eexists. split; [reflexivity |]. simpl.
      repeat (split; [assumption |]).
      split; [| discriminate]. intros _.
      split; [reflexivity |]. split; [rewrite He, Hb; reflexivity |].
      rewrite Hname. destruct geany_obj; eexists; reflexivity.
    + destruct (document_update_timestamp _ _ _) as [[ok d] u2] eqn:Estamp.
      assert (Hd : file_name d = Some fname /\ file_type d = file_type doc1
                   /\ encoding d = encoding doc1 /\ has_bom d = has_bom doc1
                   /\ readonly d = readonly doc1 /\ changed d = changed doc1
                   /\ real_path d = get_real_path_from_utf8 h1 fname
                   /\ saved_encoding d
                      = {| fe_encoding := encoding doc1; fe_has_bom := has_bom doc1 |}).
      { unfold document_update_timestamp in Estamp. simpl in Estamp.
        destruct (match file_name doc1 with Some f => _ | None => None end)
          as [[st_mtime st_size] |];
          inversion Estamp; subst; simpl; repeat split; assumption. }
      clear Estamp.
      destruct Hd as (Dn & Dft & De & Db & Dro & Dc & Drp & Dse).
      assert (Hset : forall t, t = file_type d ->
                file_name (document_set_filetype d t) = file_name d
                /\ file_type (document_set_filetype d t) = file_type d
                /\ encoding (document_set_filetype d t) = encoding d
                /\ has_bom (document_set_filetype d t) = has_bom d
                /\ readonly (document_set_filetype d t) = readonly d
                /\ changed (document_set_filetype d t) = changed d
                /\ real_path (document_set_filetype d t) = real_path d
                /\ saved_encoding (document_set_filetype d t) = saved_encoding d).
      { intros t ->. destruct (file_type d) eqn:Et; simpl; rewrite ?Et; repeat split. }
      destruct (Hset _ eq_refl) as (Sn & Sft & Se & Sb & Sro & Sc & Srp & Sse).
      set (d2 := document_set_filetype d (file_type d)) in *. clearbody d2.
      do 4 eexists. split; [reflexivity |]. simpl.
      split; [congruence |]. split; [intros Hid; rewrite Sft, Dft; exact (Hft Hid) |].
      repeat (split; [congruence |]).
      split; [| discriminate]. intros _.
      split; [congruence |]. split; [congruence |].
      rewrite Sn, Dn. destruct geany_obj; eexists; reflexivity.
  - do 4 eexists. split; [reflexivity |]. simpl.
    repeat (split; [assumption |]).
    split.
    { right. exists data', len'. split; [exact Hh1 |].
      split; [discriminate | intros Hzero; congruence]. }
    split; [discriminate |]. intros _. split; [assumption |]. split; [assumption |].
    eexists. split; [rewrite <- !app_assoc; reflexivity |].
    intros f Hin. simpl in Hin. destruct Hin as [Hin | [Hin | [Hin | []]]]; discriminate.
Qed.

End SaveAsProperties.

Lemma document_save_file_as_renames_witness :
  let s := Samples.buffer "abc" 3 3 in
  let doc := Samples.doc_on s in
  let h := Samples.disk false in
  sci doc = Some s
  /\ exists r doc' h' u',
       document_save_file_as Samples.file_defaults Samples.running true h Samples.quiet_ui
         (Some doc) (Some "/tmp/new.txt"%string) = Some (r, Some doc', h', u')
       /\ file_name doc' = Some "/tmp/new.txt"%string
       /\ ((r = false /\ h' = h)
           \/ exists bytes len,
                h' = fst (write_data_to_disk h "/tmp/new.txt" bytes len)
                /\ (r = true <-> snd (write_data_to_disk h "/tmp/new.txt" bytes len) = 0))
       /\ (r = true ->
           real_path doc' = get_real_path_from_utf8 h' "/tmp/new.txt"
           /\ exists before, ui_log u' = before ++ [UiRecentFile (Some "/tmp/new.txt"%string)]).
Proof.
  intros s doc h. split; [reflexivity |].
  destruct (document_save_file_as_renames Samples.file_defaults Samples.running true h
              Samples.quiet_ui doc s "/tmp/new.txt" eq_refl)
    as (_ & r & doc' & h' & u' & Hrun & Hname & _ & _ & _ & _ & Hdisk & Htrue & _).
  exists r, doc', h', u'. split; [exact Hrun |]. split; [exact Hname |].
  split; [exact Hdisk |]. intros Hr. destruct (Htrue Hr) as (Hrp & _ & Hlog). auto.
Defined.

(** ** Opening several files *)

Section OpenFilesProperties.
Context {Sci : Type} `{ScintillaOps Sci} `{EditorOps Sci} `{ScintillaEditOps Sci}.
Context {Nb : Type} `{NotebookOps Nb}.
Context {Host : Type} `{HostOps Host}.
Context `{EncodingOps} `{UriOps}.

(** Opening a file, or failing to, keeps the registry well formed. *)
Lemma document_open_file_keeps_registry (app : App Sci Nb Host)
  (filename : option string) (pos : Z) (read_only : bool)
  (ft : option GeanyFiletype) (forced_enc : option string) :
  valid_have_buffers (documents_array app) ->
  unique_real_paths (documents_array app) ->
  exists r app',
    document_open_file_full app None filename pos read_only ft forced_enc = Some (r, app')
    /\ host app' = host app
    /\ unique_real_paths (documents_array app')
    /\ valid_have_buffers (documents_array app').
Proof.
  intros Hbuf Huniq. unfold document_open_file_full.
  destruct filename as [locale_filename |];
    [| do 2 eexists; split; [reflexivity |]; simpl; auto].
  set (utf8 := utils_get_utf8_from_locale locale_filename).
  destruct (document_find_by_filename (documents_array app) (host app) (Some utf8))
    as [idx |] eqn:Efind.
  - pose proof (document_find_by_filename_some _ _ _ _ Efind) as Hopen.
    destruct Hopen as (d & Hd & Hv & Hpath).
    destruct (Hbuf idx d Hd Hv) as [s Hs].
    match goal with |- context [document_check_disk_status ?A idx true] =>
      destruct (document_check_disk_status_slots A idx true d s Hd Hs)
        as (r & app1 & Hcheck & Hhost1 & Hsame1)
    end.
    rewrite Hcheck. simpl in Hsame1, Hhost1 |- *.
    destruct (proj2 Hsame1 idx d Hd) as (d1 & Hd1 & Hv1 & Hf1 & Hr1 & Hb1).
    destruct (Hb1 (ex_intro _ s Hs)) as [s1 Hs1].
    rewrite Hd1. simpl.
    destruct (set_cursor_position_some d1 pos (cl_options app1) s1 Hs1)
      as (s' & percent & cl' & Hcur).
    rewrite Hcur. simpl.
    assert (Hsame : same_slots (documents_array app)
                      (<[idx := with_scroll_percent percent (with_sci (Some s') d1)]>
                         (documents_array app1))).
    { apply (same_slots_trans _ _ _ Hsame1).
      apply (same_slots_insert _ idx d1 _ Hd1); try reflexivity.
      eexists; reflexivity. }
    do 2 eexists. split; [reflexivity |]. simpl.
    split; [exact Hhost1 |].
    split; [exact (unique_real_paths_from _ _ (same_slots_from _ _ Hsame) Huniq) |].
    exact (valid_have_buffers_from _ _ (same_slots_from _ _ Hsame) Hbuf).
  - pose proof (document_find_by_filename_none _ _ _ Efind) as Hnone.
    destruct (document_open_file_load_fresh app None (Some (locale_filename, utf8))
                pos read_only ft forced_enc)
      as (r & app' & Hload & Hhost & Hres).
    exists r, app'. split; [exact Hload | split; [exact Hhost |]].
    destruct Hres as [[_ Hdocs] | (idx & d' & _ & Hd' & Hv' & Hf' & Hr' & Hb' & Hothers)].
    + rewrite Hdocs. split; [exact Huniq | exact Hbuf].
    + simpl in Hf', Hr'.
      assert (Hfresh : forall j e rp, j <> idx -> documents_array app' !! j = Some e ->
                         is_valid e = true -> real_path e = Some rp ->
                         real_path d' <> Some rp).
      { intros j e rp Hne He Hve Hre Hrd.
        destruct (Hothers j e Hne He Hve) as (e0 & He0 & Hve0 & _ & Hre0 & _).
        apply (Hnone j). exists e0. split; [exact He0 | split; [exact Hve0 |]].
        right. exists rp. split; congruence. }
      split.
      * intros i j di dj rp Hi Hj Hvi Hvj Hri Hrj.
        destruct (Nat.eq_dec i idx) as [-> | Hni];
          destruct (Nat.eq_dec j idx) as [-> | Hnj]; [reflexivity | | |].
        -- rewrite Hd' in Hi. inversion Hi; subst di.
           destruct (Hfresh j dj rp Hnj Hj Hvj Hrj Hri).
        -- rewrite Hd' in Hj. inversion Hj; subst dj.
           destruct (Hfresh i di rp Hni Hi Hvi Hri Hrj).
        -- destruct (Hothers i di Hni Hi Hvi) as (ei & Hei & Hvei & _ & Hrei & _).
           destruct (Hothers j dj Hnj Hj Hvj) as (ej & Hej & Hvej & _ & Hrej & _).
           apply (Huniq i j ei ej rp); congruence.
      * intros i di Hi Hvi. destruct (Nat.eq_dec i idx) as [-> | Hni].
        -- rewrite Hd' in Hi. inversion Hi; subst di. exact Hb'.
        -- destruct (Hothers i di Hni Hi Hvi) as (ei & Hei & Hvei & _ & _ & Hbi).
           exact (Hbi (Hbuf i ei Hei Hvei)).
Qed.

Lemma document_open_files_keep (filenames : list string) (read_only : bool)
  (ft : option GeanyFiletype) (forced_enc : option string) :
  forall app : App Sci Nb Host,
    valid_have_buffers (documents_array app) ->
    unique_real_paths (documents_array app) ->
    exists app',
      document_open_files app filenames read_only ft forced_enc = Some app'
      /\ host app' = host app
      /\ unique_real_paths (documents_array app')
      /\ valid_have_buffers (documents_array app').
Proof.
  induction filenames as [| item rest IH]; intros app Hbuf Huniq; simpl.
  - exists app. auto.
  - unfold document_open_file.
    destruct (document_open_file_keeps_registry app (Some item) 0 read_only ft forced_enc
                Hbuf Huniq) as (r & app1 & Hrun & Hhost & Huniq1 & Hbuf1).
    rewrite Hrun. simpl.
    destruct (IH app1 Hbuf1 Huniq1) as (app' & Hrest & Hhost' & Huniq' & Hbuf').
    exists app'. split; [exact Hrest |]. split; [congruence | auto].
Qed.

(** The loop of document_open_file_list opens the files that the URIs of
    the list name. *)
Lemma open_file_list_from_names (list : list string) :
  forall app : App Sci Nb Host,
    open_file_list_from app list
    = document_open_files app (omap g_filename_from_uri list) false None None.
Proof.
  induction list as [| uri rest IH]; intros app; simpl; [reflexivity |].
  destruct (g_filename_from_uri uri) as [filename |]; simpl; [| apply IH].
  destruct (document_open_file app (Some filename) false None None) as [[r app1] |];
    simpl; [apply IH | reflexivity].
Qed.

(** X18: opening several files keeps the registry well formed.  When every
    valid document has a buffer and no two valid documents share a real
    path, document_open_files returns for every list of names, leaves the
    disk alone, and both still hold afterwards.  document_open_file_list
    does the same for a list of URIs, which it splits at the line ends of
    the data: it opens, in order and for writing, exactly the files that
    the pieces name, passing over the pieces that are not file URIs. *)
Theorem document_open_files_keep_registry (app : App Sci Nb Host) :
  valid_have_buffers (documents_array app) ->
  unique_real_paths (documents_array app) ->
  (forall filenames read_only ft forced_enc,
     exists app',
       document_open_files app filenames read_only ft forced_enc = Some app'
       /\ host app' = host app
       /\ unique_real_paths (documents_array app')
       /\ valid_have_buffers (documents_array app'))
  /\ (forall data length,
        exists delimiter app',
          In delimiter [String CR EmptyString; String CR (String LF EmptyString);
                        String LF EmptyString]
          /\ document_open_file_list app (Some data) length = Some app'
          /\ document_open_files app
               (omap g_filename_from_uri (g_strsplit data delimiter)) false None None
             = Some app'
          /\ host app' = host app
          /\ unique_real_paths (documents_array app')
          /\ valid_have_buffers (documents_array app'))
  /\ (forall length, document_open_file_list app None length = Some app).
Proof.
  intros Hbuf Huniq. split; [| split].
  - intros filenames read_only ft forced_enc.
    exact (document_open_files_keep filenames read_only ft forced_enc app Hbuf Huniq).
  - intros data length. unfold document_open_file_list.
    set (mode := utils_get_line_endings data _).
    set (list := if mode =? 1 then _ else _).
    assert (Hlist : exists delimiter,
              In delimiter [String CR EmptyString; String CR (String LF EmptyString);
                            String LF EmptyString]
              /\ list = g_strsplit data delimiter).
    { subst list. destruct (mode =? 1); [eexists; split; [left; reflexivity | reflexivity] |].
      destruct (mode =? 0); eexists; (split; [| reflexivity]); simpl; auto. }
    destruct Hlist as (delimiter & Hin & ->).
    destruct (document_open_files_keep (omap g_filename_from_uri (g_strsplit data delimiter))
                false None None app Hbuf Huniq) as (app' & Hrun & Hrest).
    exists delimiter, app'. split; [exact Hin |].
    rewrite open_file_list_from_names. auto.
  - intros length. reflexivity.
Qed.

End OpenFilesProperties.

Lemma document_open_files_keep_registry_witness :
  let app := Samples.session in
  (valid_have_buffers (documents_array app) /\ unique_real_paths (documents_array app))
  /\ exists app',
       document_open_files app ["/tmp/b.txt"; "/tmp/link.txt"]%string false None None
       = Some app'
       /\ host app' = host app
       /\ unique_real_paths (documents_array app')
       /\ valid_have_buffers (documents_array app').
Proof.
  intros app.
  assert (Hbuf : valid_have_buffers (documents_array app)).
  { intros i d Hd Hv. destruct i as [| i]; simpl in Hd; [| discriminate].
    inversion Hd; subst d. eexists; reflexivity. }
  assert (Huniq : unique_real_paths (documents_array app)).
  { intros i j di dj rp Hi Hj _ _ _ _.
    destruct i as [| i]; simpl in Hi; [| discriminate].
    destruct j as [| j]; simpl in Hj; [reflexivity | discriminate]. }
  split; [split; [exact Hbuf | exact Huniq] |].
  destruct (document_open_files_keep_registry app Hbuf Huniq) as (Hfiles & _).
  exact (Hfiles ["/tmp/b.txt"; "/tmp/link.txt"]%string false None None).
Defined.

(** ** Closing everything *)

Section CloseAllProperties.
Context {Sci : Type} `{ScintillaOps Sci} `{EditorOps Sci} `{ScintillaEditOps Sci}.
Context {Nb : Type} `{NotebookOps Nb}.
Context {Host : Type} `{HostOps Host}.
Context `{EncodingOps} `{UriOps}.

(** The questions of the first loop of document_account_for_unsaved: one
    for each changed document of the pages, until one is declined. *)
Lemma account_for_unsaved_pages_outcome (docs : list (GeanyDocument Sci)) (nb : Nb) :
  tabs_show_documents docs nb ->
  forall (n : nat) (p : Z) (u : Ui),
    0 <= p -> (n = 0%nat \/ p + Z.of_nat n <= gtk_notebook_get_n_pages nb) ->
    exists r u',
      account_for_unsaved_pages n docs nb p u = Some (r, u')
      /\ ui_answers u' = ui_answers u
      /\ (ui_asked u <= ui_asked u' <= ui_asked u + n)%nat
      /\ (forall k, (ui_asked u <= k)%nat -> (S k < ui_asked u')%nat ->
          ui_answers u k = true)
      /\ (r = true -> forall k, (ui_asked u <= k < ui_asked u')%nat -> ui_answers u k = true)
      /\ (r = false ->
          (ui_asked u < ui_asked u')%nat
          /\ ui_answers u (Nat.pred (ui_asked u')) = false)
      /\ (exists shown, ui_log u' = ui_log u ++ shown
            /\ forall e, In e shown -> exists f, e = UiQuestion (MsgUnsavedQuestion f))
      /\ ((forall q i d, p <= q < p + Z.of_nat n -> notebook_page_document nb q = Some i ->
             docs !! i = Some d -> changed d = false) ->
          r = true /\ u' = u).
Proof.
  intros (Hcount & Hshow & _).
  induction n as [| n IH]; intros p u Hp Hn.
  - exists true, u. split; [reflexivity |]. split; [reflexivity |].
    split; [lia |]. split; [intros; lia |]. split; [intros; lia |].
    split; [discriminate |]. split; [| auto].
    exists []. rewrite app_nil_r. split; [reflexivity | intros e []].
  - cbn [account_for_unsaved_pages].
    destruct Hn as [Hn | Hn]; [discriminate |].
    destruct (Hshow p ltac:(lia)) as (i & d & Hpage & Hd & Hv).
    unfold document_get_from_page, document_find_by_page.
    destruct (Z.leb_spec (Z.of_nat (length docs)) p) as [Hle | _]; [lia |].
    rewrite Hpage. simpl. rewrite Hd. simpl. rewrite Hv. simpl. rewrite Hd. simpl.
    destruct (changed d) eqn:Ec.
    + unfold dialogs_show_question_full.
      destruct (ui_answers u (ui_asked u)) eqn:Eanswer.
      * match goal with |- context [account_for_unsaved_pages n docs nb (p + 1) ?U] =>
          destruct (IH (p + 1) U ltac:(lia) ltac:(right; lia))
            as (r & u' & Hrun & Hans & Hasked & Hearlier & Htrue & Hfalse
                & (shown & Hlog & Hshown) & _)
        end.
        simpl in Hans, Hasked, Hearlier, Htrue, Hfalse, Hlog.
        exists r, u'. split; [exact Hrun |]. split; [exact Hans |].
        split; [lia |].
        assert (Hyes : forall k, (ui_asked u <= k)%nat ->
                  (k = ui_asked u \/ (S (ui_asked u) <= k)%nat)) by (intros; lia).
        split.
        { intros k Hk Hlt. destruct (Hyes k Hk) as [-> | Hk']; [exact Eanswer |].
          apply Hearlier; lia. }
        split.
        { intros Hr k Hk. destruct (Hyes k ltac:(lia)) as [-> | Hk']; [exact Eanswer |].
          apply (Htrue Hr); lia. }
        split.
        { intros Hr. destruct (Hfalse Hr) as [Hlt Hno]. split; [lia | exact Hno]. }
        split.
        { eexists. split; [rewrite Hlog, <- app_assoc; reflexivity |].
          intros e [<- | Hin]; [eexists; reflexivity | exact (Hshown e Hin)]. }
        intros Hclean. specialize (Hclean p i d ltac:(lia) Hpage Hd). congruence.
      * do 2 eexists. split; [reflexivity |]. simpl.
        split; [reflexivity |]. split; [lia |].
        split; [intros; lia |]. split; [discriminate |].
        split; [intros _; split; [lia | exact Eanswer] |].
        split.
        { eexists. split; [reflexivity |].
          intros e [<- | []]. eexists; reflexivity. }
        intros Hclean. specialize (Hclean p i d ltac:(lia) Hpage Hd). congruence.
    + destruct (IH (p + 1) u ltac:(lia) ltac:(right; lia))
        as (r & u' & Hrun & Hans & Hasked & Hearlier & Htrue & Hfalse & Hlog & Hnone).
      exists r, u'. split; [exact Hrun |]. split; [exact Hans |].
      split; [lia |]. split; [exact Hearlier |]. split; [exact Htrue |].
      split; [exact Hfalse |]. split; [exact Hlog |].
      intros Hclean. apply Hnone. intros q j e Hq. apply Hclean. lia.
Qed.

Lemma ignore_changes_fields (d : GeanyDocument Sci) :
  is_valid (ignore_changes d) = is_valid d
  /\ sci (ignore_changes d) = sci d
  /\ file_name (ignore_changes d) = file_name d
  /\ real_path (ignore_changes d) = real_path d
  /\ (is_valid d = true -> changed (ignore_changes d) = false)
  /\ (ignore_changes d = d
      \/ (is_valid d = true /\ changed d = true /\ ignore_changes d = with_changed false d)).
Proof.
  unfold ignore_changes. destruct (is_valid d) eqn:Ev; destruct (changed d) eqn:Ec; simpl;
    repeat split; auto; try congruence.
Qed.

(** What document_account_for_unsaved leaves. *)
Lemma document_account_for_unsaved_cases (app : App Sci Nb Host) :
  tabs_show_documents (documents_array app) (notebook app) ->
  exists r app',
    document_account_for_unsaved app = Some (r, app')
    /\ host app' = host app /\ notebook app' = notebook app
    /\ main_status app' = main_status app /\ ui_answers (ui app') = ui_answers (ui app)
    /\ (r = true -> documents_array app' = List.map ignore_changes (documents_array app))
    /\ (ui_asked (ui app) <= ui_asked (ui app')
        <= ui_asked (ui app) + Z.to_nat (gtk_notebook_get_n_pages (notebook app)))%nat
    /\ (exists shown, ui_log (ui app') = ui_log (ui app) ++ shown
          /\ forall e, In e shown -> exists f, e = UiQuestion (MsgUnsavedQuestion f))
    /\ (r = false ->
        documents_array app' = documents_array app
        /\ (ui_asked (ui app) < ui_asked (ui app'))%nat
        /\ ui_answers (ui app) (Nat.pred (ui_asked (ui app'))) = false)
    /\ (r = true ->
        (forall k, (ui_asked (ui app) <= k < ui_asked (ui app'))%nat ->
           ui_answers (ui app) k = true)
        /\ length (documents_array app') = length (documents_array app)
        /\ (forall i d', documents_array app' !! i = Some d' -> is_valid d' = true ->
            changed d' = false)
        /\ (forall i d, documents_array app !! i = Some d ->
            exists d', documents_array app' !! i = Some d'
              /\ (d' = d \/ (is_valid d = true /\ changed d = true
                             /\ d' = with_changed false d))))
    /\ ((forall i d, shown_in_tab (notebook app) i -> documents_array app !! i = Some d ->
           changed d = false) ->
        r = true /\ ui app' = ui app).
Proof.
  intros Hfit. unfold document_account_for_unsaved.
  pose proof Hfit as (Hcount & Hshow & _).
  destruct (account_for_unsaved_pages_outcome _ _ Hfit
              (Z.to_nat (gtk_notebook_get_n_pages (notebook app))) 0 (ui app)
              ltac:(lia) ltac:(lia))
    as (r & u' & Hrun & Hans & Hasked & _ & Htrue & Hfalse & Hlog & Hnone).
  rewrite Hrun. simpl.
  assert (Hclean : (forall i d, shown_in_tab (notebook app) i ->
                      documents_array app !! i = Some d -> changed d = false) ->
                   r = true /\ u' = ui app).
  { intros Hc. apply Hnone. intros q i d Hq Hpage Hd.
    apply (Hc i d); [| exact Hd]. exists q. split; [lia | exact Hpage]. }
  destruct r.
  - do 2 eexists. split; [reflexivity |]. simpl.
    split; [reflexivity |]. split; [reflexivity |]. split; [reflexivity |].
    split; [exact Hans |]. split; [reflexivity |]. split; [exact Hasked |].
    split; [exact Hlog |]. split; [discriminate |]. split; [| exact Hclean].
    intros _. split; [exact (Htrue eq_refl) |].
    split; [apply length_map |]. split.
    + intros i d' Hd' Hv. apply list_lookup_fmap_Some in Hd'.
      destruct Hd' as (d & -> & Hd).
      destruct (ignore_changes_fields d) as (Hv' & _ & _ & _ & Hc & _).
      apply Hc. congruence.
    + intros i d Hd. exists (ignore_changes d). split.
      * apply list_lookup_fmap_Some. exists d. auto.
      * destruct (ignore_changes_fields d) as (_ & _ & _ & _ & _ & Hcases). exact Hcases.
  - do 2 eexists. split; [reflexivity |]. simpl.
    split; [reflexivity |]. split; [reflexivity |]. split; [reflexivity |].
    split; [exact Hans |]. split; [discriminate |]. split; [exact Hasked |].
    split; [exact Hlog |]. split; [| split; [discriminate | exact Hclean]].
    intros _. split; [reflexivity |]. exact (Hfalse eq_refl).
Qed.


(** X19: document_account_for_unsaved asks before it forgets, the dialog
    for unsaved files being taken as the confirmation that the user gives
    or refuses (a save run from it is an operation of its own).  When the
    tabs and the registry fit it returns, leaves the disk and the tabs
    alone by itself and asks at most one question for each tab, all of them
    about unsaved files.  FALSE means that the last question asked was declined:
    then no document has been touched.  TRUE means that every question
    asked was confirmed: then no valid document is marked as changed any
    more, and nothing else in the registry has changed.  Without a changed
    document in the tabs nothing is asked and the result is TRUE. *)
Theorem document_account_for_unsaved_outcome (app : App Sci Nb Host) :
  tabs_show_documents (documents_array app) (notebook app) ->
  exists r app',
    document_account_for_unsaved app = Some (r, app')
    /\ host app' = host app /\ notebook app' = notebook app
    /\ (ui_asked (ui app) <= ui_asked (ui app')
        <= ui_asked (ui app) + Z.to_nat (gtk_notebook_get_n_pages (notebook app)))%nat
    /\ (exists shown, ui_log (ui app') = ui_log (ui app) ++ shown
          /\ forall e, In e shown -> exists f, e = UiQuestion (MsgUnsavedQuestion f))
    /\ (r = false ->
        documents_array app' = documents_array app
        /\ (ui_asked (ui app) < ui_asked (ui app'))%nat
        /\ ui_answers (ui app) (Nat.pred (ui_asked (ui app'))) = false)
    /\ (r = true ->
        (forall k, (ui_asked (ui app) <= k < ui_asked (ui app'))%nat ->
           ui_answers (ui app) k = true)
        /\ length (documents_array app') = length (documents_array app)
        /\ (forall i d', documents_array app' !! i = Some d' -> is_valid d' = true ->
            changed d' = false)
        /\ (forall i d, documents_array app !! i = Some d ->
            exists d', documents_array app' !! i = Some d'
              /\ (d' = d \/ (is_valid d = true /\ changed d = true
                             /\ d' = with_changed false d))))
    /\ ((forall i d, shown_in_tab (notebook app) i -> documents_array app !! i = Some d ->
           changed d = false) ->
        r = true /\ ui app' = ui app).
Proof.
  intros Hfit.
  destruct (document_account_for_unsaved_cases app Hfit)
    as (r & app' & Hrun & Hhost & Hnb & _ & _ & _ & Hrest).
  exists r, app'. auto.
Qed.

End CloseAllProperties.

(** The tabs and the registry of the sample session fit. *)
Lemma session_tabs_fit :
  tabs_show_documents (documents_array Samples.session) (notebook Samples.session).
Proof.
  split; [simpl; lia | split].
  - intros p Hp. simpl in Hp. assert (p = 0) by lia. subst p.
    eexists 0%nat, _. split; [reflexivity | split; reflexivity].
  - intros p q i Hp Hq _ _. simpl in Hp, Hq. lia.
Defined.

Lemma document_account_for_unsaved_outcome_witness :
  let app := Samples.session in
  tabs_show_documents (documents_array app) (notebook app)
  /\ exists r app',
       document_account_for_unsaved app = Some (r, app')
       /\ host app' = host app /\ notebook app' = notebook app
       /\ (r = false -> documents_array app' = documents_array app)
       /\ (r = true ->
           forall i d', documents_array app' !! i = Some d' -> is_valid d' = true ->
             changed d' = false).
Proof.
  intros app. split; [exact session_tabs_fit |].
  destruct (document_account_for_unsaved_outcome app session_tabs_fit)
    as (r & app' & Hrun & Hhost & Hnb & _ & _ & Hfalse & Htrue & _).
  exists r, app'. repeat (split; [assumption |]).
  split.
  - intros Hr. exact (proj1 (Hfalse Hr)).
  - intros Hr. destruct (Htrue Hr) as (_ & _ & Hclean & _). exact Hclean.
Defined.

#[export] Instance ListNotebook_laws : NotebookLaws ListNotebook.t.
Proof.
  constructor.
  - intros nb. simpl. lia.
  - intros nb p Hp. simpl in *. unfold ListNotebook.remove_page.
    destruct (Z.ltb_spec p 0); [lia |].
    destruct (Z.leb_spec (Z.of_nat (List.length (ListNotebook.pages nb))) p); [lia |].
    simpl. rewrite length_app, length_firstn, length_skipn. lia.
  - intros nb p q Hp Hq. simpl in *.
    unfold ListNotebook.page_document, ListNotebook.remove_page.
    destruct (Z.ltb_spec p 0); [lia |].
    destruct (Z.leb_spec (Z.of_nat (List.length (ListNotebook.pages nb))) p); [lia |].
    simpl.
    destruct (Z.ltb_spec q 0); [lia |].
    assert (Hfirst : List.length (firstn (Z.to_nat p) (ListNotebook.pages nb)) = Z.to_nat p)
      by (rewrite length_firstn; lia).
    destruct (Z.ltb_spec q p) as [Hlt | Hge].
    + destruct (Z.ltb_spec q 0); [lia |].
      rewrite nth_error_app1 by (rewrite Hfirst; lia).
      rewrite nth_error_firstn.
      destruct (Nat.ltb_spec (Z.to_nat q) (Z.to_nat p)); [reflexivity | lia].
    + destruct (Z.ltb_spec (q + 1) 0); [lia |].
      rewrite nth_error_app2 by (rewrite Hfirst; lia).
      rewrite Hfirst, nth_error_skipn. f_equal. lia.
Qed.

Section CloseAllTabs.
Context {Sci : Type} `{ScintillaOps Sci} `{EditorOps Sci} `{ScintillaEditOps Sci}.
Context {Nb : Type} `{NotebookOps Nb} `{!NotebookLaws Nb}.
Context {Host : Type} `{HostOps Host}.
Context `{EncodingOps} `{UriOps}.

(** Closing the first tab while everything is being closed, when its
    document is not changed: nothing is asked and no recent file is added. *)
Lemma document_remove_page_quiet (app : App Sci Nb Host) (i : nat)
  (d : GeanyDocument Sci) :
  document_get_from_page (documents_array app) (notebook app) 0 = Some i ->
  documents_array app !! i = Some d -> changed d = false ->
  GeanyStatus.closing_all (main_status app) = true ->
  exists d0,
    fst (document_remove_page app 0) = true
    /\ documents_array (snd (document_remove_page app 0)) = <[i := d0]> (documents_array app)
    /\ is_valid d0 = false /\ sci d0 = None
    /\ notebook (snd (document_remove_page app 0)) = notebook_remove_page (notebook app) 0
    /\ ui (snd (document_remove_page app 0))
       = msgwin_status_add (MsgFileClosed (file_name d)) (ui app)
    /\ host (snd (document_remove_page app 0)) = host app
    /\ main_status (snd (document_remove_page app 0)) = main_status app.
Proof.
  intros Hpage Hd Hc Hclosing. unfold document_remove_page.
  rewrite Hpage, Hd, Hc, Hclosing. simpl.
  eexists. split; [reflexivity |]. split; [reflexivity |]. repeat split.
Qed.

(** The loop of force_close_all closes every tab without a question. *)
Lemma force_close_all_loop_closes (n : nat) :
  forall app : App Sci Nb Host,
    gtk_notebook_get_n_pages (notebook app) = Z.of_nat n ->
    tabs_show_documents (documents_array app) (notebook app) ->
    (forall i d, documents_array app !! i = Some d -> is_valid d = true ->
       changed d = false) ->
    GeanyStatus.closing_all (main_status app) = true ->
    exists app',
      (forall fuel, (S n <= fuel)%nat -> force_close_all_loop fuel app = Some app')
      /\ gtk_notebook_get_n_pages (notebook app') = 0
      /\ host app' = host app /\ main_status app' = main_status app
      /\ ui_asked (ui app') = ui_asked (ui app)
      /\ (exists shown, ui_log (ui app') = ui_log (ui app) ++ shown
            /\ forall e, In e shown -> exists f, e = UiMsgwin (MsgFileClosed f))
      /\ length (documents_array app') = length (documents_array app)
      /\ (forall i, shown_in_tab (notebook app) i ->
          exists d, documents_array app' !! i = Some d
                    /\ is_valid d = false /\ sci d = None)
      /\ (forall i, ~ shown_in_tab (notebook app) i ->
          documents_array app' !! i = documents_array app !! i).
Proof.
  induction n as [| n IH]; intros app Hn Hfit Hclean Hclosing.
  - exists app. split.
    { intros fuel Hfuel. destruct fuel as [| fuel]; [lia |]. simpl.
      rewrite Hn. reflexivity. }
    split; [exact Hn |]. repeat (split; [reflexivity |]).
    split; [exists []; rewrite app_nil_r; split; [reflexivity | intros e []] |].
    split; [reflexivity |]. split; [| reflexivity].
    intros i (p & Hp & _). lia.
  - destruct Hfit as (Hcount & Hshow & Hinj).
    destruct (Hshow 0 ltac:(lia)) as (i & d & Hpage0 & Hd & Hv).
    assert (Hlen : (0 < length (documents_array app))%nat).
    { apply lookup_lt_Some in Hd. lia. }
    assert (Hget : document_get_from_page (documents_array app) (notebook app) 0 = Some i).
    { unfold document_get_from_page, document_find_by_page.
      destruct (Z.leb_spec (Z.of_nat (length (documents_array app))) 0); [lia |].
      rewrite Hpage0. simpl. rewrite Hd. simpl. rewrite Hv. reflexivity. }
    destruct (document_remove_page_quiet app i d Hget Hd (Hclean i d Hd Hv) Hclosing)
      as (d0 & _ & Hdocs1 & Hv0 & Hs0 & Hnb1 & Hui1 & Hhost1 & Hstatus1).
    remember (snd (document_remove_page app 0)) as app1 eqn:Eapp1.
    assert (Hn1 : gtk_notebook_get_n_pages (notebook app1) = Z.of_nat n).
    { rewrite Hnb1, notebook_remove_page_n_pages by lia. lia. }
    assert (Hpages1 : forall p, 0 <= p ->
              notebook_page_document (notebook app1) p
              = notebook_page_document (notebook app) (p + 1)).
    { intros p Hp. rewrite Hnb1, notebook_remove_page_document by lia.
      destruct (Z.ltb_spec p 0); [lia | reflexivity]. }
    assert (Hother : forall p j, 0 <= p < Z.of_nat n ->
              notebook_page_document (notebook app) (p + 1) = Some j -> j <> i).
    { intros p j Hp Hj ->. pose proof (Hinj (p + 1) 0 i ltac:(lia) ltac:(lia) Hj Hpage0).
      lia. }
    assert (Hfit1 : tabs_show_documents (documents_array app1) (notebook app1)).
    { split; [| split].
      - rewrite Hn1, Hdocs1, length_insert. lia.
      - intros p Hp. rewrite Hn1 in Hp. rewrite (Hpages1 p) by lia.
        destruct (Hshow (p + 1) ltac:(lia)) as (j & e & Hj & He & Hve).
        exists j, e. split; [exact Hj |]. split; [| exact Hve].
        rewrite Hdocs1, list_lookup_insert_ne; [exact He |].
        intros Heq. apply (Hother p j Hp Hj). congruence.
      - intros p q j Hp Hq Hpj Hqj. rewrite Hn1 in Hp, Hq.
        rewrite (Hpages1 p) in Hpj by lia. rewrite (Hpages1 q) in Hqj by lia.
        pose proof (Hinj (p + 1) (q + 1) j ltac:(lia) ltac:(lia) Hpj Hqj). lia. }
    assert (Hclean1 : forall j e, documents_array app1 !! j = Some e -> is_valid e = true ->
              changed e = false).
    { intros j e He Hve. rewrite Hdocs1 in He.
      destruct (decide (i = j)) as [-> | Hne].
      - rewrite list_lookup_insert_eq in He by (eapply lookup_lt_Some; exact Hd).
        inversion He; subst e. congruence.
      - rewrite list_lookup_insert_ne in He by exact Hne. exact (Hclean j e He Hve). }
    assert (Hclosing1 : GeanyStatus.closing_all (main_status app1) = true)
      by (rewrite Hstatus1; exact Hclosing).
    destruct (IH app1 Hn1 Hfit1 Hclean1 Hclosing1)
      as (app' & Hrun & Hnone & Hhost & Hstatus & Hasked & (shown & Hlog & Hshown)
          & Hlength & Hclosed & Hkept).
    assert (Hnot1 : ~ shown_in_tab (notebook app1) i).
    { intros (p & Hp & Hpi). rewrite Hn1 in Hp. rewrite (Hpages1 p) in Hpi by lia.
      exact (Hother p i Hp Hpi eq_refl). }
    exists app'. split.
    { intros fuel Hfuel. destruct fuel as [| fuel]; [lia |]. simpl.
      rewrite Hn. destruct (Z.ltb_spec 0 (Z.of_nat (S n))); [| lia].
      rewrite <- Eapp1. apply Hrun. lia. }
    split; [exact Hnone |]. split; [congruence |]. split; [congruence |].
    split; [rewrite Hasked, Hui1; reflexivity |].
    split.
    { eexists. split; [rewrite Hlog, Hui1; simpl; rewrite <- app_assoc; reflexivity |].
      intros e [<- | Hin]; [eexists; reflexivity | exact (Hshown e Hin)]. }
    split; [rewrite Hlength, Hdocs1; apply length_insert |].
    split.
    + intros j (p & Hp & Hpj).
      destruct (decide (p = 0)) as [-> | Hp0].
      * assert (j = i) by congruence. subst j.
        exists d0. rewrite (Hkept i Hnot1), Hdocs1.
        split; [apply list_lookup_insert_eq; eapply lookup_lt_Some; exact Hd | auto].
      * apply Hclosed. exists (p - 1). split; [lia |].
        rewrite (Hpages1 (p - 1)) by lia. replace (p - 1 + 1) with p by lia. exact Hpj.
    + intros j Hnot.
      assert (Hne : i <> j).
      { intros ->. apply Hnot. exists 0. split; [lia | exact Hpage0]. }
      rewrite Hkept.
      * rewrite Hdocs1. apply list_lookup_insert_ne. exact Hne.
      * intros (p & Hp & Hpj). apply Hnot. exists (p + 1). rewrite Hn1 in Hp.
        split; [lia |]. rewrite <- (Hpages1 p) by lia. exact Hpj.
Qed.

Lemma no_changed_documents (docs : list (GeanyDocument Sci)) :
  (forall i d, docs !! i = Some d -> is_valid d = true -> changed d = false) ->
  List.existsb (fun doc => is_valid doc && changed doc) docs = false.
Proof.
  intros Hclean. apply not_true_iff_false. intros Hex.
  apply existsb_exists in Hex. destruct Hex as (d & Hin & Hd).
  apply andb_true_iff in Hd. destruct Hd as [Hv Hc].
  apply list_elem_of_In, list_elem_of_lookup in Hin. destruct Hin as [i Hi].
  rewrite (Hclean i d Hi Hv) in Hc. discriminate.
Qed.

(** X20: document_close_all asks in a first pass and closes in a second,
    the dialog for unsaved files being taken as the confirmation that the
    user gives or refuses (a save run from it is an operation of its own).
    When the tabs and the registry fit, for a tab widget that satisfies the
    laws, it returns.  At most one question is asked for each tab, and
    besides the questions about unsaved files only the lines about closed
    files are shown: no file is added to the recent files.  The result is
    FALSE exactly when a question was declined, and then no document is
    closed or touched and the tabs are as they were.  Otherwise the result
    is TRUE: no tab is left, every document that was shown in a tab is
    closed, its slot invalid and without buffer, the other slots differ at
    most in a changed flag that was cleared, and the closing-all flag of
    the program is off again. *)
Theorem document_close_all_outcome (app : App Sci Nb Host) :
  tabs_show_documents (documents_array app) (notebook app) ->
  exists r app',
    (forall fuel, (S (Z.to_nat (gtk_notebook_get_n_pages (notebook app))) <= fuel)%nat ->
       document_close_all fuel app = Some (r, app'))
    /\ host app' = host app
    /\ (ui_asked (ui app) <= ui_asked (ui app')
        <= ui_asked (ui app) + Z.to_nat (gtk_notebook_get_n_pages (notebook app)))%nat
    /\ (exists shown, ui_log (ui app') = ui_log (ui app) ++ shown
          /\ forall e, In e shown ->
               (exists f, e = UiQuestion (MsgUnsavedQuestion f))
               \/ (exists f, e = UiMsgwin (MsgFileClosed f)))
    /\ (r = false <->
        exists k, (ui_asked (ui app) <= k < ui_asked (ui app'))%nat
                  /\ ui_answers (ui app) k = false)
    /\ (r = false ->
        documents_array app' = documents_array app /\ notebook app' = notebook app
        /\ main_status app' = main_status app)
    /\ (r = true ->
        gtk_notebook_get_n_pages (notebook app') = 0
        /\ GeanyStatus.closing_all (main_status app') = false
        /\ length (documents_array app') = length (documents_array app)
        /\ (forall i, shown_in_tab (notebook app) i ->
            exists d, documents_array app' !! i = Some d
                      /\ is_valid d = false /\ sci d = None)
        /\ (forall i, ~ shown_in_tab (notebook app) i ->
            documents_array app' !! i = ignore_changes <$> documents_array app !! i)).
Proof.
  intros Hfit.
  destruct (document_account_for_unsaved_cases app Hfit)
    as (r & app1 & Hrun & Hhost & Hnb & Hstatus & Hans & Hmap & Hasked
        & (shown & Hlog & Hshown) & Hfalse & Htrue & _).
  destruct r.
  - destruct (Htrue eq_refl) as (Hyes & Hlen & Hclean & _).
    specialize (Hmap eq_refl). clear Hfalse Htrue.
    set (app2 := with_main_status (with_closing_all true (main_status app1)) app1).
    assert (Hfit2 : tabs_show_documents (documents_array app2) (notebook app2)).
    { subst app2. simpl. rewrite Hnb, Hmap.
      destruct Hfit as (Hcount & Hshow & Hinj). split; [| split].
      - rewrite length_map. exact Hcount.
      - intros p Hp. destruct (Hshow p Hp) as (i & d & Hpage & Hd & Hv).
        exists i, (ignore_changes d). split; [exact Hpage |]. split.
        + apply list_lookup_fmap_Some. exists d. auto.
        + destruct (ignore_changes_fields d) as (Hv' & _). congruence.
      - exact Hinj. }
    destruct (force_close_all_loop_closes
                (Z.to_nat (gtk_notebook_get_n_pages (notebook app))) app2
                ltac:(subst app2; simpl; rewrite Hnb;
                      pose proof (notebook_n_pages_nonneg (notebook app)); lia)
                Hfit2 Hclean eq_refl)
      as (app3 & Hloop & Hnone & Hhost3 & Hstatus3 & Hasked3 & (shown3 & Hlog3 & Hshown3)
          & Hlen3 & Hclosed & Hkept).
    subst app2. simpl in Hhost3, Hstatus3, Hasked3, Hlog3, Hlen3, Hclosed, Hkept.
    exists true. eexists. split.
    { intros fuel Hfuel. unfold document_close_all. rewrite Hrun. simpl.
      unfold force_close_all. rewrite (no_changed_documents _ Hclean).
      rewrite (Hloop fuel Hfuel). reflexivity. }
    simpl. split; [congruence |]. split; [lia |].
    split.
    { exists (shown ++ shown3). split; [rewrite Hlog3, Hlog, app_assoc; reflexivity |].
      intros e Hin. apply in_app_or in Hin. destruct Hin as [Hin | Hin]; auto. }
    split.
    { split; [discriminate |]. intros (k & Hk & Hno).
      rewrite Hasked3 in Hk. rewrite (Hyes k Hk) in Hno. discriminate. }
    split; [discriminate |]. intros _.
    split; [exact Hnone |]. split; [reflexivity |]. split; [congruence |].
    split.
    + intros i Hi. apply Hclosed. rewrite Hnb. exact Hi.
    + intros i Hi. rewrite Hkept by (rewrite Hnb; exact Hi).
      rewrite Hmap. apply list_lookup_fmap.
  - destruct (Hfalse eq_refl) as (Hdocs & Hlt & Hno). clear Hfalse Htrue.
    exists false, app1. split.
    { intros fuel _. unfold document_close_all. rewrite Hrun. reflexivity. }
    split; [exact Hhost |]. split; [exact Hasked |].
    split; [exists shown; split; [exact Hlog | intros e Hin; left; auto] |].
    split.
    { split; [intros _ | reflexivity].
      exists (Nat.pred (ui_asked (ui app1))). split; [lia | exact Hno]. }
    split; [auto | discriminate].
Qed.

End CloseAllTabs.

Lemma document_close_all_outcome_witness :
  let app := Samples.session in
  tabs_show_documents (documents_array app) (notebook app)
  /\ exists r app',
       (forall fuel,
          (S (Z.to_nat (gtk_notebook_get_n_pages (notebook app))) <= fuel)%nat ->
          document_close_all fuel app = Some (r, app'))
       /\ host app' = host app
       /\ (r = false ->
           documents_array app' = documents_array app /\ notebook app' = notebook app)
       /\ (r = true ->
           gtk_notebook_get_n_pages (notebook app') = 0
           /\ forall i, shown_in_tab (notebook app) i ->
                exists d, documents_array app' !! i = Some d
                          /\ is_valid d = false /\ sci d = None).
Proof.
  intros app. split; [exact session_tabs_fit |].
  destruct (document_close_all_outcome app session_tabs_fit)
    as (r & app' & Hrun & Hhost & _ & _ & _ & Hfalse & Htrue).
  exists r, app'. split; [exact Hrun |]. split; [exact Hhost |]. split.
  - intros Hr. destruct (Hfalse Hr) as (Hdocs & Hnb & _). auto.
  - intros Hr. destruct (Htrue Hr) as (Hnone & _ & _ & Hclosed & _). auto.
Defined.

(** ** Replacing in the selection *)

Section ReplaceSelProperties.
Context {Sci : Type} `{ScintillaOps Sci} `{!ScintillaLaws Sci} `{ScintillaEditOps Sci}.

(** X21: document_replace_sel on a selection that is not a rectangle over
    several lines.  With an empty find text it does nothing at all.
    Otherwise, on a buffer that satisfies the laws of the widget and whose
    selection lies in the text, it returns.  Without a selection it only
    beeps.  When nothing is replaced in the selection, which is always so
    for a read-only document, the text is as it was, it beeps and the
    status bar says that there are no matches.  When something is replaced
    the selection is set anew from its old start to the new end of the
    range, which lies in the new text with at least as much text behind it
    as there was behind the old selection, and the status bar gives the
    number of replacements, without a beep. *)
Theorem document_replace_sel_stream (u : Ui) (doc : GeanyDocument Sci) (s : Sci)
  (find_text replace_text : string) (flags : Z) :
  sci doc = Some s -> find_text <> EmptyString ->
  0 <= sci_get_selection_start s <= sci_get_selection_end s ->
  sci_get_selection_end s <= sci_get_length s ->
  sci_get_selection_mode s <> SC_SEL_RECTANGLE \/ sci_get_lines_selected s <= 1 ->
  (forall fuel, document_replace_sel fuel u doc EmptyString replace_text flags
                = Some (doc, u))
  /\ exists doc' u' s',
       (forall fuel,
          (Z.to_nat (sci_get_selection_end s - sci_get_selection_start s) + 1 <= fuel)%nat ->
          document_replace_sel fuel u doc find_text replace_text flags = Some (doc', u'))
       /\ sci doc' = Some s'
       /\ (sci_get_selection_start s = sci_get_selection_end s ->
           doc' = doc /\ u' = utils_beep u)
       /\ (sci_get_selection_start s < sci_get_selection_end s ->
           (same_text s s'
            /\ u' = ui_set_statusbar (MsgNoMatches find_text) (utils_beep u))
           \/ (readonly doc = false
               /\ exists count new_end s1,
                    0 < count
                    /\ u' = ui_set_statusbar (MsgReplaced count find_text replace_text) u
                    /\ s' = sci_set_selection_end
                              (sci_set_selection_start s1 (sci_get_selection_start s))
                              new_end
                    /\ 0 <= new_end <= sci_get_length s1
                    /\ sci_get_length s - sci_get_selection_end s
                       <= sci_get_length s1 - new_end))
       /\ (readonly doc = true -> sci_get_selection_start s < sci_get_selection_end s ->
           same_text s s'
           /\ u' = ui_set_statusbar (MsgNoMatches find_text) (utils_beep u)).
Proof.
  intros Hs Hfind Hsel Hend Hstream. split; [reflexivity |].
  unfold document_replace_sel. rewrite (str_is_empty_false find_text Hfind), Hs. simpl.
  destruct (Z.eqb_spec (sci_get_selection_end s - sci_get_selection_start s) 0) as [Hz | Hnz].
  { exists doc, (utils_beep u), s. split; [reflexivity |]. split; [exact Hs |].
    split; [auto |]. split; intros; lia. }
  assert (Hrect : (sci_get_selection_mode s =? SC_SEL_RECTANGLE)
                  && (1 <? sci_get_lines_selected s) = false).
  { destruct Hstream as [Hmode | Hlines].
    - rewrite (proj2 (Z.eqb_neq _ _) Hmode). reflexivity.
    - rewrite (proj2 (Z.ltb_ge _ _) Hlines). apply andb_false_r. }
  rewrite Hrect.
  destruct (document_replace_range_outcome doc s find_text replace_text flags
              (sci_get_selection_start s) (sci_get_selection_end s) true Hs Hsel Hend)
    as (count & new_end & doc1 & s1 & Hall & Hs1 & Hcount & Hnone & Hsame & Hsome).
  assert (Hro : readonly doc = true -> count = 0).
  { intros Hreadonly. specialize (Hall _ (Nat.le_refl _)).
    unfold document_replace_range in Hall. rewrite Hreadonly, orb_true_r in Hall.
    inversion Hall. reflexivity. }
  destruct (Z.eqb_spec new_end (-1)) as [Hminus | Hplus].
  - assert (Hzero : count = 0) by (apply Hnone; exact Hminus).
    exists (with_sci (Some s1) doc1), (show_replace_summary (utils_beep u) count find_text
                                         replace_text), s1.
    split.
    { intros fuel Hfuel. rewrite (Hall fuel Hfuel). simpl. rewrite Hs1. simpl.
      rewrite Hminus. reflexivity. }
    split; [reflexivity |]. split; [intros; lia |].
    unfold show_replace_summary. rewrite Hzero. simpl.
    split; [intros _; left; split; [exact (Hsame Hzero) | reflexivity] |].
    intros _ _. split; [exact (Hsame Hzero) | reflexivity].
  - assert (Hpos : 0 < count).
    { destruct (Z.eq_dec count 0) as [Hz | Hz]; [| lia].
      exfalso. apply Hplus. apply Hnone. exact Hz. }
    eexists (with_sci (Some _) doc1), (show_replace_summary u count find_text replace_text), _.
    split.
    { intros fuel Hfuel. rewrite (Hall fuel Hfuel). simpl. rewrite Hs1. simpl.
      destruct (Z.eqb_spec new_end (-1)); [contradiction |]. reflexivity. }
    split; [reflexivity |]. split; [intros; lia |].
    unfold show_replace_summary. destruct (Z.eqb_spec count 0); [lia |].
    split.
    + intros _. right. split.
      * destruct (readonly doc) eqn:Ero; [| reflexivity].
        specialize (Hro eq_refl). lia.
      * exists count, new_end, s1. split; [exact Hpos |]. split; [reflexivity |].
        split; [reflexivity |]. exact (Hsome Hpos).
    + intros Hreadonly. specialize (Hro Hreadonly). lia.
Qed.

End ReplaceSelProperties.

Lemma document_replace_sel_stream_witness :
  let s := Samples.buffer "foo bar foo" 0 7 in
  let doc := Samples.doc_on s in
  (sci doc = Some s /\ "foo"%string <> EmptyString
   /\ 0 <= sci_get_selection_start s <= sci_get_selection_end s
   /\ sci_get_selection_end s <= sci_get_length s
   /\ (sci_get_selection_mode s <> SC_SEL_RECTANGLE \/ sci_get_lines_selected s <= 1))
  /\ exists doc' u' s',
       (forall fuel,
          (Z.to_nat (sci_get_selection_end s - sci_get_selection_start s) + 1 <= fuel)%nat ->
          document_replace_sel fuel Samples.quiet_ui doc "foo" "quux" SCFIND_MATCHCASE
          = Some (doc', u'))
       /\ sci doc' = Some s'
       /\ (sci_get_selection_start s < sci_get_selection_end s ->
           (same_text s s'
            /\ u' = ui_set_statusbar (MsgNoMatches "foo") (utils_beep Samples.quiet_ui))
           \/ (readonly doc = false
               /\ exists count new_end s1,
                    0 < count
                    /\ u' = ui_set_statusbar (MsgReplaced count "foo" "quux") Samples.quiet_ui
                    /\ s' = sci_set_selection_end
                              (sci_set_selection_start s1 (sci_get_selection_start s))
                              new_end
                    /\ 0 <= new_end <= sci_get_length s1
                    /\ sci_get_length s - sci_get_selection_end s
                       <= sci_get_length s1 - new_end)).
Proof.
  intros s doc.
  assert (Hin : sci doc = Some s /\ "foo"%string <> EmptyString
                /\ 0 <= sci_get_selection_start s <= sci_get_selection_end s
                /\ sci_get_selection_end s <= sci_get_length s
                /\ (sci_get_selection_mode s <> SC_SEL_RECTANGLE
                    \/ sci_get_lines_selected s <= 1)).
  { split; [reflexivity |]. split; [discriminate |].
    split; [vm_compute; split; discriminate |]. split; [vm_compute; discriminate |].
    left. vm_compute. discriminate. }
  split; [exact Hin |].
  destruct Hin as (Hs & Hfind & Hsel & Hend & Hstream).
  destruct (document_replace_sel_stream Samples.quiet_ui doc s "foo" "quux" SCFIND_MATCHCASE
              Hs Hfind Hsel Hend Hstream)
    as (_ & doc' & u' & s' & Hrun & Hs' & _ & Hreplaced & _).
  exists doc', u', s'. auto.
Defined.

(** ** The column of a byte position *)

Section LineColumnProperties.
Context {Sci : Type} `{ScintillaOps Sci} `{ScintillaEditOps Sci}.

(** More iterations than bytes between the position and the column bound
    change nothing. *)
Lemma line_column_loop_more_fuel (s : Sci) (line_start : Z) :
  forall (n : nat) (i column : Z),
    (Z.to_nat (line_start + column - i) <= n)%nat ->
    line_column_loop s (S n) i line_start column = line_column_loop s n i line_start column.
Proof.
  induction n as [| n IH]; intros i column Hn.
  - simpl. destruct (Z.ltb_spec i (line_start + column)); [lia | reflexivity].
  - cbn [line_column_loop].
    destruct (Z.ltb_spec i (line_start + column)) as [Hlt | Hge]; [| reflexivity].
    destruct (128 <=? nat_of_ascii (sci_get_char_at s i))%nat.
    + rewrite <- (IH (i + 2) (column - 1)) by lia. reflexivity.
    + rewrite <- (IH (i + 1) column) by lia. reflexivity.
Qed.

Lemma line_column_loop_enough_fuel (s : Sci) (line_start : Z) (i column : Z) :
  forall n m : nat,
    (Z.to_nat (line_start + column - i) <= n)%nat -> (n <= m)%nat ->
    line_column_loop s m i line_start column = line_column_loop s n i line_start column.
Proof.
  intros n m Hn Hm. induction Hm as [| m Hm IH]; [reflexivity |].
  rewrite line_column_loop_more_fuel by lia. exact IH.
Qed.

(** The column that the loop gives lies between the column so far less the
    number of two-byte characters ahead, and the column so far. *)
Lemma line_column_loop_bounds (s : Sci) (line_start stop : Z) :
  forall (n : nat) (chars : list bool) (i column : Z),
    two_byte_text s i chars stop -> line_start + column <= stop ->
    column - Z.of_nat (length (List.filter (fun wide : bool => wide) chars))
    <= line_column_loop s n i line_start column <= column.
Proof.
  induction n as [| n IH]; intros chars i column Htext Hbound.
  - simpl. lia.
  - cbn [line_column_loop].
    destruct (Z.ltb_spec i (line_start + column)) as [Hlt | Hge]; [| lia].
    destruct chars as [| wide rest]; cbn [two_byte_text] in Htext; [lia |].
    destruct Htext as [Hwide Hrest]. rewrite Hwide.
    destruct wide.
    + specialize (IH rest (i + 2) (column - 1) Hrest ltac:(lia)).
      simpl. lia.
    + specialize (IH rest (i + 1) column Hrest ltac:(lia)).
      simpl. lia.
Qed.

Lemma two_byte_text_length (s : Sci) :
  forall (chars : list bool) (pos stop : Z),
    two_byte_text s pos chars stop ->
    stop - pos
    = Z.of_nat (length chars) + Z.of_nat (length (List.filter (fun wide : bool => wide) chars)).
Proof.
  induction chars as [| wide rest IH]; intros pos stop Htext; cbn [two_byte_text] in Htext.
  - simpl. lia.
  - destruct Htext as [_ Hrest]. specialize (IH _ _ Hrest).
    destruct wide; simpl; lia.
Qed.

(** X22: the column that get_line_column_from_pos gives for a byte
    position, on a document with a buffer.  The loop runs to its end.  When
    the bytes of the line before the position are characters of one or two
    bytes each, the column is at most the byte offset in the line and at
    least the number of these characters; it is that number when none of
    them has two bytes. *)
Theorem get_line_column_from_pos_bounds (doc : GeanyDocument Sci) (s : Sci) (byte_pos : Z) :
  sci doc = Some s ->
  let line := sci_get_line_from_position s byte_pos in
  let line_start := sci_get_position_from_line s line in
  exists column,
    get_line_column_from_pos doc byte_pos = Some (line, column)
    /\ (forall n, (Z.to_nat (byte_pos - line_start) <= n)%nat ->
        line_column_loop s n line_start line_start (byte_pos - line_start) = column)
    /\ (forall chars, two_byte_text s line_start chars byte_pos ->
        Z.of_nat (length chars) <= column <= byte_pos - line_start
        /\ (Forall (fun wide => wide = false) chars ->
            column = Z.of_nat (length chars) /\ column = byte_pos - line_start)).
Proof.
  intros Hs line line_start. unfold get_line_column_from_pos. rewrite Hs. simpl.
  fold line. fold line_start.
  eexists. split; [reflexivity |]. split.
  - intros n Hn. apply line_column_loop_enough_fuel; [| exact Hn].
    replace (line_start + (byte_pos - line_start) - line_start)
      with (byte_pos - line_start) by lia. lia.
  - intros chars Htext.
    pose proof (line_column_loop_bounds s line_start byte_pos
                  (Z.to_nat (byte_pos - line_start)) chars line_start
                  (byte_pos - line_start) Htext ltac:(lia)) as Hbounds.
    pose proof (two_byte_text_length s chars line_start byte_pos Htext) as Hlen.
    split; [lia |].
    intros Hascii.
    assert (Hnone : length (List.filter (fun wide : bool => wide) chars) = 0%nat).
    { clear -Hascii. induction Hascii as [| wide rest Hw _ IH]; [reflexivity |].
      subst wide. exact IH. }
    rewrite Hnone in *. lia.
Qed.

End LineColumnProperties.

Lemma get_line_column_from_pos_bounds_witness :
  let s := Samples.buffer (String.append "ab" (String LF "cdef")) 0 0 in
  let doc := Samples.doc_on s in
  sci doc = Some s
  /\ exists column,
       get_line_column_from_pos doc 5 = Some (sci_get_line_from_position s 5, column)
       /\ forall chars,
            two_byte_text s (sci_get_position_from_line s (sci_get_line_from_position s 5))
              chars 5 ->
            Z.of_nat (length chars) <= column.
Proof.
  intros s doc. split; [reflexivity |].
  destruct (get_line_column_from_pos_bounds doc s 5 eq_refl) as (column & Hrun & _ & Hchars).
  exists column. split; [exact Hrun |].
  intros chars Htext. destruct (Hchars chars Htext) as [[Hle _] _]. exact Hle.
Defined.

(** In a line of plain characters the column is the byte offset.  After
    three characters of two bytes each the column that the loop gives is 4:
    the bound of the loop shrinks with every such character, so that the
    third one is not reached. *)
Example get_line_column_from_pos_samples :
  let wide := String (ascii_of_nat 195) (String (ascii_of_nat 164) EmptyString) in
  get_line_column_from_pos
    (Samples.doc_on (Samples.buffer (String.append "ab" (String LF "cdef")) 0 0)) 5
  = Some (1, 2)
  /\ get_line_column_from_pos
       (Samples.doc_on (Samples.buffer (String.append wide (String.append wide wide)) 0 0)) 6
     = Some (0, 4)
  /\ get_line_column_from_pos
       (Samples.doc_on (Samples.buffer (String.append wide (String.append wide "ab")) 0 0)) 6
     = Some (0, 4).
Proof. repeat split; vm_compute; reflexivity. Qed.

(** ** Opening a file that is not open yet *)

Section OpenNewProperties.
Context {Sci : Type} `{ScintillaOps Sci} `{EditorOps Sci}.
Context {Nb : Type} `{NotebookOps Nb}.
Context {Host : Type} `{HostOps Host}.
Context `{EncodingOps}.

Lemma document_set_filetype_keeps (d : GeanyDocument Sci) (type : option GeanyFiletype) :
  index (document_set_filetype d type) = index d
  /\ encoding (document_set_filetype d type) = encoding d
  /\ has_bom (document_set_filetype d type) = has_bom d
  /\ mtime (document_set_filetype d type) = mtime d
  /\ readonly (document_set_filetype d type) = readonly d
  /\ saved_encoding (document_set_filetype d type) = saved_encoding d
  /\ undo_actions (document_set_filetype d type) = undo_actions d
  /\ redo_actions (document_set_filetype d type) = redo_actions d
  /\ (forall t, type = Some t -> file_type (document_set_filetype d type) = Some t)
  /\ (type = None -> file_type (document_set_filetype d type) = file_type d).
Proof. destruct type; simpl; repeat split; intros; try congruence; try discriminate. Qed.

(** The document that the loading part of document_open_file_full creates
    from the data of a file. *)
Lemma document_open_file_load_created (app : App Sci Nb Host)
  (locale_filename utf8_filename : string) (pos : Z) (read_only : bool)
  (ft : option GeanyFiletype) (forced_enc : option string) :
  let forced :=
    match GeanyFilePrefs.default_open_encoding (file_prefs app), forced_enc with
    | Some e, None => Some (encodings_charset e)
    | _, _ => forced_enc
    end in
  let loaded :=
    load_text_file (host app) (main_status app) (ui app) locale_filename utf8_filename
      forced in
  match fst loaded with
  | None =>
    document_open_file_load app false None (Some (locale_filename, utf8_filename)) pos
      read_only ft forced_enc = Some (None, with_ui (snd loaded) app)
  | Some fd =>
    exists (idx : nat) (app' : App Sci Nb Host) (d : GeanyDocument Sci) (shown : list ui_event),
      document_open_file_load app false None (Some (locale_filename, utf8_filename)) pos
        read_only ft forced_enc = Some (Some idx, app')
      /\ idx = fst (document_create (with_ui (snd loaded) app) (Some utf8_filename))
      /\ documents_array app' !! idx = Some d
      /\ is_valid d = true /\ index d = idx /\ file_name d = Some utf8_filename
      /\ real_path d = get_real_path_from_utf8 (host app) utf8_filename
      /\ is_Some (sci d)
      /\ encoding d = FileData.enc fd /\ has_bom d = FileData.bom fd
      /\ mtime d = FileData.mtime fd
      /\ readonly d = read_only || FileData.readonly fd
      /\ changed d = false
      /\ saved_encoding d
         = {| fe_encoding := FileData.enc fd; fe_has_bom := FileData.bom fd |}
      /\ undo_actions d = [] /\ redo_actions d = []
      /\ (forall t, ft = Some t -> file_type d = Some t)
      /\ ui_asked (ui app')
         = ui_asked (ui (snd (document_create (with_ui (snd loaded) app)
                                (Some utf8_filename))))
      /\ ui_log (ui app')
         = ui_log (ui (snd (document_create (with_ui (snd loaded) app)
                              (Some utf8_filename))))
           ++ shown
              ++ (if GeanyStatus.opening_session_files (main_status app) then []
                  else [UiRecentFile (Some utf8_filename)])
              ++ (if geany_object app then [UiSignal "document-open" idx] else [])
              ++ [UiMsgwin (MsgFileOpened utf8_filename read_only)]
      /\ (forall e, In e shown -> exists b, e = UiStatusbar (MsgSettingIndentation b))
  end.
Proof.
  intros forced loaded. subst loaded forced. unfold document_open_file_load.
  destruct (load_text_file _ _ _ locale_filename utf8_filename _) as [loaded u1].
  destruct loaded as [fd |]; [| reflexivity].
  simpl.
  pose proof (document_create_result (with_ui u1 app) (Some utf8_filename)) as Hcreate.
  cbv zeta in Hcreate.
  destruct (document_create (with_ui u1 app) (Some utf8_filename)) as [idx app2].
  simpl fst in *. simpl snd in *.
  destruct Hcreate as ((Hhost & Hprefs & Hfprefs & Hobj & Hstatus & Hcl) & _
                       & (this & Hthis & Hv & Hi & Hfn & Hsci & Hrp & _ & _ & _ & Hu & Hr
                          & _) & _).
  rewrite Hthis. simpl. rewrite Hsci. simpl.
  match goal with |- context [set_cursor_position ?D ?P ?C] =>
    assert (HBv : is_valid D = is_valid this) by reflexivity;
    assert (HBi : index D = index this) by reflexivity;
    assert (HBn : file_name D = file_name this) by reflexivity;
    assert (HBe : encoding D = FileData.enc fd) by reflexivity;
    assert (HBb : has_bom D = FileData.bom fd) by reflexivity;
    assert (HBm : mtime D = FileData.mtime fd) by reflexivity;
    assert (HBr : readonly D = read_only || FileData.readonly fd) by reflexivity;
    assert (HBs : saved_encoding D
                  = {| fe_encoding := FileData.enc fd; fe_has_bom := FileData.bom fd |})
      by reflexivity;
    assert (HBu : undo_actions D = undo_actions this) by reflexivity;
    assert (HBre : redo_actions D = redo_actions this) by reflexivity;
    destruct (set_cursor_position_some D P C _ eq_refl) as (s' & percent & cl' & Hcur);
    set (B := D) in *; clearbody B
  end.
  rewrite Hcur. simpl.
  match goal with |- context [set_indentation ?E ?U (document_set_filetype ?D0 ?T)] =>
    destruct (document_set_filetype_fields D0 T) as (Fsci & Fvalid & Fname & Freal);
    destruct (document_set_filetype_keeps D0 T)
      as (Ki & Ke & Kb & Km & Kr & Ks & Ku & Kre & Kft & _);
    assert (Hind : exists b u2 shown,
              set_indentation E U (document_set_filetype D0 T)
              = Some (editor_set_use_tabs (document_set_filetype D0 T) b, u2)
              /\ ui_asked u2 = ui_asked U /\ ui_log u2 = ui_log U ++ shown
              /\ forall e, In e shown -> exists b', e = UiStatusbar (MsgSettingIndentation b'));
    [| assert (HT : forall t, ft = Some t -> T = Some t)
         by (intros t ->; reflexivity);
       set (F := document_set_filetype D0 T) in *; clearbody F ]
  end.
  { unfold set_indentation.
    assert (Hquiet : forall (u : Ui), exists shown : list ui_event,
              ui_log u = ui_log u ++ shown
              /\ forall e, In e shown -> exists b', e = UiStatusbar (MsgSettingIndentation b')).
    { intros u. exists []. rewrite app_nil_r. split; [reflexivity | intros e []]. }
    destruct (filetype_id_eqb _ _).
    { destruct (Hquiet (ui app2)) as (shown & Hlog & Hshown).
      do 3 eexists. split; [reflexivity |]. split; [reflexivity |]. split; eassumption. }
    destruct (negb _).
    { destruct (Hquiet (ui app2)) as (shown & Hlog & Hshown).
      do 3 eexists. split; [reflexivity |]. split; [reflexivity |]. split; eassumption. }
    rewrite Fsci. simpl.
    destruct (negb (Bool.eqb _ _)).
    - do 3 eexists. split; [reflexivity |]. split; [reflexivity |].
      split; [reflexivity |]. intros e [<- | []]. eexists; reflexivity.
    - destruct (Hquiet (ui app2)) as (shown & Hlog & Hshown).
      do 3 eexists. split; [reflexivity |]. split; [reflexivity |]. split; eassumption. }
  destruct Hind as (b & u2 & shown & Hind & Hasked & Hlog & Hshown).
  rewrite Hind. simpl.
  exists idx. eexists. eexists. exists shown.
  split; [reflexivity |]. split; [reflexivity |]. simpl.
  split; [apply list_lookup_insert_eq; eapply lookup_lt_Some; exact Hthis |].
  unfold document_set_text_changed, editor_set_use_tabs. simpl.
  simpl in Fvalid, Fname, Freal, Ki, Ke, Kb, Km, Kr, Ks, Ku, Kre.
  rewrite Hstatus, Hobj, Hhost in *.
  split; [congruence |]. split; [congruence |]. split; [congruence |].
  split; [rewrite Freal, HBn, Hfn; reflexivity |].
  split; [rewrite Fsci; eexists; reflexivity |].
  repeat (split; [congruence |]).
  split; [intros t Ht; exact (Kft t (HT t Ht)) |].
  simpl in *.
  split.
  { destruct (GeanyStatus.opening_session_files (main_status app));
      destruct (geany_object app); simpl; exact Hasked. }
  split; [| exact Hshown].
  destruct (GeanyStatus.opening_session_files (main_status app));
    destruct (geany_object app); simpl; rewrite Hlog, <- ?app_assoc; reflexivity.
Qed.

(** X23: document_open_file on a file that is not open yet.  It returns
    and leaves the disk alone.  It gives a document exactly when
    load_text_file can load the file; otherwise the registry and the tabs
    are as they were.  The document it gives is valid and knows its slot;
    it has the name in UTF-8, the real path that the name resolves to, a
    buffer, an encoding (the forced one if there is one), the modification
    time that the disk reports, and empty ledgers; it is read-only when
    that was asked for, it is not marked as changed, and its saved snapshot
    is its encoding and BOM.  The log ends with the entry for the recent
    files (unless session files are being opened), the signal for plugins
    (if there are any) and the line that the file was opened. *)
Theorem document_open_file_opens (app : App Sci Nb Host) (locale_filename : string)
  (read_only : bool) (ft : option GeanyFiletype) (forced_enc : option string) :
  let utf8_filename := utils_get_utf8_from_locale locale_filename in
  let forced :=
    match GeanyFilePrefs.default_open_encoding (file_prefs app), forced_enc with
    | Some e, None => Some (encodings_charset e)
    | _, _ => forced_enc
    end in
  document_find_by_filename (documents_array app) (host app) (Some utf8_filename) = None ->
  exists r app',
    document_open_file app (Some locale_filename) read_only ft forced_enc = Some (r, app')
    /\ host app' = host app
    /\ (r = None <->
        fst (load_text_file (host app) (main_status app) (ui app) locale_filename
               utf8_filename forced) = None)
    /\ (r = None ->
        documents_array app' = documents_array app /\ notebook app' = notebook app)
    /\ (forall idx, r = Some idx ->
        exists d st_size before,
          documents_array app' !! idx = Some d
          /\ is_valid d = true /\ index d = idx /\ file_name d = Some utf8_filename
          /\ real_path d = get_real_path_from_utf8 (host app) utf8_filename
          /\ is_Some (sci d) /\ is_Some (encoding d)
          /\ (forall f, forced_enc = Some f -> encoding d = Some f)
          /\ g_stat (host app) locale_filename = Some (mtime d, st_size)
          /\ (read_only = true -> readonly d = true)
          /\ changed d = false
          /\ saved_encoding d = {| fe_encoding := encoding d; fe_has_bom := has_bom d |}
          /\ undo_actions d = [] /\ redo_actions d = []
          /\ (forall t, ft = Some t -> file_type d = Some t)
          /\ ui_log (ui app')
             = before
               ++ (if GeanyStatus.opening_session_files (main_status app) then []
                   else [UiRecentFile (Some utf8_filename)])
               ++ (if geany_object app then [UiSignal "document-open" idx] else [])
               ++ [UiMsgwin (MsgFileOpened utf8_filename read_only)]).
Proof.
  intros utf8_filename forced Hfind.
  unfold document_open_file, document_open_file_full. fold utf8_filename. rewrite Hfind.
  pose proof (document_open_file_load_created app locale_filename utf8_filename 0 read_only
                ft forced_enc) as Hload.
  cbv zeta in Hload. fold forced in Hload.
  pose proof (load_text_file_cases (host app) (main_status app) (ui app) locale_filename
                utf8_filename forced) as Hfile.
  cbv zeta in Hfile. destruct Hfile as (_ & Hloaded & _).
  destruct (load_text_file (host app) (main_status app) (ui app) locale_filename
              utf8_filename forced) as [[fd |] u1]; simpl in Hload, Hloaded |- *.
  - destruct Hload as (idx & app' & d & shown & Hrun & Hidx & Hd & Hv & Hi & Hf & Hrp & Hs
                       & He & Hb & Hm & Hro & Hc & Hse & Hu & Hr & Hft & _ & Hlog & _).
    destruct (Hloaded fd eq_refl) as (Henc & Hforced & (st_size & contents & Hstat & _)).
    exists (Some idx), app'. split; [exact Hrun |].
    split.
    { pose proof (document_open_file_load_fresh app None
                    (Some (locale_filename, utf8_filename)) 0 read_only ft forced_enc)
        as (r0 & app0 & Hrun0 & Hhost0 & _).
      rewrite Hrun in Hrun0. inversion Hrun0; subst. exact Hhost0. }
    split; [split; discriminate |]. split; [discriminate |].
    intros idx' Hidx'. inversion Hidx'; subst idx'. clear Hidx'.
    exists d, st_size. eexists.
    split; [exact Hd |]. repeat (split; [assumption |]).
    split; [rewrite He; exact Henc |].
    split.
    { intros f Hf'. rewrite He. apply Hforced. subst forced. rewrite Hf'.
      destruct (GeanyFilePrefs.default_open_encoding (file_prefs app)); reflexivity. }
    split; [rewrite Hm; exact Hstat |].
    split; [intros ->; rewrite Hro; reflexivity |].
    split; [exact Hc |]. split; [rewrite Hse, He, Hb; reflexivity |].
    split; [exact Hu |]. split; [exact Hr |]. split; [exact Hft |].
    rewrite Hlog, app_assoc. reflexivity.
  - rewrite Hload. do 2 eexists. split; [reflexivity |]. simpl.
    split; [reflexivity |]. split; [split; reflexivity |].
    split; [auto | discriminate].
Qed.

End OpenNewProperties.

Lemma document_open_file_opens_witness :
  let app := Samples.session in
  document_find_by_filename (documents_array app) (host app)
    (Some (utils_get_utf8_from_locale "/tmp/b.txt")) = None
  /\ exists r app',
       document_open_file app (Some "/tmp/b.txt"%string) true None None = Some (r, app')
       /\ host app' = host app
       /\ forall idx, r = Some idx ->
            exists d, documents_array app' !! idx = Some d
              /\ is_valid d = true
              /\ file_name d = Some (utils_get_utf8_from_locale "/tmp/b.txt")
              /\ readonly d = true /\ changed d = false.
Proof.
  intros app.
  assert (Hfind : document_find_by_filename (documents_array app) (host app)
                    (Some (utils_get_utf8_from_locale "/tmp/b.txt")) = None)
    by reflexivity.
  split; [exact Hfind |].
  destruct (document_open_file_opens app "/tmp/b.txt" true None None Hfind)
    as (r & app' & Hrun & Hhost & _ & _ & Hopened).
  exists r, app'. split; [exact Hrun |]. split; [exact Hhost |].
  intros idx Hr.
  destruct (Hopened idx Hr)
    as (d & st_size & before & Hd & Hv & _ & Hf & _ & _ & _ & _ & _ & Hro & Hc & _).
  exists d. repeat (split; [assumption |]). split; [exact (Hro eq_refl) | exact Hc].
Defined.

(** ** Copying the only document *)

Section CloneLoneProperties.
Context {Sci : Type} `{ScintillaOps Sci} `{EditorOps Sci} `{ScintillaEditOps Sci}.
Context {Nb : Type} `{NotebookOps Nb}.
Context {Host : Type} `{HostOps Host}.
Context `{EncodingOps} `{UriOps}.

(** document_create closes the unchanged untitled document of the only tab
    and fills its slot or a lower one. *)
Lemma document_create_closes_lone (app : App Sci Nb Host) (utf8_filename : option string)
  (old_doc : nat) (old : GeanyDocument Sci) :
  gtk_notebook_get_n_pages (notebook app) = 1 ->
  document_get_current (documents_array app) (notebook app) = Some old_doc ->
  document_get_from_page (documents_array app) (notebook app) 0 = Some old_doc ->
  documents_array app !! old_doc = Some old ->
  file_name old = None -> changed old = false ->
  exists (d0 this : GeanyDocument Sci),
    (fst (document_create app utf8_filename) <= old_doc)%nat
    /\ documents_array (snd (document_create app utf8_filename))
       = <[fst (document_create app utf8_filename) := this]>
           (<[old_doc := d0]> (documents_array app))
    /\ is_valid d0 = false /\ sci d0 = None /\ encoding d0 = None /\ has_bom d0 = false.
Proof.
  intros Hpages Hcur Hpage Hold Hname Hc.
  assert (Hclosed : fst (document_remove_page app 0) = true).
  { unfold document_remove_page. rewrite Hpage, Hold, Hc. reflexivity. }
  destruct (document_remove_page_result app 0) as (_ & _ & Htrue).
  destruct (Htrue Hclosed)
    as (idx & doc & d0 & Hpage' & Hdoc & _ & Hdocs & _ & Hv0 & Hs0 & _ & _ & He0 & Hb0 & _).
  assert (idx = old_doc) by congruence. subst idx.
  unfold document_create. rewrite Hpages, Hcur, Hold, Hname, Hc. simpl.
  remember (snd (document_remove_page app 0)) as app1 eqn:Eapp1.
  pose proof (get_new_idx_from_first (documents_array app1) 0) as Hfirst.
  unfold document_get_new_idx.
  assert (Hat : documents_array app1 !! old_doc = Some d0).
  { rewrite Hdocs. apply list_lookup_insert_eq. eapply lookup_lt_Some; exact Hold. }
  destruct (get_new_idx_from 0 (documents_array app1)) as [j |]; simpl.
  - destruct Hfirst as (_ & _ & Hmin). rewrite Nat.sub_0_r in Hmin.
    exists d0. eexists. split.
    + destruct (decide (j <= old_doc)%nat) as [Hle | Hgt]; [exact Hle |].
      destruct (Hmin old_doc d0 ltac:(lia) Hat) as [x Hx]. congruence.
    + rewrite Hdocs. split; [reflexivity | auto].
  - destruct (Hfirst old_doc d0 Hat) as [x Hx]. congruence.
Qed.

(** X24: document_clone of the unchanged untitled document of the only tab
    closes the original before it copies.  The copy takes the slot of the
    original or a lower one and the original is not in the registry any
    more; the copy has the given name and the file type of the original
    when it has one, but not its encoding or BOM: it has the default
    encoding for new files and no BOM, whatever the original had. *)
Theorem document_clone_closes_lone_untitled (app : App Sci Nb Host) (old_doc : nat)
  (utf8_filename : option string) (old : GeanyDocument Sci) (s : Sci) :
  gtk_notebook_get_n_pages (notebook app) = 1 ->
  document_get_current (documents_array app) (notebook app) = Some old_doc ->
  document_get_from_page (documents_array app) (notebook app) 0 = Some old_doc ->
  documents_array app !! old_doc = Some old -> sci old = Some s ->
  file_name old = None -> changed old = false ->
  exists (idx : nat) (app' : App Sci Nb Host) (doc : GeanyDocument Sci),
    document_clone app old_doc utf8_filename = Some (idx, app')
    /\ (idx <= old_doc)%nat
    /\ length (documents_array app') = length (documents_array app)
    /\ documents_array app' !! idx = Some doc
    /\ is_valid doc = true /\ file_name doc = utf8_filename /\ is_Some (sci doc)
    /\ (forall t, file_type old = Some t -> file_type doc = Some t)
    /\ encoding doc
       = Some (encodings_charset (GeanyFilePrefs.default_new_encoding (file_prefs app)))
    /\ has_bom doc = false
    /\ (idx <> old_doc ->
        exists d, documents_array app' !! old_doc = Some d
                  /\ is_valid d = false /\ sci d = None).
Proof.
  intros Hpages Hcur Hpage Hold Hs Hname Hc.
  unfold document_clone. rewrite Hold. simpl. rewrite Hs. simpl.
  destruct (document_new_file_result app utf8_filename (file_type old)
              (Some (sci_get_text s (sci_get_length s + 1))))
    as (idx & app1 & doc & this & Hrun & Hidx & Hthis & Hdocs & Hdoc
        & _ & Hv & Hi & Hf & (s1 & Hs1) & Hrp & Hc1 & Hro & Hu & Hr & He & Hb
        & Hse & Hm & _ & _ & Hft & _).
  destruct (document_create_closes_lone app utf8_filename old_doc old Hpages Hcur Hpage
              Hold Hname Hc)
    as (d0 & this' & Hle & Hcreated & Hv0 & Hs0 & He0 & Hb0).
  rewrite <- Hidx in Hle, Hcreated.
  assert (Hold_lt : (old_doc < length (documents_array app))%nat)
    by (eapply lookup_lt_Some; exact Hold).
  assert (Hlen1 : length (documents_array app1) = length (documents_array app)).
  { rewrite Hdocs, Hcreated, !length_insert. reflexivity. }
  assert (Hold1 : exists old1,
            documents_array app1 !! old_doc = Some old1
            /\ has_bom old1 = false
            /\ (encoding old1 = None
                \/ encoding old1
                   = Some (encodings_charset
                             (GeanyFilePrefs.default_new_encoding (file_prefs app))))
            /\ (idx <> old_doc -> old1 = d0)).
  { destruct (decide (idx = old_doc)) as [Heq | Hne].
    - exists doc. rewrite <- Heq. split; [exact Hdoc |]. split; [exact Hb |].
      split; [right; exact He | intros Hcontra; contradiction].
    - exists d0. split.
      + rewrite Hdocs, Hcreated, list_lookup_insert_ne by exact Hne.
        rewrite list_lookup_insert_ne by exact Hne.
        apply list_lookup_insert_eq. exact Hold_lt.
      + split; [exact Hb0 |]. split; [left; exact He0 | reflexivity]. }
  destruct Hold1 as (old1 & Hat1 & Hb1 & He1 & Hsame1).
  rewrite Hrun. simpl. rewrite Hat1. simpl. rewrite Hdoc. simpl.
  match goal with |- context [document_set_encoding ?D ?E] =>
    destruct (document_set_encoding_frame D E)
      as (G1 & G2 & G3 & G4 & G5 & G6 & G7 & G8 & G9 & G10 & G11 & G12 & G13 & G14);
    set (B := document_set_encoding D E) in *; clearbody B
  end.
  simpl in *. rewrite G4, Hs1. simpl.
  assert (Hlt : (idx < length (documents_array app1))%nat)
    by (eapply lookup_lt_Some; exact Hdoc).
  do 3 eexists. split; [reflexivity |]. simpl.
  split; [exact Hle |]. split; [rewrite length_insert; exact Hlen1 |].
  split; [apply list_lookup_insert_eq; exact Hlt |].
  simpl.
  split; [congruence |]. split; [congruence |]. split; [eexists; reflexivity |].
  split; [intros t Ht; rewrite G8; exact (Hft t Ht) |].
  split.
  { destruct He1 as [Hnone | Hsome]; [rewrite (G14 Hnone); exact He | exact (G13 _ Hsome)]. }
  split; [congruence |].
  intros Hne. exists d0. rewrite list_lookup_insert_ne by exact Hne.
  rewrite (Hsame1 Hne) in Hat1. auto.
Qed.

End CloneLoneProperties.

Lemma document_clone_closes_lone_untitled_witness :
  let s := Samples.buffer "abc" 0 0 in
  let old := with_has_bom true
               (with_real_path None (with_file_name None (Samples.doc_on s))) in
  let app := with_documents_array [old] Samples.session in
  (gtk_notebook_get_n_pages (notebook app) = 1
   /\ document_get_current (documents_array app) (notebook app) = Some 0%nat
   /\ document_get_from_page (documents_array app) (notebook app) 0 = Some 0%nat
   /\ documents_array app !! 0%nat = Some old /\ sci old = Some s
   /\ file_name old = None /\ changed old = false)
  /\ exists (idx : nat) (app' : App TextSci.t ListNotebook.t SimpleHost.t)
       (doc : GeanyDocument TextSci.t),
       document_clone app 0 (Some "/tmp/c.txt"%string) = Some (idx, app')
       /\ (idx <= 0)%nat
       /\ documents_array app' !! idx = Some doc
       /\ is_valid doc = true
       /\ encoding doc
          = Some (encodings_charset (GeanyFilePrefs.default_new_encoding (file_prefs app)))
       /\ has_bom doc = false.
Proof.
  intros s old app.
  assert (Hin : gtk_notebook_get_n_pages (notebook app) = 1
                /\ document_get_current (documents_array app) (notebook app) = Some 0%nat
                /\ document_get_from_page (documents_array app) (notebook app) 0 = Some 0%nat
                /\ documents_array app !! 0%nat = Some old /\ sci old = Some s
                /\ file_name old = None /\ changed old = false)
    by (repeat split).
  split; [exact Hin |].
  destruct Hin as (Hpages & Hcur & Hpage & Hold & Hs & Hname & Hc).
  destruct (document_clone_closes_lone_untitled app 0 (Some "/tmp/c.txt"%string) old s
              Hpages Hcur Hpage Hold Hs Hname Hc)
    as (idx & app' & doc & Hrun & Hle & _ & Hdoc & Hv & _ & _ & _ & He & Hb & _).
  exists idx, app', doc. repeat split; assumption.
Defined.

(** ** What a disk check asks *)

Section DiskCheckQuestions.
Context {Sci : Type} `{ScintillaOps Sci} `{EditorOps Sci}.
Context {Nb : Type} `{NotebookOps Nb}.
Context {Host : Type} `{HostOps Host}.
Context `{EncodingOps}.

(** Reloading asks nothing and leaves a document in the slot. *)
Lemma document_reload_file_quiet (app : App Sci Nb Host) (idx : nat)
  (forced_enc : option string) (d : GeanyDocument Sci) (s : Sci) :
  documents_array app !! idx = Some d -> sci d = Some s ->
  exists r app',
    document_reload_file app idx forced_enc = Some (r, app')
    /\ host app' = host app
    /\ ui_asked (ui app') = ui_asked (ui app)
    /\ is_Some (documents_array app' !! idx).
Proof.
  intros Hd Hs. unfold document_reload_file, document_open_file_reload.
  rewrite Hd. simpl. rewrite Hs. simpl.
  destruct (document_open_file_load_reloaded app idx
              (option_map (fun f => (utils_get_locale_from_utf8 f, f)) (file_name d))
              (sci_get_current_position s) (readonly d) (file_type d) forced_enc d s Hd Hs)
    as (r & app' & Hload & Hhost & Hasked & Hres).
  rewrite Hload. simpl.
  do 2 eexists. split; [reflexivity |]. split; [exact Hhost |]. split; [exact Hasked |].
  destruct Hres as [(_ & Hdocs & _) | (d' & _ & Hdocs & _)]; rewrite Hdocs.
  - exists d. exact Hd.
  - exists d'. apply list_lookup_insert_eq. eapply lookup_lt_Some; exact Hd.
Qed.

(** X25: a disk check asks at most one question, and none when it is not
    due.  On a document with a buffer document_check_disk_status returns
    and does not write to the disk itself (the dialog to save under a name
    that it may open is only recorded).  When the checks are switched off, when the
    document has no real path, or when the last check is more recent than
    the timeout and the check is not forced, it gives FALSE and changes
    nothing at all.  It gives TRUE only after having asked whether to
    reload.  When the check is due and the file is not found it gives
    FALSE, having marked the document as changed and asked once whether to
    save it again. *)
Theorem document_check_disk_status_asks_once (app : App Sci Nb Host) (idx : nat)
  (force : bool) (d : GeanyDocument Sci) (s : Sci) :
  documents_array app !! idx = Some d -> sci d = Some s ->
  let timeout := GeanyFilePrefs.disk_check_timeout (file_prefs app) in
  let due := timeout <> 0 /\ is_Some (real_path d)
             /\ (force = true \/ last_check d <= host_time (host app) - timeout) in
  exists r app',
    document_check_disk_status app idx force = Some (r, app')
    /\ host app' = host app
    /\ (ui_asked (ui app) <= ui_asked (ui app') <= S (ui_asked (ui app)))%nat
    /\ (~ due -> r = false /\ app' = app)
    /\ (r = true -> ui_asked (ui app') = S (ui_asked (ui app)))
    /\ (due ->
        (forall f, file_name d = Some f ->
           g_stat (host app) (utils_get_locale_from_utf8 f) = None) ->
        r = false
        /\ ui_asked (ui app') = S (ui_asked (ui app))
        /\ exists before shown,
             ui_log (ui app') = ui_log (ui app) ++ before :: shown
             /\ before = UiQuestion (MsgResaveQuestion (file_name d))
             /\ (shown = [] \/ shown = [UiSaveAsDialog])
             /\ documents_array app'
                = <[idx := with_changed true (with_last_check (host_time (host app)) d)]>
                    (documents_array app)).
Proof.
  intros Hd Hs timeout due. subst timeout due.
  unfold document_check_disk_status. rewrite Hd. simpl.
  destruct (Z.eqb_spec (GeanyFilePrefs.disk_check_timeout (file_prefs app)) 0) as [Hz | Hnz].
  { do 2 eexists. split; [reflexivity |]. split; [reflexivity |]. split; [lia |].
    split; [auto |]. split; [discriminate |]. intros (Hcontra & _). contradiction. }
  destruct (real_path d) as [rp |] eqn:Erp.
  2:{ do 2 eexists. split; [reflexivity |]. split; [reflexivity |]. split; [lia |].
      split; [auto |]. split; [discriminate |].
      intros (_ & [x Hx] & _). discriminate. }
  destruct (negb force && (host_time (host app)
                            - GeanyFilePrefs.disk_check_timeout (file_prefs app)
                            <? last_check d)) eqn:Eskip.
  { apply andb_true_iff in Eskip. destruct Eskip as [Hforce Hrecent].
    apply negb_true_iff in Hforce. apply Z.ltb_lt in Hrecent.
    do 2 eexists. split; [reflexivity |]. split; [reflexivity |]. split; [lia |].
    split; [auto |]. split; [discriminate |].
    intros (_ & _ & [Hcontra | Hcontra]); [congruence | lia]. }
  assert (Hdue : GeanyFilePrefs.disk_check_timeout (file_prefs app) <> 0
                 /\ is_Some (Some rp)
                 /\ (force = true
                     \/ last_check d
                        <= host_time (host app)
                           - GeanyFilePrefs.disk_check_timeout (file_prefs app))).
  { split; [exact Hnz |]. split; [eexists; reflexivity |].
    apply andb_false_iff in Eskip. destruct Eskip as [Hforce | Hold].
    - left. apply negb_false_iff in Hforce. exact Hforce.
    - right. apply Z.ltb_ge in Hold. exact Hold. }
  assert (Hfound : forall st : Z * Z,
            match file_name d with
            | Some f => g_stat (host app) (utils_get_locale_from_utf8 f)
            | None => None
            end = Some st ->
            (forall f, file_name d = Some f ->
               g_stat (host app) (utils_get_locale_from_utf8 f) = None) -> False).
  { intros st Estat Hmissing. destruct (file_name d) as [f |]; [| discriminate].
    rewrite (Hmissing f eq_refl) in Estat. discriminate. }
  destruct (match file_name d with Some f => _ | None => None end)
    as [[st_mtime st_size] |] eqn:Estat.
  - specialize (Hfound _ eq_refl).
    destruct ((host_time (host app) <? mtime d) || (host_time (host app) <? st_mtime)).
    { do 2 eexists. split; [reflexivity |]. split; [reflexivity |]. split; [simpl; lia |].
      split; [intros Hn; destruct (Hn Hdue) |]. split; [discriminate |].
      intros _ Hmissing. destruct (Hfound Hmissing). }
    destruct (mtime d <? st_mtime).
    2:{ do 2 eexists. split; [reflexivity |]. split; [reflexivity |]. split; [simpl; lia |].
        split; [intros Hn; destruct (Hn Hdue) |]. split; [discriminate |].
        intros _ Hmissing. destruct (Hfound Hmissing). }
    unfold check_reload. simpl.
    set (d0 := with_last_check (host_time (host app)) d).
    assert (Hd0 : <[idx := d0]> (documents_array app) !! idx = Some d0).
    { apply list_lookup_insert_eq. eapply lookup_lt_Some; exact Hd. }
    rewrite Hd0. simpl.
    destruct (ui_answers (ui app) (ui_asked (ui app))).
    + match goal with |- context [document_reload_file ?A idx None] =>
        destruct (document_reload_file_quiet A idx None d0 s Hd0 Hs)
          as (r & appR & Hrun & HhostR & HaskedR & (docR & HdocR))
      end.
      rewrite Hrun. simpl. rewrite HdocR. simpl.
      do 2 eexists. split; [reflexivity |]. simpl. simpl in HhostR, HaskedR.
      split; [exact HhostR |]. split; [lia |].
      split; [intros Hn; destruct (Hn Hdue) |]. split; [intros _; exact HaskedR |].
      intros _ Hmissing. destruct (Hfound Hmissing).
    + simpl. rewrite Hd0. simpl.
      do 2 eexists. split; [reflexivity |]. simpl.
      split; [reflexivity |]. split; [lia |].
      split; [intros Hn; destruct (Hn Hdue) |]. split; [reflexivity |].
      intros _ Hmissing. destruct (Hfound Hmissing).
  - clear Hfound. unfold dialogs_show_question_full. simpl.
    do 2 eexists. split; [reflexivity |]. simpl.
    assert (Hasked : forall b : bool,
              ui_asked (if b
                        then ui_emit UiSaveAsDialog
                               {| ui_log := ui_log (ui app)
                                            ++ [UiQuestion (MsgResaveQuestion (file_name d))];
                                  ui_answers := ui_answers (ui app);
                                  ui_asked := S (ui_asked (ui app)) |}
                        else {| ui_log := ui_log (ui app)
                                          ++ [UiQuestion (MsgResaveQuestion (file_name d))];
                                ui_answers := ui_answers (ui app);
                                ui_asked := S (ui_asked (ui app)) |})
              = S (ui_asked (ui app)))
      by (intros []; reflexivity).
    split; [reflexivity |]. split; [rewrite Hasked; lia |].
    split; [intros Hn; destruct (Hn Hdue) |]. split; [discriminate |].
    intros _ _. split; [reflexivity |]. split; [apply Hasked |].
    destruct (ui_answers (ui app) (ui_asked (ui app))); simpl.
    + exists (UiQuestion (MsgResaveQuestion (file_name d))), [UiSaveAsDialog].
      rewrite <- app_assoc. repeat split. auto.
    + exists (UiQuestion (MsgResaveQuestion (file_name d))), [].
      repeat split. auto.
Qed.

End DiskCheckQuestions.

Lemma document_check_disk_status_asks_once_witness :
  let s := Samples.buffer "abc" 0 0 in
  let d := Samples.doc_on s in
  let app := Samples.session in
  (documents_array app !! 0%nat = Some d /\ sci d = Some s)
  /\ exists r app',
       document_check_disk_status app 0 true = Some (r, app')
       /\ host app' = host app
       /\ (ui_asked (ui app) <= ui_asked (ui app') <= S (ui_asked (ui app)))%nat
       /\ (r = true -> ui_asked (ui app') = S (ui_asked (ui app))).
Proof.
  intros s d app.
  assert (Hin : documents_array app !! 0%nat = Some d /\ sci d = Some s)
    by (split; reflexivity).
  split; [exact Hin |].
  destruct (document_check_disk_status_asks_once app 0 true d s (proj1 Hin) (proj2 Hin))
    as (r & app' & Hrun & Hhost & Hasked & _ & Htrue & _).
  exists r, app'. repeat split; try assumption; lia.
Defined.

(** ** Saving and reloading *)

Lemma c_str_idem (t : string) : c_str (c_str t) = c_str t.
Proof.
  induction t as [| c t IH]; simpl; [reflexivity |].
  destruct (Ascii.eqb c NUL) eqn:Ec; simpl; [reflexivity |].
  rewrite Ec, IH. reflexivity.
Qed.

Lemma c_str_prefix (t : string) : String.substring 0 (String.length (c_str t)) t = c_str t.
Proof.
  induction t as [| c t IH]; simpl; [reflexivity |].
  destruct (Ascii.eqb c NUL); simpl; [reflexivity |].
  rewrite IH. reflexivity.
Qed.

Lemma c_str_length_le (t : string) : (String.length (c_str t) <= String.length t)%nat.
Proof.
  induction t as [| c t IH]; simpl; [lia |].
  destruct (Ascii.eqb c NUL); simpl; lia.
Qed.

Section SaveReload.
Context {Sci : Type} `{ScintillaOps Sci} `{EditorOps Sci}.
Context `{!ScintillaLaws Sci} `{!ScintillaTextLaws Sci}.
Context {Nb : Type} `{NotebookOps Nb}.
Context {Host : Type} `{HostOps Host} `{!HostLaws Host}.
Context `{EncodingOps}.

(** Loading a file of plain UTF-8 text without a mark gives its bytes. *)
Lemma load_text_file_plain (host : Host) (status : GeanyStatus.t) (u : Ui)
  (locale_filename utf8_filename contents : string) (st_mtime : Z) :
  g_stat host locale_filename = Some (st_mtime, strlen contents) ->
  g_file_get_contents host locale_filename = Some contents ->
  fst (encodings_scan_unicode_bom contents (strlen contents)) = GEANY_ENCODING_NONE ->
  g_utf8_validate contents (strlen contents) = true ->
  load_text_file host status u locale_filename utf8_filename None
  = (Some {| FileData.data := contents; FileData.size := strlen contents;
             FileData.len := strlen contents; FileData.enc := Some UTF_8;
             FileData.bom := false; FileData.mtime := st_mtime;
             FileData.readonly := false |}, u).
Proof.
  intros Hstat Hread Hscan Hvalid. unfold load_text_file. rewrite Hstat, Hread.
  cbv zeta. simpl FileData.len. simpl FileData.size. rewrite Z.eqb_refl. simpl.
  unfold handle_encoding. simpl.
  destruct (strlen contents =? 0); [reflexivity |].
  unfold handle_encoding_bom. simpl. rewrite Hscan. simpl. rewrite Hvalid. reflexivity.
Qed.

(** Placing the caret leaves the text alone. *)
Lemma set_cursor_position_text (d : GeanyDocument Sci) (pos : Z)
  (cl : CommandLineOptions.t) (s : Sci) :
  sci d = Some s ->
  exists s' percent cl',
    set_cursor_position d pos cl
    = Some (with_scroll_percent percent (with_sci (Some s') d), cl')
    /\ same_text s s'.
Proof.
  intros Hs. unfold set_cursor_position. rewrite Hs. simpl.
  destruct (0 <=? CommandLineOptions.goto_line cl); simpl.
  - destruct (0 <=? CommandLineOptions.goto_column cl); do 3 eexists;
      (split; [reflexivity |]).
    + eapply same_text_trans;
        [apply sci_goto_line_text | apply sci_set_current_position_text].
    + apply sci_goto_line_text.
  - destruct (0 <? pos); simpl;
      destruct (0 <=? CommandLineOptions.goto_column cl); do 3 eexists;
      (split; [reflexivity |]).
    + eapply same_text_trans; apply sci_set_current_position_text.
    + apply sci_set_current_position_text.
    + apply sci_set_current_position_text.
    + apply same_text_refl.
Qed.

(** The text of a reloaded document is the text that was loaded. *)
Lemma document_open_file_load_text (app : App Sci Nb Host) (idx : nat)
  (locale_filename utf8_filename : string) (pos : Z) (read_only : bool)
  (ft : option GeanyFiletype) (d : GeanyDocument Sci) (s : Sci)
  (fd : FileData.t) (u1 : Ui) :
  documents_array app !! idx = Some d -> sci d = Some s ->
  GeanyFilePrefs.default_open_encoding (file_prefs app) = None ->
  load_text_file (host app) (main_status app) (ui app) locale_filename utf8_filename None
  = (Some fd, u1) ->
  exists app' d',
    document_open_file_load app true (Some idx) (Some (locale_filename, utf8_filename)) pos
      read_only ft None = Some (Some idx, app')
    /\ documents_array app' !! idx = Some d'
    /\ doc_text d' = Some (c_str (FileData.data fd))
    /\ encoding d' = FileData.enc fd /\ has_bom d' = FileData.bom fd
    /\ changed d' = false.
Proof.
  intros Hd Hs Hdefault Hload. unfold document_open_file_load.
  rewrite Hdefault, Hload. simpl. rewrite Hd. simpl. rewrite Hs. simpl.
  match goal with |- context [set_cursor_position (with_sci (Some ?S6) ?D) ?P ?C] =>
    assert (Htext : sci_text S6 = c_str (FileData.data fd));
    [| destruct (set_cursor_position_text (with_sci (Some S6) D) P C S6 eq_refl)
         as (s' & percent & cl' & Hcur & Hsame);
       assert (HBe : encoding (with_sci (Some S6) D) = FileData.enc fd) by reflexivity;
       assert (HBb : has_bom (with_sci (Some S6) D) = FileData.bom fd) by reflexivity;
       set (B := with_sci (Some S6) D) in *; clearbody B;
       set (s6 := S6) in *; clearbody s6 ]
  end.
  { destruct (sci_set_text_text
                (sci_set_readonly (sci_empty_undo_buffer (sci_set_undo_collection s false))
                   false)
                (c_str (FileData.data fd)) (c_str_idem _)) as [Hset _].
    rewrite <- Hset.
    match goal with |- sci_text (sci_set_readonly (sci_set_undo_collection
                                   (sci_set_eol_mode ?S3 ?M) true) ?R) = _ =>
      pose proof (sci_set_eol_mode_text S3 M) as [_ T1];
      pose proof (sci_set_undo_collection_text (sci_set_eol_mode S3 M) true) as [_ T2];
      pose proof (sci_set_readonly_text
                    (sci_set_undo_collection (sci_set_eol_mode S3 M) true) R) as [_ T3]
    end.
    congruence. }
  rewrite Hcur. simpl.
  do 2 eexists. split; [reflexivity |]. simpl.
  split; [apply list_lookup_insert_eq; eapply lookup_lt_Some; exact Hd |].
  unfold doc_text, document_undo_clear, document_set_text_changed, editor_set_use_tabs.
  destruct Hsame as [_ Hsame].
  destruct (GeanyStatus.quitting (main_status app)); destruct ft; simpl;
    rewrite Hsame, Htext; repeat split; assumption.
Qed.

(** X26: what is saved is what a reload shows, as long as no default
    encoding for opening files is set (one that is set is forced on the
    reload).  For a document in UTF-8 without BOM, on a disk that gives back
    what was written and a widget that keeps the text it was given, when
    document_save_file, forced or not, has returned TRUE, the file holds the
    text that the buffer had when it was saved, up to its first NUL byte,
    and a reload of the document from the written disk, without a forced
    encoding, gives TRUE with that text in the buffer (provided that this
    text validates as UTF-8 and does not begin with a mark), with UTF-8 as
    the encoding, no BOM and the changed flag off. *)
Theorem document_save_then_reload (app : App Sci Nb Host) (idx : nat)
  (d : GeanyDocument Sci) (s : Sci) (f : string) (force : bool)
  (d1 : GeanyDocument Sci) (h1 : Host) (u1 : Ui) :
  documents_array app !! idx = Some d -> sci d = Some s -> file_name d = Some f ->
  encoding d = Some UTF_8 -> has_bom d = false ->
  GeanyFilePrefs.default_open_encoding (file_prefs app) = None ->
  let text := c_str (sci_text (pre_save_buffer (file_prefs app) d s)) in
  fst (encodings_scan_unicode_bom text (strlen text)) = GEANY_ENCODING_NONE ->
  g_utf8_validate text (strlen text) = true ->
  document_save_file (file_prefs app) (main_status app) (geany_object app) (host app)
    (ui app) d force = Some (true, d1, h1, u1) ->
  exists app2 d2,
    document_reload_file (with_host h1 (with_ui u1 (store_doc idx d1 app))) idx None
    = Some (true, app2)
    /\ g_file_get_contents h1 (utils_get_locale_from_utf8 f) = Some text
    /\ documents_array app2 !! idx = Some d2
    /\ doc_text d2 = Some text
    /\ encoding d2 = Some UTF_8 /\ has_bom d2 = false /\ changed d2 = false.
Proof.
  intros Hd Hs Hname He Hb Hdefault text Hscan Hvalid Hsave.
  destruct (document_save_file_cases _ _ _ _ _ _ _ _ _ _ _ Hsave)
    as [(Hr & _) | (fname & s0 & _ & Hname' & Hs' & [(Hr & _) | Hwrite])];
    try discriminate.
  assert (fname = f) by congruence. subst fname.
  assert (s0 = s) by congruence. subst s0.
  destruct Hwrite as (bytes & len & Henc & Hh1 & [(Hr & _) | (_ & Hok & Hfacts)]);
    [discriminate |].
  destruct Hfacts as (_ & _ & _ & _ & Hname1 & _ & _ & _ & _ & Hs1).
  set (raw := sci_text (pre_save_buffer (file_prefs app) d s)) in *.
  assert (Hbytes : bytes = raw /\ len = strlen raw).
  { unfold save_encoded, save_needs_conversion, save_buffer_data in Henc.
    rewrite He, Hb in Henc. simpl in Henc.
    change (String.eqb UTF_8 UTF_8) with true in Henc. simpl in Henc.
    inversion Henc. split; reflexivity. }
  destruct Hbytes as [-> ->].
  unfold write_data_to_disk in Hh1, Hok.
  assert (Hlen : 0 <= strlen raw <= Z.of_nat (String.length raw)).
  { unfold strlen. pose proof (c_str_length_le raw). lia. }
  destruct (host_write_read (host app) (utils_get_locale_from_utf8 f) raw (strlen raw)
              Hlen Hok) as (Hread & (st_mtime & Hstat)).
  rewrite <- Hh1 in Hread, Hstat.
  assert (Hcontents : String.substring 0 (Z.to_nat (strlen raw)) raw = text).
  { unfold strlen. rewrite Nat2Z.id. apply c_str_prefix. }
  rewrite Hcontents in Hread.
  assert (Hsize : strlen raw = strlen text).
  { unfold text, strlen. rewrite c_str_idem. reflexivity. }
  rewrite Hsize in Hstat.
  set (app1 := with_host h1 (with_ui u1 (store_doc idx d1 app))).
  assert (Hd1 : documents_array app1 !! idx = Some d1).
  { apply list_lookup_insert_eq. eapply lookup_lt_Some; exact Hd. }
  assert (Hdefault1 : GeanyFilePrefs.default_open_encoding (file_prefs app1) = None)
    by exact Hdefault.
  pose proof (load_text_file_plain (host app1) (main_status app1) (ui app1)
                (utils_get_locale_from_utf8 f) f text st_mtime Hstat Hread Hscan Hvalid)
    as Hload.
  clearbody app1.
  unfold document_reload_file, document_open_file_reload.
  rewrite Hd1. simpl. rewrite Hs1. simpl. rewrite Hname1, Hname. simpl.
  match goal with |- context [document_open_file_load app1 true (Some idx) _ ?P ?R ?T None] =>
    destruct (document_open_file_load_text app1 idx (utils_get_locale_from_utf8 f) f
                P R T d1 _ _ _ Hd1 Hs1 Hdefault1 Hload)
      as (app2 & d2 & Hrun & Hd2 & Htext & He2 & Hb2 & Hc2)
  end.
  rewrite Hrun. simpl.
  exists app2, d2. split; [reflexivity |]. split; [exact Hread |].
  split; [exact Hd2 |]. simpl in Htext, He2, Hb2.
  split; [rewrite Htext; unfold text; rewrite c_str_idem; reflexivity |].
  auto.
Qed.

End SaveReload.

Lemma string_substring_all (t : string) : String.substring 0 (String.length t) t = t.
Proof. induction t as [| c t IH]; simpl; [reflexivity | rewrite IH; reflexivity]. Qed.

#[export] Instance TextSci_text_laws : ScintillaTextLaws TextSci.t.
Proof.
  constructor.
  - intros s t Ht.
    assert (Hlen : TextSci.length (TextSci.set_text s t) = Z.of_nat (String.length t)).
    { unfold TextSci.length, TextSci.set_text. simpl. rewrite TextSci_edit_text.
      reflexivity. }
    split.
    + unfold sci_text. simpl. rewrite Hlen.
      replace (Z.to_nat (Z.of_nat (String.length t) + 1 - 1)) with (String.length t) by lia.
      unfold TextSci.set_text. simpl. rewrite TextSci_edit_text.
      apply string_substring_all.
    + simpl. rewrite Hlen. unfold strlen. rewrite Ht. reflexivity.
  - intros s b. split; reflexivity.
  - intros s. split; reflexivity.
  - intros s b. split; reflexivity.
  - intros s m. split; reflexivity.
  - intros s. split; reflexivity.
  - intros s line b. split; reflexivity.
Qed.

#[export] Instance SimpleHost_laws : HostLaws SimpleHost.t.
Proof.
  constructor. intros h p data len Hlen. simpl.
  unfold SimpleHost.write.
  destruct (existsb (String.eqb (SimpleHost.resolve h p)) (SimpleHost.locked h));
    simpl; [discriminate |].
  intros _.
  unfold SimpleHost.read, SimpleHost.stat, SimpleHost.lookup, SimpleHost.resolve. simpl.
  fold (SimpleHost.resolve h p). rewrite String.eqb_refl. simpl.
  split; [reflexivity |].
  exists (SimpleHost.clock h). rewrite string_length_substring by lia.
  f_equal. f_equal. lia.
Qed.

Lemma document_save_then_reload_witness :
  let s := Samples.buffer "abc" 3 3 in
  let d := with_changed true (Samples.doc_on s) in
  let app := store_doc 0 d Samples.session in
  let text := c_str (sci_text (pre_save_buffer (file_prefs app) d s)) in
  (documents_array app !! 0%nat = Some d /\ sci d = Some s
   /\ file_name d = Some "/tmp/a.txt"%string
   /\ encoding d = Some UTF_8 /\ has_bom d = false
   /\ GeanyFilePrefs.default_open_encoding (file_prefs app) = None
   /\ fst (encodings_scan_unicode_bom text (strlen text)) = GEANY_ENCODING_NONE
   /\ g_utf8_validate text (strlen text) = true)
  /\ exists d1 h1 u1 app2 d2,
       document_save_file (file_prefs app) (main_status app) (geany_object app) (host app)
         (ui app) d false = Some (true, d1, h1, u1)
       /\ document_reload_file (with_host h1 (with_ui u1 (store_doc 0 d1 app))) 0 None
          = Some (true, app2)
       /\ g_file_get_contents h1 "/tmp/a.txt" = Some text
       /\ documents_array app2 !! 0%nat = Some d2
       /\ doc_text d2 = Some text
       /\ encoding d2 = Some UTF_8 /\ has_bom d2 = false /\ changed d2 = false.
Proof.
  intros s d app text.
  assert (Hin : documents_array app !! 0%nat = Some d /\ sci d = Some s
                /\ file_name d = Some "/tmp/a.txt"%string
                /\ encoding d = Some UTF_8 /\ has_bom d = false
                /\ GeanyFilePrefs.default_open_encoding (file_prefs app) = None
                /\ fst (encodings_scan_unicode_bom text (strlen text)) = GEANY_ENCODING_NONE
                /\ g_utf8_validate text (strlen text) = true)
    by (repeat split).
  split; [exact Hin |].
  destruct Hin as (Hd & Hs & Hname & He & Hb & Hdefault & Hscan & Hvalid).
  assert (Hsave : exists d1 h1 u1,
            document_save_file (file_prefs app) (main_status app) (geany_object app)
              (host app) (ui app) d false = Some (true, d1, h1, u1)).
  { do 3 eexists. vm_compute. reflexivity. }
  destruct Hsave as (d1 & h1 & u1 & Hsave).
  exists d1, h1, u1.
  destruct (document_save_then_reload app 0 d s "/tmp/a.txt" false d1 h1 u1 Hd Hs Hname He Hb
              Hdefault Hscan Hvalid Hsave) as (app2 & d2 & Hfacts).
  exists app2, d2. split; [exact Hsave | exact Hfacts].
Defined.
